(** * The coordinator of the distributed LXC orchestrator

    A shallow embedding of the control plane in [include/distributed_lxc.h],
    [src/network.c] and [src/coordinator.c]: the frame codec, the node
    registry, the container ledger, placement and the per-connection message
    handler, followed by the properties of the specification that were
    checked against them.

    Conventions of the embedding.
    - C [int] and [time_t] values are [Z].  Every counter of the program is
      bounded by a table size and timestamps are far from the 64-bit range,
      so no operation below wraps.
    - [double] is the kernel's binary64 [float]; each C floating-point
      operation is one IEEE-754 operation, in source order.
    - A [char] array that the program only reads and writes as a C string
      is a [string] (its bytes before the terminator).  Strings are assumed
      to fit their arrays; an overflowing [strcpy] is outside the model.
    - A table [T t[N]; int t_count] is the list of its first [t_count]
      slots; the slots behind them, which keep what was last written there,
      are carried separately where the program can read them again.
    - Raw memory that crosses the wire is [list byte], laid out as on
      x86-64 Linux (little-endian, LP64, no padding inside the frame).
    - [time(NULL)] and the return value of [send(2)] are inputs of the
      functions that call them ([now], [bytes_sent]).  A [send] that raises
      SIGPIPE ends the process, which installs no handler for it: the
      functions describe the calls that return.
    - A function below is the C function run without another thread in
      between.  How the threads of the coordinator interleave is the
      subject of [step]. *)

From Stdlib Require Import ZArith Floats String Ascii Lia.
From Stdlib.Strings Require Import Byte.
From stdpp Require Import base option list strings pretty gmap.

#[local] Open Scope Z_scope.
#[local] Set Warnings "-inexact-float".

(** ** include/distributed_lxc.h *)

Definition MAX_NODES : Z := 256.
Definition MAX_CONTAINERS : Z := 1024.
Definition MAX_NAME_LEN : nat := 256.
Definition MAX_PATH_LEN : nat := 1024.
Definition BUFFER_SIZE : Z := 8192.
Definition INET_ADDRSTRLEN : nat := 16.

Inductive message_type_t :=
  | MSG_REGISTER_NODE
  | MSG_NODE_HEARTBEAT
  | MSG_DEPLOY_CONTAINER
  | MSG_START_CONTAINER
  | MSG_STOP_CONTAINER
  | MSG_DELETE_CONTAINER
  | MSG_CONTAINER_STATUS
  | MSG_NODE_STATUS
  | MSG_ERROR
  | MSG_ACK.

(** The enumerators as the integers the compiler gives them. *)
Definition message_type_code (t : message_type_t) : Z :=
  match t with
  | MSG_REGISTER_NODE => 0
  | MSG_NODE_HEARTBEAT => 1
  | MSG_DEPLOY_CONTAINER => 2
  | MSG_START_CONTAINER => 3
  | MSG_STOP_CONTAINER => 4
  | MSG_DELETE_CONTAINER => 5
  | MSG_CONTAINER_STATUS => 6
  | MSG_NODE_STATUS => 7
  | MSG_ERROR => 8
  | MSG_ACK => 9
  end.

(** A [type] field read from a frame may hold any value of the enum's
    underlying integer type; [None] is the [default:] branch of a
    [switch]. *)
Definition message_type_of_code (z : Z) : option message_type_t :=
  match z with
  | 0 => Some MSG_REGISTER_NODE
  | 1 => Some MSG_NODE_HEARTBEAT
  | 2 => Some MSG_DEPLOY_CONTAINER
  | 3 => Some MSG_START_CONTAINER
  | 4 => Some MSG_STOP_CONTAINER
  | 5 => Some MSG_DELETE_CONTAINER
  | 6 => Some MSG_CONTAINER_STATUS
  | 7 => Some MSG_NODE_STATUS
  | 8 => Some MSG_ERROR
  | 9 => Some MSG_ACK
  | _ => None
  end.

(** [container_state_t] is kept as its underlying integer: the coordinator
    stores the state field of a received container record as it arrives,
    whatever its value. *)
Definition container_state_t : Type := Z.
Definition CONTAINER_STOPPED : container_state_t := 0.
Definition CONTAINER_STARTING : container_state_t := 1.
Definition CONTAINER_RUNNING : container_state_t := 2.
Definition CONTAINER_STOPPING : container_state_t := 3.
Definition CONTAINER_ERROR : container_state_t := 4.

Inductive node_state_t :=
  | NODE_DISCONNECTED
  | NODE_CONNECTING
  | NODE_CONNECTED
  | NODE_BUSY
  | NODE_ERROR.

Definition node_state_eqb (a b : node_state_t) : bool :=
  match a, b with
  | NODE_DISCONNECTED, NODE_DISCONNECTED
  | NODE_CONNECTING, NODE_CONNECTING
  | NODE_CONNECTED, NODE_CONNECTED
  | NODE_BUSY, NODE_BUSY
  | NODE_ERROR, NODE_ERROR => true
  | _, _ => false
  end.

Record resource_info_t := mk_resource_info {
  cpu_usage : float;
  memory_usage : float;
  disk_usage : float;
  container_count : Z;
  max_containers : Z
}.

(** [lxc_config_t] is carried as the bytes of the object: the coordinator
    copies it whole ([container->config = *config]), sends it whole
    ([sizeof(lxc_config_t)] bytes) and reads only [name], the C string in
    its first [MAX_NAME_LEN] bytes. *)
Record lxc_config_t := mk_lxc_config {
  config_object : list byte
}.

Record container_t := mk_container {
  c_id : string;
  c_name : string;
  c_node_id : string;
  c_state : container_state_t;
  c_config : lxc_config_t;
  c_created_at : Z;
  c_started_at : Z;
  c_log_file : string
}.

(** [containers]/[container_count] of a node are the list [n_containers]. *)
Record node_t := mk_node {
  n_id : string;
  n_hostname : string;
  n_ip_address : string;
  n_port : Z;
  n_state : node_state_t;
  n_resources : resource_info_t;
  n_last_heartbeat : Z;
  n_socket_fd : Z;
  n_containers : list container_t
}.

Definition n_container_count (node : node_t) : Z :=
  Z.of_nat (length (n_containers node)).

(** [sizeof] of the types that travel in a frame (x86-64, LP64). *)
Definition sizeof_message_type_t : Z := 4.
Definition sizeof_int : Z := 4.
Definition sizeof_resource_info_t : Z := 32.
Definition sizeof_lxc_config_t : Z := 1576.
Definition sizeof_container_t : Z := 3392.

(** [sizeof(msg->data)]. *)
Definition sizeof_data : Z :=
  BUFFER_SIZE - sizeof_message_type_t - 2 * Z.of_nat MAX_NAME_LEN - sizeof_int.

Record message_t := mk_message {
  msg_type : Z;
  msg_sender_id : list byte;
  msg_recipient_id : list byte;
  msg_data_length : Z;
  msg_data : list byte
}.

(** ** The C library, as far as the program uses it *)

Definition NUL : byte := x00.

Definition zeros (n : nat) : list byte := replicate n NUL.

(** The C string that starts at the head of a byte array. *)
Fixpoint cstring (b : list byte) : string :=
  match b with
  | [] => EmptyString
  | x :: rest =>
      if Byte.eqb x NUL then EmptyString
      else String (ascii_of_byte x) (cstring rest)
  end.

(** The bytes of a C string, without the terminator. *)
Definition string_bytes (s : string) : list byte :=
  list_byte_of_string (cstring (list_byte_of_string s)).

Definition strlen (s : string) : Z := Z.of_nat (length (string_bytes s)).

(** [strcmp(a, b) == 0]. *)
Definition streq (a b : string) : bool := String.eqb a b.

(** [strncpy(dest, src, n)]: at most [n] bytes of [src], NUL-filled up to
    [n]; the bytes of [dest] from [n] on stay. *)
Definition strncpy (dest : list byte) (src : string) (n : nat) : list byte :=
  let s := take n (string_bytes src) in
  s ++ zeros (n - length s) ++ drop n dest.

(** [memcpy(dest, src, n)] for [n] bytes available at [src]. *)
Definition memcpy (dest src : list byte) (n : nat) : list byte :=
  take n src ++ drop n dest.

(** [snprintf(buf, size, "%s_%s", a, b)]. *)
Definition snprintf_id (size : nat) (a b : string) : string :=
  String.substring 0 (size - 1) (a ++ "_" ++ b)%string.

(** A little-endian two's-complement [int] from four bytes. *)
Definition le_unsigned (b : list byte) : Z :=
  foldr (fun x acc => Z.of_nat (Byte.to_nat x) + 256 * acc) 0 b.

Definition int_of_bytes (b : list byte) : Z :=
  let u := le_unsigned (take 4 b) in
  if u <? 2 ^ 31 then u else u - 2 ^ 32.

(** An enum without negative enumerators from four bytes: its underlying
    type is [unsigned int]. *)
Definition enum_of_bytes (b : list byte) : Z := le_unsigned (take 4 b).

(** A binary64 from its 64-bit pattern. *)
Definition double_of_bits (u : Z) : float :=
  let s := Z.testbit u 63 in
  let e := Z.land (Z.shiftr u 52) 2047 in
  let m := Z.land u (2 ^ 52 - 1) in
  if e =? 0 then
    if m =? 0 then (if s then PrimFloat.neg_zero else PrimFloat.zero)
    else SF2Prim (S754_finite s (Z.to_pos m) (-1074))
  else if e =? 2047 then
    if m =? 0 then (if s then PrimFloat.neg_infinity else PrimFloat.infinity)
    else PrimFloat.nan
  else SF2Prim (S754_finite s (Z.to_pos (m + 2 ^ 52)) (e - 1075)).

Definition double_of_bytes (b : list byte) : float :=
  double_of_bits (le_unsigned (take 8 b)).

(** [(double)i] for an [int]. *)
Definition double_of_int (i : Z) : float :=
  if i <? 0 then PrimFloat.opp (PrimFloat.of_uint63 (Uint63.of_Z (- i)))
  else PrimFloat.of_uint63 (Uint63.of_Z i).

(** The first [sizeof(resource_info_t)] bytes of a buffer read as that
    struct ([memcpy(&node->resources, msg.data, ...)]). *)
Definition resource_info_of_bytes (b : list byte) : resource_info_t :=
  {| cpu_usage := double_of_bytes b;
     memory_usage := double_of_bytes (drop 8 b);
     disk_usage := double_of_bytes (drop 16 b);
     container_count := int_of_bytes (drop 24 b);
     max_containers := int_of_bytes (drop 28 b) |}.

(** The two fields the coordinator reads through [(container_t* )msg.data]:
    [id] at offset 0 and [state] at offset [3 * MAX_NAME_LEN]. *)
Definition container_id_of_bytes (b : list byte) : string :=
  cstring (take MAX_NAME_LEN b).

Definition container_state_of_bytes (b : list byte) : container_state_t :=
  enum_of_bytes (drop (3 * MAX_NAME_LEN) b).

(** [config->name]. *)
Definition config_name (config : lxc_config_t) : string :=
  cstring (take MAX_NAME_LEN (config_object config)).

(** An [int] compared with a [sizeof]: the usual arithmetic conversions
    turn it into a 64-bit [size_t] first. *)
Definition to_size_t (i : Z) : Z := i mod 2 ^ 64.

(** The four bytes of an [int] or an enum in memory. *)
Definition byte_of_Z (z : Z) : byte :=
  byte_of_ascii (ascii_of_N (Z.to_N (z mod 256))).

Definition int_bytes (i : Z) : list byte :=
  let u := i mod 2 ^ 32 in
  [byte_of_Z u; byte_of_Z (u / 2 ^ 8); byte_of_Z (u / 2 ^ 16);
   byte_of_Z (u / 2 ^ 24)].

Definition isspace (b : byte) : bool :=
  let n := Z.of_nat (Byte.to_nat b) in
  (n =? 32) || ((9 <=? n) && (n <=? 13)).

Definition isdigit (b : byte) : bool :=
  let n := Z.of_nat (Byte.to_nat b) in
  (48 <=? n) && (n <=? 57).

(** [sscanf(s, "%s %s %d", a, b, &i)]: each directive skips white space;
    [%s] takes the longest run of non-space bytes, [%d] an optional sign and
    the longest run of digits.  A directive that matches nothing stops the
    scan, and the variables not yet assigned keep their earlier content. *)
Fixpoint skip_space (s : list byte) : list byte :=
  match s with
  | x :: rest => if isspace x then skip_space rest else s
  | [] => []
  end.

Fixpoint scan_word (s : list byte) : list byte * list byte :=
  match s with
  | x :: rest =>
      if isspace x then ([], s)
      else let '(w, s') := scan_word rest in (x :: w, s')
  | [] => ([], [])
  end.

Fixpoint scan_digits (s : list byte) (acc : Z) : Z * list byte :=
  match s with
  | x :: rest =>
      if isdigit x
      then scan_digits rest (10 * acc + (Z.of_nat (Byte.to_nat x) - 48))
      else (acc, s)
  | [] => (acc, [])
  end.

(** The [int] that the C library makes of a decimal number: [strtol]
    converts it to a [long], saturating at [LONG_MIN] and [LONG_MAX], and
    the [long] is stored into the [int], which keeps its low 32 bits. *)
Definition saturate_long (v : Z) : Z := Z.max (- 2 ^ 63) (Z.min (2 ^ 63 - 1) v).

Definition int_of_long (v : Z) : Z := (v + 2 ^ 31) mod 2 ^ 32 - 2 ^ 31.

Definition scan_int (s : list byte) : option Z :=
  match s with
  | x :: rest =>
      if Byte.eqb x "-"%byte then
        match rest with
        | d :: _ =>
            if isdigit d
            then Some (int_of_long (saturate_long (- fst (scan_digits rest 0))))
            else None
        | [] => None
        end
      else if Byte.eqb x "+"%byte then
        match rest with
        | d :: _ =>
            if isdigit d
            then Some (int_of_long (saturate_long (fst (scan_digits rest 0))))
            else None
        | [] => None
        end
      else if isdigit x then Some (int_of_long (saturate_long (fst (scan_digits s 0))))
      else None
  | [] => None
  end.

Definition sscanf_s_s_d (s : string) (a b : string) (i : Z) : string * string * Z :=
  let '(w1, s1) := scan_word (skip_space (string_bytes s)) in
  match w1 with
  | [] => (a, b, i)
  | _ =>
      let '(w2, s2) := scan_word (skip_space s1) in
      match w2 with
      | [] => (string_of_list_byte w1, b, i)
      | _ =>
          match scan_int (skip_space s2) with
          | Some v => (string_of_list_byte w1, string_of_list_byte w2, v)
          | None => (string_of_list_byte w1, string_of_list_byte w2, i)
          end
      end
  end.

(** ** src/network.c: frames *)

(** The [sizeof(message_t)] bytes of a frame in memory, which is what
    [send] transmits and [recv] fills in. *)
Definition sizeof_message_t : Z := BUFFER_SIZE.

Definition message_bytes (msg : message_t) : list byte :=
  int_bytes (msg_type msg) ++ msg_sender_id msg ++ msg_recipient_id msg
  ++ int_bytes (msg_data_length msg) ++ msg_data msg.

Definition message_of_bytes (b : list byte) : message_t :=
  {| msg_type := enum_of_bytes b;
     msg_sender_id := take MAX_NAME_LEN (drop 4 b);
     msg_recipient_id := take MAX_NAME_LEN (drop (4 + MAX_NAME_LEN) b);
     msg_data_length := int_of_bytes (drop (4 + 2 * MAX_NAME_LEN) b);
     msg_data := drop (8 + 2 * MAX_NAME_LEN) b |}.

(** What a [send] that returned [bytes_sent], not the size of the frame,
    has put on the socket: the first [bytes_sent] bytes of the frame, or
    nothing when it returned 0 or -1. *)
Definition short_write (bytes_sent : Z) (msg : message_t)
  : option (list byte) :=
  if 0 <? bytes_sent
  then Some (take (Z.to_nat bytes_sent) (message_bytes msg))
  else None.

(** [send_message]: [bytes_sent] is what [send] returned.  The result is
    the return value and the bytes put on the socket: the whole frame with
    0, a short write or nothing with -1. *)
Definition send_message (bytes_sent : Z) (socket_fd : Z) (msg : message_t)
  : Z * option (list byte) :=
  if socket_fd <? 0 then (-1, None)
  else if bytes_sent =? sizeof_message_t then (0, Some (message_bytes msg))
  else (-1, short_write bytes_sent msg).

(** [receive_message]: [rx] is what [recv] delivered (nothing when the peer
    closed the connection or the call failed).  [None] is the return value
    -1, [Some msg] is 0 with [*msg] filled in. *)
Definition receive_message (socket_fd : Z) (rx : list byte) : option message_t :=
  if socket_fd <? 0 then None
  else if Z.of_nat (length rx) =? sizeof_message_t then Some (message_of_bytes rx)
  else None.

Definition create_message (type : message_type_t)
    (sender_id recipient_id : option string)
    (data : option (list byte)) (data_len : Z) : message_t :=
  let sender :=
    match sender_id with
    | Some s => strncpy (zeros MAX_NAME_LEN) s (MAX_NAME_LEN - 1)
    | None => zeros MAX_NAME_LEN
    end in
  let recipient :=
    match recipient_id with
    | Some s => strncpy (zeros MAX_NAME_LEN) s (MAX_NAME_LEN - 1)
    | None => zeros MAX_NAME_LEN
    end in
  let empty := zeros (Z.to_nat sizeof_data) in
  match data with
  | Some d =>
      if 0 <? data_len then
        let copy_len :=
          if to_size_t data_len <? sizeof_data then data_len else sizeof_data in
        mk_message (message_type_code type) sender recipient copy_len
          (memcpy empty d (Z.to_nat copy_len))
      else mk_message (message_type_code type) sender recipient 0 empty
  | None => mk_message (message_type_code type) sender recipient 0 empty
  end.

(** ** The coordinator's global state

    [nodes]/[node_count] (network.c) and [deployed_containers]/
    [deployed_container_count] (coordinator.c).  [nodes_behind] and
    [deployed_behind] are the slots from index [node_count] (resp.
    [deployed_container_count]) on that were written before; slots never
    written are zero, as static storage is.  [wire] lists the frames put on
    sockets, oldest first; [short_writes] lists the beginnings of frames that
    went out when [send] took a short count and [send_message] failed. *)
Record coordinator := mk_coordinator {
  nodes : list node_t;
  nodes_behind : list node_t;
  deployed_containers : list container_t;
  deployed_behind : list container_t;
  wire : list (Z * list byte);
  short_writes : list (Z * list byte)
}.

Definition node_count (c : coordinator) : Z := Z.of_nat (length (nodes c)).

Definition deployed_container_count (c : coordinator) : Z :=
  Z.of_nat (length (deployed_containers c)).

Definition zero_resource_info : resource_info_t :=
  mk_resource_info PrimFloat.zero PrimFloat.zero PrimFloat.zero 0 0.

Definition zero_lxc_config : lxc_config_t :=
  mk_lxc_config (zeros (Z.to_nat sizeof_lxc_config_t)).

Definition zero_container : container_t :=
  mk_container "" "" "" CONTAINER_STOPPED zero_lxc_config 0 0 "".

Definition zero_node : node_t :=
  mk_node "" "" "" 0 NODE_DISCONNECTED zero_resource_info 0 0 [].

Definition initial_coordinator : coordinator :=
  mk_coordinator [] [] [] [] [] [].

Definition set_nodes (c : coordinator) (l : list node_t) : coordinator :=
  mk_coordinator l (nodes_behind c) (deployed_containers c)
    (deployed_behind c) (wire c) (short_writes c).

Definition set_deployed_containers (c : coordinator) (l : list container_t)
  : coordinator :=
  mk_coordinator (nodes c) (nodes_behind c) l (deployed_behind c) (wire c)
    (short_writes c).

(** The effect on the sockets of a [send_message] call that returned 0,
    and of one that returned -1. *)
Definition put_on_wire (c : coordinator) (socket_fd : Z)
    (sent : option (list byte)) : coordinator :=
  match sent with
  | Some frame =>
      mk_coordinator (nodes c) (nodes_behind c) (deployed_containers c)
        (deployed_behind c) (wire c ++ [(socket_fd, frame)]) (short_writes c)
  | None => c
  end.

Definition put_short (c : coordinator) (socket_fd : Z)
    (sent : option (list byte)) : coordinator :=
  match sent with
  | Some bytes =>
      mk_coordinator (nodes c) (nodes_behind c) (deployed_containers c)
        (deployed_behind c) (wire c) (short_writes c ++ [(socket_fd, bytes)])
  | None => c
  end.

(** The same for a call whose return value the caller does not test. *)
Definition put_sent (c : coordinator) (socket_fd : Z)
    (result : Z * option (list byte)) : coordinator :=
  if fst result =? 0 then put_on_wire c socket_fd (snd result)
  else put_short c socket_fd (snd result).

(** The index of the first element that satisfies [p]: the result of a
    [for (i = 0; i < count; i++) if (p(t[i])) ...] search. *)
Fixpoint find_index {A : Type} (p : A -> bool) (l : list A) : option nat :=
  match l with
  | [] => None
  | x :: rest => if p x then Some 0%nat else S <$> find_index p rest
  end.

(** ** src/network.c: the node registry *)

(** [find_node_by_id]: the result points into [nodes]; it is given as the
    index of the slot. *)
Definition find_node_by_id (node_id : option string) (l : list node_t)
  : option nat :=
  match node_id with
  | None => None
  | Some node_id => find_index (fun node => streq (n_id node) node_id) l
  end.

Definition reregister (hostname ip_address : string) (port now : Z)
    (node : node_t) : node_t :=
  mk_node (n_id node) hostname ip_address port NODE_CONNECTED
    (n_resources node) now (n_socket_fd node) (n_containers node).

(** The new record is written field by field into slot [nodes[node_count]];
    [socket_fd] is not assigned and keeps what the slot held ([slot]). *)
Definition fresh_node (slot : node_t) (node_id hostname ip_address : string)
    (port now : Z) : node_t :=
  mk_node node_id hostname ip_address port NODE_CONNECTED
    zero_resource_info now (n_socket_fd slot) [].

Definition register_node (now : Z) (node_id hostname ip_address : option string)
    (port : Z) (c : coordinator) : Z * coordinator :=
  match node_id, hostname, ip_address with
  | Some node_id, Some hostname, Some ip_address =>
      if node_count c >=? MAX_NODES then (-1, c)
      else
        match find_index (fun node => streq (n_id node) node_id) (nodes c) with
        | Some i =>
            (0, set_nodes c
                  (alter (reregister hostname ip_address port now) i (nodes c)))
        | None =>
            let slot := default zero_node (head (nodes_behind c)) in
            (0, mk_coordinator
                  (nodes c ++ [fresh_node slot node_id hostname ip_address port now])
                  (tail (nodes_behind c)) (deployed_containers c)
                  (deployed_behind c) (wire c) (short_writes c))
        end
  | _, _, _ => (-1, c)
  end.

(** [unregister_node]: the slots after [i] move down by one; the last live
    slot is left as it was, now behind [node_count].  ([close] of the
    node's socket has no effect on the state modelled here.) *)
Definition unregister_node (node_id : option string) (c : coordinator)
  : Z * coordinator :=
  match node_id with
  | None => (-1, c)
  | Some node_id =>
      match find_index (fun node => streq (n_id node) node_id) (nodes c) with
      | Some i =>
          (0, mk_coordinator (delete i (nodes c))
                (option_list (last (nodes c)) ++ nodes_behind c)
                (deployed_containers c) (deployed_behind c) (wire c)
                (short_writes c))
      | None => (-1, c)
      end
  end.

(** ** src/network.c: handle_client_connection *)

(** The locals of one handler thread that live across loop iterations. *)
Record connection := mk_connection {
  client_socket : Z;
  node_id : string
}.

(** What the environment supplies to one iteration of the loop: the clock,
    the return value of [send], and the content of the uninitialised locals
    [hostname], [ip_address] and [port] of the REGISTER_NODE case. *)
Record environment := mk_environment {
  now : Z;
  bytes_sent : Z;
  stack_hostname : string;
  stack_ip_address : string;
  stack_port : Z
}.

(** [send] took the whole frame. *)
Definition net_ok (env : environment) : bool :=
  bytes_sent env =? sizeof_message_t.

Definition set_socket_fd (fd : Z) (node : node_t) : node_t :=
  mk_node (n_id node) (n_hostname node) (n_ip_address node) (n_port node)
    (n_state node) (n_resources node) (n_last_heartbeat node) fd
    (n_containers node).

Definition on_register_node (env : environment) (msg : message_t)
    (conn : connection) (c : coordinator) : connection * coordinator :=
  let '(hostname, ip_address, port) :=
    sscanf_s_s_d (cstring (msg_data msg))
      (stack_hostname env) (stack_ip_address env) (stack_port env) in
  let node_id := cstring (msg_sender_id msg) in
  let conn' := mk_connection (client_socket conn) node_id in
  let '(r, c1) :=
    register_node (now env) (Some node_id) (Some hostname) (Some ip_address)
      port c in
  if r =? 0 then
    let c2 :=
      match find_node_by_id (Some node_id) (nodes c1) with
      | Some i => set_nodes c1 (alter (set_socket_fd (client_socket conn)) i (nodes c1))
      | None => c1
      end in
    let ack_msg :=
      create_message MSG_ACK (Some "coordinator"%string) (Some node_id)
        (Some (list_byte_of_string "registered")) 10 in
    (conn', put_sent c2 (client_socket conn)
              (send_message (bytes_sent env) (client_socket conn) ack_msg))
  else (conn', c1).

Definition heartbeat (now : Z) (msg : message_t) (node : node_t) : node_t :=
  mk_node (n_id node) (n_hostname node) (n_ip_address node) (n_port node)
    NODE_CONNECTED
    (if to_size_t (msg_data_length msg) >=? sizeof_resource_info_t
     then resource_info_of_bytes (msg_data msg)
     else n_resources node)
    now (n_socket_fd node) (n_containers node).

Definition on_node_heartbeat (env : environment) (msg : message_t)
    (c : coordinator) : coordinator :=
  match find_node_by_id (Some (cstring (msg_sender_id msg))) (nodes c) with
  | Some i => set_nodes c (alter (heartbeat (now env) msg) i (nodes c))
  | None => c
  end.

Definition set_c_state (s : container_state_t) (k : container_t) : container_t :=
  mk_container (c_id k) (c_name k) (c_node_id k) s (c_config k)
    (c_created_at k) (c_started_at k) (c_log_file k).

Definition set_n_containers (l : list container_t) (node : node_t) : node_t :=
  mk_node (n_id node) (n_hostname node) (n_ip_address node) (n_port node)
    (n_state node) (n_resources node) (n_last_heartbeat node)
    (n_socket_fd node) l.

(** The loop over [node->containers] of the CONTAINER_STATUS case. *)
Definition update_container_status (msg : message_t) (node : node_t) : node_t :=
  let id := container_id_of_bytes (msg_data msg) in
  match find_index (fun k => streq (c_id k) id) (n_containers node) with
  | Some i =>
      set_n_containers
        (alter (set_c_state (container_state_of_bytes (msg_data msg))) i
           (n_containers node))
        node
  | None => node
  end.

Definition on_container_status (msg : message_t) (c : coordinator)
  : coordinator :=
  match find_node_by_id (Some (cstring (msg_sender_id msg))) (nodes c) with
  | Some i =>
      if to_size_t (msg_data_length msg) >=? sizeof_container_t
      then set_nodes c (alter (update_container_status msg) i (nodes c))
      else c
  | None => c
  end.

(** The body of the [switch (msg.type)]. *)
Definition dispatch_message (env : environment) (msg : message_t)
    (conn : connection) (c : coordinator) : connection * coordinator :=
  match message_type_of_code (msg_type msg) with
  | Some MSG_REGISTER_NODE => on_register_node env msg conn c
  | Some MSG_NODE_HEARTBEAT => (conn, on_node_heartbeat env msg c)
  | Some MSG_CONTAINER_STATUS => (conn, on_container_status msg c)
  | Some MSG_ERROR => (conn, c)
  | _ => (conn, c)
  end.

(** The single stores of [handle_client_connection] into the record that
    [find_node_by_id] returned: [node->last_heartbeat = ...],
    [node->state = ...] and the [memcpy] into [node->resources]
    ([node->socket_fd = ...] is [set_socket_fd]). *)
Definition set_last_heartbeat (now : Z) (node : node_t) : node_t :=
  mk_node (n_id node) (n_hostname node) (n_ip_address node) (n_port node)
    (n_state node) (n_resources node) now (n_socket_fd node)
    (n_containers node).

Definition set_state (state : node_state_t) (node : node_t) : node_t :=
  mk_node (n_id node) (n_hostname node) (n_ip_address node) (n_port node)
    state (n_resources node) (n_last_heartbeat node) (n_socket_fd node)
    (n_containers node).

Definition set_resources (resources : resource_info_t) (node : node_t)
  : node_t :=
  mk_node (n_id node) (n_hostname node) (n_ip_address node) (n_port node)
    (n_state node) resources (n_last_heartbeat node) (n_socket_fd node)
    (n_containers node).

Definition disconnect (node : node_t) : node_t :=
  mk_node (n_id node) (n_hostname node) (n_ip_address node) (n_port node)
    NODE_DISCONNECTED (n_resources node) (n_last_heartbeat node) (-1)
    (n_containers node).

(** "Clean up when client disconnects": the code after the loop. *)
Definition on_disconnect (conn : connection) (c : coordinator) : coordinator :=
  if strlen (node_id conn) >? 0 then
    match find_node_by_id (Some (node_id conn)) (nodes c) with
    | Some i => set_nodes c (alter disconnect i (nodes c))
    | None => c
    end
  else c.

(** [handle_client_connection] on the sequence of results of [recv], each
    with the environment of its iteration.  The loop ends at the first
    failed [receive_message]; the end of the sequence is the peer closing
    the connection. *)
Fixpoint serve (rxs : list (environment * list byte)) (conn : connection)
    (c : coordinator) : coordinator :=
  match rxs with
  | [] => on_disconnect conn c
  | (env, rx) :: rest =>
      match receive_message (client_socket conn) rx with
      | None => on_disconnect conn c
      | Some msg =>
          let '(conn', c') := dispatch_message env msg conn c in
          serve rest conn' c'
      end
  end.

Definition handle_client_connection (client_socket : Z)
    (rxs : list (environment * list byte)) (c : coordinator) : coordinator :=
  serve rxs (mk_connection client_socket "") c.

(** ** src/coordinator.c: placement *)

(** "Skip disconnected or unresponsive nodes" and "Check if node has
    capacity": [true] when the loop body reaches the score. *)
Definition considered (current_time : Z) (node : node_t) : bool :=
  if negb (node_state_eqb (n_state node) NODE_CONNECTED)
     || (current_time - n_last_heartbeat node >? 30)
  then false
  else if n_container_count node >=? max_containers (n_resources node)
  then false
  else true.

Definition node_score (node : node_t) : float :=
  let cpu_available := (100 - cpu_usage (n_resources node))%float in
  let memory_available := (100 - memory_usage (n_resources node))%float in
  let disk_available := (100 - disk_usage (n_resources node))%float in
  let container_load :=
    (double_of_int (n_container_count node)
     / double_of_int (max_containers (n_resources node)))%float in
  (cpu_available * 0.3 + memory_available * 0.3 + disk_available * 0.2
   + (1 - container_load) * 100 * 0.2)%float.

(** The [for] loop of [find_best_node] from slot [i] on, over the slots [l]
    that remain. *)
Fixpoint best_node_loop (current_time : Z) (l : list node_t) (i : nat)
    (best_node : option nat) (best_score : float) : option nat * float :=
  match l with
  | [] => (best_node, best_score)
  | node :: rest =>
      if considered current_time node then
        let score := node_score node in
        if (best_score <? score)%float
        then best_node_loop current_time rest (S i) (Some i) score
        else best_node_loop current_time rest (S i) best_node best_score
      else best_node_loop current_time rest (S i) best_node best_score
  end.

(** [find_best_node]: the result points into [nodes]; it is given as the
    index of the slot. *)
Definition find_best_node (current_time : Z) (config : option lxc_config_t)
    (c : coordinator) : option nat :=
  match config with
  | None => None
  | Some _ => fst (best_node_loop current_time (nodes c) 0 None (-1)%float)
  end.

(** ** src/coordinator.c: the container ledger *)

(** The record is written field by field into slot
    [deployed_containers[deployed_container_count]]; [started_at] and
    [log_file] are not assigned and keep what the slot held. *)
Definition fresh_container (slot : container_t) (node_id : string)
    (config : lxc_config_t) (now : Z) : container_t :=
  mk_container (snprintf_id MAX_NAME_LEN node_id (config_name config))
    (config_name config) node_id CONTAINER_STARTING config now
    (c_started_at slot) (c_log_file slot).

Definition add_to_node (k : container_t) (node : node_t) : node_t :=
  if n_container_count node <? MAX_CONTAINERS
  then set_n_containers (n_containers node ++ [k]) node
  else node.

(** [deploy_container] from "Create deployment message" on: [node] points
    to slot [i] of the registry and [node->state] was CONNECTED. *)
Definition deploy_container_send (env : environment) (i : nat)
    (node_id : string) (config : lxc_config_t) (c : coordinator)
  : Z * coordinator :=
  let node := default zero_node (nodes c !! i) in
  let msg :=
    create_message MSG_DEPLOY_CONTAINER (Some "coordinator"%string)
      (Some node_id) (Some (config_object config))
      sizeof_lxc_config_t in
  let '(r, sent) :=
    send_message (bytes_sent env) (n_socket_fd node) msg in
  if negb (r =? 0) then (-1, put_short c (n_socket_fd node) sent)
  else
    let c1 := put_on_wire c (n_socket_fd node) sent in
    if deployed_container_count c1 <? MAX_CONTAINERS then
      let slot := default zero_container (head (deployed_behind c1)) in
      let container := fresh_container slot node_id config (now env) in
      (0, mk_coordinator
            (alter (add_to_node container) i (nodes c1))
            (nodes_behind c1)
            (deployed_containers c1 ++ [container])
            (tail (deployed_behind c1)) (wire c1) (short_writes c1))
    else (0, c1).

Definition deploy_container (env : environment) (node_id : option string)
    (config : option lxc_config_t) (c : coordinator) : Z * coordinator :=
  match node_id, config with
  | Some node_id, Some config =>
      match find_node_by_id (Some node_id) (nodes c) with
      | None => (-1, c)
      | Some i =>
          let node := default zero_node (nodes c !! i) in
          if negb (node_state_eqb (n_state node) NODE_CONNECTED) then (-1, c)
          else deploy_container_send env i node_id config c
      end
  | _, _ => (-1, c)
  end.

Definition deploy_container_auto (env : environment)
    (config : option lxc_config_t) (c : coordinator) : Z * coordinator :=
  match config with
  | None => (-1, c)
  | Some _ =>
      match find_best_node (now env) config c with
      | None => (-1, c)
      | Some i =>
          let best_node := default zero_node (nodes c !! i) in
          deploy_container env (Some (n_id best_node)) config c
      end
  end.

Definition starting (now : Z) (k : container_t) : container_t :=
  mk_container (c_id k) (c_name k) (c_node_id k) CONTAINER_STARTING
    (c_config k) (c_created_at k) now (c_log_file k).

Definition start_container (env : environment) (container_id : option string)
    (c : coordinator) : Z * coordinator :=
  match container_id with
  | None => (-1, c)
  | Some container_id =>
      match find_index (fun k => streq (c_id k) container_id)
              (deployed_containers c) with
      | None => (-1, c)
      | Some ci =>
          let container := default zero_container (deployed_containers c !! ci) in
          match find_node_by_id (Some (c_node_id container)) (nodes c) with
          | None => (-1, c)
          | Some i =>
              let node := default zero_node (nodes c !! i) in
              let msg :=
                create_message MSG_START_CONTAINER (Some "coordinator"%string)
                  (Some (n_id node)) (Some (string_bytes (c_name container)))
                  (strlen (c_name container)) in
              let '(r, sent) :=
                send_message (bytes_sent env) (n_socket_fd node) msg in
              if negb (r =? 0) then (-1, put_short c (n_socket_fd node) sent)
              else
                let c1 := put_on_wire c (n_socket_fd node) sent in
                (0, set_deployed_containers c1
                      (alter (starting (now env)) ci (deployed_containers c1)))
          end
      end
  end.

Definition stop_container (env : environment) (container_id : option string)
    (c : coordinator) : Z * coordinator :=
  match container_id with
  | None => (-1, c)
  | Some container_id =>
      match find_index (fun k => streq (c_id k) container_id)
              (deployed_containers c) with
      | None => (-1, c)
      | Some ci =>
          let container := default zero_container (deployed_containers c !! ci) in
          match find_node_by_id (Some (c_node_id container)) (nodes c) with
          | None => (-1, c)
          | Some i =>
              let node := default zero_node (nodes c !! i) in
              let msg :=
                create_message MSG_STOP_CONTAINER (Some "coordinator"%string)
                  (Some (n_id node)) (Some (string_bytes (c_name container)))
                  (strlen (c_name container)) in
              let '(r, sent) :=
                send_message (bytes_sent env) (n_socket_fd node) msg in
              if negb (r =? 0) then (-1, put_short c (n_socket_fd node) sent)
              else
                let c1 := put_on_wire c (n_socket_fd node) sent in
                (0, set_deployed_containers c1
                      (alter (set_c_state CONTAINER_STOPPING) ci
                         (deployed_containers c1)))
          end
      end
  end.

(** "Remove from node's container list": the first entry with the id goes,
    the entries after it move down. *)
Definition remove_from_node (container_id : string) (node : node_t) : node_t :=
  match find_index (fun k => streq (c_id k) container_id) (n_containers node) with
  | Some j => set_n_containers (delete j (n_containers node)) node
  | None => node
  end.

Definition delete_container (env : environment) (container_id : option string)
    (c : coordinator) : Z * coordinator :=
  match container_id with
  | None => (-1, c)
  | Some container_id =>
      match find_index (fun k => streq (c_id k) container_id)
              (deployed_containers c) with
      | None => (-1, c)
      | Some container_index =>
          let container :=
            default zero_container (deployed_containers c !! container_index) in
          let c1 :=
            match find_node_by_id (Some (c_node_id container)) (nodes c) with
            | Some i =>
                let node := default zero_node (nodes c !! i) in
                let msg :=
                  create_message MSG_DELETE_CONTAINER (Some "coordinator"%string)
                    (Some (n_id node)) (Some (string_bytes (c_name container)))
                    (strlen (c_name container)) in
                let c' :=
                  put_sent c (n_socket_fd node)
                    (send_message (bytes_sent env) (n_socket_fd node) msg) in
                set_nodes c' (alter (remove_from_node container_id) i (nodes c'))
            | None => c
            end in
          (0, mk_coordinator (nodes c1) (nodes_behind c1)
                (delete container_index (deployed_containers c1))
                (option_list (last (deployed_containers c1)) ++ deployed_behind c1)
                (wire c1) (short_writes c1))
      end
  end.

Definition get_container_status (container_id : option string)
    (c : coordinator) : container_state_t :=
  match container_id with
  | None => CONTAINER_ERROR
  | Some container_id =>
      match find_index (fun k => streq (c_id k) container_id)
              (deployed_containers c) with
      | Some i => c_state (default zero_container (deployed_containers c !! i))
      | None => CONTAINER_ERROR
      end
  end.

(** ** The running coordinator

    The coordinator process is the accept loop of [init_coordinator], one
    [handle_client_connection] thread per accepted socket, and the operator's
    [coordinator_command_loop].  Nothing in it is driven by a timer.  Its
    behaviour is the interleaving of the events below.

    The threads synchronise on the registry only inside [register_node],
    [find_node_by_id] and [find_best_node], which hold [nodes_mutex].  A
    handler thread stores into the record that [find_node_by_id] returned
    without a lock, and [deploy_container] reads [node->state] and
    [node->socket_fd] without one.  So a handler thread is taken one access
    to the registry at a time ([Received], [Lost], [Resumed]), and a
    deployment one read at a time ([Placed], [Proceeded]); a call of
    [find_node_by_id] goes with the access that follows it, the slot of an
    id being the same at any later time ([unregister_node] has no caller).
    [start_container], [stop_container] and [delete_container] read the
    registry once, at their [send_message], and are taken whole, as are
    the calls that run under [nodes_mutex] and the scan of
    [node->containers] in the CONTAINER_STATUS case.  [Frame],
    [Hangup] and [Deploy] are the schedules in which an iteration of a
    handler, its cleanup, resp. a deployment, runs with no step of another
    thread in between.

    [threads] maps the socket of each handler thread that is at its
    [receive_message] to its local [node_id]; [busy] holds, with their
    [node_id], the threads inside an iteration or the cleanup; [operator]
    tells how far a deployment has got. *)

(** The next access to the registry of a handler thread that is inside an
    iteration or the cleanup. *)
Inductive handler_pc :=
  | to_store_socket
      (** REGISTER_NODE, [register_node] returned 0:
          [node->socket_fd = client_socket] *)
  | to_send_ack
      (** REGISTER_NODE: [send_message(client_socket, &ack_msg)] *)
  | to_store_state (i : nat) (msg : message_t)
      (** NODE_HEARTBEAT, [node] is slot [i]:
          [node->state = NODE_CONNECTED] *)
  | to_store_resources (i : nat) (msg : message_t)
      (** NODE_HEARTBEAT: [memcpy(&node->resources, ...)] *)
  | to_close (i : nat)
      (** cleanup, [node] is slot [i]: [node->socket_fd = -1] *).

(** The next read of a deployment. *)
Inductive operator_pc :=
  | to_test_state (node_id : string) (config : lxc_config_t)
      (** [deploy_container(best_node->id, config)] is called:
          [find_node_by_id] and the test of [node->state] *)
  | to_send (i : nat) (node_id : string) (config : lxc_config_t)
      (** [node], slot [i], was CONNECTED: [send_message(node->socket_fd,
          ...)] and the records *).

Record system := mk_system {
  coord : coordinator;
  threads : gmap Z string;
  busy : gmap Z (string * handler_pc);
  operator : option operator_pc
}.

Inductive event :=
  | Accept (socket : Z)
      (** [accept] returned [socket]; a handler thread starts *)
  | Frame (socket : Z) (env : environment) (msg : message_t)
      (** [receive_message] returned 0 in the thread of [socket], and the
          iteration runs to its end *)
  | Hangup (socket : Z)
      (** [receive_message] failed in the thread of [socket], and the
          cleanup runs to its end *)
  | Deploy (env : environment) (config : lxc_config_t)
      (** "deploy": [deploy_container_auto], run to its end *)
  | Start (env : environment) (container_id : string)
  | Stop (env : environment) (container_id : string)
  | Delete (env : environment) (container_id : string)
  | Received (socket : Z) (env : environment) (msg : message_t)
      (** [receive_message] returned 0 in the thread of [socket]; the
          iteration runs up to its first access to the registry, included *)
  | Lost (socket : Z)
      (** [receive_message] failed in the thread of [socket]; the cleanup
          runs up to its first store, included *)
  | Resumed (socket : Z) (env : environment)
      (** the thread of [socket], inside an iteration or the cleanup, makes
          its next access *)
  | Placed (env : environment) (config : lxc_config_t)
      (** "deploy": [find_best_node] has returned *)
  | Proceeded (env : environment)
      (** the deployment makes its next read *).

Definition initial_system : system := mk_system initial_coordinator ∅ ∅ None.

(** The thread of [socket] is back at [receive_message], is inside an
    iteration or the cleanup, resp. has returned. *)
Definition at_receive (s : system) (socket : Z) (id : string)
    (c : coordinator) : system :=
  mk_system c (<[socket := id]> (threads s)) (delete socket (busy s))
    (operator s).

Definition inside (s : system) (socket : Z) (id : string) (pc : handler_pc)
    (c : coordinator) : system :=
  mk_system c (delete socket (threads s)) (<[socket := (id, pc)]> (busy s))
    (operator s).

Definition returned (s : system) (socket : Z) (c : coordinator) : system :=
  mk_system c (delete socket (threads s)) (delete socket (busy s))
    (operator s).

(** One store into slot [i] of the registry. *)
Definition store (f : node_t -> node_t) (i : nat) (c : coordinator)
  : coordinator :=
  set_nodes c (alter f i (nodes c)).

(** An iteration of [handle_client_connection], whose local [node_id] is
    [id], up to its first access to the registry. *)
Definition received (socket : Z) (id : string) (env : environment)
    (msg : message_t) (s : system) : system :=
  match message_type_of_code (msg_type msg) with
  | Some MSG_REGISTER_NODE =>
      let '(hostname, ip_address, port) :=
        sscanf_s_s_d (cstring (msg_data msg))
          (stack_hostname env) (stack_ip_address env) (stack_port env) in
      let node_id := cstring (msg_sender_id msg) in
      let '(r, c1) :=
        register_node (now env) (Some node_id) (Some hostname)
          (Some ip_address) port (coord s) in
      if r =? 0 then inside s socket node_id to_store_socket c1
      else at_receive s socket node_id c1
  | Some MSG_NODE_HEARTBEAT =>
      match find_node_by_id (Some (cstring (msg_sender_id msg)))
              (nodes (coord s)) with
      | Some i =>
          inside s socket id (to_store_state i msg)
            (store (set_last_heartbeat (now env)) i (coord s))
      | None => s
      end
  | Some MSG_CONTAINER_STATUS =>
      at_receive s socket id (on_container_status msg (coord s))
  | _ => s
  end.

(** The cleanup up to its first store. *)
Definition lost (socket : Z) (id : string) (s : system) : system :=
  if strlen id >? 0 then
    match find_node_by_id (Some id) (nodes (coord s)) with
    | Some i =>
        inside s socket id (to_close i)
          (store (set_state NODE_DISCONNECTED) i (coord s))
    | None => returned s socket (coord s)
    end
  else returned s socket (coord s).

(** The next access of a thread that is inside an iteration or the
    cleanup. *)
Definition resumed (socket : Z) (id : string) (pc : handler_pc)
    (env : environment) (s : system) : system :=
  match pc with
  | to_store_socket =>
      inside s socket id to_send_ack
        match find_node_by_id (Some id) (nodes (coord s)) with
        | Some i => store (set_socket_fd socket) i (coord s)
        | None => coord s
        end
  | to_send_ack =>
      let ack_msg :=
        create_message MSG_ACK (Some "coordinator"%string) (Some id)
          (Some (list_byte_of_string "registered")) 10 in
      at_receive s socket id
        (put_sent (coord s) socket
           (send_message (bytes_sent env) socket ack_msg))
  | to_store_state i msg =>
      let c := store (set_state NODE_CONNECTED) i (coord s) in
      if to_size_t (msg_data_length msg) >=? sizeof_resource_info_t
      then inside s socket id (to_store_resources i msg) c
      else at_receive s socket id c
  | to_store_resources i msg =>
      at_receive s socket id
        (store (set_resources (resource_info_of_bytes (msg_data msg))) i
           (coord s))
  | to_close i => returned s socket (store (set_socket_fd (-1)) i (coord s))
  end.

(** The operator's thread with the deployment at [pc], resp. back in the
    command loop. *)
Definition deploying (s : system) (pc : operator_pc) : system :=
  mk_system (coord s) (threads s) (busy s) (Some pc).

Definition idle (s : system) (c : coordinator) : system :=
  mk_system c (threads s) (busy s) None.

(** [deploy_container_auto] up to the call of [deploy_container]. *)
Definition placed (env : environment) (config : lxc_config_t) (s : system)
  : system :=
  match find_best_node (now env) (Some config) (coord s) with
  | None => s
  | Some i =>
      let best_node := default zero_node (nodes (coord s) !! i) in
      deploying s (to_test_state (n_id best_node) config)
  end.

(** The next read of the deployment. *)
Definition proceeded (env : environment) (pc : operator_pc) (s : system)
  : system :=
  match pc with
  | to_test_state node_id config =>
      match find_node_by_id (Some node_id) (nodes (coord s)) with
      | None => idle s (coord s)
      | Some i =>
          let node := default zero_node (nodes (coord s) !! i) in
          if negb (node_state_eqb (n_state node) NODE_CONNECTED)
          then idle s (coord s)
          else deploying s (to_send i node_id config)
      end
  | to_send i node_id config =>
      idle s (snd (deploy_container_send env i node_id config (coord s)))
  end.

(** An event that the state does not allow leaves it as it is: [accept]
    returns a descriptor that is not in use, a frame arrives in a thread
    that is at [receive_message], and the operator's one thread takes a
    command when it is back in the command loop. *)
Definition step (s : system) (e : event) : system :=
  match e with
  | Accept socket =>
      if socket <? 0 then s
      else
        match threads s !! socket, busy s !! socket with
        | None, None =>
            mk_system (coord s) (<[socket := ""%string]> (threads s))
              (busy s) (operator s)
        | _, _ => s
        end
  | Frame socket env msg =>
      match threads s !! socket with
      | Some id =>
          let '(conn, c) :=
            dispatch_message env msg (mk_connection socket id) (coord s) in
          mk_system c (<[socket := node_id conn]> (threads s)) (busy s)
            (operator s)
      | None => s
      end
  | Hangup socket =>
      match threads s !! socket with
      | Some id =>
          mk_system (on_disconnect (mk_connection socket id) (coord s))
            (delete socket (threads s)) (busy s) (operator s)
      | None => s
      end
  | Deploy env config =>
      match operator s with
      | None => idle s (snd (deploy_container_auto env (Some config) (coord s)))
      | Some _ => s
      end
  | Start env container_id =>
      match operator s with
      | None => idle s (snd (start_container env (Some container_id) (coord s)))
      | Some _ => s
      end
  | Stop env container_id =>
      match operator s with
      | None => idle s (snd (stop_container env (Some container_id) (coord s)))
      | Some _ => s
      end
  | Delete env container_id =>
      match operator s with
      | None => idle s (snd (delete_container env (Some container_id) (coord s)))
      | Some _ => s
      end
  | Received socket env msg =>
      match threads s !! socket with
      | Some id => received socket id env msg s
      | None => s
      end
  | Lost socket =>
      match threads s !! socket with
      | Some id => lost socket id s
      | None => s
      end
  | Resumed socket env =>
      match busy s !! socket with
      | Some (id, pc) => resumed socket id pc env s
      | None => s
      end
  | Placed env config =>
      match operator s with
      | None => placed env config s
      | Some _ => s
      end
  | Proceeded env =>
      match operator s with
      | Some pc => proceeded env pc s
      | None => s
      end
  end.

Definition run (events : list event) : system := foldl step initial_system events.

(** The acknowledgment of a registration. *)
Definition ack_message (id : string) : message_t :=
  create_message MSG_ACK (Some "coordinator"%string) (Some id)
    (Some (list_byte_of_string "registered")) 10.

(** What one event can do to the tables and the sockets: [transition s e c]
    lists the shapes that the coordinator's state [c] can have after the
    event [e] in state [s]. *)
Inductive transition (s : system) (e : event) : coordinator -> Prop :=
  | tr_same : transition s e (coord s)
  | tr_dispatch socket env msg conn :
      e = Frame socket env msg ->
      transition s e (snd (dispatch_message env msg conn (coord s)))
  | tr_disconnect conn : transition s e (on_disconnect conn (coord s))
  | tr_deploy env config :
      transition s e (snd (deploy_container_auto env (Some config) (coord s)))
  | tr_start env container_id :
      transition s e (snd (start_container env (Some container_id) (coord s)))
  | tr_stop env container_id :
      transition s e (snd (stop_container env (Some container_id) (coord s)))
  | tr_delete env container_id :
      transition s e (snd (delete_container env (Some container_id) (coord s)))
  | tr_register now id hostname ip_address port :
      transition s e
        (snd (register_node now (Some id) (Some hostname) (Some ip_address)
                port (coord s)))
  | tr_status msg : transition s e (on_container_status msg (coord s))
  | tr_last_heartbeat now i :
      transition s e (store (set_last_heartbeat now) i (coord s))
  | tr_state state i : transition s e (store (set_state state) i (coord s))
  | tr_socket fd i : transition s e (store (set_socket_fd fd) i (coord s))
  | tr_resources socket id i msg :
      busy s !! socket = Some (id, to_store_resources i msg) ->
      transition s e
        (store (set_resources (resource_info_of_bytes (msg_data msg))) i
           (coord s))
  | tr_ack bytes_sent socket id :
      transition s e
        (put_sent (coord s) socket
           (send_message bytes_sent socket (ack_message id)))
  | tr_send env i id config :
      operator s = Some (to_send i id config) ->
      transition s e (snd (deploy_container_send env i id config (coord s))).

(** What a thread inside a heartbeat and a deployment carry with them,
    after the events [events]: the frame came with a [Received] event, it
    is a heartbeat, the slot is the slot of its sender, and a [memcpy] is
    only ahead after the test of the length; the slot of a deployment is
    the slot of its node. *)
Definition pending (events : list event) (s : system) : Prop :=
  (forall socket id i msg,
     busy s !! socket = Some (id, to_store_state i msg)
     \/ busy s !! socket = Some (id, to_store_resources i msg) ->
     (exists env, Received socket env msg ∈ events)
     /\ message_type_of_code (msg_type msg) = Some MSG_NODE_HEARTBEAT
     /\ (n_id <$> nodes (coord s)) !! i = Some (cstring (msg_sender_id msg)))
  /\ (forall socket id i msg,
        busy s !! socket = Some (id, to_store_resources i msg) ->
        to_size_t (msg_data_length msg) >= sizeof_resource_info_t)
  /\ (forall i id config,
        operator s = Some (to_send i id config) ->
        (n_id <$> nodes (coord s)) !! i = Some id).

(** The local [node_id] of the handler thread of [socket], wherever the
    thread stands. *)
Definition local_node_id (s : system) (socket : Z) : option string :=
  match threads s !! socket with
  | Some id => Some id
  | None => fst <$> busy s !! socket
  end.

(** The events of one handler thread, for the results of [recv] it gets. *)
Fixpoint thread_events (socket : Z) (rxs : list (environment * list byte))
  : list event :=
  match rxs with
  | [] => [Hangup socket]
  | (env, rx) :: rest =>
      match receive_message socket rx with
      | None => [Hangup socket]
      | Some msg => Frame socket env msg :: thread_events socket rest
      end
  end.

(** The state of the registry entry that [find_node_by_id] returns. *)
Definition node_state_of (id : string) (c : coordinator) : option node_state_t :=
  i ← find_node_by_id (Some id) (nodes c); n_state <$> nodes c !! i.

(** ** Frames and states used in the examples below *)

Definition env_at (t : Z) : environment :=
  mk_environment t sizeof_message_t "" "" 0.

(** What a worker sends: REGISTER_NODE with "<hostname> <ip> <port>". *)
Definition register_frame (id text : string) : message_t :=
  create_message MSG_REGISTER_NODE (Some id) (Some "coordinator"%string)
    (Some (list_byte_of_string text)) (Z.of_nat (String.length text)).

(** The doubles 10.0 and 90.0 in memory. *)
Definition double_10 : list byte := [x00; x00; x00; x00; x00; x00; x24; x40].
Definition double_90 : list byte := [x00; x00; x00; x00; x00; x80; x56; x40].

(** A [resource_info_t] in memory. *)
Definition resources_object (cpu memory disk : list byte) (count max : Z)
  : list byte :=
  cpu ++ memory ++ disk ++ int_bytes count ++ int_bytes max.

(** Usages 10.0, 10.0, 10.0, [container_count] 0 and [max_containers] 50. *)
Definition resources_10_10_10_0_50 : list byte :=
  resources_object double_10 double_10 double_10 0 50.

Definition heartbeat_frame (id : string) (resources : list byte) : message_t :=
  create_message MSG_NODE_HEARTBEAT (Some id) (Some "coordinator"%string)
    (Some resources) sizeof_resource_info_t.

(** A [container_t] in memory with the given [id] and [state]; every other
    byte is zero. *)
Definition container_object (id : string) (state : container_state_t)
  : list byte :=
  strncpy (zeros (3 * MAX_NAME_LEN)) id (MAX_NAME_LEN - 1)
  ++ int_bytes state
  ++ zeros (Z.to_nat sizeof_container_t - 3 * MAX_NAME_LEN - 4).

Definition status_frame (sender id : string) (state : container_state_t)
  : message_t :=
  create_message MSG_CONTAINER_STATUS (Some sender) (Some "coordinator"%string)
    (Some (container_object id state)) sizeof_container_t.

(** An [lxc_config_t] in memory with the given [name]; every other byte is
    zero. *)
Definition config_named (name : string) : lxc_config_t :=
  mk_lxc_config
    (strncpy (zeros (Z.to_nat sizeof_lxc_config_t)) name (MAX_NAME_LEN - 1)).

Definition test_node (id : string) : node_t :=
  mk_node id "host" "10.0.0.1" 9000 NODE_CONNECTED
    (mk_resource_info 10 10 10 0 50) 100 5 [].

(** Two workers with identical resources, [w2] registered before [w1]. *)
Definition w2_then_w1 : system :=
  run [Accept 5; Frame 5 (env_at 0) (register_frame "w2" "host2 10.0.0.2 9000");
       Accept 6; Frame 6 (env_at 0) (register_frame "w1" "host1 10.0.0.1 9000");
       Frame 6 (env_at 1) (heartbeat_frame "w1" resources_10_10_10_0_50);
       Frame 5 (env_at 1) (heartbeat_frame "w2" resources_10_10_10_0_50)].

(** Worker [w1] registers, reports resources and gets container [web]. *)
Definition w1_with_web : system :=
  run [Accept 5; Frame 5 (env_at 0) (register_frame "w1" "host1 10.0.0.1 9000");
       Frame 5 (env_at 1) (heartbeat_frame "w1" resources_10_10_10_0_50);
       Deploy (env_at 2) (config_named "web")].

(** [w2] has sent a heartbeat with resources, [w1] has only registered. *)
Definition w1_unreported : list event :=
  [Accept 5; Frame 5 (env_at 0) (register_frame "w2" "host2 10.0.0.2 9000");
   Accept 6; Frame 6 (env_at 0) (register_frame "w1" "host1 10.0.0.1 9000");
   Frame 5 (env_at 1) (heartbeat_frame "w2" resources_10_10_10_0_50)].

(** A worker that registers and then falls silent while the operator keeps
    working: the last event happens 999 seconds after the last heartbeat. *)
Definition w1_silent : system :=
  run [Accept 5; Frame 5 (env_at 0) (register_frame "w1" "host1 10.0.0.1 9000");
       Frame 5 (env_at 1) (heartbeat_frame "w1" resources_10_10_10_0_50);
       Deploy (env_at 1000) (config_named "web")].

(** A registry with [MAX_NODES] workers, [n0] to [n255]. *)
Definition full_registry : coordinator :=
  mk_coordinator
    (map (fun k => test_node ("n" +:+ pretty k)) (seq 0 (Z.to_nat MAX_NODES)))
    [] [] [] [] [].

(** A ledger with [MAX_CONTAINERS] records, all on a worker [w0] that is
    gone, and one connected worker [w1]. *)
Definition full_ledger : coordinator :=
  mk_coordinator [test_node "w1"] []
    (map (fun k =>
            mk_container ("w0_c" +:+ pretty k) ("c" +:+ pretty k) "w0"
              CONTAINER_RUNNING (config_named ("c" +:+ pretty k)) 10 20 "")
       (seq 0 (Z.to_nat MAX_CONTAINERS)))
    [] [] [].

(** The frame of a START, STOP or DELETE command for the ledger record [k]
    of a container on the node [node_id]. *)
Definition command_message (type : message_type_t) (node_id : string)
    (k : container_t) : message_t :=
  create_message type (Some "coordinator"%string) (Some node_id)
    (Some (string_bytes (c_name k))) (strlen (c_name k)).

(** [w1] holds [web] and connects again on socket 6.  The handler of the
    new connection has registered [w1] when the old connection ends; its
    store of the socket comes after the cleanup of the old one. *)
Definition w1_reconnecting : system :=
  run [Accept 5; Frame 5 (env_at 0) (register_frame "w1" "host1 10.0.0.1 9000");
       Frame 5 (env_at 1) (heartbeat_frame "w1" resources_10_10_10_0_50);
       Deploy (env_at 2) (config_named "web");
       Accept 6;
       Received 6 (env_at 3) (register_frame "w1" "host1 10.0.0.1 9000");
       Hangup 5;
       Resumed 6 (env_at 3);
       Resumed 6 (env_at 3)].

(** ** Predicates and views used in the statements *)

(** The lifecycle of section 4.5 of the specification, in its words:
    STOPPED -> STARTING, STARTING -> RUNNING | ERROR, RUNNING -> STOPPING,
    STOPPING -> STOPPED | ERROR, any -> ERROR.  The program has no
    counterpart of it; it is used to name the transitions in the examples. *)
Definition spec_legal_transition (from to : container_state_t) : bool :=
  (to =? CONTAINER_ERROR)
  || ((from =? CONTAINER_STOPPED) && (to =? CONTAINER_STARTING))
  || ((from =? CONTAINER_STARTING) && (to =? CONTAINER_RUNNING))
  || ((from =? CONTAINER_RUNNING) && (to =? CONTAINER_STOPPING))
  || ((from =? CONTAINER_STOPPING) && (to =? CONTAINER_STOPPED)).

(** The state found under [id] in a table of nodes. *)
Definition state_in (id : string) (l : list node_t) : option node_state_t :=
  i ← find_node_by_id (Some id) l; n_state <$> l !! i.

(** [e] is a heartbeat frame from [id] that carries a resources record. *)
Definition reports_resources (id : string) (e : event) : bool :=
  match e with
  | Frame _ _ msg | Received _ _ msg =>
      match message_type_of_code (msg_type msg) with
      | Some MSG_NODE_HEARTBEAT =>
          streq (cstring (msg_sender_id msg)) id
          && (to_size_t (msg_data_length msg) >=? sizeof_resource_info_t)
      | _ => false
      end
  | _ => false
  end.

(** [e] is the end of a handler thread whose local [node_id] is [id]: its
    [receive_message] fails, and its [node_id] is [id] and not empty. *)
Definition ends_connection_of (id : string) (s : system) (e : event) : bool :=
  match e with
  | Hangup socket | Lost socket =>
      match threads s !! socket with
      | Some id' => streq id' id && (strlen id' >? 0)
      | None => false
      end
  | _ => false
  end.

(** What the receiver reads out of a frame: the type, the two ids as C
    strings, the payload length and that many bytes of payload. *)
Definition decode_message (msg : message_t)
  : option message_type_t * string * string * Z * list byte :=
  (message_type_of_code (msg_type msg), cstring (msg_sender_id msg),
   cstring (msg_recipient_id msg), msg_data_length msg,
   take (Z.to_nat (msg_data_length msg)) (msg_data msg)).

(** A string without NUL, as every C string is. *)
Definition no_nul (s : string) : bool :=
  forallb (fun b => negb (Byte.eqb b NUL)) (list_byte_of_string s).

Arguments find_node_by_id : simpl never.
Arguments put_sent : simpl never.

(** ** Views used in the further properties *)

(** The record that [find_node_by_id] returns. *)
Definition lookup_node (id : string) (l : list node_t) : option node_t :=
  i ← find_node_by_id (Some id) l; l !! i.

(** The ids of the ledger records placed on worker [id], in ledger order. *)
Definition ledger_ids_of (id : string) (l : list container_t) : list string :=
  c_id <$> filter (fun k => c_node_id k = id) l.

(** The registry and the ledger agree: worker ids are unique, each worker's
    own container list names exactly the ledger records placed on it, in the
    same order, every ledger record names a registered worker, and both
    tables are within their arrays. *)
Definition consistent (c : coordinator) : Prop :=
  NoDup (n_id <$> nodes c)
  /\ Forall (fun node =>
             c_id <$> n_containers node
             = ledger_ids_of (n_id node) (deployed_containers c)) (nodes c)
  /\ Forall (fun k => c_node_id k ∈ (n_id <$> nodes c)) (deployed_containers c)
  /\ node_count c <= MAX_NODES
  /\ deployed_container_count c <= MAX_CONTAINERS.

(** A call that either succeeded (0), or failed (-1) and then left the
    registry, the ledger and the frames on the sockets of [c] as they were.
    What a failed call can have written is the beginning of one frame, on
    an open socket, when its [send] took the short count [bytes_sent]. *)
Definition fails_cleanly (bytes_sent : Z) (c : coordinator)
    (r : Z * coordinator) : Prop :=
  (fst r = 0 \/ fst r = -1)
  /\ (fst r <> 0 ->
      nodes (snd r) = nodes c
      /\ nodes_behind (snd r) = nodes_behind c
      /\ deployed_containers (snd r) = deployed_containers c
      /\ deployed_behind (snd r) = deployed_behind c
      /\ wire (snd r) = wire c
      /\ (short_writes (snd r) = short_writes c
          \/ exists fd msg,
               0 <= fd /\ 0 < bytes_sent /\ bytes_sent <> sizeof_message_t
               /\ short_writes (snd r)
                  = short_writes c
                    ++ [(fd, take (Z.to_nat bytes_sent) (message_bytes msg))])).

(** One connection that registers the [n] ids [n0], [n1], ... *)
Definition workers_registering (n : nat) : list event :=
  Accept 5
  :: map (fun k => Frame 5 (env_at 0)
                     (register_frame ("n" +:+ pretty k) "host 10.0.0.1 9000"))
       (seq 0 n).

(** A heartbeat frame as it arrives, with the length field set to [len]. *)
Definition heartbeat_of_length (id : string) (resources : list byte) (len : Z)
  : message_t :=
  mk_message (message_type_code MSG_NODE_HEARTBEAT)
    (strncpy (zeros MAX_NAME_LEN) id (MAX_NAME_LEN - 1))
    (strncpy (zeros MAX_NAME_LEN) "coordinator" (MAX_NAME_LEN - 1))
    len (memcpy (zeros (Z.to_nat sizeof_data)) resources (length resources)).

(** A frame as the coordinator writes it on a socket: the socket is open,
    the sender is "coordinator" and the type is one of the five the
    coordinator uses. *)
Definition coordinator_frame (entry : Z * list byte) : Prop :=
  0 <= fst entry
  /\ exists type recipient data len,
       snd entry
       = message_bytes (create_message type (Some "coordinator"%string)
                          (Some recipient) data len)
       /\ type ∈ [MSG_ACK; MSG_DEPLOY_CONTAINER; MSG_START_CONTAINER;
                  MSG_STOP_CONTAINER; MSG_DELETE_CONTAINER].

(** [c'] has what [c] had on the sockets, and then frames of the
    coordinator. *)
Definition sends (c c' : coordinator) : Prop :=
  exists new, wire c' = wire c ++ new /\ Forall coordinator_frame new.

(** [MAX_COMMAND_LEN] of include/distributed_lxc.h. *)
Definition MAX_COMMAND_LEN : nat := 2048.

(** ** src/worker.c

    The worker's globals: [node_id], [coordinator_socket], and
    [local_containers]/[local_container_count] as the list of live slots
    with the slots behind it.  [sent] lists what the [send] calls wrote to
    the coordinator's socket, oldest first: a frame, or the beginning of one
    when [send] took a short count. *)
Record worker := mk_worker {
  w_node_id : string;
  coordinator_socket : Z;
  local_containers : list container_t;
  local_behind : list container_t;
  sent : list (list byte)
}.

(** What the environment supplies to one iteration of the worker's loop:
    the clock, the return value of the one [lxc_*] call of lxc_manager.c
    that the iteration makes, the return values of the [send] of the status
    report and of the reply, and the bytes that a container record has in
    memory. *)
Record worker_environment := mk_worker_environment {
  w_now : Z;
  lxc_result : Z;
  status_bytes_sent : Z;
  reply_bytes_sent : Z;
  object_of : container_t -> list byte
}.

(** The [send] of the status report, resp. of the reply, took the whole
    frame. *)
Definition status_net_ok (env : worker_environment) : bool :=
  status_bytes_sent env =? sizeof_message_t.

Definition reply_net_ok (env : worker_environment) : bool :=
  reply_bytes_sent env =? sizeof_message_t.

Definition set_local_containers (w : worker) (l : list container_t) : worker :=
  mk_worker (w_node_id w) (coordinator_socket w) l (local_behind w) (sent w).

(** [send_message(coordinator_socket, &msg)], the result ignored. *)
Definition worker_send (bytes_sent : Z) (msg : message_t) (w : worker)
  : worker :=
  match snd (send_message bytes_sent (coordinator_socket w) msg) with
  | Some frame =>
      mk_worker (w_node_id w) (coordinator_socket w) (local_containers w)
        (local_behind w) (sent w ++ [frame])
  | None => w
  end.

(** lxc_manager.c, [lxc_create_container]: a configuration without a name
    is refused before any command runs; otherwise the result is that of the
    [lxc] commands. *)
Definition lxc_create_container (commands_result : Z) (config : lxc_config_t)
  : Z :=
  if strlen (config_name config) =? 0 then -1 else commands_result.

(** The record is written field by field into slot
    [local_containers[local_container_count]]; [started_at] and [log_file]
    are not assigned and keep what the slot held. *)
Definition local_container (slot : container_t) (node_id : string)
    (config : lxc_config_t) (now : Z) : container_t :=
  mk_container (snprintf_id MAX_NAME_LEN node_id (config_name config))
    (config_name config) node_id CONTAINER_STOPPED config now
    (c_started_at slot) (c_log_file slot).

Definition handle_deploy_container (env : worker_environment)
    (config : option lxc_config_t) (w : worker) : Z * worker :=
  match config with
  | None => (-1, w)
  | Some config =>
      if negb (lxc_create_container (lxc_result env) config =? 0) then (-1, w)
      else if Z.of_nat (length (local_containers w)) <? MAX_CONTAINERS then
        let slot := default zero_container (head (local_behind w)) in
        (0, mk_worker (w_node_id w) (coordinator_socket w)
              (local_containers w
               ++ [local_container slot (w_node_id w) config (w_now env)])
              (tail (local_behind w)) (sent w))
      else (-1, w)
  end.

Definition mark_running (now : Z) (k : container_t) : container_t :=
  mk_container (c_id k) (c_name k) (c_node_id k) CONTAINER_RUNNING
    (c_config k) (c_created_at k) now (c_log_file k).

(** "Notify coordinator of status change": the record goes out whole. *)
Definition status_message (env : worker_environment) (w : worker) (i : nat)
  : message_t :=
  create_message MSG_CONTAINER_STATUS (Some (w_node_id w))
    (Some "coordinator"%string)
    (Some (object_of env (default zero_container (local_containers w !! i))))
    sizeof_container_t.

Definition handle_start_container (env : worker_environment)
    (container_name : option string) (w : worker) : Z * worker :=
  match container_name with
  | None => (-1, w)
  | Some container_name =>
      match find_index (fun k => streq (c_name k) container_name)
              (local_containers w) with
      | None => (-1, w)
      | Some i =>
          let w1 :=
            set_local_containers w
              (alter (set_c_state CONTAINER_STARTING) i (local_containers w)) in
          if lxc_result env =? 0 then
            let w2 :=
              set_local_containers w1
                (alter (mark_running (w_now env)) i (local_containers w1)) in
            (0, worker_send (status_bytes_sent env) (status_message env w2 i) w2)
          else
            (-1, set_local_containers w1
                   (alter (set_c_state CONTAINER_ERROR) i (local_containers w1)))
      end
  end.

Definition handle_stop_container (env : worker_environment)
    (container_name : option string) (w : worker) : Z * worker :=
  match container_name with
  | None => (-1, w)
  | Some container_name =>
      match find_index (fun k => streq (c_name k) container_name)
              (local_containers w) with
      | None => (-1, w)
      | Some i =>
          let w1 :=
            set_local_containers w
              (alter (set_c_state CONTAINER_STOPPING) i (local_containers w)) in
          if lxc_result env =? 0 then
            let w2 :=
              set_local_containers w1
                (alter (set_c_state CONTAINER_STOPPED) i (local_containers w1)) in
            (0, worker_send (status_bytes_sent env) (status_message env w2 i) w2)
          else
            (-1, set_local_containers w1
                   (alter (set_c_state CONTAINER_ERROR) i (local_containers w1)))
      end
  end.

(** The record leaves the table before [lxc_destroy_container] runs. *)
Definition handle_delete_container (env : worker_environment)
    (container_name : option string) (w : worker) : Z * worker :=
  match container_name with
  | None => (-1, w)
  | Some container_name =>
      match find_index (fun k => streq (c_name k) container_name)
              (local_containers w) with
      | None => (-1, w)
      | Some container_index =>
          let w1 :=
            mk_worker (w_node_id w) (coordinator_socket w)
              (delete container_index (local_containers w))
              (option_list (last (local_containers w)) ++ local_behind w)
              (sent w) in
          if lxc_result env =? 0 then (0, w1) else (-1, w1)
      end
  end.

(** The name that the START, STOP and DELETE cases of
    [message_handler_thread] copy out of a frame:
    [name_len = data_length < MAX_NAME_LEN ? data_length : MAX_NAME_LEN - 1],
    [strncpy(container_name, msg.data, name_len)] and
    [container_name[name_len] = 0].  With a negative [data_length] both
    writes leave the array: the behaviour is undefined, [None]. *)
Definition container_name_of (msg : message_t) : option string :=
  let name_len :=
    if msg_data_length msg <? Z.of_nat MAX_NAME_LEN
    then msg_data_length msg else Z.of_nat MAX_NAME_LEN - 1 in
  if name_len <? 0 then None
  else Some (cstring (take (Z.to_nat name_len) (msg_data msg))).

(** The configuration that the DEPLOY case reads in place,
    [(lxc_config_t* )msg.data]. *)
Definition config_of (msg : message_t) : lxc_config_t :=
  mk_lxc_config (take (Z.to_nat sizeof_lxc_config_t) (msg_data msg)).

(** The reply of a case: ACK with [done] when the handler returned 0, ERROR
    with [failed] otherwise. *)
Definition reply (env : worker_environment) (done failed : string)
    (r : Z * worker) : worker :=
  let w := snd r in
  let msg :=
    if fst r =? 0
    then create_message MSG_ACK (Some (w_node_id w)) (Some "coordinator"%string)
           (Some (string_bytes done)) (strlen done)
    else create_message MSG_ERROR (Some (w_node_id w))
           (Some "coordinator"%string) (Some (string_bytes failed))
           (strlen failed) in
  worker_send (reply_bytes_sent env) msg w.

(** The body of the [switch (msg.type)] of [message_handler_thread]. *)
Definition worker_dispatch (env : worker_environment) (msg : message_t)
    (w : worker) : option worker :=
  match message_type_of_code (msg_type msg) with
  | Some MSG_DEPLOY_CONTAINER =>
      if to_size_t (msg_data_length msg) >=? sizeof_lxc_config_t
      then Some (reply env "deployed" "deployment failed"
                   (handle_deploy_container env (Some (config_of msg)) w))
      else Some w
  | Some MSG_START_CONTAINER =>
      name ← container_name_of msg;
      Some (reply env "started" "start failed"
              (handle_start_container env (Some name) w))
  | Some MSG_STOP_CONTAINER =>
      name ← container_name_of msg;
      Some (reply env "stopped" "stop failed"
              (handle_stop_container env (Some name) w))
  | Some MSG_DELETE_CONTAINER =>
      name ← container_name_of msg;
      Some (reply env "deleted" "delete failed"
              (handle_delete_container env (Some name) w))
  | _ => Some w
  end.

(** [message_handler_thread] on the sequence of results of [recv]: the loop
    ends when [receive_message] fails. *)
Fixpoint message_handler_thread
    (rxs : list (worker_environment * list byte)) (w : worker) : option worker :=
  match rxs with
  | [] => Some w
  | (env, rx) :: rest =>
      if coordinator_socket w <? 0 then Some w
      else
        match receive_message (coordinator_socket w) rx with
        | None => Some w
        | Some msg =>
            w' ← worker_dispatch env msg w; message_handler_thread rest w'
        end
  end.

(** [register_with_coordinator] up to the [send]: the data is
    [snprintf(registration_data, MAX_COMMAND_LEN, "%s %s %d", hostname,
    local_ip, 0)]. *)
Definition registration_message (node_id hostname local_ip : string)
  : message_t :=
  let registration_data :=
    String.substring 0 (MAX_COMMAND_LEN - 1)
      (hostname ++ " " ++ local_ip ++ " 0")%string in
  create_message MSG_REGISTER_NODE (Some node_id) (Some "coordinator"%string)
    (Some (string_bytes registration_data)) (strlen registration_data).

(** The type field of a frame on a socket. *)
Definition frame_type (frame : list byte) : option message_type_t :=
  message_type_of_code (msg_type (message_of_bytes frame)).

(** The call [r] on state [c] succeeded and wrote one frame to socket [fd];
    the worker that reads it from its socket [ws] gets a frame of type
    [type] and copies the container name [name] out of it. *)
Definition command_reaches_worker (r : Z * coordinator) (c : coordinator)
    (fd ws : Z) (type : message_type_t) (name : string) : Prop :=
  fst r = 0
  /\ exists frame msg,
       wire (snd r) = wire c ++ [(fd, frame)]
       /\ receive_message ws frame = Some msg
       /\ frame_type frame = Some type
       /\ container_name_of msg = Some name.

(** Worker [w1] has registered on socket 5 and reported its resources. *)
Definition w1_ready : system :=
  run [Accept 5; Frame 5 (env_at 0) (register_frame "w1" "host1 10.0.0.1 9000");
       Frame 5 (env_at 1) (heartbeat_frame "w1" resources_10_10_10_0_50)].

(** The worker process of [w1], connected on its socket 3, and an
    environment in which every [lxc] command and every [send] succeeds. *)
Definition worker_w1 : worker := mk_worker "w1" 3 [] [] [].

Definition all_goes_well (now : Z) : worker_environment :=
  mk_worker_environment now 0 sizeof_message_t sizeof_message_t
    (fun k => container_object (c_id k) (c_state k)).

(** The types of the frames with which a case of [message_handler_thread]
    answers, for the return value [r] of its handler: on success a status
    report where the handler sends one, then ACK; otherwise ERROR. *)
Definition answer (status : bool) (r : Z) : list (option message_type_t) :=
  if r =? 0
  then (if status then [Some MSG_CONTAINER_STATUS] else []) ++ [Some MSG_ACK]
  else [Some MSG_ERROR].

(** A record of the worker's table between two iterations of its loop. *)
Definition at_rest (node_id : string) (k : container_t) : Prop :=
  (c_state k = CONTAINER_STOPPED \/ c_state k = CONTAINER_RUNNING
   \/ c_state k = CONTAINER_ERROR)
  /\ c_node_id k = node_id
  /\ c_name k = config_name (c_config k)
  /\ c_id k = snprintf_id MAX_NAME_LEN node_id (c_name k)
  /\ 0 < strlen (c_name k).

(** The worker [w1] holding the container [web], deployed and not started;
    and a START frame for it as the coordinator builds it. *)
Definition worker_w1_with_web : worker :=
  mk_worker "w1" 3 [local_container zero_container "w1" (config_named "web") 2]
    [] [].

Definition start_web_frame : message_t :=
  create_message MSG_START_CONTAINER (Some "coordinator"%string)
    (Some "w1"%string) (Some (string_bytes "web")) (strlen "web").

(** What the worker [w1] receives when the coordinator deploys [web] and the
    operator then starts it. *)
Definition deploy_web_frame : message_t :=
  create_message MSG_DEPLOY_CONTAINER (Some "coordinator"%string)
    (Some "w1"%string) (Some (config_object (config_named "web")))
    sizeof_lxc_config_t.

Definition deploy_then_start_web : list (worker_environment * list byte) :=
  [(all_goes_well 2, message_bytes deploy_web_frame);
   (all_goes_well 3, message_bytes start_web_frame)].

(** ** src/yaml_parser.c: parse_yaml_line *)

(** What [parse_yaml_line] does with a line: it returns 0 and the line is
    skipped; it returns 1 with [indent], [key] and [value] filled in; or the
    key does not fit [key[MAX_NAME_LEN]] and the copy writes behind the
    array, which is undefined. *)
Inductive yaml_line :=
  | yaml_skip
  | yaml_pair (indent : nat) (key value : string)
  | yaml_overflow.

Definition is_blank (b : byte) : bool :=
  Byte.eqb b " "%byte || Byte.eqb b x09.

(** "Count indentation". *)
Fixpoint count_indent (line : list byte) : nat :=
  match line with
  | x :: rest => if is_blank x then S (count_indent rest) else 0%nat
  | [] => 0%nat
  end.

(** "Remove trailing whitespace from key". *)
Fixpoint remove_trailing_space (key : list byte) : list byte :=
  match key with
  | [] => []
  | x :: rest =>
      match remove_trailing_space rest with
      | [] => if isspace x then [] else [x]
      | rest' => x :: rest'
      end
  end.

Fixpoint skip_blank (s : list byte) : list byte :=
  match s with
  | x :: rest => if is_blank x then skip_blank rest else s
  | [] => []
  end.

(** "Remove trailing newline": the last byte, if it is a newline. *)
Fixpoint remove_newline (value : list byte) : list byte :=
  match value with
  | [] => []
  | [x] => if Byte.eqb x x0a then [] else [x]
  | x :: rest => x :: remove_newline rest
  end.

(** [line] is the bytes of the C string [line], without its terminator.
    The arrays are those of the one caller, [parse_yaml_file]:
    [key[MAX_NAME_LEN]], and [value] as large as [line], so that the copy of
    the value always fits. *)
Definition parse_yaml_line (line : list byte) : yaml_line :=
  match line with
  | [] => yaml_skip
  | first :: _ =>
      if Byte.eqb first "#"%byte then yaml_skip
      else
        let indent := count_indent line in
        let start := drop indent line in
        match find_index (fun b => Byte.eqb b ":"%byte) start with
        | None => yaml_skip
        | Some key_len =>
            if (MAX_NAME_LEN <=? key_len)%nat then yaml_overflow
            else
              let key := remove_trailing_space (take key_len start) in
              let value_start := skip_blank (drop (S key_len) start) in
              yaml_pair indent (string_of_list_byte key)
                (string_of_list_byte (remove_newline value_start))
        end
  end.

(** A line as a configuration file has it: [indent] spaces, the key, a
    colon, [gap] blanks, the value and the end of the line. *)
Definition yaml_text (indent : nat) (key : list byte) (gap : list byte)
    (value : list byte) (newline : bool) : list byte :=
  replicate indent " "%byte ++ key ++ [":"%byte] ++ gap ++ value
  ++ (if newline then [x0a] else []).

(** A key that [parse_yaml_line] gives back as written: no colon in it, no
    blank at its start, no white space at its end, and short enough for
    [key[MAX_NAME_LEN]]. *)
Definition plain_key (key : list byte) : Prop :=
  Forall (fun b => b <> ":"%byte) key
  /\ (forall b, head key = Some b -> is_blank b = false)
  /\ (forall b, last key = Some b -> isspace b = false)
  /\ (length key < MAX_NAME_LEN)%nat.

(** A value that [parse_yaml_line] gives back as written: no blank at its
    start and no newline at its end. *)
Definition plain_value (value : list byte) : Prop :=
  (forall b, head value = Some b -> is_blank b = false)
  /\ (forall b, last value = Some b -> b <> x0a).

(** ** src/yaml_parser.c: the tree

    [yaml_node_t]; a pointer to a node is the index of the node among the
    nodes that [create_yaml_node] has allocated so far ([malloc] is taken
    to succeed). *)
Record yaml_node_t := mk_yaml_node {
  y_key : string;
  y_value : string;
  y_next : option nat;
  y_child : option nat
}.

(** The allocated nodes and the locals of [parse_yaml_file] that are read
    again: [*root], [last_node] and [last_indent] ([current_parent] is only
    written). *)
Record yaml_parser := mk_yaml_parser {
  y_nodes : list yaml_node_t;
  y_root : option nat;
  last_node : option nat;
  last_indent : Z
}.

Definition set_next (new_node : nat) (n : yaml_node_t) : yaml_node_t :=
  mk_yaml_node (y_key n) (y_value n) (Some new_node) (y_child n).

Definition set_child (new_node : nat) (n : yaml_node_t) : yaml_node_t :=
  mk_yaml_node (y_key n) (y_value n) (y_next n) (Some new_node).

(** [while (parent->next) parent = parent->next;]: [None] when the loop has
    not ended after [fuel] steps or follows a pointer to no node. *)
Fixpoint last_sibling (fuel : nat) (l : list yaml_node_t) (parent : nat)
  : option nat :=
  match fuel with
  | O => None
  | S fuel =>
      match l !! parent with
      | None => None
      | Some n =>
          match y_next n with
          | Some next => last_sibling fuel l next
          | None => Some parent
          end
      end
  end.

(** The body of the loop of [parse_yaml_file] for a line that
    [parse_yaml_line] returned 1 for. *)
Definition add_yaml_node (indent : nat) (key value : string) (st : yaml_parser)
  : option yaml_parser :=
  let new_node := length (y_nodes st) in
  let l := y_nodes st ++ [mk_yaml_node key value None None] in
  match y_root st with
  | None =>
      Some (mk_yaml_parser l (Some new_node) (Some new_node) (Z.of_nat indent))
  | Some root =>
      let at_last (f : nat -> yaml_node_t -> yaml_node_t) :=
        match last_node st with
        | Some last => alter (f new_node) last l
        | None => l
        end in
      l' ←
        (if last_indent st <? Z.of_nat indent then Some (at_last set_child)
         else if Z.of_nat indent =? last_indent st then Some (at_last set_next)
         else if Z.of_nat indent =? 0 then
           parent ← last_sibling (length l) l root;
           Some (alter (set_next new_node) parent l)
         else Some (at_last set_next));
      Some (mk_yaml_parser l' (Some root) (Some new_node) (Z.of_nat indent))
  end.

(** [parse_yaml_file] on the lines that [fgets] delivers.  [None]: a key
    overflowed its array, or a loop did not end. *)
Fixpoint parse_yaml_lines (lines : list (list byte)) (st : yaml_parser)
  : option yaml_parser :=
  match lines with
  | [] => Some st
  | line :: rest =>
      match parse_yaml_line line with
      | yaml_skip => parse_yaml_lines rest st
      | yaml_pair indent key value =>
          st' ← add_yaml_node indent key value st; parse_yaml_lines rest st'
      | yaml_overflow => None
      end
  end.

Definition parse_yaml_file (lines : list (list byte)) : option yaml_parser :=
  parse_yaml_lines lines (mk_yaml_parser [] None None (-1)).

(** [get_yaml_value]: [Some None] is the result NULL, [Some (Some v)] a
    pointer to the value [v]; [None] when the search has not ended after
    [fuel] calls and iterations, or follows a pointer to no node. *)
Fixpoint get_yaml_value (fuel : nat) (l : list yaml_node_t) (root : option nat)
    (key : option string) : option (option string) :=
  match fuel with
  | O => None
  | S fuel =>
      match root, key with
      | Some current, Some k =>
          match l !! current with
          | None => None
          | Some n =>
              if streq (y_key n) k then Some (Some (y_value n))
              else
                match get_yaml_value fuel l (y_child n) key with
                | None => None
                | Some (Some result) => Some (Some result)
                | Some None => get_yaml_value fuel l (y_next n) key
                end
          end
      | _, _ => Some None
      end
  end.

(** The keys and values of the lines of a file that are not skipped, in the
    order of the file. *)
Fixpoint yaml_pairs (lines : list (list byte)) : list (string * string) :=
  match lines with
  | [] => []
  | line :: rest =>
      match parse_yaml_line line with
      | yaml_pair _ key value => (key, value) :: yaml_pairs rest
      | _ => yaml_pairs rest
      end
  end.

(** The value of the first pair with the key. *)
Fixpoint first_value (key : string) (pairs : list (string * string))
  : option string :=
  match pairs with
  | [] => None
  | (k, v) :: rest => if streq k key then Some v else first_value key rest
  end.

(** The nodes that a walk from [root] visits, each before its children and
    its children before its next sibling. *)
Inductive walk (l : list yaml_node_t) : option nat -> list nat -> Prop :=
  | walk_null : walk l None []
  | walk_node p n below after :
      l !! p = Some n ->
      walk l (y_child n) below -> walk l (y_next n) after ->
      walk l (Some p) (p :: below ++ after).

(** The key and the value of each of the nodes [visited], in that order. *)
Definition node_pair (n : yaml_node_t) : string * string := (y_key n, y_value n).

Definition node_pairs (l : list yaml_node_t) (visited : list nat)
  : list (string * string) :=
  omap (fun p => node_pair <$> l !! p) visited.

(** What [parse_yaml_file] keeps true from line to line: the nodes hold the
    pairs read so far, in order of the file; a walk from the root visits
    every node, in the order of allocation; [last_node] is the node
    allocated last, and nothing hangs from it yet. *)
Definition yaml_invariant (st : yaml_parser) (pairs : list (string * string))
  : Prop :=
  node_pair <$> y_nodes st = pairs
  /\ walk (y_nodes st) (y_root st) (seq 0 (length (y_nodes st)))
  /\ match y_root st with
     | None => y_nodes st = []
     | Some _ =>
         exists front leaf,
           y_nodes st = front ++ [leaf]
           /\ last_node st = Some (length front)
           /\ y_next leaf = None /\ y_child leaf = None
     end.

(** ** src/yaml_parser.c: extract_lxc_config and parse_lxc_yaml *)

(** [atoi], which is [(int) strtol(s, NULL, 10)]: white space, an optional
    sign, digits; 0 without digits. *)
Definition atoi (s : string) : Z :=
  default 0 (scan_int (skip_space (string_bytes s))).

(** The eight bytes of a pointer in memory. *)
Definition pointer_bytes (address : Z) : list byte :=
  int_bytes address ++ int_bytes (address / 2 ^ 32).

(** A [char] array member of the zeroed [lxc_config_t] after
    [strncpy(member, value, size - 1)], or untouched without a value. *)
Definition string_member (size : nat) (value : option string) : list byte :=
  match value with
  | Some s => strncpy (zeros size) s (size - 1)
  | None => zeros size
  end.

(** A pointer member: the address that [malloc] returned, when the key has
    a value. *)
Definition pointer_member (value : option string) (address : Z) : list byte :=
  match value with
  | Some _ => pointer_bytes address
  | None => zeros 8
  end.

Definition int_member (value : option Z) : list byte :=
  match value with
  | Some i => int_bytes i
  | None => zeros 4
  end.

(** The addresses that the three [malloc] calls of [extract_lxc_config]
    return (0 when one fails). *)
Record allocations := mk_allocations {
  environment_vars_address : Z;
  mount_points_address : Z;
  network_config_address : Z
}.

(** [extract_lxc_config].  [None]: a search did not end; [Some None]: the
    return value -1, with [*config] untouched; [Some (Some config)]: 0, with
    [*config] as it is in memory then: [name], [image], [config_file], the
    three pointers, [cpu_limit], [memory_limit], [privileged] and four
    bytes of padding. *)
Definition extract_lxc_config (fuel : nat) (l : list yaml_node_t)
    (root : option nat) (malloc : allocations) : option (option lxc_config_t) :=
  match root with
  | None => Some None
  | Some _ =>
      name ← get_yaml_value fuel l root (Some "name"%string);
      image ← get_yaml_value fuel l root (Some "image"%string);
      config_file ← get_yaml_value fuel l root (Some "config"%string);
      cpu_limit_str ← get_yaml_value fuel l root (Some "cpu_limit"%string);
      memory_limit_str ← get_yaml_value fuel l root (Some "memory_limit"%string);
      privileged_str ← get_yaml_value fuel l root (Some "privileged"%string);
      env_vars ← get_yaml_value fuel l root (Some "environment"%string);
      mounts ← get_yaml_value fuel l root (Some "mounts"%string);
      network ← get_yaml_value fuel l root (Some "network"%string);
      Some (Some (mk_lxc_config
        (string_member MAX_NAME_LEN name
         ++ string_member MAX_NAME_LEN image
         ++ string_member MAX_PATH_LEN config_file
         ++ pointer_member env_vars (environment_vars_address malloc)
         ++ pointer_member mounts (mount_points_address malloc)
         ++ pointer_member network (network_config_address malloc)
         ++ int_member (atoi <$> cpu_limit_str)
         ++ int_member (atoi <$> memory_limit_str)
         ++ int_member ((fun s => if streq s "true" then 1 else 0)
                          <$> privileged_str)
         ++ zeros 4)))
  end.

(** [parse_lxc_yaml] on a file that [fopen] opened, given as the lines that
    [fgets] delivers. *)
Definition parse_lxc_yaml (lines : list (list byte)) (malloc : allocations)
  : option (option lxc_config_t) :=
  st ← parse_yaml_file lines;
  extract_lxc_config (S (length (y_nodes st))) (y_nodes st) (y_root st) malloc.

(** A line of a file, with its newline. *)
Definition text_line (s : string) : list byte := list_byte_of_string s ++ [x0a].

(** A configuration file with a nested block and a repeated key. *)
Definition web_yaml : list (list byte) :=
  [text_line "# a web server";
   text_line "name: web";
   text_line "image: ubuntu:22.04";
   text_line "limits:";
   text_line "  cpu_limit: 2";
   text_line "  name: inner";
   text_line "privileged: true"].

(** ** src/coordinator.c: coordinator_command_loop *)

(** The locals of the loop that live across iterations.  They are not
    initialised: their first content is whatever the stack holds. *)
Record command_buffers := mk_command_buffers {
  yaml_file : string;
  container_id : string
}.

(** What one iteration of the loop calls. *)
Inductive operator_action :=
  | call_deploy (yaml_file : string)
      (** [parse_lxc_yaml(yaml_file, &config)], then on success
          [deploy_container_auto(&config)] *)
  | call_start (container_id : string)
  | call_stop (container_id : string)
  | call_delete (container_id : string)
  | call_list_containers
  | call_list_nodes
  | quit
  | unknown_command (command : string)
  | no_action.

(** [command[strcspn(command, "\n")] = '\0']. *)
Fixpoint cut_at_newline (command : list byte) : list byte :=
  match command with
  | [] => []
  | x :: rest => if Byte.eqb x x0a then [] else x :: cut_at_newline rest
  end.

(** [strncmp(command, word, strlen(word)) == 0]. *)
Definition starts_with (word : string) (command : list byte) : bool :=
  streq (string_of_list_byte (take (String.length word) command)) word.

(** [sscanf(s, "%s", buffer)] for [buffer[size]]: white space is skipped and
    the run of bytes up to the next white space is stored with its
    terminator.  Without such a run nothing is stored and the buffer keeps
    its content; a run that does not fit is written behind the array, which
    is undefined, [None]. *)
Definition sscanf_s (s : list byte) (buffer : string) (size : nat)
  : option string :=
  match fst (scan_word (skip_space s)) with
  | [] => Some buffer
  | word =>
      if (size <=? length word)%nat then None
      else Some (string_of_list_byte word)
  end.

(** The body of the loop for a line that [fgets] delivered: the buffers
    afterwards and the call made. *)
Definition coordinator_command (line : list byte) (b : command_buffers)
  : option (command_buffers * operator_action) :=
  let command := cut_at_newline line in
  if starts_with "deploy " command then
    file ← sscanf_s (drop 7 command) (yaml_file b) MAX_PATH_LEN;
    Some (mk_command_buffers file (container_id b), call_deploy file)
  else if starts_with "start " command then
    id ← sscanf_s (drop 6 command) (container_id b) MAX_NAME_LEN;
    Some (mk_command_buffers (yaml_file b) id, call_start id)
  else if starts_with "stop " command then
    id ← sscanf_s (drop 5 command) (container_id b) MAX_NAME_LEN;
    Some (mk_command_buffers (yaml_file b) id, call_stop id)
  else if starts_with "delete " command then
    id ← sscanf_s (drop 7 command) (container_id b) MAX_NAME_LEN;
    Some (mk_command_buffers (yaml_file b) id, call_delete id)
  else if streq (string_of_list_byte command) "list containers" then
    Some (b, call_list_containers)
  else if streq (string_of_list_byte command) "list nodes" then
    Some (b, call_list_nodes)
  else if streq (string_of_list_byte command) "quit" then
    Some (b, quit)
  else if (0 <? length command)%nat then
    Some (b, unknown_command (string_of_list_byte command))
  else Some (b, no_action).

(** An argument as the operator types it: not empty, without white space,
    and short enough for [container_id[MAX_NAME_LEN]]. *)
Definition argument (word : list byte) : Prop :=
  word <> [] /\ Forall (fun x => isspace x = false) word
  /\ (length word < MAX_NAME_LEN)%nat.

(** A word of a registration: not empty, without white space or NUL. *)
Definition c_word (w : list byte) : Prop :=
  w <> [] /\ Forall (fun x => isspace x = false /\ x <> NUL) w.

(** A registry record with another [resources.container_count], the number
    of containers that the worker itself reports. *)
Definition with_reported_count (count : Z) (node : node_t) : node_t :=
  mk_node (n_id node) (n_hostname node) (n_ip_address node) (n_port node)
    (n_state node)
    (mk_resource_info (cpu_usage (n_resources node))
       (memory_usage (n_resources node)) (disk_usage (n_resources node))
       count (max_containers (n_resources node)))
    (n_last_heartbeat node) (n_socket_fd node) (n_containers node).

(** src/lxc_manager.c, [get_system_resources], as the worker's heartbeat
    sends it: the three usages and the count are what the commands gave (or
    what the uninitialised struct held), [max_containers] is always 50. *)
Definition system_resources (cpu memory disk : list byte) (count : Z)
  : list byte :=
  resources_object cpu memory disk count 50.

(** * Properties *)

(** ** Searches in a table *)

Lemma find_index_Some {A} (p : A -> bool) (l : list A) (i : nat) :
  find_index p l = Some i ->
  exists x, l !! i = Some x /\ p x = true
    /\ forall j y, l !! j = Some y -> (j < i)%nat -> p y = false.
Proof.
  revert i. induction l as [|a l IH]; intros i; simpl; [discriminate|].
  destruct (p a) eqn:Ha.
  - intros [= <-]. exists a. repeat split; [assumption|]. intros j y _ Hj. lia.
  - destruct (find_index p l) as [k|]; simpl; [|discriminate].
    intros [= <-]. destruct (IH k eq_refl) as (x & Hx & Hpx & Hlt).
    exists x. repeat split; [assumption..|].
    intros [|j] y Hy Hj; simpl in Hy.
    + congruence.
    + apply (Hlt j); [assumption | lia].
Qed.

Lemma find_index_None {A} (p : A -> bool) (l : list A) :
  find_index p l = None -> forall x, x ∈ l -> p x = false.
Proof.
  induction l as [|a l IH]; simpl; intros H x Hx.
  - inversion Hx.
  - destruct (p a) eqn:Ha; [discriminate|].
    destruct (find_index p l); [discriminate|].
    apply elem_of_cons in Hx as [-> | Hx]; [assumption | by apply IH].
Qed.

Lemma find_index_first {A} (p : A -> bool) (l : list A) (i : nat) (x : A) :
  l !! i = Some x -> p x = true ->
  (forall j y, l !! j = Some y -> (j < i)%nat -> p y = false) ->
  find_index p l = Some i.
Proof.
  revert i. induction l as [|a l IH]; intros [|i] Hx Hp Hlt; simpl in *;
    try discriminate.
  - injection Hx as ->. by rewrite Hp.
  - rewrite (Hlt 0%nat a eq_refl) by lia.
    rewrite (IH i Hx Hp); [reflexivity|].
    intros j y Hy Hj. apply (Hlt (S j)); [assumption | lia].
Qed.

(** An update that leaves the searched key alone does not move the hit. *)
Lemma find_index_alter {A} (p : A -> bool) (f : A -> A) (k : nat) (l : list A) :
  (forall x, p (f x) = p x) -> find_index p (alter f k l) = find_index p l.
Proof.
  intros Hf. revert k. induction l as [|a l IH]; intros [|k];
    try reflexivity.
  - change (alter f 0%nat (a :: l)) with (f a :: l). simpl. by rewrite Hf.
  - change (alter f (S k) (a :: l)) with (a :: alter f k l). simpl.
    by rewrite IH.
Qed.

Lemma find_index_lt {A} (p : A -> bool) (l : list A) (i : nat) :
  find_index p l = Some i -> (i < length l)%nat.
Proof.
  intros H. destruct (find_index_Some p l i H) as (x & Hx & _).
  by apply lookup_lt_Some in Hx.
Qed.

(** ** The order of [double] *)

Lemma SFltb_irrefl x : SFltb x x = false.
Proof.
  unfold SFltb. destruct x as [s|s| |s m e]; simpl; try reflexivity.
  - destruct s; reflexivity.
  - rewrite Z.compare_refl.
    change (Pos.compare_cont Eq m m) with (Pos.compare m m).
    rewrite Pos.compare_refl. destruct s; reflexivity.
Qed.

Lemma SFltb_trans x y z :
  SFltb x y = true -> SFltb y z = true -> SFltb x z = true.
Proof.
  unfold SFltb.
  destruct x as [sx|sx| |sx mx ex], y as [sy|sy| |sy my ey],
    z as [sz|sz| |sz mz ez];
    simpl; try discriminate; try reflexivity;
    try (destruct sx; try discriminate; try reflexivity);
    try (destruct sy; try discriminate; try reflexivity);
    try (destruct sz; try discriminate; try reflexivity).
  all: change (Pos.compare_cont Eq) with Pos.compare.
  all: destruct (Z.compare_spec ex ey); try discriminate;
       destruct (Z.compare_spec ey ez); try discriminate;
       destruct (Z.compare_spec ex ez); try reflexivity; try lia; subst.
  all: destruct (Pos.compare_spec mx my); try discriminate;
       destruct (Pos.compare_spec my mz); try discriminate;
       destruct (Pos.compare_spec mx mz); try reflexivity; try lia.
Qed.

Lemma ltb_irrefl (x : float) : (x <? x)%float = false.
Proof. rewrite ltb_spec. apply SFltb_irrefl. Qed.

Lemma ltb_trans (x y z : float) :
  (x <? y)%float = true -> (y <? z)%float = true -> (x <? z)%float = true.
Proof. rewrite !ltb_spec. apply SFltb_trans. Qed.

Lemma ltb_asym (x y : float) :
  (x <? y)%float = true -> (y <? x)%float = false.
Proof.
  intros H. destruct (y <? x)%float eqn:E; [|reflexivity].
  rewrite <- (ltb_irrefl x). symmetry. by apply ltb_trans with y.
Qed.

(** ** Placement *)

Lemma considered_true now node :
  considered now node = true <->
  n_state node = NODE_CONNECTED /\ now - n_last_heartbeat node <= 30
  /\ n_container_count node < max_containers (n_resources node).
Proof.
  unfold considered. split.
  - destruct (n_state node); simpl; try discriminate.
    destruct (Z.gtb_spec (now - n_last_heartbeat node) 30); simpl;
      [discriminate|].
    destruct (Z.geb_spec (n_container_count node)
                (max_containers (n_resources node))); [discriminate|].
    intros _. repeat split; lia.
  - intros (-> & Hhb & Hcap). simpl.
    destruct (Z.gtb_spec (now - n_last_heartbeat node) 30); [lia|]. simpl.
    destruct (Z.geb_spec (n_container_count node)
                (max_containers (n_resources node))); [lia | reflexivity].
Qed.

(** What the loop of [find_best_node] computes from slot [i] on: either no
    considered node beats [best_score] and the best stays, or the result is
    a considered node that beats it, that no considered node exceeds, and
    that comes before every considered node with the same score. *)
Lemma best_node_loop_spec now l :
  forall i best_node best_score,
    let r := best_node_loop now l i best_node best_score in
    (fst r = best_node /\ snd r = best_score
     /\ forall m, m ∈ l -> considered now m = true ->
          (best_score <? node_score m)%float = false)
    \/ (exists k m, l !! k = Some m /\ fst r = Some (i + k)%nat
          /\ snd r = node_score m /\ considered now m = true
          /\ (best_score <? node_score m)%float = true
          /\ forall k' m', l !! k' = Some m' -> considered now m' = true ->
               (node_score m <? node_score m')%float = false
               /\ (node_score m' = node_score m -> (k <= k')%nat)).
Proof.
  induction l as [|node rest IH]; intros i best_node best_score; simpl.
  { left. split; [reflexivity|]. split; [reflexivity|].
    intros m Hm. inversion Hm. }
  destruct (considered now node) eqn:Hc;
    [destruct (best_score <? node_score node)%float eqn:Hlt|].
  - destruct (IH (S i) (Some i) (node_score node))
      as [(Hr & Hs & Hnone) | (k & m & Hk & Hr & Hs & Hm & Hb & Hmax)].
    + right. exists 0%nat, node. rewrite Hr, Hs, Nat.add_0_r.
      do 5 (split; [done|]). intros [|k'] m' Hk' Hc'; simpl in Hk'.
      * injection Hk' as <-. split; [apply ltb_irrefl | lia].
      * split; [|lia]. apply Hnone; [|assumption].
        apply list_elem_of_lookup. by exists k'.
    + right. exists (S k), m. rewrite Hr, Hs.
      split; [done|]. split; [f_equal; lia|]. do 2 (split; [done|]).
      split; [by apply ltb_trans with (node_score node)|].
      intros [|k'] m' Hk' Hc'; simpl in Hk'.
      * injection Hk' as <-. split; [by apply ltb_asym|].
        intros Heq. rewrite Heq in Hb. by rewrite ltb_irrefl in Hb.
      * destruct (Hmax k' m' Hk' Hc') as [Hle Hfirst].
        split; [assumption|]. intros Heq. specialize (Hfirst Heq). lia.
  - destruct (IH (S i) best_node best_score)
      as [(Hr & Hs & Hnone) | (k & m & Hk & Hr & Hs & Hm & Hb & Hmax)].
    + left. do 2 (split; [done|]).
      intros m Hin Hcm. apply elem_of_cons in Hin as [-> | Hin];
        [assumption | by apply Hnone].
    + right. exists (S k), m. rewrite Hr, Hs.
      split; [done|]. split; [f_equal; lia|]. do 3 (split; [done|]).
      intros [|k'] m' Hk' Hc'; simpl in Hk'.
      * injection Hk' as <-. split.
        -- destruct (node_score m <? node_score node)%float eqn:E;
             [|reflexivity].
           rewrite <- Hlt. symmetry. by apply ltb_trans with (node_score m).
        -- intros Heq. rewrite <- Heq in Hb. congruence.
      * destruct (Hmax k' m' Hk' Hc') as [Hle Hfirst].
        split; [assumption|]. intros Heq. specialize (Hfirst Heq). lia.
  - destruct (IH (S i) best_node best_score)
      as [(Hr & Hs & Hnone) | (k & m & Hk & Hr & Hs & Hm & Hb & Hmax)].
    + left. do 2 (split; [done|]).
      intros m Hin Hcm. apply elem_of_cons in Hin as [-> | Hin];
        [congruence | by apply Hnone].
    + right. exists (S k), m. rewrite Hr, Hs.
      split; [done|]. split; [f_equal; lia|]. do 3 (split; [done|]).
      intros [|k'] m' Hk' Hc'; simpl in Hk'.
      * congruence.
      * destruct (Hmax k' m' Hk' Hc') as [Hle Hfirst].
        split; [assumption|]. intros Heq. specialize (Hfirst Heq). lia.
Qed.

Lemma find_best_node_spec now config c i :
  find_best_node now config c = Some i ->
  exists node, nodes c !! i = Some node /\ considered now node = true
    /\ forall j m, nodes c !! j = Some m -> considered now m = true ->
         (node_score node <? node_score m)%float = false
         /\ (node_score m = node_score node -> (i <= j)%nat).
Proof.
  unfold find_best_node. destruct config as [config|]; [|discriminate].
  destruct (best_node_loop_spec now (nodes c) 0 None (-1)%float)
    as [(Hr & _) | (k & m & Hk & Hr & _ & Hm & _ & Hmax)];
    rewrite Hr; [discriminate|].
  intros [= <-]. exists m. simpl. auto.
Qed.

Lemma find_best_node_None now config c :
  find_best_node now (Some config) c = None ->
  forall m, m ∈ nodes c -> considered now m = true ->
    (-1 <? node_score m)%float = false.
Proof.
  unfold find_best_node.
  destruct (best_node_loop_spec now (nodes c) 0 None (-1)%float)
    as [(_ & _ & Hnone) | (k & m & _ & Hr & _)].
  - intros _. exact Hnone.
  - rewrite Hr. discriminate.
Qed.

(** C1. Whatever the container spec and the registry, the node that
    [find_best_node] returns is CONNECTED, its last heartbeat is at most 30
    seconds old, and its [container_count] (the coordinator's count of
    containers on the node) is below [resources.max_containers]; when no
    registered node passes the three tests the result is NULL. *)
Theorem find_best_node_eligible :
  (forall now config c i,
     find_best_node now config c = Some i ->
     exists node, nodes c !! i = Some node
       /\ n_state node = NODE_CONNECTED
       /\ now - n_last_heartbeat node <= 30
       /\ n_container_count node < max_containers (n_resources node))
  /\ (forall now config c,
        (forall node, node ∈ nodes c ->
           ~ (n_state node = NODE_CONNECTED
              /\ now - n_last_heartbeat node <= 30
              /\ n_container_count node < max_containers (n_resources node))) ->
        find_best_node now config c = None).
Proof.
  split.
  - intros now config c i H.
    destruct (find_best_node_spec now config c i H) as (node & Hn & Hc & _).
    exists node. split; [assumption|]. by apply considered_true.
  - intros now config c Hnone.
    destruct (find_best_node now config c) as [i|] eqn:H; [|reflexivity].
    destruct (find_best_node_spec now config c i H) as (node & Hn & Hc & _).
    exfalso. apply (Hnone node).
    + apply list_elem_of_lookup. by exists i.
    + by apply considered_true.
Qed.

(** C2, as the specification states it, fails: with [w2] registered before
    [w1] and identical resources, both are considered, their scores are
    equal, [w1] is the lexicographically smaller id, and placement returns
    [w2]. *)
Lemma tie_break_is_not_lexicographic :
  let c := coord w2_then_w1 in
  exists a b,
    nodes c !! 0%nat = Some a /\ nodes c !! 1%nat = Some b
    /\ n_id a = "w2"%string /\ n_id b = "w1"%string
    /\ n_resources a = n_resources b
    /\ considered 10 a = true /\ considered 10 b = true
    /\ node_score a = node_score b
    /\ String.ltb (n_id b) (n_id a) = true
    /\ find_best_node 10 (Some (config_named "web")) c = Some 0%nat.
Proof. vm_compute. eexists _, _. repeat split. Qed.

(** C2, amended. When some considered node scores above the initial
    [best_score] of -1, [find_best_node] returns a considered node of
    maximum score (no considered node scores strictly higher), and among
    the considered nodes with that score it is the one that comes first in
    the registry, whatever the ids: ties go to the earliest registered. *)
Theorem find_best_node_first_of_best now config c :
  (exists m, m ∈ nodes c /\ considered now m = true
             /\ (-1 <? node_score m)%float = true) ->
  exists i node,
    find_best_node now (Some config) c = Some i
    /\ nodes c !! i = Some node /\ considered now node = true
    /\ forall j m, nodes c !! j = Some m -> considered now m = true ->
         (node_score node <? node_score m)%float = false
         /\ (node_score m = node_score node -> (i <= j)%nat).
Proof.
  intros (m & Hin & Hm & Hscore).
  destruct (find_best_node now (Some config) c) as [i|] eqn:Hbest.
  - destruct (find_best_node_spec now (Some config) c i Hbest)
      as (node & Hnode & Hc & Hmax).
    by exists i, node.
  - rewrite (find_best_node_None now config c Hbest m Hin Hm) in Hscore.
    discriminate.
Qed.

Lemma find_best_node_first_of_best_witness :
  exists i node,
    find_best_node 10 (Some (config_named "web")) (coord w2_then_w1) = Some i
    /\ nodes (coord w2_then_w1) !! i = Some node
    /\ considered 10 node = true
    /\ forall j m, nodes (coord w2_then_w1) !! j = Some m ->
         considered 10 m = true ->
         (node_score node <? node_score m)%float = false
         /\ (node_score m = node_score node -> (i <= j)%nat).
Proof.
  apply (find_best_node_first_of_best 10 (config_named "web")
           (coord w2_then_w1)).
  exists (mk_node "w1" "host1" "10.0.0.1" 9000 NODE_CONNECTED
            (mk_resource_info 10 10 10 0 50) 1 6 []).
  split; [|by vm_compute].
  apply list_elem_of_lookup. exists 1%nat. by vm_compute.
Defined.

(** ** The ledger and the registry *)

Lemma nodes_put_on_wire c fd sent : nodes (put_on_wire c fd sent) = nodes c.
Proof. by destruct sent. Qed.

Lemma deployed_put_on_wire c fd sent :
  deployed_containers (put_on_wire c fd sent) = deployed_containers c.
Proof. by destruct sent. Qed.

Lemma nodes_put_short c fd sent : nodes (put_short c fd sent) = nodes c.
Proof. by destruct sent. Qed.

Lemma deployed_put_short c fd sent :
  deployed_containers (put_short c fd sent) = deployed_containers c.
Proof. by destruct sent. Qed.

Lemma wire_put_short c fd sent : wire (put_short c fd sent) = wire c.
Proof. by destruct sent. Qed.

Lemma nodes_put_sent c fd result : nodes (put_sent c fd result) = nodes c.
Proof.
  unfold put_sent. destruct (fst result =? 0);
    [apply nodes_put_on_wire | apply nodes_put_short].
Qed.

Lemma deployed_put_sent c fd result :
  deployed_containers (put_sent c fd result) = deployed_containers c.
Proof.
  unfold put_sent. destruct (fst result =? 0);
    [apply deployed_put_on_wire | apply deployed_put_short].
Qed.

(** What [send_message] returns, by the descriptor and the count of
    [send]. *)
Lemma send_message_whole bytes_sent fd msg :
  0 <= fd -> (bytes_sent =? sizeof_message_t) = true ->
  send_message bytes_sent fd msg = (0, Some (message_bytes msg)).
Proof.
  intros Hfd Hok. unfold send_message. rewrite Hok.
  by destruct (Z.ltb_spec fd 0); [lia|].
Qed.

Lemma send_message_fails bytes_sent fd msg :
  (fd <? 0) || negb (bytes_sent =? sizeof_message_t) = true ->
  fst (send_message bytes_sent fd msg) = -1.
Proof.
  unfold send_message. destruct (fd <? 0); [done|].
  by destruct (bytes_sent =? sizeof_message_t).
Qed.

Lemma send_message_cases bytes_sent fd msg :
  (send_message bytes_sent fd msg = (0, Some (message_bytes msg))
   /\ 0 <= fd /\ (bytes_sent =? sizeof_message_t) = true)
  \/ (exists sent,
        send_message bytes_sent fd msg = (-1, sent)
        /\ (fd <? 0) || negb (bytes_sent =? sizeof_message_t) = true).
Proof.
  unfold send_message. destruct (Z.ltb_spec fd 0); [right; by eexists|].
  destruct (bytes_sent =? sizeof_message_t); [by left|].
  right. by eexists.
Qed.

(** Case analysis on the [send_message] call of the goal. *)
Ltac send_cases :=
  match goal with
  | |- context [send_message ?b ?fd ?msg] =>
      let Hfd := fresh "Hfd" in
      let Hok := fresh "Hok" in
      let sent := fresh "sent" in
      let Hfail := fresh "Hfail" in
      destruct (send_message_cases b fd msg)
        as [(-> & Hfd & Hok)|(sent & -> & Hfail)]
  end.

Lemma send_message_result bytes_sent fd msg :
  fst (send_message bytes_sent fd msg)
  = if (fd <? 0) || negb (bytes_sent =? sizeof_message_t) then -1 else 0.
Proof.
  unfold send_message. destruct (fd <? 0); [done|].
  by destruct (bytes_sent =? sizeof_message_t).
Qed.

Lemma fails_cleanly_done bytes_sent c c' : fails_cleanly bytes_sent c (0, c').
Proof. split; [by left | done]. Qed.

Lemma fails_cleanly_failed bytes_sent c : fails_cleanly bytes_sent c (-1, c).
Proof. split; [by right|]. intros _. repeat split. by left. Qed.

Lemma fails_cleanly_send bytes_sent c fd msg c' :
  fails_cleanly bytes_sent c
    (let '(r, sent) := send_message bytes_sent fd msg in
     if negb (r =? 0) then (-1, put_short c fd sent) else (0, c' sent)).
Proof.
  unfold send_message.
  destruct (Z.ltb_spec fd 0); [apply fails_cleanly_failed|].
  destruct (Z.eqb_spec bytes_sent sizeof_message_t);
    [apply fails_cleanly_done|]. unfold short_write.
  destruct (Z.ltb_spec 0 bytes_sent); [|apply fails_cleanly_failed].
  split; [by right|]. intros _. cbn [snd put_short nodes nodes_behind
    deployed_containers deployed_behind wire short_writes].
  repeat split. right. by exists fd, msg.
Qed.

#[local] Hint Resolve fails_cleanly_done fails_cleanly_failed : core.

Lemma on_disconnect_ledger conn c :
  deployed_containers (on_disconnect conn c) = deployed_containers c.
Proof.
  unfold on_disconnect. destruct (strlen (node_id conn) >? 0); [|reflexivity].
  by destruct (find_node_by_id _ _).
Qed.

Lemma on_disconnect_wire conn c : wire (on_disconnect conn c) = wire c.
Proof.
  unfold on_disconnect. destruct (strlen (node_id conn) >? 0); [|reflexivity].
  by destruct (find_node_by_id _ _).
Qed.

Lemma unregister_node_ledger node_id c :
  deployed_containers (snd (unregister_node node_id c)) = deployed_containers c.
Proof.
  unfold unregister_node. destruct node_id as [node_id|]; [|reflexivity].
  by destruct (find_index _ _).
Qed.

Lemma on_container_status_ledger msg c :
  deployed_containers (on_container_status msg c) = deployed_containers c.
Proof.
  unfold on_container_status. destruct (find_node_by_id _ _); [|reflexivity].
  by destruct (to_size_t _ >=? _).
Qed.

Lemma get_container_status_ledger id c c' :
  deployed_containers c' = deployed_containers c ->
  get_container_status id c' = get_container_status id c.
Proof. unfold get_container_status. by intros ->. Qed.

(** C3, as the specification states it, fails: [w1] holds container
    [w1_web] in state STARTING; after the connection of [w1] ends, and
    likewise after [unregister_node], the ledger still reports STARTING,
    not ERROR. *)
Lemma orphaned_container_keeps_its_state :
  let c := coord w1_with_web in
  let closed := coord (step w1_with_web (Hangup 5)) in
  let removed := unregister_node (Some "w1"%string) c in
  (exists k, deployed_containers c = [k] /\ c_id k = "w1_web"%string
     /\ c_node_id k = "w1"%string)
  /\ get_container_status (Some "w1_web"%string) c = CONTAINER_STARTING
  /\ node_state_of "w1" closed = Some NODE_DISCONNECTED
  /\ get_container_status (Some "w1_web"%string) closed = CONTAINER_STARTING
  /\ fst removed = 0 /\ nodes (snd removed) = []
  /\ get_container_status (Some "w1_web"%string) (snd removed) = CONTAINER_STARTING
  /\ CONTAINER_STARTING <> CONTAINER_ERROR.
Proof. vm_compute. split; [eexists; repeat split|]. repeat split. discriminate. Qed.

Lemma register_node_ledger now node_id hostname ip_address port c :
  deployed_containers (snd (register_node now node_id hostname ip_address port c))
  = deployed_containers c.
Proof.
  unfold register_node. destruct node_id, hostname, ip_address; try reflexivity.
  destruct (node_count c >=? MAX_NODES); [reflexivity|].
  by destruct (find_index _ _).
Qed.

Lemma dispatch_message_ledger env msg conn c :
  deployed_containers (snd (dispatch_message env msg conn c))
  = deployed_containers c.
Proof.
  unfold dispatch_message.
  destruct (message_type_of_code (msg_type msg)) as [[]|]; try reflexivity.
  - unfold on_register_node.
    destruct (sscanf_s_s_d _ _ _ _) as [[hostname ip_address] port].
    pose proof (register_node_ledger (now env)
                  (Some (cstring (msg_sender_id msg))) (Some hostname)
                  (Some ip_address) port c) as H.
    destruct (register_node _ _ _ _ _ _) as [r c1]. simpl in H.
    destruct (r =? 0); [|assumption]. cbn [snd].
    rewrite deployed_put_sent. by destruct (find_node_by_id _ _).
  - cbn [snd]. unfold on_node_heartbeat. by destruct (find_node_by_id _ _).
  - apply on_container_status_ledger.
Qed.

Lemma serve_ledger rxs conn c :
  deployed_containers (serve rxs conn c) = deployed_containers c.
Proof.
  revert conn c. induction rxs as [|[env rx] rxs IH]; intros conn c; simpl.
  - apply on_disconnect_ledger.
  - destruct (receive_message _ _) as [msg|]; [|apply on_disconnect_ledger].
    pose proof (dispatch_message_ledger env msg conn c) as H.
    destruct (dispatch_message _ _ _ _) as [conn' c']. simpl in H.
    by rewrite IH.
Qed.

(** C3, amended. Neither the end of a worker's connection nor
    [unregister_node] touches the ledger: every container record is
    retained with the state it had, so [get_container_status] answers as
    before; no record is moved to ERROR.  The same holds for a whole run of
    [handle_client_connection], whatever it receives before it ends. *)
Theorem worker_loss_leaves_ledger_unchanged :
  forall conn node_id c,
    deployed_containers (on_disconnect conn c) = deployed_containers c
    /\ deployed_containers (snd (unregister_node node_id c))
       = deployed_containers c
    /\ (forall container_id,
          get_container_status container_id (on_disconnect conn c)
          = get_container_status container_id c
          /\ get_container_status container_id (snd (unregister_node node_id c))
             = get_container_status container_id c)
    /\ forall socket rxs,
         deployed_containers (handle_client_connection socket rxs c)
         = deployed_containers c.
Proof.
  intros conn node_id c.
  split; [apply on_disconnect_ledger|]. split; [apply unregister_node_ledger|].
  split.
  - intros container_id. split; apply get_container_status_ledger.
    + apply on_disconnect_ledger.
    + apply unregister_node_ledger.
  - intros socket rxs. apply serve_ledger.
Qed.

(** C4, as the specification states it, fails: [w1_web] is STARTING in the
    ledger; [w1] reports it RUNNING, a legal transition; the ledger still
    answers STARTING.  The report went to the copy of the record in the
    node's own list, where a following report of STARTING, an illegal
    transition from RUNNING, is applied as well. *)
Lemma status_report_does_not_reach_ledger :
  let s1 := step w1_with_web
              (Frame 5 (env_at 3) (status_frame "w1" "w1_web" CONTAINER_RUNNING)) in
  let s2 := step s1
              (Frame 5 (env_at 4) (status_frame "w1" "w1_web" CONTAINER_STARTING)) in
  get_container_status (Some "w1_web"%string) (coord w1_with_web) = CONTAINER_STARTING
  /\ spec_legal_transition CONTAINER_STARTING CONTAINER_RUNNING = true
  /\ get_container_status (Some "w1_web"%string) (coord s1) = CONTAINER_STARTING
  /\ CONTAINER_STARTING <> CONTAINER_RUNNING
  /\ (c_state <$> (nodes (coord s1) !! 0%nat ≫= fun n => n_containers n !! 0%nat))
     = Some CONTAINER_RUNNING
  /\ spec_legal_transition CONTAINER_RUNNING CONTAINER_STARTING = false
  /\ (c_state <$> (nodes (coord s2) !! 0%nat ≫= fun n => n_containers n !! 0%nat))
     = Some CONTAINER_STARTING.
Proof. vm_compute. repeat split. discriminate. Qed.

(** C4, amended. A CONTAINER_STATUS message never changes the ledger that
    [get_container_status] reads.  When its sender is registered and its
    [data_length] covers a container record, the reported state is written,
    with no check of the transition, into the first record with the reported
    id in the sender's own container list. *)
Theorem container_status_goes_to_node_copy env msg conn c :
  message_type_of_code (msg_type msg) = Some MSG_CONTAINER_STATUS ->
  let c' := snd (dispatch_message env msg conn c) in
  deployed_containers c' = deployed_containers c
  /\ (forall id, get_container_status id c' = get_container_status id c)
  /\ forall i node j k,
       find_node_by_id (Some (cstring (msg_sender_id msg))) (nodes c) = Some i ->
       nodes c !! i = Some node ->
       to_size_t (msg_data_length msg) >= sizeof_container_t ->
       find_index (fun k => streq (c_id k) (container_id_of_bytes (msg_data msg)))
         (n_containers node) = Some j ->
       n_containers node !! j = Some k ->
       exists node',
         nodes c' !! i = Some node'
         /\ n_containers node' !! j
            = Some (set_c_state (container_state_of_bytes (msg_data msg)) k).
Proof.
  intros Hty. unfold dispatch_message. rewrite Hty. simpl.
  split; [apply on_container_status_ledger|].
  split; [intros id; apply get_container_status_ledger,
            on_container_status_ledger|].
  intros i node j k Hi Hnode Hlen Hj Hk.
  unfold on_container_status. rewrite Hi.
  destruct (Z.geb_spec (to_size_t (msg_data_length msg)) sizeof_container_t);
    [|lia].
  exists (update_container_status msg node). simpl. split.
  - by rewrite list_lookup_alter_eq, Hnode.
  - unfold update_container_status. rewrite Hj. simpl.
    by rewrite list_lookup_alter_eq, Hk.
Qed.

Lemma container_status_goes_to_node_copy_witness :
  let msg := status_frame "w1" "w1_web" CONTAINER_RUNNING in
  let c := coord w1_with_web in
  let c' := snd (dispatch_message (env_at 3) msg (mk_connection 5 "w1") c) in
  deployed_containers c' = deployed_containers c
  /\ (forall id, get_container_status id c' = get_container_status id c)
  /\ forall i node j k,
       find_node_by_id (Some (cstring (msg_sender_id msg))) (nodes c) = Some i ->
       nodes c !! i = Some node ->
       to_size_t (msg_data_length msg) >= sizeof_container_t ->
       find_index (fun k => streq (c_id k) (container_id_of_bytes (msg_data msg)))
         (n_containers node) = Some j ->
       n_containers node !! j = Some k ->
       exists node',
         nodes c' !! i = Some node'
         /\ n_containers node' !! j
            = Some (set_c_state (container_state_of_bytes (msg_data msg)) k).
Proof.
  apply (container_status_goes_to_node_copy (env_at 3)
           (status_frame "w1" "w1_web" CONTAINER_RUNNING)
           (mk_connection 5 "w1") (coord w1_with_web)).
  vm_compute. reflexivity.
Defined.

(** [register_node] below capacity, for an id that is registered: the
    record keeps its slot and gets the new address, CONNECTED and the
    current time. *)
Lemma register_node_known now id hostname ip_address port c i node :
  node_count c < MAX_NODES ->
  find_node_by_id (Some id) (nodes c) = Some i ->
  nodes c !! i = Some node ->
  exists c',
    register_node now (Some id) (Some hostname) (Some ip_address) port c = (0, c')
    /\ length (nodes c') = length (nodes c)
    /\ nodes c' !! i
       = Some (mk_node (n_id node) hostname ip_address port NODE_CONNECTED
                 (n_resources node) now (n_socket_fd node) (n_containers node))
    /\ forall j, j <> i -> nodes c' !! j = nodes c !! j.
Proof.
  intros Hcap Hi Hnode. unfold register_node. unfold find_node_by_id in Hi.
  destruct (Z.geb_spec (node_count c) MAX_NODES); [lia|]. rewrite Hi.
  eexists. split; [reflexivity|]. simpl. split; [apply length_alter|]. split.
  - by rewrite list_lookup_alter_eq, Hnode.
  - intros j Hj. by apply list_lookup_alter_ne.
Qed.

(** [register_node] below capacity, for an id that is not registered: a
    record is appended. *)
Lemma register_node_new now id hostname ip_address port c :
  node_count c < MAX_NODES ->
  find_node_by_id (Some id) (nodes c) = None ->
  exists c' node,
    register_node now (Some id) (Some hostname) (Some ip_address) port c = (0, c')
    /\ nodes c' = nodes c ++ [node]
    /\ n_id node = id /\ n_hostname node = hostname
    /\ n_ip_address node = ip_address /\ n_port node = port
    /\ n_state node = NODE_CONNECTED /\ n_last_heartbeat node = now
    /\ n_resources node = zero_resource_info /\ n_containers node = [].
Proof.
  intros Hcap Hi. unfold register_node. unfold find_node_by_id in Hi.
  destruct (Z.geb_spec (node_count c) MAX_NODES); [lia|]. rewrite Hi.
  eexists _, _. split; [reflexivity|]. simpl. by repeat split.
Qed.

(** [register_node] at capacity: rejected before the id is looked at. *)
Lemma register_node_full now node_id hostname ip_address port c :
  MAX_NODES <= node_count c ->
  register_node now node_id hostname ip_address port c = (-1, c).
Proof.
  intros Hcap. unfold register_node.
  destruct node_id, hostname, ip_address; try reflexivity.
  by destruct (Z.geb_spec (node_count c) MAX_NODES); [|lia].
Qed.

(** C6: the code at the failing input.  The registry holds [MAX_NODES]
    workers, [n0] among them; registering [n0] again with a new address is
    rejected and the record is not updated. *)
Theorem register_node_rejects_known_id_when_full :
  node_count full_registry = MAX_NODES
  /\ find_node_by_id (Some "n0"%string) (nodes full_registry) = Some 0%nat
  /\ register_node 500 (Some "n0"%string) (Some "elsewhere"%string)
       (Some "10.9.9.9"%string) 7000 full_registry
     = (-1, full_registry).
Proof. vm_compute. repeat split. Qed.

(** C10. With [MAX_CONTAINERS] records in the ledger, [deploy_container] to
    a CONNECTED worker whose socket takes the frame puts the
    DEPLOY_CONTAINER frame on that socket and returns 0, and changes neither
    the ledger nor the worker's container list: the container is not
    recorded anywhere. *)
Theorem deploy_container_full_ledger_untracked env node_id config c i node :
  find_node_by_id (Some node_id) (nodes c) = Some i ->
  nodes c !! i = Some node ->
  n_state node = NODE_CONNECTED ->
  0 <= n_socket_fd node ->
  net_ok env = true ->
  deployed_container_count c = MAX_CONTAINERS ->
  let r := deploy_container env (Some node_id) (Some config) c in
  fst r = 0
  /\ deployed_containers (snd r) = deployed_containers c
  /\ nodes (snd r) = nodes c
  /\ wire (snd r)
     = wire c
       ++ [(n_socket_fd node,
            message_bytes
              (create_message MSG_DEPLOY_CONTAINER (Some "coordinator"%string)
                 (Some node_id) (Some (config_object config))
                 sizeof_lxc_config_t))]
  /\ forall id, get_container_status id (snd r) = get_container_status id c.
Proof.
  intros Hi Hnode Hstate Hfd Hnet Hfull. unfold deploy_container, deploy_container_send.
  rewrite Hi, Hnode. simpl. rewrite Hstate. simpl.
  rewrite (send_message_whole _ _ _ Hfd Hnet). simpl.
  unfold deployed_container_count in *. simpl. rewrite Hfull. simpl.
  by repeat split.
Qed.

Lemma deploy_container_full_ledger_untracked_witness :
  let r := deploy_container (env_at 50) (Some "w1"%string)
             (Some (config_named "web")) full_ledger in
  fst r = 0
  /\ deployed_containers (snd r) = deployed_containers full_ledger
  /\ nodes (snd r) = nodes full_ledger
  /\ wire (snd r)
     = wire full_ledger
       ++ [(n_socket_fd (test_node "w1"),
            message_bytes
              (create_message MSG_DEPLOY_CONTAINER (Some "coordinator"%string)
                 (Some "w1"%string) (Some (config_object (config_named "web")))
                 sizeof_lxc_config_t))]
  /\ forall id, get_container_status id (snd r) = get_container_status id full_ledger.
Proof.
  apply (deploy_container_full_ledger_untracked (env_at 50) "w1"
           (config_named "web") full_ledger 0%nat (test_node "w1"));
    vm_compute; congruence.
Defined.

(** ** What every event preserves in the registry *)

Lemma streq_eq a b : streq a b = true <-> a = b.
Proof. apply String.eqb_eq. Qed.

Lemma find_node_by_id_Some id l i :
  find_node_by_id (Some id) l = Some i ->
  exists node, l !! i = Some node /\ n_id node = id.
Proof.
  intros H. destruct (find_index_Some _ _ _ H) as (node & Hn & Hp & _).
  exists node. split; [assumption | by apply streq_eq].
Qed.

Lemma find_index_app_Some {A} (p : A -> bool) (l k : list A) (i : nat) :
  find_index p l = Some i -> find_index p (l ++ k) = Some i.
Proof.
  revert i. induction l as [|a l IH]; intros i; simpl; [discriminate|].
  destruct (p a); [done|].
  destruct (find_index p l) as [j|]; [|discriminate].
  by rewrite (IH j eq_refl).
Qed.

Lemma find_index_app_None {A} (p : A -> bool) (l : list A) (x : A) (i : nat) :
  find_index p l = None -> find_index p (l ++ [x]) = Some i ->
  i = length l /\ p x = true.
Proof.
  revert i. induction l as [|a l IH]; intros i; simpl.
  - intros _. destruct (p x); [|discriminate]. by intros [= <-].
  - destruct (p a); [discriminate|].
    destruct (find_index p l); [discriminate|]. intros _.
    destruct (find_index p (l ++ [x])) as [j|] eqn:E; [|discriminate].
    intros [= <-]. destruct (IH j eq_refl eq_refl) as [-> Hx]. done.
Qed.

(** After a successful [register_node] the record found under the id is
    CONNECTED. *)
Lemma register_node_connected now id hostname ip_address port c c1 j node :
  register_node now (Some id) (Some hostname) (Some ip_address) port c = (0, c1) ->
  find_node_by_id (Some id) (nodes c1) = Some j ->
  nodes c1 !! j = Some node ->
  n_state node = NODE_CONNECTED.
Proof.
  unfold register_node, find_node_by_id.
  destruct (node_count c >=? MAX_NODES); [discriminate|].
  destruct (find_index _ (nodes c)) as [i|] eqn:Hi.
  - intros [= <-]. simpl.
    rewrite find_index_alter by reflexivity. rewrite Hi. intros [= <-].
    rewrite list_lookup_alter_eq.
    destruct (nodes c !! i); simpl; [|discriminate]. by intros [= <-].
  - intros [= <-]. simpl. intros Hj.
    destruct (find_index_app_None _ _ _ _ Hi Hj) as [-> _].
    rewrite lookup_app_r by lia. rewrite Nat.sub_diag. simpl. by intros [= <-].
Qed.

(** ** The steps of the coordinator *)

Lemma fmap_alter_keep {A B} (f : A -> B) (g : A -> A) (i : nat) (l : list A) :
  (forall x, f (g x) = f x) -> f <$> alter g i l = f <$> l.
Proof.
  intros Hg. revert i. induction l as [|a l IH]; intros [|i]; try reflexivity.
  - change (alter g 0%nat (a :: l)) with (g a :: l). by rewrite !fmap_cons, Hg.
  - change (alter g (S i) (a :: l)) with (a :: alter g i l).
    by rewrite !fmap_cons, IH.
Qed.

Lemma fmap_alter_id (f : node_t -> node_t) (i : nat) (l : list node_t) :
  (forall node, n_id (f node) = n_id node) ->
  n_id <$> alter f i l = n_id <$> l.
Proof.
  intros Hf. revert i. induction l as [|a l IH]; intros [|i]; try reflexivity.
  - change (alter f 0%nat (a :: l)) with (f a :: l). simpl. by rewrite Hf.
  - change (alter f (S i) (a :: l)) with (a :: alter f i l). simpl. by rewrite IH.
Qed.

Lemma remove_from_node_id cid node : n_id (remove_from_node cid node) = n_id node.
Proof. unfold remove_from_node. by destruct (find_index _ _). Qed.

Lemma add_to_node_id k node : n_id (add_to_node k node) = n_id node.
Proof. unfold add_to_node. by destruct (_ <? _). Qed.

Lemma update_container_status_ids msg node :
  n_id (update_container_status msg node) = n_id node
  /\ c_id <$> n_containers (update_container_status msg node)
     = c_id <$> n_containers node.
Proof.
  unfold update_container_status. destruct (find_index _ _); [|done].
  split; [reflexivity|]. simpl. by apply fmap_alter_keep.
Qed.

Lemma start_container_nodes env container_id c :
  nodes (snd (start_container env container_id c)) = nodes c.
Proof.
  unfold start_container. destruct container_id; [|reflexivity].
  destruct (find_index _ _); [|reflexivity].
  destruct (find_node_by_id _ _); [|reflexivity].
  destruct (send_message _ _ _) as [r sent].
  destruct (negb (r =? 0)); [apply nodes_put_short|]. simpl.
  apply nodes_put_on_wire.
Qed.

Lemma stop_container_nodes env container_id c :
  nodes (snd (stop_container env container_id c)) = nodes c.
Proof.
  unfold stop_container. destruct container_id; [|reflexivity].
  destruct (find_index _ _); [|reflexivity].
  destruct (find_node_by_id _ _); [|reflexivity].
  destruct (send_message _ _ _) as [r sent].
  destruct (negb (r =? 0)); [apply nodes_put_short|]. simpl.
  apply nodes_put_on_wire.
Qed.

Lemma register_node_ids now node_id hostname ip_address port c :
  exists later,
    n_id <$> nodes (snd (register_node now node_id hostname ip_address port c))
    = (n_id <$> nodes c) ++ later.
Proof.
  unfold register_node.
  destruct node_id as [id|], hostname, ip_address;
    try (exists []; by rewrite app_nil_r).
  destruct (node_count c >=? MAX_NODES); [exists []; by rewrite app_nil_r|].
  destruct (find_index _ (nodes c)) as [i|]; cbn [snd nodes set_nodes].
  - exists []. by rewrite app_nil_r, fmap_alter_id.
  - exists [id]. by rewrite fmap_app.
Qed.

Lemma dispatch_message_ids env msg conn c :
  exists later,
    n_id <$> nodes (snd (dispatch_message env msg conn c))
    = (n_id <$> nodes c) ++ later.
Proof.
  unfold dispatch_message.
  destruct (message_type_of_code (msg_type msg)) as [[]|];
    try (exists []; by rewrite app_nil_r).
  - unfold on_register_node.
    destruct (sscanf_s_s_d _ _ _ _) as [[hostname ip_address] port].
    destruct (register_node_ids (now env) (Some (cstring (msg_sender_id msg)))
                (Some hostname) (Some ip_address) port c) as [later H].
    destruct (register_node _ _ _ _ _ _) as [r c1]. cbn [snd] in H.
    exists later. destruct (r =? 0); [|assumption]. cbn [snd].
    rewrite nodes_put_sent.
    destruct (find_node_by_id _ _); [|assumption]. cbn [nodes set_nodes].
    by rewrite fmap_alter_id.
  - exists []. rewrite app_nil_r. cbn [snd]. unfold on_node_heartbeat.
    destruct (find_node_by_id _ _); [|done]. cbn [nodes set_nodes].
    by rewrite fmap_alter_id.
  - exists []. rewrite app_nil_r. cbn [snd]. unfold on_container_status.
    destruct (find_node_by_id _ _); [|done].
    destruct (to_size_t _ >=? _); [|done]. cbn [nodes set_nodes].
    rewrite fmap_alter_id; [done|]. intros node.
    apply update_container_status_ids.
Qed.

(** Every event changes the coordinator's state in one of the ways of
    [transition]. *)
Lemma step_transition s e : transition s e (coord (step s e)).
Proof.
  pose proof (tr_same s e) as Hsame.
  destruct e as [socket|socket env msg|socket|env config|env cid|env cid
                |env cid|socket env msg|socket|socket env|env config|env];
    cbn [step].
  - destruct (socket <? 0); [exact Hsame|].
    destruct (threads s !! socket), (busy s !! socket); cbn [coord];
      apply tr_same.
  - destruct (threads s !! socket) as [id|]; [|exact Hsame].
    pose proof (tr_dispatch s (Frame socket env msg) socket env msg
                  (mk_connection socket id) eq_refl) as H.
    by destruct (dispatch_message _ _ _ _).
  - destruct (threads s !! socket) as [id|]; [|exact Hsame]. cbn [coord].
    constructor.
  - destruct (operator s); [exact Hsame|]. cbn [idle coord]. constructor.
  - destruct (operator s); [exact Hsame|]. cbn [idle coord]. constructor.
  - destruct (operator s); [exact Hsame|]. cbn [idle coord]. constructor.
  - destruct (operator s); [exact Hsame|]. cbn [idle coord]. constructor.
  - destruct (threads s !! socket) as [id|]; [|exact Hsame].
    unfold received.
    destruct (message_type_of_code (msg_type msg)) as [[]|]; try exact Hsame.
    + destruct (sscanf_s_s_d _ _ _ _) as [[hostname ip_address] port].
      pose proof (tr_register s (Received socket env msg) (now env)
                    (cstring (msg_sender_id msg)) hostname ip_address port)
        as H.
      destruct (register_node _ _ _ _ _ _) as [r c1].
      by destruct (r =? 0).
    + destruct (find_node_by_id _ _); [|exact Hsame].
      cbn [inside coord]. constructor.
    + cbn [at_receive coord]. constructor.
  - destruct (threads s !! socket) as [id|]; [|exact Hsame].
    unfold lost. destruct (strlen id >? 0); [|exact Hsame].
    destruct (find_node_by_id _ _); cbn [inside returned coord];
      [constructor|exact Hsame].
  - destruct (busy s !! socket) as [[id pc]|] eqn:Hpc; [|exact Hsame].
    destruct pc as [| |i msg|i msg|i]; cbn [resumed].
    + cbn [inside coord]. destruct (find_node_by_id _ _);
        [constructor|exact Hsame].
    + cbn [at_receive coord]. apply tr_ack.
    + destruct (to_size_t _ >=? _); cbn [inside at_receive coord];
        constructor.
    + cbn [at_receive coord]. by apply (tr_resources s _ socket id).
    + cbn [returned coord]. constructor.
  - destruct (operator s); [exact Hsame|]. unfold placed.
    destruct (find_best_node _ _ _); exact Hsame.
  - destruct (operator s) as [[id config|i id config]|] eqn:Hpc;
      [| |exact Hsame]; cbn [proceeded].
    + destruct (find_node_by_id _ _); [|exact Hsame].
      destruct (negb _); exact Hsame.
    + cbn [idle coord]. by apply tr_send.
Qed.

(** The ids in the registry: every event keeps them and their slots, and
    can only add one behind them. *)
Lemma store_ids f i c :
  (forall node, n_id (f node) = n_id node) ->
  n_id <$> nodes (store f i c) = n_id <$> nodes c.
Proof. intros Hf. cbn [store nodes set_nodes]. by apply fmap_alter_id. Qed.

Lemma deploy_container_send_ids env i id config c :
  n_id <$> nodes (snd (deploy_container_send env i id config c))
  = n_id <$> nodes c.
Proof.
  unfold deploy_container_send.
  destruct (send_message _ _ _) as [r sent].
  destruct (negb (r =? 0)); [by (cbn [snd]; rewrite nodes_put_short)|].
  destruct (_ <? MAX_CONTAINERS); cbn [snd nodes];
    rewrite ?nodes_put_on_wire; [|done].
  rewrite fmap_alter_id; [done|]. intros node. apply add_to_node_id.
Qed.

Lemma deploy_container_auto_ids env config c :
  n_id <$> nodes (snd (deploy_container_auto env config c)) = n_id <$> nodes c.
Proof.
  unfold deploy_container_auto. destruct config; [|done].
  destruct (find_best_node _ _ _) as [i|]; [|done]. unfold deploy_container.
  destruct (find_node_by_id _ _); [|done].
  destruct (negb (node_state_eqb _ _)); [done|].
  apply deploy_container_send_ids.
Qed.

Lemma delete_container_ids env container_id c :
  n_id <$> nodes (snd (delete_container env container_id c)) = n_id <$> nodes c.
Proof.
  unfold delete_container. destruct container_id; [|done].
  destruct (find_index _ _); [|done]. cbn [snd nodes].
  destruct (find_node_by_id _ _); [|done]. cbn [nodes set_nodes].
  rewrite nodes_put_sent, fmap_alter_id; [done|]. intros node.
  apply remove_from_node_id.
Qed.

Lemma on_disconnect_ids conn c :
  n_id <$> nodes (on_disconnect conn c) = n_id <$> nodes c.
Proof.
  unfold on_disconnect. destruct (strlen _ >? 0); [|done].
  destruct (find_node_by_id _ _); [|done]. cbn [nodes set_nodes].
  by rewrite fmap_alter_id.
Qed.

Lemma on_container_status_ids msg c :
  n_id <$> nodes (on_container_status msg c) = n_id <$> nodes c.
Proof.
  unfold on_container_status. destruct (find_node_by_id _ _); [|done].
  destruct (to_size_t _ >=? _); [|done]. cbn [nodes set_nodes].
  rewrite fmap_alter_id; [done|]. intros node.
  apply update_container_status_ids.
Qed.

Lemma transition_ids s e c :
  transition s e c ->
  exists later, n_id <$> nodes c = (n_id <$> nodes (coord s)) ++ later.
Proof.
  assert (forall c', n_id <$> nodes c' = n_id <$> nodes (coord s) ->
                     exists later,
                       n_id <$> nodes c' = (n_id <$> nodes (coord s)) ++ later)
    as Hsame by (intros c' ->; exists []; by rewrite app_nil_r).
  intros [|socket env msg conn _|conn|env config|env cid|env cid|env cid
         |now id hostname ip_address port|msg|now i|state i|fd i
         |socket id i msg _|bytes_sent socket id|env i id config _].
  - by apply Hsame.
  - apply dispatch_message_ids.
  - apply Hsame, on_disconnect_ids.
  - apply Hsame, deploy_container_auto_ids.
  - apply Hsame. by rewrite start_container_nodes.
  - apply Hsame. by rewrite stop_container_nodes.
  - apply Hsame, delete_container_ids.
  - apply register_node_ids.
  - apply Hsame, on_container_status_ids.
  - by apply Hsame, store_ids.
  - by apply Hsame, store_ids.
  - by apply Hsame, store_ids.
  - by apply Hsame, store_ids.
  - apply Hsame. by rewrite nodes_put_sent.
  - apply Hsame, deploy_container_send_ids.
Qed.

Lemma step_ids s e :
  exists later,
    n_id <$> nodes (coord (step s e)) = (n_id <$> nodes (coord s)) ++ later.
Proof. apply (transition_ids s e), step_transition. Qed.

Lemma step_id_at s e i id :
  (n_id <$> nodes (coord s)) !! i = Some id ->
  (n_id <$> nodes (coord (step s e))) !! i = Some id.
Proof.
  intros H. destruct (step_ids s e) as [later ->]. by apply lookup_app_l_Some.
Qed.

Lemma run_ids events more :
  exists later,
    n_id <$> nodes (coord (run (events ++ more)))
    = (n_id <$> nodes (coord (run events))) ++ later.
Proof.
  unfold run. induction more as [|e more IH] using rev_ind.
  - exists []. by rewrite !app_nil_r.
  - destruct IH as [later IH]. rewrite app_assoc, foldl_snoc.
    destruct (step_ids (foldl step initial_system (events ++ more)) e)
      as [later' H].
    exists (later ++ later'). by rewrite H, IH, app_assoc.
Qed.

(** What a thread inside an iteration, and a deployment, carry with them:
    an entry of [busy] for a heartbeat was made by [Received] for the slot
    of the sender, and one for the [memcpy] after the test of the length;
    the slot of a deployment is the slot of its node. *)
Lemma step_busy_heartbeat s e socket id i msg :
  busy (step s e) !! socket = Some (id, to_store_state i msg) ->
  busy s !! socket = Some (id, to_store_state i msg)
  \/ ((exists env, e = Received socket env msg)
      /\ message_type_of_code (msg_type msg) = Some MSG_NODE_HEARTBEAT
      /\ find_node_by_id (Some (cstring (msg_sender_id msg))) (nodes (coord s))
         = Some i).
Proof.
  destruct e as [socket'|socket' env msg'|socket'|env config|env cid|env cid
                |env cid|socket' env msg'|socket'|socket' env|env config|env];
    cbn [step].
  - destruct (socket' <? 0); [by left|].
    destruct (threads s !! socket'), (busy s !! socket'); by left.
  - destruct (threads s !! socket'); [|by left].
    destruct (dispatch_message _ _ _ _). by left.
  - destruct (threads s !! socket'); by left.
  - destruct (operator s); by left.
  - destruct (operator s); by left.
  - destruct (operator s); by left.
  - destruct (operator s); by left.
  - destruct (threads s !! socket') as [id'|]; [|by left]. unfold received.
    destruct (message_type_of_code (msg_type msg')) as [[]|] eqn:Hty;
      try (by left).
    + destruct (sscanf_s_s_d _ _ _ _) as [[hostname ip_address] port].
      destruct (register_node _ _ _ _ _ _) as [r c1].
      destruct (r =? 0); cbn [inside at_receive busy]; intros H.
      * apply lookup_insert_Some in H as [[_ [=]]|[_ H]]. by left.
      * apply lookup_delete_Some in H as [_ H]. by left.
    + destruct (find_node_by_id _ _) as [k|] eqn:Hk; [|by left].
      cbn [inside busy]. intros H.
      apply lookup_insert_Some in H as [[-> [= <- <- <-]]|[_ H]]; [|by left].
      right. split; [by exists env|]. by split.
    + cbn [at_receive busy]. intros H.
      apply lookup_delete_Some in H as [_ H]. by left.
  - destruct (threads s !! socket') as [id'|]; [|by left]. unfold lost.
    destruct (strlen id' >? 0);
      [destruct (find_node_by_id _ _)|]; cbn [inside returned busy]; intros H.
    + apply lookup_insert_Some in H as [[_ [=]]|[_ H]]. by left.
    + apply lookup_delete_Some in H as [_ H]. by left.
    + apply lookup_delete_Some in H as [_ H]. by left.
  - destruct (busy s !! socket') as [[id' pc]|] eqn:Hpc; [|by left].
    destruct pc as [| |k m|k m|k]; cbn [resumed];
      try destruct (to_size_t _ >=? _); cbn [inside at_receive returned busy];
      intros H;
      first [ apply lookup_insert_Some in H as [[_ [=]]|[_ H]]; by left
            | apply lookup_delete_Some in H as [_ H]; by left ].
  - destruct (operator s); [by left|]. unfold placed.
    destruct (find_best_node _ _ _); by left.
  - destruct (operator s) as [[nid config|k nid config]|]; [| |by left];
      cbn [proceeded].
    + destruct (find_node_by_id _ _); [|by left]. destruct (negb _); by left.
    + by left.
Qed.

Lemma step_busy_resources s e socket id i msg :
  busy (step s e) !! socket = Some (id, to_store_resources i msg) ->
  busy s !! socket = Some (id, to_store_resources i msg)
  \/ (busy s !! socket = Some (id, to_store_state i msg)
      /\ to_size_t (msg_data_length msg) >= sizeof_resource_info_t).
Proof.
  destruct e as [socket'|socket' env msg'|socket'|env config|env cid|env cid
                |env cid|socket' env msg'|socket'|socket' env|env config|env];
    cbn [step].
  - destruct (socket' <? 0); [by left|].
    destruct (threads s !! socket'), (busy s !! socket'); by left.
  - destruct (threads s !! socket'); [|by left].
    destruct (dispatch_message _ _ _ _). by left.
  - destruct (threads s !! socket'); by left.
  - destruct (operator s); by left.
  - destruct (operator s); by left.
  - destruct (operator s); by left.
  - destruct (operator s); by left.
  - destruct (threads s !! socket') as [id'|]; [|by left]. unfold received.
    destruct (message_type_of_code (msg_type msg')) as [[]|] eqn:Hty;
      try (by left).
    + destruct (sscanf_s_s_d _ _ _ _) as [[hostname ip_address] port].
      destruct (register_node _ _ _ _ _ _) as [r c1].
      destruct (r =? 0); cbn [inside at_receive busy]; intros H.
      * apply lookup_insert_Some in H as [[_ [=]]|[_ H]]. by left.
      * apply lookup_delete_Some in H as [_ H]. by left.
    + destruct (find_node_by_id _ _) as [k|] eqn:Hk; [|by left].
      cbn [inside busy]. intros H.
      apply lookup_insert_Some in H as [[_ [=]]|[_ H]]. by left.
    + cbn [at_receive busy]. intros H.
      apply lookup_delete_Some in H as [_ H]. by left.
  - destruct (threads s !! socket') as [id'|]; [|by left]. unfold lost.
    destruct (strlen id' >? 0);
      [destruct (find_node_by_id _ _)|]; cbn [inside returned busy]; intros H.
    + apply lookup_insert_Some in H as [[_ [=]]|[_ H]]. by left.
    + apply lookup_delete_Some in H as [_ H]. by left.
    + apply lookup_delete_Some in H as [_ H]. by left.
  - destruct (busy s !! socket') as [[id' pc]|] eqn:Hpc; [|by left].
    destruct pc as [| |k m|k m|k]; cbn [resumed].
    + cbn [inside busy]. intros H.
      apply lookup_insert_Some in H as [[_ [=]]|[_ H]]. by left.
    + cbn [at_receive busy]. intros H.
      apply lookup_delete_Some in H as [_ H]. by left.
    + destruct (Z.geb_spec (to_size_t (msg_data_length m))
                  sizeof_resource_info_t) as [Hlong|];
        cbn [inside at_receive busy]; intros H'.
      * apply lookup_insert_Some in H' as [[-> [= <- <- <-]]|[_ H']];
          [|by left].
        right. split; [assumption | lia].
      * apply lookup_delete_Some in H' as [_ H']. by left.
    + cbn [at_receive busy]. intros H.
      apply lookup_delete_Some in H as [_ H]. by left.
    + cbn [returned busy]. intros H.
      apply lookup_delete_Some in H as [_ H]. by left.
  - destruct (operator s); [by left|]. unfold placed.
    destruct (find_best_node _ _ _); by left.
  - destruct (operator s) as [[nid config|k nid config]|]; [| |by left];
      cbn [proceeded].
    + destruct (find_node_by_id _ _); [|by left]. destruct (negb _); by left.
    + by left.
Qed.

Lemma step_operator_send s e i id config :
  operator (step s e) = Some (to_send i id config) ->
  operator s = Some (to_send i id config)
  \/ find_node_by_id (Some id) (nodes (coord s)) = Some i.
Proof.
  destruct e as [socket'|socket' env msg'|socket'|env config'|env cid|env cid
                |env cid|socket' env msg'|socket'|socket' env|env config'|env];
    cbn [step].
  - destruct (socket' <? 0); [by left|].
    destruct (threads s !! socket'), (busy s !! socket'); by left.
  - destruct (threads s !! socket'); [|by left].
    destruct (dispatch_message _ _ _ _). by left.
  - destruct (threads s !! socket'); by left.
  - destruct (operator s) eqn:Hpc; [rewrite Hpc; by left | discriminate].
  - destruct (operator s) eqn:Hpc; [rewrite Hpc; by left | discriminate].
  - destruct (operator s) eqn:Hpc; [rewrite Hpc; by left | discriminate].
  - destruct (operator s) eqn:Hpc; [rewrite Hpc; by left | discriminate].
  - destruct (threads s !! socket') as [id'|]; [|by left]. unfold received.
    destruct (message_type_of_code (msg_type msg')) as [[]|]; try (by left).
    + destruct (sscanf_s_s_d _ _ _ _) as [[hostname ip_address] port].
      destruct (register_node _ _ _ _ _ _) as [r c1].
      destruct (r =? 0); by left.
    + destruct (find_node_by_id _ _); by left.
  - destruct (threads s !! socket') as [id'|]; [|by left]. unfold lost.
    destruct (strlen id' >? 0); [destruct (find_node_by_id _ _)|]; by left.
  - destruct (busy s !! socket') as [[id' pc]|]; [|by left].
    destruct pc as [| |k m|k m|k]; cbn [resumed];
      try destruct (to_size_t _ >=? _); by left.
  - destruct (operator s) eqn:Hpc; [rewrite Hpc; by left|]. unfold placed.
    destruct (find_best_node _ _ _); [discriminate|]. rewrite Hpc. by left.
  - destruct (operator s) as [[nid config1|k nid config1]|] eqn:Hpc;
      [| |rewrite Hpc; by left]; cbn [proceeded]; [|discriminate].
    destruct (find_node_by_id _ _) as [k|] eqn:Hk; [|discriminate].
    destruct (negb _); [discriminate|]. cbn [deploying operator].
    intros [= <- <- <-]. by right.
Qed.

Lemma step_pending events s e :
  pending events s -> pending (events ++ [e]) (step s e).
Proof.
  intros (Hbusy & Hlong & Hop).
  assert (forall socket id i msg,
            busy (step s e) !! socket = Some (id, to_store_state i msg) ->
            (exists env, Received socket env msg ∈ events ++ [e])
            /\ message_type_of_code (msg_type msg) = Some MSG_NODE_HEARTBEAT
            /\ (n_id <$> nodes (coord (step s e))) !! i
               = Some (cstring (msg_sender_id msg))) as Hstate.
  { intros socket id i msg H.
    apply step_busy_heartbeat in H as [H|([env ->] & Hty & Hi)].
    - destruct (Hbusy socket id i msg (or_introl H)) as ([env Hin] & Hty & Hi).
      split; [exists env; apply elem_of_app; by left|].
      split; [assumption|]. by apply step_id_at.
    - split; [exists env; apply elem_of_app; right; by apply list_elem_of_singleton|].
      split; [assumption|]. apply step_id_at.
      destruct (find_node_by_id_Some _ _ _ Hi) as (node & Hnode & Hid).
      by rewrite list_lookup_fmap, Hnode, <- Hid. }
  unfold pending. split; [|split].
  - intros socket id i msg [H|H]; [by apply (Hstate socket id)|].
    apply step_busy_resources in H as [H|[H _]];
      destruct (Hbusy socket id i msg) as ([env Hin] & Hty & Hi); auto;
      (split; [exists env; apply elem_of_app; by left|]);
      (split; [assumption|]); by apply step_id_at.
  - intros socket id i msg H.
    apply step_busy_resources in H as [H|[_ H]]; [|assumption].
    by apply (Hlong socket id i).
  - intros i id config H. apply step_id_at.
    apply step_operator_send in H as [H|H]; [by apply (Hop i id config)|].
    destruct (find_node_by_id_Some _ _ _ H) as (node & Hnode & Hid).
    by rewrite list_lookup_fmap, Hnode, <- Hid.
Qed.

Lemma run_pending events : pending events (run events).
Proof.
  unfold run. induction events as [|e events IH] using rev_ind.
  - unfold pending. cbn [initial_system busy operator].
    split; [|split]; intros *; rewrite ?lookup_empty; [intros [?|?]| |];
      done.
  - rewrite foldl_snoc. by apply step_pending.
Qed.

Section registry_invariant.
(** A property [P] of registry records that the updates of the program
    respect; [calm] singles out the heartbeat frames that respect it. *)
Variable P : node_t -> Prop.
Variable calm : message_t -> Prop.
Hypothesis P_reregister : forall hostname ip_address port now node,
  P node -> P (reregister hostname ip_address port now node).
Hypothesis P_fresh : forall slot id hostname ip_address port now,
  P (fresh_node slot id hostname ip_address port now).
Hypothesis P_socket : forall fd node, P node -> P (set_socket_fd fd node).
Hypothesis P_heartbeat : forall now msg node,
  calm msg -> n_id node = cstring (msg_sender_id msg) ->
  P node -> P (heartbeat now msg node).
Hypothesis P_containers : forall l node, P node -> P (set_n_containers l node).
Hypothesis P_disconnect : forall node, P node -> P (disconnect node).
Hypothesis P_last_heartbeat : forall now node,
  P node -> P (set_last_heartbeat now node).
Hypothesis P_state : forall state node, P node -> P (set_state state node).
Hypothesis P_resources : forall msg node,
  calm msg -> n_id node = cstring (msg_sender_id msg) ->
  to_size_t (msg_data_length msg) >= sizeof_resource_info_t ->
  P node -> P (set_resources (resource_info_of_bytes (msg_data msg)) node).

Lemma register_node_Forall now node_id hostname ip_address port c :
  Forall P (nodes c) ->
  Forall P (nodes (snd (register_node now node_id hostname ip_address port c))).
Proof.
  intros H. unfold register_node.
  destruct node_id, hostname, ip_address; try assumption.
  destruct (node_count c >=? MAX_NODES); [assumption|].
  destruct (find_index _ _); simpl.
  - apply Forall_alter; auto.
  - apply Forall_app_2; [assumption|]. by apply Forall_singleton.
Qed.

Lemma on_register_node_Forall env msg conn c :
  Forall P (nodes c) ->
  Forall P (nodes (snd (on_register_node env msg conn c))).
Proof.
  intros H. unfold on_register_node.
  destruct (sscanf_s_s_d _ _ _ _) as [[hostname ip_address] port].
  pose proof (register_node_Forall (now env)
                (Some (cstring (msg_sender_id msg))) (Some hostname)
                (Some ip_address) port c H) as H1.
  destruct (register_node _ _ _ _ _ _) as [r c1] eqn:Hreg. simpl in H1.
  destruct (Z.eqb_spec r 0) as [-> |]; [|assumption]. simpl.
  rewrite nodes_put_sent.
  destruct (find_node_by_id _ _) as [j|] eqn:Hj; [|assumption]. simpl.
  apply Forall_alter; [assumption|]. intros node Hnode HP.
  by apply P_socket.
Qed.

Lemma on_node_heartbeat_Forall env msg c :
  calm msg -> Forall P (nodes c) -> Forall P (nodes (on_node_heartbeat env msg c)).
Proof.
  intros Hcalm H. unfold on_node_heartbeat.
  destruct (find_node_by_id _ _) as [i|] eqn:Hi; [|assumption]. simpl.
  apply Forall_alter; [assumption|]. intros node Hnode HP.
  apply P_heartbeat; [assumption| |assumption].
  destruct (find_node_by_id_Some _ _ _ Hi) as (node' & Hn' & Hid). congruence.
Qed.

Lemma update_container_status_P msg node :
  P node -> P (update_container_status msg node).
Proof.
  intros H. unfold update_container_status. destruct (find_index _ _); auto.
Qed.

Lemma on_container_status_Forall msg c :
  Forall P (nodes c) -> Forall P (nodes (on_container_status msg c)).
Proof.
  intros H. unfold on_container_status.
  destruct (find_node_by_id _ _); [|assumption].
  destruct (to_size_t _ >=? _); [|assumption]. simpl.
  apply Forall_alter; [assumption|]. intros. by apply update_container_status_P.
Qed.

Lemma on_disconnect_Forall conn c :
  Forall P (nodes c) -> Forall P (nodes (on_disconnect conn c)).
Proof.
  intros H. unfold on_disconnect. destruct (strlen _ >? 0); [|assumption].
  destruct (find_node_by_id _ _); [|assumption]. simpl.
  apply Forall_alter; auto.
Qed.

Lemma deploy_container_send_Forall env i node_id config c :
  Forall P (nodes c) ->
  Forall P (nodes (snd (deploy_container_send env i node_id config c))).
Proof.
  intros H. unfold deploy_container_send.
  destruct (send_message _ _ _) as [r sent].
  destruct (negb (r =? 0)); [by (cbn [snd]; rewrite nodes_put_short)|].
  destruct (deployed_container_count _ <? MAX_CONTAINERS); simpl;
    rewrite ?nodes_put_on_wire; [|assumption].
  apply Forall_alter; [assumption|]. intros node _ HP.
  unfold add_to_node. destruct (_ <? _); auto.
Qed.

Lemma deploy_container_Forall env node_id config c :
  Forall P (nodes c) ->
  Forall P (nodes (snd (deploy_container env node_id config c))).
Proof.
  intros H. unfold deploy_container, deploy_container_send.
  destruct node_id as [node_id|], config as [config|]; try assumption.
  destruct (find_node_by_id _ _) as [i|]; [|assumption].
  destruct (negb (node_state_eqb _ _)); [assumption|].
  destruct (send_message _ _ _) as [r sent].
  destruct (negb (r =? 0)); [by (cbn [snd]; rewrite nodes_put_short)|].
  destruct (deployed_container_count _ <? MAX_CONTAINERS); simpl;
    rewrite ?nodes_put_on_wire; [|assumption].
  apply Forall_alter; [assumption|]. intros node _ HP.
  unfold add_to_node. destruct (_ <? _); auto.
Qed.

Lemma delete_container_Forall env container_id c :
  Forall P (nodes c) ->
  Forall P (nodes (snd (delete_container env container_id c))).
Proof.
  intros H. unfold delete_container.
  destruct container_id as [container_id|]; [|assumption].
  destruct (find_index _ _); [|assumption]. simpl.
  destruct (find_node_by_id _ _); [|assumption]. simpl.
  rewrite nodes_put_sent.
  apply Forall_alter; [assumption|]. intros node _ HP.
  unfold remove_from_node. destruct (find_index _ _); auto.
Qed.

Lemma deploy_container_auto_Forall env config c :
  Forall P (nodes c) ->
  Forall P (nodes (snd (deploy_container_auto env config c))).
Proof.
  intros H. unfold deploy_container_auto.
  destruct config; [|assumption].
  destruct (find_best_node _ _ _); [|assumption].
  by apply deploy_container_Forall.
Qed.

Lemma store_Forall f i c :
  (forall node, P node -> P (f node)) ->
  Forall P (nodes c) -> Forall P (nodes (store f i c)).
Proof.
  intros Hf H. cbn [store nodes set_nodes]. apply Forall_alter; auto.
Qed.

Lemma transition_Forall s e c :
  transition s e c ->
  (forall socket env msg,
     e = Frame socket env msg ->
     message_type_of_code (msg_type msg) = Some MSG_NODE_HEARTBEAT ->
     calm msg) ->
  (forall socket id i msg,
     busy s !! socket = Some (id, to_store_resources i msg) ->
     calm msg
     /\ to_size_t (msg_data_length msg) >= sizeof_resource_info_t
     /\ (n_id <$> nodes (coord s)) !! i = Some (cstring (msg_sender_id msg))) ->
  Forall P (nodes (coord s)) -> Forall P (nodes c).
Proof.
  intros [|socket env msg conn He|conn|env config|env cid|env cid|env cid
         |now id hostname ip_address port|msg|now i|state i|fd i
         |socket id i msg Hpc|bytes_sent socket id|env i id config _]
    Hframe Hbusy H.
  - assumption.
  - unfold dispatch_message.
    destruct (message_type_of_code (msg_type msg)) as [[]|] eqn:Hty;
      cbn [snd]; try assumption.
    + by apply on_register_node_Forall.
    + apply on_node_heartbeat_Forall; [|assumption]. by eapply Hframe.
    + by apply on_container_status_Forall.
  - by apply on_disconnect_Forall.
  - by apply deploy_container_auto_Forall.
  - by rewrite start_container_nodes.
  - by rewrite stop_container_nodes.
  - by apply delete_container_Forall.
  - by apply register_node_Forall.
  - by apply on_container_status_Forall.
  - apply store_Forall; auto.
  - apply store_Forall; auto.
  - apply store_Forall; auto.
  - destruct (Hbusy socket id i msg Hpc) as (Hcalm & Hlong & Hi).
    cbn [store nodes set_nodes]. apply Forall_alter; [assumption|].
    intros node Hnode HP. apply P_resources; try assumption.
    rewrite list_lookup_fmap, Hnode in Hi. by injection Hi.
  - by rewrite nodes_put_sent.
  - by apply deploy_container_send_Forall.
Qed.

Lemma run_Forall events :
  Forall (fun e => forall socket env msg,
            e = Frame socket env msg \/ e = Received socket env msg ->
            message_type_of_code (msg_type msg) = Some MSG_NODE_HEARTBEAT ->
            calm msg)
    events ->
  Forall P (nodes (coord (run events))).
Proof.
  induction events as [|e events IH] using rev_ind; intros H.
  - constructor.
  - apply Forall_app in H as [H He]. unfold run. rewrite foldl_snoc.
    fold (run events).
    apply (transition_Forall (run events) e); [apply step_transition| | |auto].
    + inversion_clear He as [|? ? He' _]. intros socket env msg ->.
      apply (He' socket env msg). by left.
    + intros socket id i msg Hpc.
      destruct (run_pending events) as (Hbusy & Hlong & _).
      destruct (Hbusy socket id i msg (or_intror Hpc)) as ([env Hin] & Hty & Hi).
      split; [|split; [by apply (Hlong socket id i)|assumption]].
      rewrite Forall_forall in H.
      apply (H _ Hin socket env msg); [by right | assumption].
Qed.
End registry_invariant.

(** C7, as the specification states it, fails: the worker of [w1_web] is
    DISCONNECTED, and [delete_container] returns 0 and removes the record. *)
Lemma delete_is_not_rejected_for_gone_worker :
  let c := coord (step w1_with_web (Hangup 5)) in
  let r := delete_container (env_at 9) (Some "w1_web"%string) c in
  node_state_of "w1" c = Some NODE_DISCONNECTED
  /\ (c_node_id <$> deployed_containers c) = ["w1"%string]
  /\ fst r = 0
  /\ deployed_containers (snd r) = [].
Proof. vm_compute. repeat split. Qed.

(** What [start_container], [stop_container] and [delete_container] do for
    a ledger record whose worker is registered, by the outcome of
    [send_message] on the worker's [socket_fd]. *)
Lemma commands_by_send env container_id c ci k i node fd id :
  find_index (fun k => streq (c_id k) container_id) (deployed_containers c)
  = Some ci ->
  deployed_containers c !! ci = Some k ->
  find_node_by_id (Some (c_node_id k)) (nodes c) = Some i ->
  nodes c !! i = Some node ->
  n_socket_fd node = fd -> n_id node = id ->
  let frame type := (fd, message_bytes (command_message type id k)) in
  let start := start_container env (Some container_id) c in
  let stop := stop_container env (Some container_id) c in
  let remove := delete_container env (Some container_id) c in
  (if (fd <? 0) || negb (net_ok env)
   then fst start = -1 /\ fst stop = -1
        /\ fails_cleanly (bytes_sent env) c start
        /\ fails_cleanly (bytes_sent env) c stop
        /\ wire (snd remove) = wire c
   else fst start = 0 /\ fst stop = 0
        /\ wire (snd start) = wire c ++ [frame MSG_START_CONTAINER]
        /\ deployed_containers (snd start)
           = alter (starting (now env)) ci (deployed_containers c)
        /\ wire (snd stop) = wire c ++ [frame MSG_STOP_CONTAINER]
        /\ deployed_containers (snd stop)
           = alter (set_c_state CONTAINER_STOPPING) ci (deployed_containers c)
        /\ wire (snd remove) = wire c ++ [frame MSG_DELETE_CONTAINER])
  /\ fst remove = 0
  /\ deployed_containers (snd remove) = delete ci (deployed_containers c).
Proof.
  intros Hci Hk Hi Hnode <- <- frame start stop remove.
  set (fd := n_socket_fd node) in *. set (id := n_id node) in *.
  assert (start
          = let '(r, sent) :=
              send_message (bytes_sent env) fd
                (command_message MSG_START_CONTAINER id k) in
            if negb (r =? 0) then (-1, put_short c fd sent)
            else (0, set_deployed_containers (put_on_wire c fd sent)
                       (alter (starting (now env)) ci
                          (deployed_containers (put_on_wire c fd sent)))))
    as Hstart.
  { subst start. unfold start_container. rewrite Hci, Hk.
    cbn [default from_option Datatypes.id]. by rewrite Hi, Hnode. }
  assert (stop
          = let '(r, sent) :=
              send_message (bytes_sent env) fd
                (command_message MSG_STOP_CONTAINER id k) in
            if negb (r =? 0) then (-1, put_short c fd sent)
            else (0, set_deployed_containers (put_on_wire c fd sent)
                       (alter (set_c_state CONTAINER_STOPPING) ci
                          (deployed_containers (put_on_wire c fd sent)))))
    as Hstop.
  { subst stop. unfold stop_container. rewrite Hci, Hk.
    cbn [default from_option Datatypes.id]. by rewrite Hi, Hnode. }
  assert (fst remove = 0
          /\ deployed_containers (snd remove) = delete ci (deployed_containers c)
          /\ wire (snd remove)
             = wire (put_sent c fd
                       (send_message (bytes_sent env) fd
                          (command_message MSG_DELETE_CONTAINER id k))))
    as (Hr & Hledger & Hwire).
  { subst remove. unfold delete_container. rewrite Hci, Hk.
    cbn [default from_option Datatypes.id]. rewrite Hi, Hnode.
    cbn [default from_option Datatypes.id fst snd deployed_containers wire
         set_nodes].
    by rewrite deployed_put_sent. }
  split; [|by split].
  pose proof (fails_cleanly_send (bytes_sent env) c fd
                (command_message MSG_START_CONTAINER id k)) as Hcs.
  pose proof (fails_cleanly_send (bytes_sent env) c fd
                (command_message MSG_STOP_CONTAINER id k)) as Hcp.
  rewrite Hstart, Hstop, Hwire. unfold put_sent, net_ok.
  unfold send_message in *.
  destruct (Z.ltb_spec fd 0); cbn [orb negb fst snd Z.eqb].
  - repeat split_and; try reflexivity; by apply fails_cleanly_failed.
  - destruct (bytes_sent env =? sizeof_message_t); cbn [negb fst snd Z.eqb].
    + by repeat split_and.
    + repeat split_and; try reflexivity.
      * exact (Hcs (fun _ => c)).
      * exact (Hcp (fun _ => c)).
      * apply wire_put_short.
Qed.

(** C7, as the specification states it, fails also for start: [w1] holds
    [web] and is DISCONNECTED with its socket open, and [start_container]
    returns 0 and puts its frame on that socket. *)
Lemma start_is_not_rejected_for_gone_worker :
  let c := coord w1_reconnecting in
  let r := start_container (env_at 9) (Some "w1_web"%string) c in
  node_state_of "w1" c = Some NODE_DISCONNECTED
  /\ (n_socket_fd <$> lookup_node "w1" (nodes c)) = Some 6
  /\ fst r = 0
  /\ (fst <$> wire (snd r)) = (fst <$> wire c) ++ [6].
Proof. vm_compute. repeat split. Qed.

(** C7, amended. No operation tests the state of the worker: for a
    container whose worker is registered, the outcome is that of
    [send_message] on the worker's [socket_fd], whatever [node->state] is.
    [start_container] and [stop_container] fail exactly when [send_message]
    fails (the socket is -1, as after a finished cleanup, or [send] does not
    take the frame): they return -1 and leave the registry, the ledger and
    the frames on the sockets as they were; otherwise they return 0, the
    frame is on the worker's socket and the ledger record is STARTING,
    resp. STOPPING, also for a DISCONNECTED worker whose socket is open.
    [delete_container] is never rejected: it returns 0 and removes the
    record from the ledger, its frame going out when [send_message]
    succeeds. *)
Theorem start_stop_fail_only_when_send_fails
    env container_id c ci k i node :
  find_index (fun k => streq (c_id k) container_id) (deployed_containers c)
  = Some ci ->
  deployed_containers c !! ci = Some k ->
  find_node_by_id (Some (c_node_id k)) (nodes c) = Some i ->
  nodes c !! i = Some node ->
  let fd := n_socket_fd node in
  let frame type :=
    (fd, message_bytes (command_message type (n_id node) k)) in
  let start c := start_container env (Some container_id) c in
  let stop c := stop_container env (Some container_id) c in
  let remove c := delete_container env (Some container_id) c in
  (if (fd <? 0) || negb (net_ok env)
   then fst (start c) = -1 /\ fst (stop c) = -1
        /\ fails_cleanly (bytes_sent env) c (start c)
        /\ fails_cleanly (bytes_sent env) c (stop c)
        /\ wire (snd (remove c)) = wire c
   else fst (start c) = 0 /\ fst (stop c) = 0
        /\ wire (snd (start c)) = wire c ++ [frame MSG_START_CONTAINER]
        /\ deployed_containers (snd (start c))
           = alter (starting (now env)) ci (deployed_containers c)
        /\ wire (snd (stop c)) = wire c ++ [frame MSG_STOP_CONTAINER]
        /\ deployed_containers (snd (stop c))
           = alter (set_c_state CONTAINER_STOPPING) ci (deployed_containers c)
        /\ wire (snd (remove c)) = wire c ++ [frame MSG_DELETE_CONTAINER])
  /\ fst (remove c) = 0
  /\ deployed_containers (snd (remove c)) = delete ci (deployed_containers c)
  /\ forall state,
       let c' := store (set_state state) i c in
       fst (start c') = fst (start c)
       /\ wire (snd (start c')) = wire (snd (start c))
       /\ fst (stop c') = fst (stop c)
       /\ wire (snd (stop c')) = wire (snd (stop c))
       /\ fst (remove c') = fst (remove c)
       /\ wire (snd (remove c')) = wire (snd (remove c)).
Proof.
  intros Hci Hk Hi Hnode fd frame start stop remove.
  pose proof (commands_by_send env container_id c ci k i node fd (n_id node)
                Hci Hk Hi Hnode eq_refl eq_refl) as (Hc & Hr & Hledger).
  split; [exact Hc|]. split; [exact Hr|]. split; [exact Hledger|].
  intros state c'.
  assert (find_node_by_id (Some (c_node_id k)) (nodes c') = Some i) as Hi'.
  { subst c'. cbn [store nodes set_nodes]. unfold find_node_by_id in *.
    by rewrite find_index_alter. }
  assert (nodes c' !! i = Some (set_state state node)) as Hnode'.
  { subst c'. cbn [store nodes set_nodes].
    by rewrite list_lookup_alter_eq, Hnode. }
  pose proof (commands_by_send env container_id c' ci k i
                (set_state state node) fd (n_id node) Hci Hk Hi' Hnode'
                eq_refl eq_refl) as (Hc' & Hr' & _).
  fold (start c') (stop c') (remove c') in Hc', Hr'.
  fold (start c) (stop c) (remove c) in Hc, Hr.
  assert (wire c' = wire c) as Hw by reflexivity.
  destruct ((fd <? 0) || negb (net_ok env)).
  - destruct Hc as (H1 & H2 & (_ & H3) & (_ & H4) & H5).
    destruct Hc' as (H1' & H2' & (_ & H3') & (_ & H4') & H5').
    rewrite H1, H2, H1', H2', H5, H5', Hr, Hr'.
    destruct H3 as (_ & _ & _ & _ & -> & _); [lia|].
    destruct H4 as (_ & _ & _ & _ & -> & _); [lia|].
    destruct H3' as (_ & _ & _ & _ & -> & _); [lia|].
    destruct H4' as (_ & _ & _ & _ & -> & _); [lia|].
    by repeat split.
  - destruct Hc as (H1 & H2 & H3 & _ & H4 & _ & H5).
    destruct Hc' as (H1' & H2' & H3' & _ & H4' & _ & H5').
    rewrite H1, H2, H1', H2', H3, H3', H4, H4', H5, H5', Hr, Hr', Hw.
    by repeat split.
Qed.

Lemma start_stop_fail_only_when_send_fails_witness :
  let c := coord w1_reconnecting in
  node_state_of "w1" c = Some NODE_DISCONNECTED
  /\ fst (start_container (env_at 9) (Some "w1_web"%string) c) = 0
  /\ fst (stop_container (env_at 9) (Some "w1_web"%string) c) = 0
  /\ fst (delete_container (env_at 9) (Some "w1_web"%string) c) = 0
  /\ (fst <$> wire (snd (start_container (env_at 9) (Some "w1_web"%string) c)))
     = (fst <$> wire c) ++ [6].
Proof.
  intros c.
  assert (node_state_of "w1" c = Some NODE_DISCONNECTED) as Hstate
    by (vm_compute; reflexivity).
  assert (exists k node,
            deployed_containers c !! 0%nat = Some k
            /\ nodes c !! 0%nat = Some node
            /\ c_node_id k = "w1"%string /\ n_socket_fd node = 6)
    as (k & node & Hk & Hnode & Hid & Hfd)
    by (vm_compute; eexists _, _; repeat split).
  assert (find_index (fun k => streq (c_id k) "w1_web") (deployed_containers c)
          = Some 0%nat) as Hci by (vm_compute; reflexivity).
  assert (find_node_by_id (Some "w1"%string) (nodes c) = Some 0%nat) as Hi
    by (vm_compute; reflexivity).
  rewrite <- Hid in Hi.
  pose proof (start_stop_fail_only_when_send_fails (env_at 9) "w1_web" c
                0%nat k 0%nat node Hci Hk Hi Hnode) as (H & Hr & _).
  rewrite Hfd in H. cbn [Z.ltb Z.compare orb] in H.
  change (negb (net_ok (env_at 9))) with false in H.
  destruct H as (H1 & H2 & H3 & _).
  split; [assumption|]. split; [assumption|]. split; [assumption|].
  split; [assumption|].
  rewrite H3, fmap_app. reflexivity.
Defined.

Lemma zero_resources_not_considered now node :
  n_resources node = zero_resource_info -> considered now node = false.
Proof.
  intros H. unfold considered. rewrite H. simpl.
  destruct (_ || _); [reflexivity|].
  destruct (Z.geb_spec (n_container_count node) 0); [reflexivity|].
  unfold n_container_count in *. lia.
Qed.

(** C9. As long as no heartbeat frame from [id] carried a resources record,
    every registry record with that id has the all-zero resources that
    registration gave it, so [max_containers = 0], the capacity test
    [container_count >= max_containers] holds and the loop of
    [find_best_node] skips it: placement never returns it. *)
Theorem unreported_worker_is_never_placed events id :
  Forall (fun e => reports_resources id e = false) events ->
  let c := coord (run events) in
  (forall node, node ∈ nodes c -> n_id node = id ->
     n_resources node = zero_resource_info
     /\ max_containers (n_resources node) = 0
     /\ forall now, considered now node = false)
  /\ forall now config i node,
       find_best_node now config c = Some i -> nodes c !! i = Some node ->
       n_id node <> id.
Proof.
  intros Hev c.
  assert (Forall (fun node => n_id node = id ->
                              n_resources node = zero_resource_info) (nodes c))
    as Hinv.
  { apply (run_Forall _
             (fun msg => cstring (msg_sender_id msg) = id ->
                         to_size_t (msg_data_length msg) < sizeof_resource_info_t));
      simpl; try done.
    - intros now msg node Hcalm Hsender H Hid. rewrite <- Hsender in Hcalm.
      specialize (Hcalm Hid).
      destruct (Z.geb_spec (to_size_t (msg_data_length msg))
                  sizeof_resource_info_t); [lia | auto].
    - intros msg node Hcalm Hsender Hlong H Hid. rewrite <- Hsender in Hcalm.
      specialize (Hcalm Hid). lia.
    - eapply Forall_impl; [exact Hev|]. simpl.
      intros e He socket env msg [-> | ->] Hty Hsender; simpl in He;
        rewrite Hty in He; apply streq_eq in Hsender; rewrite Hsender in He;
        simpl in He;
        by destruct (Z.geb_spec (to_size_t (msg_data_length msg))
                       sizeof_resource_info_t); [|lia]. }
  rewrite Forall_forall in Hinv. split.
  - intros node Hin Hid. specialize (Hinv node Hin Hid).
    split; [assumption|]. split; [by rewrite Hinv|].
    intros now. by apply zero_resources_not_considered.
  - intros now config i node Hbest Hnode Hid.
    destruct (find_best_node_spec now config c i Hbest) as (n & Hn & Hc & _).
    assert (n = node) as -> by congruence.
    rewrite zero_resources_not_considered in Hc; [discriminate|].
    apply Hinv; [|assumption]. apply list_elem_of_lookup. by exists i.
Qed.

Lemma unreported_worker_is_never_placed_witness :
  let c := coord (run w1_unreported) in
  (forall node, node ∈ nodes c -> n_id node = "w1"%string ->
     n_resources node = zero_resource_info
     /\ max_containers (n_resources node) = 0
     /\ forall now, considered now node = false)
  /\ forall now config i node,
       find_best_node now config c = Some i -> nodes c !! i = Some node ->
       n_id node <> "w1"%string.
Proof.
  apply (unreported_worker_is_never_placed w1_unreported "w1").
  repeat constructor.
Defined.

Example w1_unreported_places_w2 :
  let c := coord (run w1_unreported) in
  (n_id <$> nodes c) = ["w2"; "w1"]%string
  /\ find_best_node 10 (Some (config_named "web")) c = Some 0%nat.
Proof. vm_compute. by split. Qed.

(** ** Liveness of workers *)

Lemma node_state_of_nodes id c : node_state_of id c = state_in id (nodes c).
Proof. reflexivity. Qed.

(** An update of one record that keeps its id and keeps it CONNECTED. *)
Lemma state_in_alter_connected id f k l :
  (forall node, n_id (f node) = n_id node) ->
  (forall node, n_state node = NODE_CONNECTED -> n_state (f node) = NODE_CONNECTED) ->
  state_in id l = Some NODE_CONNECTED ->
  state_in id (alter f k l) = Some NODE_CONNECTED.
Proof.
  intros Hid Hst. unfold state_in, find_node_by_id.
  rewrite find_index_alter by (intros; by rewrite Hid).
  destruct (find_index _ l) as [i|]; simpl; [|done].
  destruct (decide (k = i)) as [-> | Hne].
  - rewrite list_lookup_alter_eq. destruct (l !! i) as [node|]; simpl; [|done].
    intros [= H]. f_equal. by apply Hst.
  - by rewrite list_lookup_alter_ne.
Qed.

(** An update of one record that sets it CONNECTED, id kept. *)
Lemma state_in_alter_connects id f k l :
  (forall node, n_id (f node) = n_id node) ->
  (forall node, n_state (f node) = NODE_CONNECTED) ->
  state_in id l = Some NODE_CONNECTED ->
  state_in id (alter f k l) = Some NODE_CONNECTED.
Proof. intros Hid Hst. apply state_in_alter_connected; auto. Qed.

Lemma state_in_app id l k :
  state_in id l = Some NODE_CONNECTED -> state_in id (l ++ k) = Some NODE_CONNECTED.
Proof.
  unfold state_in, find_node_by_id.
  destruct (find_index _ l) as [i|] eqn:Hi; simpl; [|done].
  rewrite (find_index_app_Some _ _ k _ Hi). simpl.
  rewrite lookup_app_l; [done|]. by apply find_index_lt in Hi.
Qed.

(** The cleanup of another worker's connection. *)
Lemma state_in_disconnect_other id id' k l :
  id' <> id ->
  find_node_by_id (Some id') l = Some k ->
  state_in id (alter disconnect k l) = state_in id l.
Proof.
  intros Hne Hk. unfold state_in, find_node_by_id.
  rewrite find_index_alter by reflexivity.
  destruct (find_index _ l) as [i|] eqn:Hi; simpl; [|done].
  rewrite list_lookup_alter_ne; [done|]. intros ->.
  destruct (find_node_by_id_Some _ _ _ Hk) as (n1 & Hn1 & H1).
  destruct (find_node_by_id_Some id l i Hi) as (n2 & Hn2 & H2). congruence.
Qed.

Lemma state_in_disconnect id k l :
  find_node_by_id (Some id) l = Some k ->
  state_in id (alter disconnect k l) = Some NODE_DISCONNECTED.
Proof.
  intros Hk. unfold state_in, find_node_by_id.
  rewrite find_index_alter by reflexivity. unfold find_node_by_id in Hk.
  rewrite Hk. simpl. rewrite list_lookup_alter_eq.
  destruct (find_index_Some _ _ _ Hk) as (node & -> & _). reflexivity.
Qed.

Lemma register_node_keeps_connected id now node_id hostname ip_address port c :
  state_in id (nodes c) = Some NODE_CONNECTED ->
  state_in id (nodes (snd (register_node now node_id hostname ip_address port c)))
  = Some NODE_CONNECTED.
Proof.
  intros H. unfold register_node.
  destruct node_id, hostname, ip_address; try assumption.
  destruct (node_count c >=? MAX_NODES); [assumption|].
  destruct (find_index _ _); simpl.
  - by apply state_in_alter_connects.
  - by apply state_in_app.
Qed.

Lemma on_register_node_keeps_connected id env msg conn c :
  state_in id (nodes c) = Some NODE_CONNECTED ->
  state_in id (nodes (snd (on_register_node env msg conn c)))
  = Some NODE_CONNECTED.
Proof.
  intros H. unfold on_register_node.
  destruct (sscanf_s_s_d _ _ _ _) as [[hostname ip_address] port].
  pose proof (register_node_keeps_connected id (now env)
                (Some (cstring (msg_sender_id msg))) (Some hostname)
                (Some ip_address) port c H) as H1.
  destruct (register_node _ _ _ _ _ _) as [r c1]. simpl in H1.
  destruct (r =? 0); [|assumption]. simpl. rewrite nodes_put_sent.
  destruct (find_node_by_id _ _); [|assumption]. simpl.
  by apply state_in_alter_connected.
Qed.

Lemma deploy_container_keeps_connected id env node_id config c :
  state_in id (nodes c) = Some NODE_CONNECTED ->
  state_in id (nodes (snd (deploy_container env node_id config c)))
  = Some NODE_CONNECTED.
Proof.
  intros H. unfold deploy_container, deploy_container_send.
  destruct node_id as [node_id|], config as [config|]; try assumption.
  destruct (find_node_by_id _ _) as [i|]; [|assumption].
  destruct (negb (node_state_eqb _ _)); [assumption|].
  destruct (send_message _ _ _) as [r sent].
  destruct (negb (r =? 0)); [by (cbn [snd]; rewrite nodes_put_short)|].
  destruct (deployed_container_count _ <? MAX_CONTAINERS); simpl;
    rewrite ?nodes_put_on_wire; [|assumption].
  apply state_in_alter_connected; [| |assumption];
    intros node; unfold add_to_node; by destruct (_ <? _).
Qed.

Lemma delete_container_keeps_connected id env container_id c :
  state_in id (nodes c) = Some NODE_CONNECTED ->
  state_in id (nodes (snd (delete_container env container_id c)))
  = Some NODE_CONNECTED.
Proof.
  intros H. unfold delete_container.
  destruct container_id as [container_id|]; [|assumption].
  destruct (find_index _ _); [|assumption]. simpl.
  destruct (find_node_by_id _ _); [|assumption]. simpl.
  rewrite nodes_put_sent.
  apply state_in_alter_connected; [| |assumption];
    intros node; unfold remove_from_node; by destruct (find_index _ _).
Qed.

(** C5, as the specification states it, fails: 999 seconds after its last
    heartbeat, far beyond the 30 seconds and one 5-second tick, [w1] is
    still CONNECTED in the registry (placement alone passed it over). *)
Lemma stale_worker_is_still_connected :
  let c := coord w1_silent in
  node_state_of "w1" c = Some NODE_CONNECTED
  /\ (n_last_heartbeat <$> nodes c !! 0%nat) = Some 1
  /\ 1000 - 1 > 30 + 5
  /\ deployed_containers c = [].
Proof. vm_compute. repeat split. Qed.

(** A store into one record that keeps its id. *)
Lemma state_in_alter_other id id' f k l :
  (forall node, n_id (f node) = n_id node) ->
  id' <> id ->
  find_node_by_id (Some id') l = Some k ->
  state_in id (alter f k l) = state_in id l.
Proof.
  intros Hf Hne Hk. unfold state_in, find_node_by_id.
  rewrite find_index_alter by (intros; by rewrite Hf).
  destruct (find_index _ l) as [i|] eqn:Hi; simpl; [|done].
  rewrite list_lookup_alter_ne; [done|]. intros ->.
  destruct (find_node_by_id_Some _ _ _ Hk) as (n1 & Hn1 & H1).
  destruct (find_node_by_id_Some id l i Hi) as (n2 & Hn2 & H2). congruence.
Qed.

Lemma state_in_alter_self id f k l state :
  (forall node, n_id (f node) = n_id node) ->
  (forall node, n_state (f node) = state) ->
  find_node_by_id (Some id) l = Some k ->
  state_in id (alter f k l) = Some state.
Proof.
  intros Hf Hstate Hk. unfold state_in, find_node_by_id.
  rewrite find_index_alter by (intros; by rewrite Hf).
  unfold find_node_by_id in Hk. rewrite Hk. simpl.
  rewrite list_lookup_alter_eq.
  destruct (find_index_Some _ _ _ Hk) as (node & -> & _). simpl.
  by rewrite Hstate.
Qed.

Lemma deploy_container_send_keeps_connected id env i node_id config c :
  state_in id (nodes c) = Some NODE_CONNECTED ->
  state_in id (nodes (snd (deploy_container_send env i node_id config c)))
  = Some NODE_CONNECTED.
Proof.
  intros H. unfold deploy_container_send.
  destruct (send_message _ _ _) as [r sent].
  destruct (negb (r =? 0)); [by (cbn [snd]; rewrite nodes_put_short)|].
  destruct (deployed_container_count _ <? MAX_CONTAINERS); simpl;
    rewrite ?nodes_put_on_wire; [|assumption].
  apply state_in_alter_connected; [| |assumption];
    intros node; unfold add_to_node; by destruct (_ <? _).
Qed.

(** The end of a handler thread, as one step or as the first store of the
    cleanup: the record of the thread's [node_id] becomes DISCONNECTED, the
    other records keep their state. *)
Lemma state_in_cleanup id id' f c :
  (forall node, n_id (f node) = n_id node) ->
  (forall node, n_state (f node) = NODE_DISCONNECTED) ->
  state_in id (nodes c) = Some NODE_CONNECTED ->
  state_in id
    (nodes (if strlen id' >? 0
            then match find_node_by_id (Some id') (nodes c) with
                 | Some i => set_nodes c (alter f i (nodes c))
                 | None => c
                 end
            else c))
  = Some (if streq id' id && (strlen id' >? 0)
          then NODE_DISCONNECTED else NODE_CONNECTED).
Proof.
  intros Hf Hstate H.
  destruct (strlen id' >? 0); [|by rewrite andb_false_r].
  rewrite andb_true_r. unfold streq.
  destruct (String.eqb_spec id' id) as [-> | Hne].
  - unfold state_in in H.
    destruct (find_node_by_id (Some id) (nodes c)) as [k|] eqn:Hk;
      [|discriminate].
    cbn [nodes set_nodes]. by apply state_in_alter_self.
  - destruct (find_node_by_id (Some id') (nodes c)) as [k|] eqn:Hk;
      [|assumption].
    cbn [nodes set_nodes]. by rewrite (state_in_alter_other id id').
Qed.

(** The local [node_id] after a thread moved. *)
Lemma local_node_id_at_receive s socket id c socket' :
  local_node_id (at_receive s socket id c) socket'
  = if decide (socket' = socket) then Some id else local_node_id s socket'.
Proof.
  unfold local_node_id, at_receive. cbn [threads busy].
  destruct (decide (socket' = socket)) as [-> | Hne].
  - by rewrite lookup_insert_eq.
  - by rewrite lookup_insert_ne, lookup_delete_ne.
Qed.

Lemma local_node_id_inside s socket id pc c socket' :
  local_node_id (inside s socket id pc c) socket'
  = if decide (socket' = socket) then Some id else local_node_id s socket'.
Proof.
  unfold local_node_id, inside. cbn [threads busy].
  destruct (decide (socket' = socket)) as [-> | Hne].
  - by rewrite lookup_delete_eq, lookup_insert_eq.
  - by rewrite lookup_delete_ne, lookup_insert_ne.
Qed.

Lemma local_node_id_returned s socket c socket' :
  local_node_id (returned s socket c) socket'
  = if decide (socket' = socket) then None else local_node_id s socket'.
Proof.
  unfold local_node_id, returned. cbn [threads busy].
  destruct (decide (socket' = socket)) as [-> | Hne].
  - by rewrite !lookup_delete_eq.
  - by rewrite !lookup_delete_ne.
Qed.

(** A frame that is no REGISTER_NODE leaves the local [node_id]. *)
Lemma dispatch_message_node_id env msg conn c :
  message_type_of_code (msg_type msg) <> Some MSG_REGISTER_NODE ->
  node_id (fst (dispatch_message env msg conn c)) = node_id conn.
Proof.
  intros Hty. unfold dispatch_message.
  by destruct (message_type_of_code (msg_type msg)) as [[]|].
Qed.

(** The local [node_id] of a thread changes when the thread starts, when it
    receives a REGISTER_NODE frame, and when it returns. *)
Lemma local_node_id_step s e socket :
  threads s !! socket = None \/ busy s !! socket = None ->
  local_node_id (step s e) socket = local_node_id s socket
  \/ e = Accept socket
  \/ (exists env msg,
        (e = Frame socket env msg \/ e = Received socket env msg)
        /\ message_type_of_code (msg_type msg) = Some MSG_REGISTER_NODE)
  \/ local_node_id (step s e) socket = None.
Proof.
  intros Hone.
  destruct e as [socket'|socket' env msg|socket'|env config|env cid|env cid
                |env cid|socket' env msg|socket'|socket' env|env config|env];
    cbn [step].
  - destruct (decide (socket' = socket)) as [-> | Hne]; [by (right; left)|].
    left. destruct (socket' <? 0); [done|].
    destruct (threads s !! socket'), (busy s !! socket'); try done.
    unfold local_node_id. cbn [threads busy]. by rewrite lookup_insert_ne.
  - destruct (threads s !! socket') as [id'|] eqn:Hid'; [|by left].
    destruct (dispatch_message env msg _ _) as [conn c] eqn:Hd.
    destruct (decide (socket' = socket)) as [-> | Hne].
    + assert (message_type_of_code (msg_type msg) = Some MSG_REGISTER_NODE
              \/ message_type_of_code (msg_type msg)
                 <> Some MSG_REGISTER_NODE) as [Hty | Hty]
        by (destruct (message_type_of_code _) as [[]|];
            (by left) || (by right)).
      * right; right; left. exists env, msg. by split; [left|].
      * left. unfold local_node_id. cbn [threads]. rewrite lookup_insert_eq, Hid'.
        pose proof (dispatch_message_node_id env msg
                      (mk_connection socket id') (coord s) Hty) as H.
        rewrite Hd in H. cbn [fst node_id] in H. by rewrite H.
    + left. unfold local_node_id. cbn [threads busy]. by rewrite lookup_insert_ne.
  - destruct (threads s !! socket') as [id'|] eqn:Hid'; [|by left].
    unfold local_node_id. cbn [threads busy].
    destruct (decide (socket' = socket)) as [-> | Hne].
    + right; right; right. rewrite lookup_delete_eq.
      destruct Hone as [Hone | ->]; [congruence|done].
    + left. by rewrite lookup_delete_ne.
  - left. by destruct (operator s).
  - left. by destruct (operator s).
  - left. by destruct (operator s).
  - left. by destruct (operator s).
  - destruct (threads s !! socket') as [id'|] eqn:Hid'; [|by left].
    assert (local_node_id s socket' = Some id') as Hlocal
      by (unfold local_node_id; by rewrite Hid').
    unfold received.
    destruct (message_type_of_code (msg_type msg)) as [[]|] eqn:Hty;
      try by left.
    + destruct (decide (socket' = socket)) as [-> | Hne].
      * right; right; left. exists env, msg. by split; [right|].
      * left. destruct (sscanf_s_s_d _ _ _ _) as [[hostname ip_address] port].
        destruct (register_node _ _ _ _ _ _) as [r c1].
        destruct (r =? 0);
          rewrite ?local_node_id_inside, ?local_node_id_at_receive;
          by destruct (decide _).
    + left. destruct (find_node_by_id _ _); [|done].
      rewrite local_node_id_inside.
      destruct (decide _) as [-> |]; [by rewrite Hlocal|done].
    + left. rewrite local_node_id_at_receive.
      destruct (decide _) as [-> |]; [by rewrite Hlocal|done].
  - destruct (threads s !! socket') as [id'|] eqn:Hid'; [|by left].
    assert (local_node_id s socket' = Some id') as Hlocal
      by (unfold local_node_id; by rewrite Hid').
    unfold lost.
    destruct (strlen id' >? 0); [destruct (find_node_by_id _ _)|];
      rewrite ?local_node_id_inside, ?local_node_id_returned;
      destruct (decide _) as [-> |]; try (by left);
      try (by right; right; right).
  - destruct (busy s !! socket') as [[id' pc]|] eqn:Hpc; [|by left].
    destruct pc as [| |i msg|i msg|i]; cbn [resumed];
      try destruct (to_size_t _ >=? _);
      rewrite ?local_node_id_inside, ?local_node_id_at_receive,
        ?local_node_id_returned;
      destruct (decide _) as [-> |]; try (by left);
      try (by right; right; right);
      left; unfold local_node_id;
      (destruct Hone as [-> | Hone]; [by rewrite Hpc|congruence]).
  - left. destruct (operator s); [done|]. unfold placed.
    by destruct (find_best_node _ _ _).
  - left. destruct (operator s) as [[nid config|i nid config]|]; [| |done];
      cbn [proceeded]; [|done].
    destruct (find_node_by_id _ _); [|done]. by destruct (negb _).
Qed.

(** A handler thread is at its [receive_message] or inside an iteration,
    not both. *)
Lemma step_one_place s e socket :
  threads s !! socket = None \/ busy s !! socket = None ->
  threads (step s e) !! socket = None \/ busy (step s e) !! socket = None.
Proof.
  intros Hone.
  destruct e as [socket'|socket' env msg|socket'|env config|env cid|env cid
                |env cid|socket' env msg|socket'|socket' env|env config|env];
    cbn [step].
  - destruct (socket' <? 0); [done|].
    destruct (threads s !! socket') eqn:Ht, (busy s !! socket') eqn:Hb;
      try done.
    cbn [threads busy].
    destruct (decide (socket' = socket)) as [-> | Hne]; [by right|].
    by rewrite lookup_insert_ne.
  - destruct (threads s !! socket') as [id'|] eqn:Hid'; [|done].
    destruct (dispatch_message env msg _ _) as [conn c]. cbn [threads busy].
    destruct (decide (socket' = socket)) as [-> | Hne].
    + right. destruct Hone as [Hone | Hone]; [congruence|done].
    + by rewrite lookup_insert_ne.
  - destruct (threads s !! socket') as [id'|] eqn:Hid'; [|done].
    cbn [threads busy].
    destruct (decide (socket' = socket)) as [-> | Hne].
    + left. by rewrite lookup_delete_eq.
    + by rewrite lookup_delete_ne.
  - by destruct (operator s).
  - by destruct (operator s).
  - by destruct (operator s).
  - by destruct (operator s).
  - destruct (threads s !! socket') as [id'|] eqn:Hid'; [|done].
    unfold received.
    destruct (message_type_of_code (msg_type msg)) as [[]|]; try done.
    + destruct (sscanf_s_s_d _ _ _ _) as [[hostname ip_address] port].
      destruct (register_node _ _ _ _ _ _) as [r c1].
      destruct (r =? 0); cbn [inside at_receive threads busy];
        destruct (decide (socket' = socket)) as [-> | Hne];
        rewrite ?lookup_delete_eq, ?lookup_delete_ne, ?lookup_insert_ne
          by done; auto.
    + destruct (find_node_by_id _ _); [|done]. cbn [inside threads busy].
      destruct (decide (socket' = socket)) as [-> | Hne];
        rewrite ?lookup_delete_eq, ?lookup_delete_ne, ?lookup_insert_ne
          by done; auto.
    + cbn [at_receive threads busy].
      destruct (decide (socket' = socket)) as [-> | Hne];
        rewrite ?lookup_delete_eq, ?lookup_delete_ne, ?lookup_insert_ne
          by done; auto.
  - destruct (threads s !! socket') as [id'|] eqn:Hid'; [|done].
    unfold lost.
    destruct (strlen id' >? 0); [destruct (find_node_by_id _ _)|];
      cbn [inside returned threads busy];
      destruct (decide (socket' = socket)) as [-> | Hne];
      rewrite ?lookup_delete_eq, ?lookup_delete_ne, ?lookup_insert_ne
        by done; auto.
  - destruct (busy s !! socket') as [[id' pc]|] eqn:Hpc; [|done].
    destruct pc as [| |i msg|i msg|i]; cbn [resumed];
      try destruct (to_size_t _ >=? _);
      cbn [inside at_receive returned threads busy];
      destruct (decide (socket' = socket)) as [-> | Hne];
      rewrite ?lookup_delete_eq, ?lookup_delete_ne, ?lookup_insert_ne
        by done; auto.
  - destruct (operator s); [done|]. unfold placed.
    by destruct (find_best_node _ _ _).
  - destruct (operator s) as [[nid config|i nid config]|]; [| |done];
      cbn [proceeded]; [|done].
    destruct (find_node_by_id _ _); [|done]. by destruct (negb _).
Qed.

Lemma run_one_place events socket :
  threads (run events) !! socket = None \/ busy (run events) !! socket = None.
Proof.
  unfold run. induction events as [|e events IH] using rev_ind.
  - by left.
  - rewrite foldl_app. by apply step_one_place.
Qed.

(** C5, amended. The coordinator has no reaper and no other timer.  A
    CONNECTED worker stays CONNECTED through every event, at whatever time
    it happens and however old the worker's heartbeat is, except one: the
    failure of [receive_message] in a handler thread whose local [node_id]
    is not empty and is the worker's id; the cleanup of that thread marks
    the worker DISCONNECTED at once.  That [node_id] is empty when the
    thread starts and then the sender id of the last REGISTER_NODE frame
    that the thread received, whether or not [register_node] accepted it:
    no other event changes it until the thread returns (a thread is at
    its [receive_message] or inside an iteration, not both, in every state
    that the coordinator reaches).  A heartbeat older than 30 seconds only
    makes placement pass the worker over: [find_best_node] does not
    consider it. *)
Theorem connected_until_connection_ends s e id :
  node_state_of id (coord s) = Some NODE_CONNECTED ->
  node_state_of id (coord (step s e))
  = Some (if ends_connection_of id s e then NODE_DISCONNECTED
          else NODE_CONNECTED)
  /\ (forall socket,
        0 <= socket -> local_node_id s socket = None ->
        local_node_id (step s (Accept socket)) socket = Some ""%string)
  /\ (forall socket env msg,
        is_Some (threads s !! socket) ->
        message_type_of_code (msg_type msg) = Some MSG_REGISTER_NODE ->
        local_node_id (step s (Frame socket env msg)) socket
        = Some (cstring (msg_sender_id msg))
        /\ local_node_id (step s (Received socket env msg)) socket
           = Some (cstring (msg_sender_id msg)))
  /\ (forall socket,
        threads s !! socket = None \/ busy s !! socket = None ->
        local_node_id (step s e) socket = local_node_id s socket
        \/ e = Accept socket
        \/ (exists env msg,
              (e = Frame socket env msg \/ e = Received socket env msg)
              /\ message_type_of_code (msg_type msg)
                 = Some MSG_REGISTER_NODE)
        \/ local_node_id (step s e) socket = None)
  /\ forall now config i node,
       nodes (coord s) !! i = Some node ->
       now - n_last_heartbeat node > 30 ->
       considered now node = false
       /\ find_best_node now config (coord s) <> Some i.
Proof.
  rewrite !node_state_of_nodes. intros H.
  split; [|split; [|split; [|split]]].
  - destruct e as [socket|socket env msg|socket|env config|env cid|env cid
                  |env cid|socket env msg|socket|socket env|env config|env];
      cbn [step ends_connection_of].
    + destruct (socket <? 0); [assumption|].
      by destruct (threads s !! socket), (busy s !! socket).
    + destruct (threads s !! socket) as [id'|]; [|assumption].
      unfold dispatch_message.
      destruct (message_type_of_code (msg_type msg)) as [[]|];
        cbn [coord]; try assumption.
      * pose proof (on_register_node_keeps_connected id env msg
                      (mk_connection socket id') (coord s) H) as H1.
        by destruct (on_register_node _ _ _ _).
      * unfold on_node_heartbeat.
        destruct (find_node_by_id _ _); [|assumption]. simpl.
        by apply state_in_alter_connects.
      * unfold on_container_status.
        destruct (find_node_by_id _ _); [|assumption].
        destruct (to_size_t _ >=? _); [|assumption]. simpl.
        apply state_in_alter_connected; [| |assumption];
          intros node; unfold update_container_status;
          by destruct (find_index _ _).
    + destruct (threads s !! socket) as [id'|]; [|assumption].
      cbn [coord]. unfold on_disconnect. cbn [node_id].
      by apply state_in_cleanup.
    + destruct (operator s); [assumption|]. cbn [idle coord].
      unfold deploy_container_auto.
      destruct (find_best_node _ _ _); [|assumption].
      by apply deploy_container_keeps_connected.
    + destruct (operator s); [assumption|]. cbn [idle coord].
      by rewrite start_container_nodes.
    + destruct (operator s); [assumption|]. cbn [idle coord].
      by rewrite stop_container_nodes.
    + destruct (operator s); [assumption|]. cbn [idle coord].
      by apply delete_container_keeps_connected.
    + destruct (threads s !! socket) as [id'|]; [|assumption].
      unfold received.
      destruct (message_type_of_code (msg_type msg)) as [[]|];
        try assumption.
      * destruct (sscanf_s_s_d _ _ _ _) as [[hostname ip_address] port].
        pose proof (register_node_keeps_connected id (now env)
                      (Some (cstring (msg_sender_id msg))) (Some hostname)
                      (Some ip_address) port (coord s) H) as H1.
        destruct (register_node _ _ _ _ _ _) as [r c1].
        by destruct (r =? 0).
      * destruct (find_node_by_id _ _); [|assumption].
        cbn [inside coord store nodes set_nodes].
        by apply state_in_alter_connected.
      * cbn [at_receive coord]. unfold on_container_status.
        destruct (find_node_by_id _ _); [|assumption].
        destruct (to_size_t _ >=? _); [|assumption]. simpl.
        apply state_in_alter_connected; [| |assumption];
          intros node; unfold update_container_status;
          by destruct (find_index _ _).
    + destruct (threads s !! socket) as [id'|]; [|assumption].
      pose proof (state_in_cleanup id id' (set_state NODE_DISCONNECTED)
                    (coord s) (fun _ => eq_refl) (fun _ => eq_refl) H) as H1.
      unfold lost. destruct (strlen id' >? 0); [|assumption].
      by destruct (find_node_by_id _ _).
    + destruct (busy s !! socket) as [[id' pc]|]; [|assumption].
      destruct pc as [| |i msg|i msg|i]; cbn [resumed].
      * cbn [inside coord]. destruct (find_node_by_id _ _); [|assumption].
        cbn [store nodes set_nodes]. by apply state_in_alter_connected.
      * cbn [at_receive coord]. by rewrite nodes_put_sent.
      * destruct (to_size_t _ >=? _);
          cbn [inside at_receive coord store nodes set_nodes];
          by apply state_in_alter_connects.
      * cbn [at_receive coord store nodes set_nodes].
        by apply state_in_alter_connected.
      * cbn [returned coord store nodes set_nodes].
        by apply state_in_alter_connected.
    + destruct (operator s); [assumption|]. unfold placed.
      by destruct (find_best_node _ _ _).
    + destruct (operator s) as [[nid config|i nid config]|]; [| |assumption];
        cbn [proceeded].
      * destruct (find_node_by_id _ _); [|assumption]. by destruct (negb _).
      * cbn [idle coord]. by apply deploy_container_send_keeps_connected.
  - intros socket Hsocket Hnone. unfold local_node_id in *. cbn [step].
    destruct (Z.ltb_spec socket 0); [lia|].
    destruct (threads s !! socket); [discriminate|].
    destruct (busy s !! socket); [discriminate|].
    cbn [threads]. by rewrite lookup_insert_eq.
  - intros socket env msg [id' Hid'] Hty. unfold local_node_id. cbn [step].
    rewrite Hid'. split.
    + unfold dispatch_message. rewrite Hty. unfold on_register_node.
      destruct (sscanf_s_s_d _ _ _ _) as [[hostname ip_address] port].
      destruct (register_node _ _ _ _ _ _) as [r c1].
      destruct (r =? 0); cbn [threads node_id]; by rewrite lookup_insert_eq.
    + unfold received. rewrite Hty.
      destruct (sscanf_s_s_d _ _ _ _) as [[hostname ip_address] port].
      destruct (register_node _ _ _ _ _ _) as [r c1].
      destruct (r =? 0); cbn [inside at_receive threads busy].
      * by rewrite lookup_delete_eq, lookup_insert_eq.
      * by rewrite lookup_insert_eq.
  - intros socket. apply local_node_id_step.
  - intros now config i node Hnode Hold.
    assert (considered now node = false) as Hskip.
    { unfold considered.
      destruct (Z.gtb_spec (now - n_last_heartbeat node) 30); [|lia].
      by rewrite orb_true_r. }
    split; [assumption|]. intros Hbest.
    destruct (find_best_node_spec now config (coord s) i Hbest)
      as (node' & Hnode' & Hcons & _).
    congruence.
Qed.

Lemma connected_until_connection_ends_witness :
  node_state_of "w1" (coord w1_silent) = Some NODE_CONNECTED
  /\ ends_connection_of "w1" w1_silent (Hangup 5) = true
  /\ node_state_of "w1" (coord (step w1_silent (Hangup 5)))
     = Some NODE_DISCONNECTED
  /\ (forall now,
        now - 1 > 30 ->
        find_best_node now (Some (config_named "web")) (coord w1_silent)
        <> Some 0%nat).
Proof.
  assert (node_state_of "w1" (coord w1_silent) = Some NODE_CONNECTED) as H
    by (vm_compute; reflexivity).
  assert (ends_connection_of "w1" w1_silent (Hangup 5) = true) as Hends
    by (vm_compute; reflexivity).
  assert (exists node,
            nodes (coord w1_silent) !! 0%nat = Some node
            /\ n_last_heartbeat node = 1) as (node & Hnode & Hbeat)
    by (vm_compute; eexists; split; reflexivity).
  destruct (connected_until_connection_ends w1_silent (Hangup 5) "w1" H)
    as (Hstate & _ & _ & _ & Hplace).
  rewrite Hends in Hstate.
  split; [assumption|]. split; [assumption|]. split; [assumption|].
  intros now Hold.
  apply (Hplace now (Some (config_named "web")) 0%nat node Hnode).
  rewrite Hbeat. exact Hold.
Defined.

(** The cleanup goes by the thread's local [node_id].  A connection that
    registers [a] and then [b] marks [b] alone when it ends; a connection
    that sends heartbeats of [a] without registering marks nothing; and a
    connection whose registration [register_node] refused, the registry
    being full, still marks the worker of that id. *)
Lemma cleanup_goes_by_local_node_id :
  let a := register_frame "a" "hosta 10.0.0.1 9000" in
  let b := register_frame "b" "hostb 10.0.0.2 9000" in
  let two := run [Accept 5; Frame 5 (env_at 0) a; Frame 5 (env_at 1) b;
                  Hangup 5] in
  let guest :=
    run [Accept 5; Frame 5 (env_at 0) a; Accept 6;
         Frame 6 (env_at 1) (heartbeat_frame "a" resources_10_10_10_0_50);
         Hangup 6] in
  let refused :=
    step (mk_system full_registry ∅ ∅ None) (Accept 5) in
  let n7 := register_frame "n7" "host 10.0.0.1 9000" in
  node_state_of "a" (coord two) = Some NODE_CONNECTED
  /\ node_state_of "b" (coord two) = Some NODE_DISCONNECTED
  /\ node_state_of "a" (coord guest) = Some NODE_CONNECTED
  /\ fst (register_node 0 (Some "n7"%string) (Some "host"%string)
            (Some "10.0.0.1"%string) 9000 full_registry) = -1
  /\ node_state_of "n7" (coord refused) = Some NODE_CONNECTED
  /\ node_state_of "n7"
       (coord (foldl step refused [Frame 5 (env_at 0) n7; Hangup 5]))
     = Some NODE_DISCONNECTED.
Proof. vm_compute. repeat split. Qed.

(** ** The frame codec *)

Lemma byte_of_Z_to_nat z : Z.of_nat (Byte.to_nat (byte_of_Z z)) = z mod 256.
Proof.
  unfold byte_of_Z. rewrite to_nat_via_N.
  assert (Byte.to_N (byte_of_ascii (ascii_of_N (Z.to_N (z mod 256))))
          = Z.to_N (z mod 256)) as ->.
  { apply to_of_N. rewrite byte_of_ascii_via_N.
    rewrite N_ascii_embedding; [reflexivity|].
    pose proof (Z.mod_pos_bound z 256). lia. }
  pose proof (Z.mod_pos_bound z 256). lia.
Qed.

Lemma le_unsigned_int_bytes i : le_unsigned (int_bytes i) = i mod 2 ^ 32.
Proof.
  unfold int_bytes, le_unsigned. simpl. rewrite !byte_of_Z_to_nat.
  set (u := i mod 2 ^ 32).
  assert (0 <= u < 2 ^ 32) as Hu by (apply Z.mod_pos_bound; lia).
  change (2 ^ 8) with 256. change (2 ^ 16) with (256 * 256).
  change (2 ^ 24) with (256 * 256 * 256).
  rewrite <- !Z.div_div by lia.
  pose proof (Z.div_mod u 256).
  pose proof (Z.div_mod (u / 256) 256).
  pose proof (Z.div_mod (u / 256 / 256) 256).
  assert (0 <= u / 256 / 256 / 256 < 256) as H3.
  { split; [repeat apply Z.div_pos; lia|].
    repeat (apply Z.div_lt_upper_bound; [lia|]). lia. }
  rewrite (Z.mod_small (u / 256 / 256 / 256)) by lia. lia.
Qed.

Lemma int_of_bytes_int_bytes i rest :
  - 2 ^ 31 <= i < 2 ^ 31 -> int_of_bytes (int_bytes i ++ rest) = i.
Proof.
  intros Hi. unfold int_of_bytes.
  change (take 4 (int_bytes i ++ rest)) with (int_bytes i).
  rewrite le_unsigned_int_bytes.
  destruct (Z.ltb_spec (i mod 2 ^ 32) (2 ^ 31)) as [H|H].
  - destruct (Z.lt_ge_cases i 0) as [Hneg|Hpos].
    + rewrite <- (Z.mod_add i 1) in H by lia. rewrite Z.mod_small in H; lia.
    + apply Z.mod_small. lia.
  - destruct (Z.lt_ge_cases i 0) as [Hneg|Hpos].
    + rewrite <- (Z.mod_add i 1) by lia. rewrite Z.mod_small; lia.
    + rewrite Z.mod_small in H; lia.
Qed.

Lemma enum_of_bytes_int_bytes i rest :
  0 <= i < 2 ^ 32 -> enum_of_bytes (int_bytes i ++ rest) = i.
Proof.
  intros Hi. unfold enum_of_bytes.
  change (take 4 (int_bytes i ++ rest)) with (int_bytes i).
  rewrite le_unsigned_int_bytes. by apply Z.mod_small.
Qed.

Lemma message_of_bytes_message_bytes msg :
  0 <= msg_type msg < 2 ^ 32 ->
  - 2 ^ 31 <= msg_data_length msg < 2 ^ 31 ->
  length (msg_sender_id msg) = MAX_NAME_LEN ->
  length (msg_recipient_id msg) = MAX_NAME_LEN ->
  message_of_bytes (message_bytes msg) = msg.
Proof.
  intros Ht Hl Hs Hr. destruct msg as [t s r l d].
  cbn [msg_type msg_data_length msg_sender_id msg_recipient_id] in *.
  unfold message_of_bytes, message_bytes.
  cbn [msg_type msg_data_length msg_sender_id msg_recipient_id msg_data].
  assert (length (int_bytes t) = 4%nat) as H4 by reflexivity.
  assert (length (int_bytes l) = 4%nat) as H4' by reflexivity.
  f_equal.
  - by apply enum_of_bytes_int_bytes.
  - rewrite drop_app_length' by done.
    rewrite <- Hs. apply take_app_length.
  - rewrite (app_assoc (int_bytes t) s).
    rewrite drop_app_length'; [|by rewrite length_app, Hs].
    rewrite <- Hr. apply take_app_length.
  - rewrite (app_assoc (int_bytes t) s), (app_assoc _ r).
    rewrite drop_app_length'; [|rewrite !length_app, Hs, Hr, H4; reflexivity].
    by apply int_of_bytes_int_bytes.
  - rewrite (app_assoc (int_bytes t) s), (app_assoc _ r),
      (app_assoc _ (int_bytes l)).
    rewrite drop_app_length'; [done|].
    rewrite !length_app, Hs, Hr, H4, H4'. reflexivity.
Qed.

Lemma cstring_app_NUL b rest :
  forallb (fun x => negb (Byte.eqb x NUL)) b = true ->
  cstring (b ++ NUL :: rest) = string_of_list_byte b.
Proof.
  induction b as [|x b IH]; simpl; [reflexivity|].
  intros H. apply andb_true_iff in H as [Hx Hb].
  destruct (Byte.eqb x NUL); [discriminate|]. simpl. by rewrite IH.
Qed.

Lemma cstring_no_nul b :
  forallb (fun x => negb (Byte.eqb x NUL)) b = true ->
  cstring b = string_of_list_byte b.
Proof.
  induction b as [|x b IH]; simpl; [reflexivity|].
  intros H. apply andb_true_iff in H as [Hx Hb].
  destruct (Byte.eqb x NUL); [discriminate|]. simpl. by rewrite IH.
Qed.

Lemma string_bytes_no_nul s :
  no_nul s = true -> string_bytes s = list_byte_of_string s.
Proof.
  intros H. unfold string_bytes. rewrite cstring_no_nul by exact H.
  by rewrite string_of_list_byte_of_string.
Qed.

(** An id that fits its array comes back from the frame as it went in. *)
Lemma strncpy_id s :
  no_nul s = true -> strlen s < Z.of_nat MAX_NAME_LEN ->
  length (strncpy (zeros MAX_NAME_LEN) s (MAX_NAME_LEN - 1)) = MAX_NAME_LEN
  /\ cstring (strncpy (zeros MAX_NAME_LEN) s (MAX_NAME_LEN - 1)) = s.
Proof.
  intros Hs Hlen. unfold strlen in Hlen. unfold strncpy.
  rewrite string_bytes_no_nul in * by exact Hs.
  set (b := list_byte_of_string s) in *.
  assert (length b <= MAX_NAME_LEN - 1)%nat as Hb by lia.
  rewrite (take_ge b) by exact Hb.
  assert (drop (MAX_NAME_LEN - 1) (zeros MAX_NAME_LEN) = [NUL]) as ->
    by reflexivity.
  split.
  - rewrite !length_app. unfold zeros. rewrite !length_replicate. simpl.
    unfold MAX_NAME_LEN in *. lia.
  - assert (zeros (MAX_NAME_LEN - 1 - length b) ++ [NUL]
            = NUL :: zeros (MAX_NAME_LEN - 1 - length b)) as ->.
    { unfold zeros. generalize (MAX_NAME_LEN - 1 - length b)%nat.
      intros n. induction n as [|n IH]; simpl; [reflexivity|].
      by rewrite IH. }
    rewrite cstring_app_NUL by exact Hs.
    apply string_of_list_byte_of_string.
Qed.

(** C8. A message whose ids are C strings that fit their arrays and whose
    payload fits the data region of a frame goes through [create_message],
    [send_message] and [receive_message] unchanged: the received frame is
    the frame that was built, and its type, sender id, recipient id, data
    length and payload bytes are those of the message. *)
Theorem frame_round_trip type sender recipient payload fd :
  no_nul sender = true -> strlen sender < Z.of_nat MAX_NAME_LEN ->
  no_nul recipient = true -> strlen recipient < Z.of_nat MAX_NAME_LEN ->
  Z.of_nat (length payload) <= sizeof_data ->
  0 <= fd ->
  let msg :=
    create_message type (Some sender) (Some recipient) (Some payload)
      (Z.of_nat (length payload)) in
  exists frame,
    send_message sizeof_message_t fd msg = (0, Some frame)
    /\ receive_message fd frame = Some msg
    /\ decode_message msg
       = (Some type, sender, recipient, Z.of_nat (length payload), payload).
Proof.
  intros Hs Hsl Hr Hrl Hp Hfd msg.
  destruct (strncpy_id sender Hs Hsl) as [Hslen Hsid].
  destruct (strncpy_id recipient Hr Hrl) as [Hrlen Hrid].
  assert (message_type_of_code (message_type_code type) = Some type) as Hty
    by (by destruct type).
  assert (0 <= message_type_code type < 10) as Hcode
    by (destruct type; simpl; lia).
  assert (sizeof_data = 7672) as Hsize by reflexivity.
  assert (msg_type msg = message_type_code type
          /\ msg_sender_id msg = strncpy (zeros MAX_NAME_LEN) sender (MAX_NAME_LEN - 1)
          /\ msg_recipient_id msg
             = strncpy (zeros MAX_NAME_LEN) recipient (MAX_NAME_LEN - 1)
          /\ msg_data_length msg = Z.of_nat (length payload)
          /\ take (length payload) (msg_data msg) = payload
          /\ length (msg_data msg) = Z.to_nat sizeof_data)
    as (Hmt & Hms & Hmr & Hml & Hmd & Hmdl).
  { subst msg. unfold create_message.
    destruct (Z.ltb_spec 0 (Z.of_nat (length payload))) as [Hpos|Hzero].
    - assert ((if to_size_t (Z.of_nat (length payload)) <? sizeof_data
               then Z.of_nat (length payload) else sizeof_data)
              = Z.of_nat (length payload)) as ->.
      { unfold to_size_t. rewrite Z.mod_small by lia.
        destruct (Z.ltb_spec (Z.of_nat (length payload)) sizeof_data); lia. }
      cbn [msg_type msg_sender_id msg_recipient_id msg_data_length msg_data].
      rewrite !Nat2Z.id. unfold memcpy. rewrite (take_ge payload) by lia.
      rewrite take_app_length.
      do 5 (split; [reflexivity|]).
      rewrite length_app, length_drop. unfold zeros.
      rewrite length_replicate. lia.
    - cbn [msg_type msg_sender_id msg_recipient_id msg_data_length msg_data].
      assert (payload = []) as -> by (destruct payload; [done | simpl in *; lia]).
      do 3 (split; [reflexivity|]). split; [reflexivity|].
      split; [reflexivity|]. unfold zeros. apply length_replicate. }
  exists (message_bytes msg). split; [|split].
  - unfold send_message. by destruct (Z.ltb_spec fd 0); [lia|].
  - unfold receive_message. destruct (Z.ltb_spec fd 0); [lia|].
    assert (Z.of_nat (length (message_bytes msg)) = sizeof_message_t) as ->.
    { unfold message_bytes. rewrite !length_app, Hms, Hmr, Hslen, Hrlen, Hmdl.
      reflexivity. }
    rewrite Z.eqb_refl. f_equal. apply message_of_bytes_message_bytes.
    + rewrite Hmt. lia.
    + rewrite Hml. lia.
    + by rewrite Hms.
    + by rewrite Hmr.
  - unfold decode_message.
    by rewrite Hmt, Hty, Hms, Hsid, Hmr, Hrid, Hml, Nat2Z.id, Hmd.
Qed.

Lemma frame_round_trip_witness :
  let msg :=
    create_message MSG_NODE_HEARTBEAT (Some "w1"%string)
      (Some "coordinator"%string) (Some resources_10_10_10_0_50)
      (Z.of_nat (length resources_10_10_10_0_50)) in
  exists frame,
    send_message sizeof_message_t 5 msg = (0, Some frame)
    /\ receive_message 5 frame = Some msg
    /\ decode_message msg
       = (Some MSG_NODE_HEARTBEAT, "w1"%string, "coordinator"%string,
          Z.of_nat (length resources_10_10_10_0_50), resources_10_10_10_0_50).
Proof.
  apply (frame_round_trip MSG_NODE_HEARTBEAT "w1" "coordinator"
           resources_10_10_10_0_50 5); vm_compute; congruence.
Defined.

(** ** Threads and events *)

(** A handler thread running alone is [handle_client_connection]. *)
Lemma thread_events_serve rxs socket id c (others : gmap Z string) inside pc :
  coord (foldl step (mk_system c (<[socket := id]> others) inside pc)
           (thread_events socket rxs))
  = serve rxs (mk_connection socket id) c.
Proof.
  revert id c others.
  induction rxs as [|[env rx] rxs IH]; intros id c others; simpl.
  - by rewrite lookup_insert_eq.
  - destruct (receive_message socket rx) as [msg|]; simpl.
    + rewrite lookup_insert_eq.
      destruct (dispatch_message env msg (mk_connection socket id) c)
        as [[socket' id'] c'] eqn:E.
      assert (socket' = socket) as ->.
      { unfold dispatch_message in E.
        destruct (message_type_of_code (msg_type msg)) as [[]|];
          try (by injection E).
        unfold on_register_node in E.
        destruct (sscanf_s_s_d _ _ _ _) as [[? ?] ?].
        destruct (register_node _ _ _ _ _ _) as [r c1].
        destruct (r =? 0); by injection E. }
      apply IH.
    + by rewrite lookup_insert_eq.
Qed.

Lemma handle_client_connection_events socket rxs :
  0 <= socket ->
  coord (run (Accept socket :: thread_events socket rxs))
  = handle_client_connection socket rxs initial_coordinator.
Proof.
  intros H. unfold run, handle_client_connection. simpl.
  destruct (Z.ltb_spec socket 0); [lia|]. rewrite !lookup_empty.
  apply thread_events_serve.
Qed.

(** [Frame], [Hangup] and [Deploy] add no behaviour: each is the sequence
    of the single steps of its thread. *)

Lemma alter_alter {A} (f g : A -> A) (i : nat) (l : list A) :
  alter f i (alter g i l) = alter (fun x => f (g x)) i l.
Proof.
  revert i. induction l as [|a l IH]; intros [|i]; try reflexivity.
  change (alter f (S i) (alter g (S i) (a :: l)))
    with (a :: alter f i (alter g i l)).
  by rewrite IH.
Qed.

Lemma store_store f g i c :
  store f i (store g i c) = store (fun node => f (g node)) i c.
Proof.
  unfold store. cbn [nodes set_nodes]. rewrite alter_alter.
  by destruct c.
Qed.

Lemma at_receive_inside s socket id id' pc c c' :
  busy s !! socket = None ->
  at_receive (inside s socket id pc c) socket id' c'
  = mk_system c' (<[socket := id']> (threads s)) (busy s) (operator s).
Proof.
  intros Hb. unfold at_receive, inside. cbn [threads busy operator]. f_equal.
  - apply map_eq. intros k. destruct (decide (socket = k)) as [->|];
      [by rewrite !lookup_insert_eq|].
    by rewrite !lookup_insert_ne, lookup_delete_ne.
  - apply map_eq. intros k. destruct (decide (socket = k)) as [->|];
      [by rewrite lookup_delete_eq|].
    by rewrite lookup_delete_ne, lookup_insert_ne.
Qed.

Lemma inside_inside s socket id id' pc pc' c c' :
  inside (inside s socket id pc c) socket id' pc' c'
  = inside s socket id' pc' c'.
Proof.
  unfold inside. cbn [threads busy operator]. f_equal.
  - apply map_eq. intros k. destruct (decide (socket = k)) as [->|];
      [by rewrite !lookup_delete_eq|].
    by rewrite !lookup_delete_ne.
  - apply insert_insert_eq.
Qed.

Lemma at_receive_same s socket id c :
  threads s !! socket = Some id -> busy s !! socket = None ->
  at_receive s socket id c = mk_system c (threads s) (busy s) (operator s).
Proof.
  intros Ht Hb. unfold at_receive. f_equal.
  - by apply insert_id.
  - by apply delete_id.
Qed.

Lemma returned_inside s socket id pc c c' :
  busy s !! socket = None ->
  returned (inside s socket id pc c) socket c'
  = mk_system c' (delete socket (threads s)) (busy s) (operator s).
Proof.
  intros Hb. unfold returned, inside. cbn [threads busy operator]. f_equal.
  - apply map_eq. intros k. destruct (decide (socket = k)) as [->|];
      [by rewrite !lookup_delete_eq|].
    by rewrite !lookup_delete_ne.
  - apply map_eq. intros k. destruct (decide (socket = k)) as [->|];
      [by rewrite lookup_delete_eq|].
    by rewrite lookup_delete_ne, lookup_insert_ne.
Qed.

Lemma resumed_not_inside s socket env :
  busy s !! socket = None -> step s (Resumed socket env) = s.
Proof. intros H. cbn [step]. by rewrite H. Qed.

Lemma resumed_inside s socket id pc c env :
  step (inside s socket id pc c) (Resumed socket env)
  = resumed socket id pc env (inside s socket id pc c).
Proof. cbn [step inside busy]. by rewrite lookup_insert_eq. Qed.

Lemma busy_at_receive s socket id c :
  busy (at_receive s socket id c) !! socket = None.
Proof. apply lookup_delete_eq. Qed.

Lemma busy_returned s socket c : busy (returned s socket c) !! socket = None.
Proof. apply lookup_delete_eq. Qed.

Lemma system_same s : mk_system (coord s) (threads s) (busy s) (operator s) = s.
Proof. by destruct s. Qed.

Lemma frame_in_steps s socket env msg :
  busy s !! socket = None ->
  foldl step s [Received socket env msg; Resumed socket env; Resumed socket env]
  = step s (Frame socket env msg).
Proof.
  intros Hb. cbn [foldl].
  assert (forall s', busy s' !! socket = None ->
            step (step s' (Resumed socket env)) (Resumed socket env) = s')
    as Hidle
    by (intros s' H; rewrite (resumed_not_inside s') by assumption;
        by apply resumed_not_inside).
  change (step s (Received socket env msg))
    with (match threads s !! socket with
          | Some id => received socket id env msg s
          | None => s
          end).
  change (step s (Frame socket env msg))
    with (match threads s !! socket with
          | Some id =>
              let '(conn, c) :=
                dispatch_message env msg (mk_connection socket id) (coord s) in
              mk_system c (<[socket := node_id conn]> (threads s)) (busy s)
                (operator s)
          | None => s
          end).
  destruct (threads s !! socket) as [id|] eqn:Ht; [|by apply Hidle].
  unfold received, dispatch_message.
  destruct (message_type_of_code (msg_type msg)) as [[]|];
    try (rewrite Hidle by assumption; by rewrite insert_id, system_same).
  - unfold on_register_node.
    destruct (sscanf_s_s_d _ _ _ _) as [[hostname ip_address] port].
    destruct (register_node _ _ _ _ _ _) as [r c1].
    destruct (r =? 0).
    + rewrite resumed_inside. cbn [resumed coord inside].
      fold (inside s socket (cstring (msg_sender_id msg)) to_store_socket c1).
      rewrite inside_inside, resumed_inside. cbn [resumed coord inside].
      fold (inside s socket (cstring (msg_sender_id msg)) to_send_ack
              match
                find_node_by_id (Some (cstring (msg_sender_id msg))) (nodes c1)
              with
              | Some i => store (set_socket_fd socket) i c1
              | None => c1
              end).
      by rewrite at_receive_inside.
    + rewrite Hidle by apply busy_at_receive.
      unfold at_receive. by rewrite delete_id.
  - cbn [snd node_id]. unfold on_node_heartbeat.
    destruct (find_node_by_id _ _) as [i|];
      [|rewrite Hidle by assumption; by rewrite insert_id, system_same].
    rewrite resumed_inside. cbn [resumed coord inside].
    fold (inside s socket id (to_store_state i msg)
            (store (set_last_heartbeat (now env)) i (coord s))).
    assert (store (heartbeat (now env) msg) i (coord s)
            = set_nodes (coord s) (alter (heartbeat (now env) msg) i
                                     (nodes (coord s)))) as <- by reflexivity.
    destruct (to_size_t (msg_data_length msg) >=? sizeof_resource_info_t)
      eqn:Hlong.
    + rewrite inside_inside, resumed_inside. cbn [resumed coord inside].
      fold (inside s socket id (to_store_resources i msg)
              (store (set_state NODE_CONNECTED) i
                 (store (set_last_heartbeat (now env)) i (coord s)))).
      rewrite at_receive_inside by assumption. rewrite !store_store.
      rewrite insert_id by assumption. f_equal.
      unfold heartbeat. by rewrite Hlong.
    + rewrite at_receive_inside by assumption.
      rewrite resumed_not_inside by assumption.
      rewrite !store_store, insert_id by assumption. f_equal.
      unfold heartbeat. by rewrite Hlong.
  - cbn [snd node_id]. rewrite Hidle by apply busy_at_receive.
    unfold at_receive. by rewrite insert_id, delete_id.
Qed.

Lemma hangup_in_steps s socket env :
  busy s !! socket = None ->
  foldl step s [Lost socket; Resumed socket env] = step s (Hangup socket).
Proof.
  intros Hb. cbn [foldl].
  change (step s (Lost socket))
    with (match threads s !! socket with
          | Some id => lost socket id s
          | None => s
          end).
  change (step s (Hangup socket))
    with (match threads s !! socket with
          | Some id =>
              mk_system (on_disconnect (mk_connection socket id) (coord s))
                (delete socket (threads s)) (busy s) (operator s)
          | None => s
          end).
  destruct (threads s !! socket) as [id|] eqn:Ht;
    [|by apply resumed_not_inside].
  unfold lost, on_disconnect. cbn [node_id].
  destruct (strlen id >? 0).
  - destruct (find_node_by_id _ _) as [i|].
    + rewrite resumed_inside. cbn [resumed coord inside].
      fold (inside s socket id (to_close i)
              (store (set_state NODE_DISCONNECTED) i (coord s))).
      rewrite returned_inside by assumption. rewrite store_store.
      reflexivity.
    + rewrite resumed_not_inside by apply busy_returned.
      unfold returned. by rewrite (delete_id (busy s)).
  - rewrite resumed_not_inside by apply busy_returned.
    unfold returned. by rewrite (delete_id (busy s)).
Qed.

Lemma deploy_in_steps s env config :
  operator s = None ->
  foldl step s [Placed env config; Proceeded env; Proceeded env]
  = step s (Deploy env config).
Proof.
  intros Hop. cbn [foldl step]. rewrite Hop.
  unfold placed, deploy_container_auto.
  destruct (find_best_node _ _ _) as [i|];
    [|rewrite Hop; cbn [snd idle]; destruct s; cbn in Hop; by subst].
  cbn [deploying operator proceeded coord]. unfold deploy_container.
  destruct (find_node_by_id _ _) as [j|]; [|reflexivity].
  destruct (negb _); [reflexivity|].
  cbn [deploying operator proceeded coord idle threads busy]. reflexivity.
Qed.

(** ** The scenarios of the specification, run on the model *)

(** How the REGISTER_NODE payload is read. *)
Example register_frame_parsed :
  sscanf_s_s_d "host1 10.0.0.1 9000" "" "" 0
  = ("host1", "10.0.0.1", 9000)%string
  /\ sscanf_s_s_d "host1" "junk" "junk" 7 = ("host1", "junk", 7)%string.
Proof. by vm_compute. Qed.

Example double_10_is_10 :
  double_of_bytes double_10 = 10%float /\ double_of_bytes double_90 = 90%float.
Proof. by vm_compute. Qed.

(** S1: one worker with usages 10, 10, 10 and 0/50 containers scores 92;
    after the deploy the ledger holds [w1_web] in STARTING and the worker
    counts one container. *)
Example scenario_basic_deploy :
  let c := coord w1_with_web in
  (node_score <$> nodes (coord w2_then_w1) !! 0%nat) = Some 92%float
  /\ ((fun k => (c_id k, c_name k, c_node_id k, c_state k))
      <$> deployed_containers c)
     = [("w1_web", "web", "w1", CONTAINER_STARTING)]%string
  /\ (n_container_count <$> nodes c !! 0%nat) = Some 1
  /\ length (wire c) = 2%nat.
Proof. by vm_compute. Qed.

(** S4: a worker with [max_containers = 2] that holds two containers is
    passed over; the deploy fails and changes nothing. *)
Example scenario_saturation :
  let s :=
    run [Accept 5; Frame 5 (env_at 0) (register_frame "w1" "host1 10.0.0.1 9000");
         Frame 5 (env_at 1)
           (heartbeat_frame "w1"
              (resources_object double_10 double_10 double_10 0 2));
         Deploy (env_at 2) (config_named "a");
         Deploy (env_at 2) (config_named "b")] in
  (n_container_count <$> nodes (coord s) !! 0%nat) = Some 2
  /\ find_best_node 3 (Some (config_named "c")) (coord s) = None
  /\ deploy_container_auto (env_at 3) (Some (config_named "c")) (coord s)
     = (-1, coord s).
Proof. by vm_compute. Qed.

(** S6: after a heartbeat with [cpu_usage = 90] from [w1], placement picks
    [w2], whose [cpu_usage] is 10, although [w1] registered first. *)
Example scenario_heartbeat_refresh :
  let s :=
    run [Accept 5; Frame 5 (env_at 0) (register_frame "w1" "host1 10.0.0.1 9000");
         Accept 6; Frame 6 (env_at 0) (register_frame "w2" "host2 10.0.0.2 9000");
         Frame 6 (env_at 1) (heartbeat_frame "w2" resources_10_10_10_0_50);
         Frame 5 (env_at 1)
           (heartbeat_frame "w1"
              (resources_object double_90 double_10 double_10 0 50))] in
  (n_id <$> nodes (coord s)) = ["w1"; "w2"]%string
  /\ find_best_node 2 (Some (config_named "web")) (coord s) = Some 1%nat.
Proof. by vm_compute. Qed.

(** S5: the second delete of the same container finds nothing. *)
Example scenario_delete_twice :
  let r1 := delete_container (env_at 3) (Some "w1_web"%string) (coord w1_with_web) in
  let r2 := delete_container (env_at 4) (Some "w1_web"%string) (snd r1) in
  fst r1 = 0 /\ deployed_containers (snd r1) = []
  /\ (n_container_count <$> nodes (snd r1) !! 0%nat) = Some 0
  /\ r2 = (-1, snd r1).
Proof. by vm_compute. Qed.

(** * Further properties of the program *)

(** ** Frames as bytes *)

Lemma byte_of_Z_of_byte x : byte_of_Z (Z.of_nat (Byte.to_nat x)) = x.
Proof.
  unfold byte_of_Z. pose proof (to_nat_bounded x).
  rewrite Z.mod_small by lia.
  assert (Z.to_N (Z.of_nat (Byte.to_nat x)) = Byte.to_N x) as ->
    by (rewrite to_N_via_nat; lia).
  rewrite <- ascii_of_byte_via_N. apply byte_of_ascii_of_byte.
Qed.

Lemma le_unsigned_bound b : 0 <= le_unsigned b < 256 ^ Z.of_nat (length b).
Proof.
  induction b as [|x b IH]; simpl; [lia|].
  pose proof (to_nat_bounded x).
  rewrite Nat2Z.inj_succ, Z.pow_succ_r by lia. lia.
Qed.

Lemma le_unsigned_inj a b :
  length a = length b -> le_unsigned a = le_unsigned b -> a = b.
Proof.
  revert b. induction a as [|x a IH]; intros [|y b]; simpl; try done.
  intros [= Hlen] H.
  pose proof (to_nat_bounded x). pose proof (to_nat_bounded y).
  assert (Byte.to_nat x = Byte.to_nat y /\ le_unsigned a = le_unsigned b)
    as [Hxy Hab] by lia.
  f_equal; [|by apply IH].
  apply (f_equal Byte.of_nat) in Hxy. rewrite !of_to_nat in Hxy. congruence.
Qed.

Lemma int_bytes_enum_of_bytes b :
  length b = 4%nat -> int_bytes (enum_of_bytes b) = b.
Proof.
  intros Hb. apply le_unsigned_inj; [by rewrite Hb|].
  rewrite le_unsigned_int_bytes. unfold enum_of_bytes.
  rewrite take_ge by lia. apply Z.mod_small.
  pose proof (le_unsigned_bound b) as H. rewrite Hb in H. exact H.
Qed.

Lemma int_bytes_int_of_bytes b :
  length b = 4%nat -> int_bytes (int_of_bytes b) = b.
Proof.
  intros Hb. apply le_unsigned_inj; [by rewrite Hb|].
  rewrite le_unsigned_int_bytes. unfold int_of_bytes.
  rewrite take_ge by lia.
  pose proof (le_unsigned_bound b) as H. rewrite Hb in H.
  change (256 ^ Z.of_nat 4) with (2 ^ 32) in H.
  destruct (le_unsigned b <? 2 ^ 31).
  - by apply Z.mod_small.
  - rewrite <- (Z.mod_add _ 1) by lia.
    replace (le_unsigned b - 2 ^ 32 + 1 * 2 ^ 32) with (le_unsigned b) by lia.
    by apply Z.mod_small.
Qed.

(** X1. The frame codec the other way round: any [sizeof(message_t)] bytes
    that [recv] delivers on an open socket are accepted, and they are the
    memory image of the message read out of them: [receive_message] loses
    and normalises nothing. *)
Theorem received_frame_round_trip fd rx :
  0 <= fd ->
  Z.of_nat (length rx) = sizeof_message_t ->
  exists msg, receive_message fd rx = Some msg /\ message_bytes msg = rx.
Proof.
  intros Hfd Hlen. unfold receive_message.
  destruct (Z.ltb_spec fd 0); [lia|].
  rewrite Hlen, Z.eqb_refl. eexists. split; [reflexivity|].
  assert (Z.of_nat (length rx) = 8192) as Hn by exact Hlen.
  unfold message_bytes, message_of_bytes.
  cbn [msg_type msg_sender_id msg_recipient_id msg_data_length msg_data].
  unfold MAX_NAME_LEN.
  assert (rx = take 4 rx ++ take 256 (drop 4 rx)
               ++ take 256 (drop (4 + 256) rx)
               ++ take 4 (drop (4 + 2 * 256) rx) ++ drop (8 + 2 * 256) rx)
    as Hrx.
  { rewrite <- (take_drop 4 rx) at 1. f_equal.
    rewrite <- (take_drop 256 (drop 4 rx)) at 1. f_equal.
    rewrite drop_drop.
    rewrite <- (take_drop 256 (drop (4 + 256) rx)) at 1. f_equal.
    rewrite drop_drop.
    rewrite <- (take_drop 4 (drop (4 + 256 + 256) rx)) at 1. f_equal.
    by rewrite drop_drop. }
  etransitivity; [|symmetry; exact Hrx].
  f_equal; [|f_equal; f_equal; f_equal].
  - rewrite <- (int_bytes_enum_of_bytes (take 4 rx)).
    + unfold enum_of_bytes. by rewrite take_take.
    + rewrite length_take. lia.
  - rewrite <- (int_bytes_int_of_bytes (take 4 (drop (4 + 2 * 256) rx))).
    + unfold int_of_bytes. by rewrite take_take.
    + rewrite length_take, length_drop. lia.
Qed.

Lemma received_frame_round_trip_witness :
  exists msg,
    receive_message 5 (message_bytes (register_frame "w1" "host1 10.0.0.1 9000"))
    = Some msg
    /\ message_bytes msg
       = message_bytes (register_frame "w1" "host1 10.0.0.1 9000").
Proof.
  apply (received_frame_round_trip 5
           (message_bytes (register_frame "w1" "host1 10.0.0.1 9000")));
    [lia | by vm_compute].
Defined.

Lemma string_bytes_no_NUL s :
  forallb (fun x => negb (Byte.eqb x NUL)) (string_bytes s) = true.
Proof.
  unfold string_bytes. generalize (list_byte_of_string s). intros b.
  induction b as [|x b IH]; [reflexivity|]. simpl.
  destruct (Byte.eqb x NUL) eqn:Hx; [reflexivity|].
  change (list_byte_of_string (String (ascii_of_byte x) (cstring b)))
    with (byte_of_ascii (ascii_of_byte x) :: list_byte_of_string (cstring b)).
  rewrite byte_of_ascii_of_byte. simpl. by rewrite Hx.
Qed.

Lemma forallb_take {A} (p : A -> bool) n (l : list A) :
  forallb p l = true -> forallb p (take n l) = true.
Proof.
  revert n. induction l as [|x l IH]; intros [|n]; simpl; try done.
  intros H. apply andb_true_iff in H as [-> H]. by apply IH.
Qed.

(** The id array of a frame always holds a terminated string: the first
    [MAX_NAME_LEN - 1] bytes of the id it was made from. *)
Lemma strncpy_id_truncates s :
  length (strncpy (zeros MAX_NAME_LEN) s (MAX_NAME_LEN - 1)) = MAX_NAME_LEN
  /\ cstring (strncpy (zeros MAX_NAME_LEN) s (MAX_NAME_LEN - 1))
     = string_of_list_byte (take (MAX_NAME_LEN - 1) (string_bytes s)).
Proof.
  unfold strncpy.
  set (b := take (MAX_NAME_LEN - 1) (string_bytes s)).
  assert (length b <= MAX_NAME_LEN - 1)%nat as Hb
    by (subst b; rewrite length_take; lia).
  assert (drop (MAX_NAME_LEN - 1) (zeros MAX_NAME_LEN) = [NUL]) as ->
    by reflexivity.
  split.
  - rewrite !length_app. unfold zeros. rewrite !length_replicate. simpl.
    unfold MAX_NAME_LEN in *. lia.
  - assert (zeros (MAX_NAME_LEN - 1 - length b) ++ [NUL]
            = NUL :: zeros (MAX_NAME_LEN - 1 - length b)) as ->.
    { unfold zeros. generalize (MAX_NAME_LEN - 1 - length b)%nat.
      intros n. induction n as [|n IH]; simpl; [reflexivity|].
      by rewrite IH. }
    apply cstring_app_NUL. subst b. apply forallb_take, string_bytes_no_NUL.
Qed.

(** X2. Whatever it is given, [create_message] builds a frame of exactly
    [sizeof(message_t)] bytes: an id is cut to its first 255 bytes and
    terminated, and a payload longer than the data region is cut to the data
    region, [data_length] saying how much was kept. *)
Theorem create_message_clamps type sender recipient d data_len :
  data_len <= Z.of_nat (length d) ->
  data_len < 2 ^ 31 ->
  let msg := create_message type (Some sender) (Some recipient) (Some d) data_len in
  Z.of_nat (length (message_bytes msg)) = sizeof_message_t
  /\ cstring (msg_sender_id msg)
     = string_of_list_byte (take (MAX_NAME_LEN - 1) (string_bytes sender))
  /\ cstring (msg_recipient_id msg)
     = string_of_list_byte (take (MAX_NAME_LEN - 1) (string_bytes recipient))
  /\ msg_data_length msg = Z.max 0 (Z.min data_len sizeof_data)
  /\ take (Z.to_nat (msg_data_length msg)) (msg_data msg)
     = take (Z.to_nat (msg_data_length msg)) d.
Proof.
  intros Hd Hint msg.
  destruct (strncpy_id_truncates sender) as [Hslen Hsid].
  destruct (strncpy_id_truncates recipient) as [Hrlen Hrid].
  assert (sizeof_data = 7672) as Hsize by reflexivity.
  assert (msg_sender_id msg = strncpy (zeros MAX_NAME_LEN) sender (MAX_NAME_LEN - 1)
          /\ msg_recipient_id msg
             = strncpy (zeros MAX_NAME_LEN) recipient (MAX_NAME_LEN - 1)
          /\ msg_data_length msg = Z.max 0 (Z.min data_len sizeof_data)
          /\ msg_data msg
             = memcpy (zeros (Z.to_nat sizeof_data)) d
                 (Z.to_nat (msg_data_length msg)))
    as (Hms & Hmr & Hml & Hmd).
  { subst msg. unfold create_message.
    destruct (Z.ltb_spec 0 data_len) as [Hpos|Hneg].
    - unfold to_size_t. rewrite (Z.mod_small data_len) by lia.
      destruct (Z.ltb_spec data_len sizeof_data);
        cbn [msg_sender_id msg_recipient_id msg_data_length msg_data];
        repeat split; lia.
    - cbn [msg_sender_id msg_recipient_id msg_data_length msg_data].
      do 2 (split; [reflexivity|]). split; [lia|].
      replace (Z.max 0 (Z.min data_len sizeof_data)) with 0 by lia.
      unfold memcpy. by rewrite take_0, drop_0. }
  assert (0 <= msg_data_length msg <= sizeof_data) as Hrange by lia.
  assert (msg_data_length msg <= Z.of_nat (length d)) as Hfit by lia.
  split; [|split; [|split; [|split]]].
  - unfold message_bytes.
    rewrite !length_app, Hms, Hmr, Hslen, Hrlen, Hmd. unfold memcpy.
    rewrite length_app, length_take, length_drop. unfold zeros.
    rewrite length_replicate. simpl length.
    unfold sizeof_message_t, BUFFER_SIZE, MAX_NAME_LEN. lia.
  - by rewrite Hms.
  - by rewrite Hmr.
  - exact Hml.
  - rewrite Hmd. unfold memcpy. rewrite take_app_le; [by rewrite take_take, Nat.min_id|].
    rewrite length_take. lia.
Qed.

Lemma create_message_clamps_witness :
  let d := replicate (Z.to_nat 8000) "x"%byte in
  let long := string_of_list_byte (replicate 300 "a"%byte) in
  let msg := create_message MSG_ERROR (Some long) (Some "coordinator"%string)
               (Some d) 8000 in
  Z.of_nat (length (message_bytes msg)) = sizeof_message_t
  /\ cstring (msg_sender_id msg)
     = string_of_list_byte (take (MAX_NAME_LEN - 1) (string_bytes long))
  /\ cstring (msg_recipient_id msg)
     = string_of_list_byte
         (take (MAX_NAME_LEN - 1) (string_bytes "coordinator"))
  /\ msg_data_length msg = Z.max 0 (Z.min 8000 sizeof_data)
  /\ take (Z.to_nat (msg_data_length msg)) (msg_data msg)
     = take (Z.to_nat (msg_data_length msg)) d.
Proof.
  apply (create_message_clamps MSG_ERROR
           (string_of_list_byte (replicate 300 "a"%byte)) "coordinator"
           (replicate (Z.to_nat 8000) "x"%byte) 8000).
  - rewrite length_replicate. lia.
  - lia.
Defined.

(** ** The registry as a table keyed by id *)

Lemma find_index_app_miss {A} (p : A -> bool) (l : list A) (x : A) :
  p x = false -> find_index p (l ++ [x]) = find_index p l.
Proof.
  intros Hx. induction l as [|a l IH]; simpl; [by rewrite Hx|].
  destruct (p a); [done|]. by rewrite IH.
Qed.

Lemma find_index_app_hit {A} (p : A -> bool) (l : list A) (x : A) :
  find_index p l = None -> p x = true ->
  find_index p (l ++ [x]) = Some (length l).
Proof.
  intros Hl Hx. induction l as [|a l IH]; simpl in *; [by rewrite Hx|].
  destruct (p a); [discriminate|].
  destruct (find_index p l); [discriminate|]. by rewrite IH.
Qed.

Lemma streq_ne a b : a <> b -> streq a b = false.
Proof. intros H. by apply String.eqb_neq. Qed.

Lemma lookup_node_alter_other id id' f k l :
  (forall node, n_id (f node) = n_id node) ->
  find_node_by_id (Some id) l = Some k -> id' <> id ->
  lookup_node id' (alter f k l) = lookup_node id' l.
Proof.
  intros Hf Hk Hne. unfold lookup_node, find_node_by_id.
  rewrite find_index_alter by (intros; by rewrite Hf).
  destruct (find_index _ l) as [i|] eqn:Hi; simpl; [|done].
  rewrite list_lookup_alter_ne; [done|]. intros ->.
  destruct (find_node_by_id_Some _ _ _ Hk) as (n1 & Hn1 & H1).
  destruct (find_node_by_id_Some id' l i Hi) as (n2 & Hn2 & H2). congruence.
Qed.

Lemma lookup_node_app_other id' l node :
  n_id node <> id' -> lookup_node id' (l ++ [node]) = lookup_node id' l.
Proof.
  intros Hne. unfold lookup_node, find_node_by_id.
  rewrite find_index_app_miss by (by apply streq_ne).
  destruct (find_index _ l) as [i|] eqn:Hi; simpl; [|done].
  rewrite lookup_app_l; [done|]. by apply find_index_lt in Hi.
Qed.

(** X3. Insert, then look up: below capacity [register_node] succeeds, and
    afterwards [find_node_by_id] returns a record with the id, the address
    just given, state CONNECTED and the current time as last heartbeat; the
    record found under any other id is the one found before, and neither
    the ledger nor any socket is touched. *)
Theorem register_node_then_find now id hostname ip_address port c :
  node_count c < MAX_NODES ->
  exists c' node,
    register_node now (Some id) (Some hostname) (Some ip_address) port c = (0, c')
    /\ lookup_node id (nodes c') = Some node
    /\ n_id node = id /\ n_hostname node = hostname
    /\ n_ip_address node = ip_address /\ n_port node = port
    /\ n_state node = NODE_CONNECTED /\ n_last_heartbeat node = now
    /\ (forall id', id' <> id ->
          lookup_node id' (nodes c') = lookup_node id' (nodes c))
    /\ deployed_containers c' = deployed_containers c
    /\ wire c' = wire c.
Proof.
  intros Hcap. unfold register_node.
  destruct (Z.geb_spec (node_count c) MAX_NODES); [lia|].
  destruct (find_index _ (nodes c)) as [i|] eqn:Hi.
  - destruct (find_index_Some _ _ _ Hi) as (old & Hold & Hp & _).
    apply streq_eq in Hp.
    eexists _, (reregister hostname ip_address port now old).
    split; [reflexivity|]. cbn [nodes deployed_containers wire set_nodes].
    split.
    { unfold lookup_node, find_node_by_id.
      rewrite find_index_alter by reflexivity. rewrite Hi. simpl.
      by rewrite list_lookup_alter_eq, Hold. }
    do 6 (split; [done|]). split; [|done].
    intros id' Hne. by apply (lookup_node_alter_other id).
  - eexists _, _. split; [reflexivity|]. cbn [nodes deployed_containers wire].
    split.
    { unfold lookup_node, find_node_by_id.
      rewrite (find_index_app_hit _ _ _ Hi) by apply String.eqb_refl. simpl.
      rewrite lookup_app_r by lia. by rewrite Nat.sub_diag. }
    do 6 (split; [done|]). split; [|done].
    intros id' Hne. by apply lookup_node_app_other.
Qed.

Lemma register_node_then_find_witness :
  exists c' node,
    register_node 7 (Some "w9"%string) (Some "host9"%string)
      (Some "10.0.0.9"%string) 9009 (coord w2_then_w1) = (0, c')
    /\ lookup_node "w9" (nodes c') = Some node
    /\ n_id node = "w9"%string /\ n_hostname node = "host9"%string
    /\ n_ip_address node = "10.0.0.9"%string /\ n_port node = 9009
    /\ n_state node = NODE_CONNECTED /\ n_last_heartbeat node = 7
    /\ (forall id', id' <> "w9"%string ->
          lookup_node id' (nodes c') = lookup_node id' (nodes (coord w2_then_w1)))
    /\ deployed_containers c' = deployed_containers (coord w2_then_w1)
    /\ wire c' = wire (coord w2_then_w1).
Proof.
  apply (register_node_then_find 7 "w9" "host9" "10.0.0.9" 9009
           (coord w2_then_w1)).
  by vm_compute.
Defined.

(** X4. Insert, then remove: registering an id that is not in the registry
    and unregistering it again leaves the registry as it was; both calls
    succeed. *)
Theorem register_unregister_round_trip now id hostname ip_address port c :
  node_count c < MAX_NODES ->
  find_node_by_id (Some id) (nodes c) = None ->
  let r1 := register_node now (Some id) (Some hostname) (Some ip_address) port c in
  let r2 := unregister_node (Some id) (snd r1) in
  fst r1 = 0 /\ fst r2 = 0
  /\ nodes (snd r2) = nodes c
  /\ deployed_containers (snd r2) = deployed_containers c.
Proof.
  intros Hcap Hnew. unfold register_node. unfold find_node_by_id in Hnew.
  destruct (Z.geb_spec (node_count c) MAX_NODES); [lia|]. rewrite Hnew.
  cbn [fst snd]. unfold unregister_node. cbn [nodes].
  rewrite (find_index_app_hit _ _ _ Hnew) by apply String.eqb_refl.
  cbn [fst snd nodes deployed_containers]. do 2 (split; [done|]).
  split; [|done].
  rewrite delete_middle. apply app_nil_r.
Qed.

Lemma register_unregister_round_trip_witness :
  let c := coord w2_then_w1 in
  let r1 := register_node 7 (Some "w9"%string) (Some "host9"%string)
              (Some "10.0.0.9"%string) 9009 c in
  let r2 := unregister_node (Some "w9"%string) (snd r1) in
  fst r1 = 0 /\ fst r2 = 0
  /\ nodes (snd r2) = nodes c
  /\ deployed_containers (snd r2) = deployed_containers c.
Proof.
  apply (register_unregister_round_trip 7 "w9" "host9" "10.0.0.9" 9009
           (coord w2_then_w1)); by vm_compute.
Defined.

Lemma lookup_node_cons id node l :
  lookup_node id (node :: l)
  = if streq (n_id node) id then Some node else lookup_node id l.
Proof.
  unfold lookup_node, find_node_by_id. simpl.
  destruct (streq (n_id node) id); [reflexivity|].
  by destruct (find_index _ l).
Qed.

Lemma lookup_node_None id l :
  lookup_node id l = None <-> id ∉ (n_id <$> l).
Proof.
  induction l as [|node l IH]; [split; [intros _; apply not_elem_of_nil | done]|].
  rewrite lookup_node_cons, fmap_cons, not_elem_of_cons.
  destruct (String.eqb_spec (n_id node) id) as [Heq|Hne]; unfold streq.
  - rewrite (proj2 (String.eqb_eq _ _) Heq). split; [done|]. intros [H _]. congruence.
  - rewrite (proj2 (String.eqb_neq _ _) Hne). rewrite IH. split; [|tauto].
    intros H. split; [congruence | done].
Qed.

Lemma lookup_node_Some id l node :
  lookup_node id l = Some node -> node ∈ l /\ n_id node = id.
Proof.
  induction l as [|a l IH]; [done|]. rewrite lookup_node_cons.
  destruct (streq (n_id a) id) eqn:Ha.
  - intros [= <-]. split; [apply elem_of_cons; by left | by apply streq_eq].
  - intros H. destruct (IH H) as [Hin Hid]. split; [apply elem_of_cons; by right | done].
Qed.

Lemma lookup_node_delete_other id' l i node :
  l !! i = Some node -> n_id node <> id' ->
  lookup_node id' (delete i l) = lookup_node id' l.
Proof.
  revert i. induction l as [|a l IH]; intros [|i] Hi Hne; try done.
  - injection Hi as ->.
    change (delete 0%nat (node :: l)) with l.
    by rewrite lookup_node_cons, streq_ne.
  - change (delete (S i) (a :: l)) with (a :: delete i l).
    rewrite !lookup_node_cons. destruct (streq (n_id a) id'); [done|].
    by apply IH.
Qed.

Lemma lookup_node_delete_self id l i :
  NoDup (n_id <$> l) -> find_node_by_id (Some id) l = Some i ->
  lookup_node id (delete i l) = None.
Proof.
  intros Hnd Hi. apply lookup_node_None.
  destruct (find_node_by_id_Some _ _ _ Hi) as (node & Hn & Hid).
  rewrite <- Hid. clear Hi Hid. revert i Hn.
  induction l as [|a l IH]; intros [|i] Hn; try done.
  - injection Hn as ->. change (delete 0%nat (node :: l)) with l.
    by apply NoDup_cons in Hnd as [H _].
  - change (delete (S i) (a :: l)) with (a :: delete i l).
    rewrite fmap_cons, not_elem_of_cons. apply NoDup_cons in Hnd as [Ha Hnd].
    split; [|by apply IH].
    intros Heq. apply Ha. rewrite <- Heq.
    apply list_elem_of_fmap. exists node. split; [done|].
    apply list_elem_of_lookup. by exists i.
Qed.

(** X5. [unregister_node] on a registry with unique ids: the id is no
    longer found, the record found under every other id is the one found
    before, and the ledger is as it was.  For an id that is not registered
    it returns -1. *)
Theorem unregister_node_removes id c :
  NoDup (n_id <$> nodes c) ->
  match lookup_node id (nodes c) with
  | Some _ =>
      exists c',
        unregister_node (Some id) c = (0, c')
        /\ lookup_node id (nodes c') = None
        /\ (forall id', id' <> id ->
              lookup_node id' (nodes c') = lookup_node id' (nodes c))
        /\ node_count c' = node_count c - 1
        /\ deployed_containers c' = deployed_containers c
  | None => unregister_node (Some id) c = (-1, c)
  end.
Proof.
  intros Hnd. unfold unregister_node, lookup_node at 1, find_node_by_id.
  destruct (find_index _ (nodes c)) as [i|] eqn:Hi; simpl.
  - destruct (find_node_by_id_Some id _ _ Hi) as (node & Hn & Hid).
    rewrite Hn. eexists. split; [reflexivity|]. cbn [nodes deployed_containers].
    split; [by apply lookup_node_delete_self|]. split; [|split; [|done]].
    + intros id' Hne. apply (lookup_node_delete_other id' _ i node); congruence.
    + unfold node_count. cbn [nodes]. rewrite length_delete; [|by eexists].
      apply lookup_lt_Some in Hn. lia.
  - reflexivity.
Qed.

Lemma unregister_node_removes_witness :
  exists c',
    unregister_node (Some "w2"%string) (coord w2_then_w1) = (0, c')
    /\ lookup_node "w2" (nodes c') = None
    /\ (forall id', id' <> "w2"%string ->
          lookup_node id' (nodes c') = lookup_node id' (nodes (coord w2_then_w1)))
    /\ node_count c' = node_count (coord w2_then_w1) - 1
    /\ deployed_containers c' = deployed_containers (coord w2_then_w1).
Proof.
  assert (NoDup (n_id <$> nodes (coord w2_then_w1))) as H.
  { vm_compute. apply NoDup_cons. split; [|apply NoDup_singleton].
    rewrite list_elem_of_singleton. discriminate. }
  exact (unregister_node_removes "w2" (coord w2_then_w1) H).
Defined.

(** ** Failed calls *)


(** ** Heartbeats *)

Lemma lookup_node_alter_self id f k l :
  (forall node, n_id (f node) = n_id node) ->
  find_node_by_id (Some id) l = Some k ->
  lookup_node id (alter f k l) = f <$> lookup_node id l.
Proof.
  intros Hf Hk. unfold lookup_node.
  assert (find_node_by_id (Some id) (alter f k l) = Some k) as ->.
  { unfold find_node_by_id in *.
    rewrite find_index_alter; [done|]. intros; by rewrite Hf. }
  rewrite Hk. simpl. apply list_lookup_alter_eq.
Qed.

(** An [int] compared with a [sizeof]: below zero it counts as large. *)
Lemma to_size_t_geb i n :
  - 2 ^ 31 <= i < 2 ^ 31 -> 0 <= n < 2 ^ 31 ->
  (to_size_t i >=? n) = (i <? 0) || (n <=? i).
Proof.
  intros Hi Hn. unfold to_size_t.
  destruct (Z.ltb_spec i 0) as [Hneg|Hpos]; simpl.
  - replace (i mod 2 ^ 64) with (i + 2 ^ 64).
    + apply Z.geb_le. lia.
    + symmetry. rewrite <- (Z.mod_add i 1 (2 ^ 64)) by lia.
      rewrite Z.mod_small; lia.
  - rewrite Z.mod_small by lia.
    destruct (Z.leb_spec n i); [apply Z.geb_le; lia|].
    destruct (Z.geb_spec i n); [lia | done].
Qed.

(** X7. A NODE_HEARTBEAT frame acts on the registry record found under the
    frame's sender id, whatever connection it came in on: the record becomes
    CONNECTED with the current time as last heartbeat; its resources are
    replaced by the payload when the length field is at least
    [sizeof(resource_info_t)] or negative (the comparison is unsigned), and
    kept otherwise; socket, address and container list stay.  Other records,
    the ledger and the sockets are untouched, and a frame from an unknown
    sender changes nothing: a heartbeat never registers. *)
Theorem heartbeat_refreshes_sender env msg c :
  - 2 ^ 31 <= msg_data_length msg < 2 ^ 31 ->
  let id := cstring (msg_sender_id msg) in
  let c' := on_node_heartbeat env msg c in
  match lookup_node id (nodes c) with
  | None => c' = c
  | Some node =>
      lookup_node id (nodes c')
      = Some (mk_node (n_id node) (n_hostname node) (n_ip_address node)
                (n_port node) NODE_CONNECTED
                (if (msg_data_length msg <? 0)
                    || (sizeof_resource_info_t <=? msg_data_length msg)
                 then resource_info_of_bytes (msg_data msg)
                 else n_resources node)
                (now env) (n_socket_fd node) (n_containers node))
      /\ (forall id', id' <> id ->
            lookup_node id' (nodes c') = lookup_node id' (nodes c))
      /\ deployed_containers c' = deployed_containers c
      /\ wire c' = wire c
  end.
Proof.
  intros Hlen id c'. subst c'. unfold on_node_heartbeat. fold id.
  unfold lookup_node at 1.
  destruct (find_node_by_id (Some id) (nodes c)) as [i|] eqn:Hi; simpl; [|done].
  destruct (find_node_by_id_Some _ _ _ Hi) as (node & Hn & Hid). rewrite Hn.
  split; [|split; [|done]].
  - rewrite lookup_node_alter_self by done.
    unfold lookup_node. rewrite Hi. simpl. rewrite Hn. simpl.
    unfold heartbeat. by rewrite to_size_t_geb by (unfold sizeof_resource_info_t; lia).
  - intros id' Hne. by apply (lookup_node_alter_other id).
Qed.

Lemma heartbeat_refreshes_sender_witness :
  let msg := heartbeat_of_length "w1" resources_10_10_10_0_50 (-1) in
  let c := coord w2_then_w1 in
  - 2 ^ 31 <= msg_data_length msg < 2 ^ 31
  /\ match lookup_node (cstring (msg_sender_id msg)) (nodes c) with
     | None => on_node_heartbeat (env_at 7) msg c = c
     | Some node =>
         lookup_node (cstring (msg_sender_id msg))
           (nodes (on_node_heartbeat (env_at 7) msg c))
         = Some (mk_node (n_id node) (n_hostname node) (n_ip_address node)
                   (n_port node) NODE_CONNECTED
                   (if (msg_data_length msg <? 0)
                       || (sizeof_resource_info_t <=? msg_data_length msg)
                    then resource_info_of_bytes (msg_data msg)
                    else n_resources node)
                   7 (n_socket_fd node) (n_containers node))
         /\ (forall id', id' <> cstring (msg_sender_id msg) ->
               lookup_node id' (nodes (on_node_heartbeat (env_at 7) msg c))
               = lookup_node id' (nodes c))
         /\ deployed_containers (on_node_heartbeat (env_at 7) msg c)
            = deployed_containers c
         /\ wire (on_node_heartbeat (env_at 7) msg c) = wire c
     end.
Proof.
  intros msg c.
  assert (- 2 ^ 31 <= msg_data_length msg < 2 ^ 31) as Hlen by (simpl; lia).
  split; [exact Hlen|].
  exact (heartbeat_refreshes_sender (env_at 7) msg c Hlen).
Defined.

(** ** What every event preserves in the ledger *)

Section ledger_invariant.
(** A property [Q] of ledger records that the updates of the program
    respect. *)
Variable Q : container_t -> Prop.
Hypothesis Q_fresh : forall slot node_id config now,
  Q (fresh_container slot node_id config now).
Hypothesis Q_starting : forall now k, Q k -> Q (starting now k).
Hypothesis Q_stopping : forall k, Q k -> Q (set_c_state CONTAINER_STOPPING k).

Lemma deploy_container_send_ledger_Forall env i node_id config c :
  Forall Q (deployed_containers c) ->
  Forall Q (deployed_containers
              (snd (deploy_container_send env i node_id config c))).
Proof.
  intros H. unfold deploy_container_send.
  destruct (send_message _ _ _) as [r sent].
  destruct (negb (r =? 0)); [by (cbn [snd]; rewrite deployed_put_short)|].
  destruct (deployed_container_count _ <? MAX_CONTAINERS); simpl;
    rewrite ?deployed_put_on_wire; [|assumption].
  apply Forall_app_2; [assumption|]. by apply Forall_singleton.
Qed.

Lemma deploy_container_ledger_Forall env node_id config c :
  Forall Q (deployed_containers c) ->
  Forall Q (deployed_containers (snd (deploy_container env node_id config c))).
Proof.
  intros H. unfold deploy_container.
  destruct node_id as [node_id|], config as [config|]; try assumption.
  destruct (find_node_by_id _ _) as [i|]; [|assumption].
  destruct (negb (node_state_eqb _ _)); [assumption|].
  by apply deploy_container_send_ledger_Forall.
Qed.

Lemma start_container_ledger_Forall env container_id c :
  Forall Q (deployed_containers c) ->
  Forall Q (deployed_containers (snd (start_container env container_id c))).
Proof.
  intros H. unfold start_container. destruct container_id; [|assumption].
  destruct (find_index _ _); [|assumption].
  destruct (find_node_by_id _ _); [|assumption].
  destruct (send_message _ _ _) as [r sent].
  destruct (negb (r =? 0)); [by (cbn [snd]; rewrite deployed_put_short)|].
  simpl.
  rewrite deployed_put_on_wire. apply Forall_alter; auto.
Qed.

Lemma stop_container_ledger_Forall env container_id c :
  Forall Q (deployed_containers c) ->
  Forall Q (deployed_containers (snd (stop_container env container_id c))).
Proof.
  intros H. unfold stop_container. destruct container_id; [|assumption].
  destruct (find_index _ _); [|assumption].
  destruct (find_node_by_id _ _); [|assumption].
  destruct (send_message _ _ _) as [r sent].
  destruct (negb (r =? 0)); [by (cbn [snd]; rewrite deployed_put_short)|].
  simpl.
  rewrite deployed_put_on_wire. apply Forall_alter; auto.
Qed.

Lemma delete_container_ledger_Forall env container_id c :
  Forall Q (deployed_containers c) ->
  Forall Q (deployed_containers (snd (delete_container env container_id c))).
Proof.
  intros H. unfold delete_container. destruct container_id; [|assumption].
  destruct (find_index _ _); [|assumption]. simpl.
  apply Forall_delete.
  destruct (find_node_by_id _ _); [|assumption]. simpl.
  by rewrite deployed_put_sent.
Qed.

Lemma transition_ledger_Forall s e c :
  transition s e c ->
  Forall Q (deployed_containers (coord s)) -> Forall Q (deployed_containers c).
Proof.
  intros [|socket env msg conn _|conn|env config|env cid|env cid|env cid
         |now id hostname ip_address port|msg|now i|state i|fd i
         |socket id i msg _|bytes_sent socket id|env i id config _] H;
    try assumption.
  - by rewrite dispatch_message_ledger.
  - by rewrite on_disconnect_ledger.
  - unfold deploy_container_auto. destruct (find_best_node _ _ _); [|assumption].
    by apply deploy_container_ledger_Forall.
  - by apply start_container_ledger_Forall.
  - by apply stop_container_ledger_Forall.
  - by apply delete_container_ledger_Forall.
  - by rewrite register_node_ledger.
  - by rewrite on_container_status_ledger.
  - by rewrite deployed_put_sent.
  - by apply deploy_container_send_ledger_Forall.
Qed.

Lemma step_ledger_Forall s e :
  Forall Q (deployed_containers (coord s)) ->
  Forall Q (deployed_containers (coord (step s e))).
Proof. apply (transition_ledger_Forall s e), step_transition. Qed.

Lemma run_ledger_Forall events :
  Forall Q (deployed_containers (coord (run events))).
Proof.
  unfold run. induction events as [|e events IH] using rev_ind.
  - constructor.
  - rewrite foldl_snoc. by apply step_ledger_Forall.
Qed.
End ledger_invariant.

(** X8. In every state the coordinator reaches, each ledger record is in
    state STARTING or STOPPING, carries the name of its configuration and
    has the id [<node id>_<name>] cut to 255 bytes.  So
    [get_container_status] answers STARTING, STOPPING or ERROR and never
    RUNNING or STOPPED, and it answers ERROR exactly for the ids that the
    ledger does not hold. *)
Theorem ledger_records_are_starting_or_stopping events id :
  let c := coord (run events) in
  Forall (fun k =>
            (c_state k = CONTAINER_STARTING \/ c_state k = CONTAINER_STOPPING)
            /\ c_name k = config_name (c_config k)
            /\ c_id k = snprintf_id MAX_NAME_LEN (c_node_id k) (c_name k))
    (deployed_containers c)
  /\ (get_container_status (Some id) c = CONTAINER_STARTING
      \/ get_container_status (Some id) c = CONTAINER_STOPPING
      \/ get_container_status (Some id) c = CONTAINER_ERROR)
  /\ (get_container_status (Some id) c = CONTAINER_ERROR
      <-> id ∉ (c_id <$> deployed_containers c)).
Proof.
  intros c.
  assert (Forall (fun k =>
            (c_state k = CONTAINER_STARTING \/ c_state k = CONTAINER_STOPPING)
            /\ c_name k = config_name (c_config k)
            /\ c_id k = snprintf_id MAX_NAME_LEN (c_node_id k) (c_name k))
            (deployed_containers c)) as Hinv.
  { apply run_ledger_Forall; simpl; intuition. }
  split; [assumption|].
  unfold get_container_status.
  destruct (find_index _ (deployed_containers c)) as [i|] eqn:Hi.
  - destruct (find_index_Some _ _ _ Hi) as (k & Hk & Hid & _). rewrite Hk. simpl.
    rewrite Forall_lookup in Hinv. destruct (Hinv i k Hk) as ([Hs|Hs] & _).
    + split; [by left|]. rewrite Hs. split; [discriminate|].
      intros Hnot. exfalso. apply Hnot. apply list_elem_of_fmap. exists k.
      split; [symmetry; by apply streq_eq|]. apply list_elem_of_lookup. by exists i.
    + split; [right; by left|]. rewrite Hs. split; [discriminate|].
      intros Hnot. exfalso. apply Hnot. apply list_elem_of_fmap. exists k.
      split; [symmetry; by apply streq_eq|]. apply list_elem_of_lookup. by exists i.
  - split; [right; by right|]. split; [intros _|done].
    intros Hin. apply list_elem_of_fmap in Hin as (k & -> & Hk).
    pose proof (find_index_None _ _ Hi k Hk) as Hne. simpl in Hne.
    unfold streq in Hne. by rewrite String.eqb_refl in Hne.
Qed.

(** ** The registry and the ledger agree *)

Lemma ledger_ids_of_snoc id l k :
  ledger_ids_of id (l ++ [k])
  = ledger_ids_of id l ++ (if decide (c_node_id k = id) then [c_id k] else []).
Proof.
  unfold ledger_ids_of. rewrite filter_app, fmap_app. f_equal.
  rewrite filter_cons, filter_nil. by destruct (decide _).
Qed.

Lemma ledger_ids_of_alter id g i l :
  (forall k, c_id (g k) = c_id k /\ c_node_id (g k) = c_node_id k) ->
  ledger_ids_of id (alter g i l) = ledger_ids_of id l.
Proof.
  intros Hg. unfold ledger_ids_of. revert i.
  induction l as [|a l IH]; intros [|i]; try reflexivity.
  - change (alter g 0%nat (a :: l)) with (g a :: l).
    rewrite !filter_cons. destruct (Hg a) as [H1 H2]. rewrite H2.
    destruct (decide _); simpl; [by rewrite H1 | done].
  - change (alter g (S i) (a :: l)) with (a :: alter g i l).
    rewrite !filter_cons. destruct (decide _); simpl; by rewrite IH.
Qed.

Lemma ledger_ids_of_delete_other id i l k :
  l !! i = Some k -> c_node_id k <> id ->
  ledger_ids_of id (delete i l) = ledger_ids_of id l.
Proof.
  unfold ledger_ids_of. revert i.
  induction l as [|a l IH]; intros [|i] Hk Hne; try done.
  - injection Hk as ->. change (delete 0%nat (k :: l)) with l.
    by rewrite filter_cons_False.
  - change (delete (S i) (a :: l)) with (a :: delete i l). simpl in Hk.
    rewrite !filter_cons.
    destruct (decide _); rewrite ?fmap_cons; by rewrite (IH i Hk Hne).
Qed.

Lemma find_index_fmap {A B} (f : A -> B) (p : B -> bool) (l : list A) :
  find_index p (f <$> l) = find_index (fun x => p (f x)) l.
Proof.
  induction l as [|a l IH]; [reflexivity|]. rewrite fmap_cons.
  cbn [find_index]. destruct (p (f a)); [reflexivity|]. by rewrite IH.
Qed.

(** Deleting the first ledger record with an id deletes, among the records
    of its worker, the first with that id. *)
Lemma ledger_ids_of_delete_first id cid i l k :
  find_index (fun k => streq (c_id k) cid) l = Some i ->
  l !! i = Some k -> c_node_id k = id ->
  exists j,
    find_index (fun s => streq s cid) (ledger_ids_of id l) = Some j
    /\ ledger_ids_of id (delete i l) = delete j (ledger_ids_of id l).
Proof.
  unfold ledger_ids_of. revert i.
  induction l as [|a l IH]; intros i Hi Hk Hid; [done|].
  simpl in Hi. destruct (streq (c_id a) cid) eqn:Ha.
  - injection Hi as <-. injection Hk as ->.
    exists 0%nat. rewrite filter_cons_True by done. simpl. by rewrite Ha.
  - destruct (find_index _ l) as [i'|] eqn:Hi'; [|done].
    injection Hi as <-. simpl in Hk.
    destruct (IH i' eq_refl Hk Hid) as (j & Hj & Hdel).
    change (delete (S i') (a :: l)) with (a :: delete i' l).
    rewrite !filter_cons. destruct (decide _).
    + exists (S j). rewrite !fmap_cons. cbn [find_index]. rewrite Ha, Hj.
      split; [done|]. rewrite Hdel. reflexivity.
    + by exists j.
Qed.

Lemma remove_from_node_ids cid node l i k :
  c_id <$> n_containers node = ledger_ids_of (n_id node) l ->
  find_index (fun k => streq (c_id k) cid) l = Some i ->
  l !! i = Some k -> c_node_id k = n_id node ->
  c_id <$> n_containers (remove_from_node cid node)
  = ledger_ids_of (n_id node) (delete i l).
Proof.
  intros Hids Hi Hk Hid.
  destruct (ledger_ids_of_delete_first _ _ _ _ _ Hi Hk Hid) as (j & Hj & ->).
  unfold remove_from_node. rewrite <- Hids in Hj.
  rewrite (find_index_fmap c_id (fun s => streq s cid)) in Hj. rewrite Hj.
  simpl. by rewrite list_fmap_delete, Hids.
Qed.

Lemma consistent_other_id c i j ni nj :
  consistent c -> nodes c !! i = Some ni -> nodes c !! j = Some nj ->
  j <> i -> n_id nj <> n_id ni.
Proof.
  intros (Hnd & _) Hi Hj Hne Heq. apply Hne.
  apply (NoDup_lookup (n_id <$> nodes c) j i (n_id ni)); [assumption| |].
  - by rewrite list_lookup_fmap, Hj, <- Heq.
  - by rewrite list_lookup_fmap, Hi.
Qed.

(** One registry record is updated by [f], which keeps its id, and the
    ledger becomes [ks']. *)
Lemma consistent_alter c c' i f ks' :
  consistent c ->
  (forall node, n_id (f node) = n_id node) ->
  (forall node, nodes c !! i = Some node ->
     c_id <$> n_containers (f node) = ledger_ids_of (n_id node) ks') ->
  (forall j node, j <> i -> nodes c !! j = Some node ->
     ledger_ids_of (n_id node) ks'
     = ledger_ids_of (n_id node) (deployed_containers c)) ->
  Forall (fun k => c_node_id k ∈ (n_id <$> nodes c)) ks' ->
  Z.of_nat (length ks') <= MAX_CONTAINERS ->
  nodes c' = alter f i (nodes c) -> deployed_containers c' = ks' ->
  consistent c'.
Proof.
  intros (Hnd & Hids & Hreg & Hn & Hk) Hf Hi Hother Hreg' Hk' Hnodes Hledger.
  unfold consistent, node_count, deployed_container_count.
  rewrite Hnodes, Hledger, fmap_alter_id, length_alter by assumption.
  repeat split_and; try assumption.
  apply Forall_lookup. intros j node Hj.
  rewrite Forall_lookup in Hids.
  destruct (decide (j = i)) as [->|Hne].
  - rewrite list_lookup_alter_eq in Hj.
    destruct (nodes c !! i) as [node0|] eqn:Hnode0; [|done].
    injection Hj as <-. rewrite Hf. by apply Hi.
  - rewrite list_lookup_alter_ne in Hj by done.
    rewrite (Hother j node Hne Hj). by apply (Hids j).
Qed.

(** The registry stays and the ledger becomes [ks']. *)
Lemma consistent_ledger c c' ks' :
  consistent c ->
  (forall node, node ∈ nodes c ->
     ledger_ids_of (n_id node) ks'
     = ledger_ids_of (n_id node) (deployed_containers c)) ->
  Forall (fun k => c_node_id k ∈ (n_id <$> nodes c)) ks' ->
  Z.of_nat (length ks') <= MAX_CONTAINERS ->
  nodes c' = nodes c -> deployed_containers c' = ks' ->
  consistent c'.
Proof.
  intros (Hnd & Hids & Hreg & Hn & Hk) Hsame Hreg' Hk' Hnodes Hledger.
  unfold consistent, node_count, deployed_container_count.
  rewrite Hnodes, Hledger. repeat split_and; try assumption.
  apply Forall_forall. intros node Hin. rewrite Forall_forall in Hids.
  rewrite (Hsame node Hin). by apply Hids.
Qed.

Lemma consistent_node_update c c' i f :
  consistent c ->
  (forall node, n_id (f node) = n_id node
                /\ c_id <$> n_containers (f node) = c_id <$> n_containers node) ->
  nodes c' = alter f i (nodes c) ->
  deployed_containers c' = deployed_containers c ->
  consistent c'.
Proof.
  intros Hc Hf Hnodes Hledger.
  apply (consistent_alter c c' i f (deployed_containers c)); try done.
  - intros node. apply Hf.
  - intros node Hnode. destruct (Hf node) as [_ ->].
    destruct Hc as (_ & Hids & _). by apply (Forall_lookup_1 _ _ i node) in Hids.
  - by destruct Hc as (_ & _ & Hreg & _).
  - by destruct Hc as (_ & _ & _ & _ & Hk).
Qed.

Lemma consistent_same c c' :
  consistent c -> nodes c' = nodes c ->
  deployed_containers c' = deployed_containers c -> consistent c'.
Proof.
  intros Hc Hnodes Hledger. unfold consistent, node_count, deployed_container_count.
  by rewrite Hnodes, Hledger.
Qed.

Lemma ledger_ids_of_unregistered id (ids : list string) l :
  Forall (fun k => c_node_id k ∈ ids) l -> id ∉ ids -> ledger_ids_of id l = [].
Proof.
  intros Hl Hid. unfold ledger_ids_of.
  induction Hl as [|k l Hk _ IH]; [reflexivity|].
  rewrite filter_cons_False; [assumption|]. by intros <-.
Qed.

Lemma register_node_consistent now node_id hostname ip_address port c :
  consistent c ->
  consistent (snd (register_node now node_id hostname ip_address port c)).
Proof.
  intros Hc. unfold register_node.
  destruct node_id as [id|], hostname, ip_address; try assumption.
  destruct (Z.geb_spec (node_count c) MAX_NODES) as [|Hroom]; [assumption|].
  destruct (find_index _ (nodes c)) as [i|] eqn:Hi; cbn [snd].
  - by apply (consistent_node_update c _ i
                (reregister s s0 port now)).
  - assert (id ∉ (n_id <$> nodes c)) as Hnew.
    { apply lookup_node_None. unfold lookup_node, find_node_by_id.
      by rewrite Hi. }
    destruct Hc as (Hnd & Hids & Hreg & Hn & Hk).
    unfold consistent, node_count, deployed_container_count in *.
    cbn [nodes deployed_containers].
    rewrite fmap_app, length_app. simpl. repeat split_and.
    + apply NoDup_app. split; [assumption|]. split; [|apply NoDup_singleton].
      intros x Hx Hx'. apply list_elem_of_singleton in Hx'. by subst.
    + apply Forall_app. split; [assumption|]. apply Forall_singleton. simpl.
      symmetry. by apply (ledger_ids_of_unregistered _ (n_id <$> nodes c)).
    + eapply Forall_impl; [exact Hreg|]. simpl. intros k Hin.
      apply elem_of_app. by left.
    + lia.
    + assumption.
Qed.

Lemma on_register_node_consistent env msg conn c :
  consistent c -> consistent (snd (on_register_node env msg conn c)).
Proof.
  intros Hc. unfold on_register_node.
  destruct (sscanf_s_s_d _ _ _ _) as [[hostname ip_address] port].
  pose proof (register_node_consistent (now env)
                (Some (cstring (msg_sender_id msg))) (Some hostname)
                (Some ip_address) port c Hc) as H1.
  destruct (register_node _ _ _ _ _ _) as [r c1]. cbn [snd] in H1.
  destruct (r =? 0); [|assumption]. cbn [snd].
  apply (consistent_same
           (match find_node_by_id (Some (cstring (msg_sender_id msg))) (nodes c1) with
            | Some i => set_nodes c1 (alter (set_socket_fd (client_socket conn)) i (nodes c1))
            | None => c1
            end));
    [|apply nodes_put_sent|apply deployed_put_sent].
  destruct (find_node_by_id _ _) as [i|]; [|assumption].
  by apply (consistent_node_update c1 _ i (set_socket_fd (client_socket conn))).
Qed.

Lemma dispatch_message_consistent env msg conn c :
  consistent c -> consistent (snd (dispatch_message env msg conn c)).
Proof.
  intros Hc. unfold dispatch_message.
  destruct (message_type_of_code (msg_type msg)) as [[]|]; try assumption.
  - by apply on_register_node_consistent.
  - cbn [snd]. unfold on_node_heartbeat.
    destruct (find_node_by_id _ _) as [i|]; [|assumption].
    by apply (consistent_node_update c _ i (heartbeat (now env) msg)).
  - cbn [snd]. unfold on_container_status.
    destruct (find_node_by_id _ _) as [i|]; [|assumption].
    destruct (to_size_t _ >=? _); [|assumption].
    apply (consistent_node_update c _ i (update_container_status msg));
      try done.
    intros node. apply update_container_status_ids.
Qed.

Lemma on_disconnect_consistent conn c :
  consistent c -> consistent (on_disconnect conn c).
Proof.
  intros Hc. unfold on_disconnect. destruct (strlen _ >? 0); [|assumption].
  destruct (find_node_by_id _ _) as [i|]; [|assumption].
  by apply (consistent_node_update c _ i disconnect).
Qed.

Lemma deploy_container_send_consistent env i id config c node :
  nodes c !! i = Some node -> n_id node = id ->
  consistent c ->
  consistent (snd (deploy_container_send env i id config c)).
Proof.
  intros Hn Hid Hc. unfold deploy_container_send. rewrite Hn.
  cbn [default from_option Datatypes.id].
  destruct (send_message _ _ _) as [r sent].
  destruct (negb (r =? 0));
    [cbn [snd]; apply (consistent_same c);
       [assumption|apply nodes_put_short|apply deployed_put_short]|].
  destruct (Z.ltb_spec (deployed_container_count (put_on_wire c (n_socket_fd node) sent))
              MAX_CONTAINERS) as [Hroom|];
    cbn [snd];
    [|by apply (consistent_same c); [|apply nodes_put_on_wire
                                      |apply deployed_put_on_wire]].
  unfold deployed_container_count in Hroom.
  rewrite deployed_put_on_wire in Hroom.
  set (k := fresh_container _ id config (now env)).
  apply (consistent_alter c _ i (add_to_node k) (deployed_containers c ++ [k]));
    try assumption.
  - intros n. apply add_to_node_id.
  - intros node0 Hnode0. assert (node0 = node) as -> by congruence.
    destruct Hc as (_ & Hids & _).
    apply (Forall_lookup_1 _ _ i node) in Hids; [|assumption].
    unfold add_to_node.
    assert (n_container_count node < MAX_CONTAINERS) as Hlt.
    { unfold n_container_count.
      rewrite <- (length_fmap c_id), Hids. unfold ledger_ids_of.
      rewrite length_fmap.
      pose proof (length_filter (fun k => c_node_id k = n_id node)
                    (deployed_containers c)). lia. }
    destruct (Z.ltb_spec (n_container_count node) MAX_CONTAINERS); [|lia].
    cbn [n_containers set_n_containers].
    rewrite fmap_app, ledger_ids_of_snoc, Hids.
    change (c_node_id k) with id. by rewrite decide_True.
  - intros j nj Hne Hj. rewrite ledger_ids_of_snoc.
    change (c_node_id k) with id. rewrite decide_False; [apply app_nil_r|].
    rewrite <- Hid. intros Heq.
    by apply (consistent_other_id c i j node nj Hc Hn Hj Hne).
  - destruct Hc as (_ & _ & Hreg & _). apply Forall_app. split; [assumption|].
    apply Forall_singleton. change (c_node_id k) with id.
    apply list_elem_of_fmap. exists node. split; [done|].
    apply list_elem_of_lookup. by exists i.
  - rewrite length_app. simpl. lia.
  - cbn [nodes]. by rewrite nodes_put_on_wire.
  - cbn [deployed_containers]. by rewrite deployed_put_on_wire.
Qed.

Lemma deploy_container_consistent env node_id config c :
  consistent c -> consistent (snd (deploy_container env node_id config c)).
Proof.
  intros Hc. unfold deploy_container.
  destruct node_id as [id|], config as [config|]; try assumption.
  destruct (find_node_by_id _ _) as [i|] eqn:Hi; [|assumption].
  destruct (find_node_by_id_Some _ _ _ Hi) as (node & Hn & Hid).
  destruct (negb (node_state_eqb _ _)); [assumption|].
  by apply (deploy_container_send_consistent env i id config c node).
Qed.

Lemma consistent_alter_ledger c c' g ci :
  consistent c ->
  (forall k, c_id (g k) = c_id k /\ c_node_id (g k) = c_node_id k) ->
  nodes c' = nodes c ->
  deployed_containers c' = alter g ci (deployed_containers c) ->
  consistent c'.
Proof.
  intros Hc Hg Hnodes Hledger.
  apply (consistent_ledger c c' (alter g ci (deployed_containers c)));
    try assumption.
  - intros node _. by apply ledger_ids_of_alter.
  - destruct Hc as (_ & _ & Hreg & _). apply Forall_alter; [assumption|].
    intros k _ Hk. by destruct (Hg k) as [_ ->].
  - rewrite length_alter. by destruct Hc as (_ & _ & _ & _ & Hk).
Qed.

Lemma start_container_consistent env container_id c :
  consistent c -> consistent (snd (start_container env container_id c)).
Proof.
  intros Hc. unfold start_container. destruct container_id; [|assumption].
  destruct (find_index _ _) as [ci|]; [|assumption].
  destruct (find_node_by_id _ _); [|assumption].
  destruct (send_message _ _ _) as [r sent].
  destruct (negb (r =? 0));
    [cbn [snd]; apply (consistent_same c);
       [assumption|apply nodes_put_short|apply deployed_put_short]|].
  cbn [snd].
  apply (consistent_alter_ledger c _ (starting (now env)) ci); try done.
  - cbn [nodes set_deployed_containers]. apply nodes_put_on_wire.
  - cbn [deployed_containers set_deployed_containers].
    by rewrite deployed_put_on_wire.
Qed.

Lemma stop_container_consistent env container_id c :
  consistent c -> consistent (snd (stop_container env container_id c)).
Proof.
  intros Hc. unfold stop_container. destruct container_id; [|assumption].
  destruct (find_index _ _) as [ci|]; [|assumption].
  destruct (find_node_by_id _ _); [|assumption].
  destruct (send_message _ _ _) as [r sent].
  destruct (negb (r =? 0));
    [cbn [snd]; apply (consistent_same c);
       [assumption|apply nodes_put_short|apply deployed_put_short]|].
  cbn [snd].
  apply (consistent_alter_ledger c _ (set_c_state CONTAINER_STOPPING) ci);
    try done.
  - cbn [nodes set_deployed_containers]. apply nodes_put_on_wire.
  - cbn [deployed_containers set_deployed_containers].
    by rewrite deployed_put_on_wire.
Qed.

Lemma delete_container_consistent env container_id c :
  consistent c -> consistent (snd (delete_container env container_id c)).
Proof.
  intros Hc. unfold delete_container.
  destruct container_id as [cid|]; [|assumption].
  destruct (find_index _ (deployed_containers c)) as [ci|] eqn:Hci; [|assumption].
  destruct (find_index_Some _ _ _ Hci) as (k & Hk & _). rewrite Hk.
  cbn [default from_option Datatypes.id snd].
  assert (Z.of_nat (length (delete ci (deployed_containers c))) <= MAX_CONTAINERS)
    as Hbound.
  { destruct Hc as (_ & _ & _ & _ & Hb). unfold deployed_container_count in Hb.
    pose proof (length_delete (deployed_containers c) ci (mk_is_Some _ _ Hk)). lia. }
  assert (Forall (fun k => c_node_id k ∈ (n_id <$> nodes c))
            (delete ci (deployed_containers c))) as Hreg'.
  { destruct Hc as (_ & _ & Hreg & _). by apply Forall_delete. }
  destruct (find_node_by_id _ (nodes c)) as [i|] eqn:Hi.
  - destruct (find_node_by_id_Some _ _ _ Hi) as (node & Hn & Hid). rewrite Hn.
    cbn [default from_option Datatypes.id].
    apply (consistent_alter c _ i (remove_from_node cid)
             (delete ci (deployed_containers c))); try assumption.
    + apply remove_from_node_id.
    + intros node0 Hnode0. assert (node0 = node) as -> by congruence.
      destruct Hc as (_ & Hids & _).
      apply (Forall_lookup_1 _ _ i node) in Hids; [|assumption].
      by apply (remove_from_node_ids cid node _ ci k).
    + intros j nj Hne Hj. apply (ledger_ids_of_delete_other _ ci _ k Hk).
      rewrite <- Hid. intros Heq.
      by apply (consistent_other_id c i j node nj Hc Hn Hj Hne).
    + cbn [nodes set_nodes]. by rewrite nodes_put_sent.
    + cbn [deployed_containers set_nodes]. by rewrite deployed_put_sent.
  - apply (consistent_ledger c _ (delete ci (deployed_containers c)));
      try done.
    intros node Hin. apply (ledger_ids_of_delete_other _ ci _ k Hk).
    intros Heq.
    pose proof (find_index_None _ _ Hi node Hin) as Hne. simpl in Hne.
    rewrite Heq in Hne. unfold streq in Hne. by rewrite String.eqb_refl in Hne.
Qed.

Lemma store_consistent f i c :
  (forall node, n_id (f node) = n_id node
                /\ n_containers (f node) = n_containers node) ->
  consistent c -> consistent (store f i c).
Proof.
  intros Hf Hc. apply (consistent_node_update c _ i f); try done.
  intros node. destruct (Hf node) as [-> ->]. done.
Qed.

Lemma transition_consistent s e c :
  transition s e c ->
  (forall i id config,
     operator s = Some (to_send i id config) ->
     (n_id <$> nodes (coord s)) !! i = Some id) ->
  consistent (coord s) -> consistent c.
Proof.
  intros [|socket env msg conn _|conn|env config|env cid|env cid|env cid
         |now id hostname ip_address port|msg|now i|state i|fd i
         |socket id i msg _|bytes_sent socket id|env i id config Hpc] Hop H.
  - assumption.
  - by apply dispatch_message_consistent.
  - by apply on_disconnect_consistent.
  - unfold deploy_container_auto. destruct (find_best_node _ _ _); [|assumption].
    by apply deploy_container_consistent.
  - by apply start_container_consistent.
  - by apply stop_container_consistent.
  - by apply delete_container_consistent.
  - by apply register_node_consistent.
  - unfold on_container_status.
    destruct (find_node_by_id _ _) as [i|]; [|assumption].
    destruct (to_size_t _ >=? _); [|assumption].
    apply (consistent_node_update (coord s) _ i (update_container_status msg));
      try done.
    intros node. apply update_container_status_ids.
  - by apply store_consistent.
  - by apply store_consistent.
  - by apply store_consistent.
  - by apply store_consistent.
  - apply (consistent_same (coord s));
      [assumption|apply nodes_put_sent|apply deployed_put_sent].
  - specialize (Hop i id config Hpc). rewrite list_lookup_fmap in Hop.
    destruct (nodes (coord s) !! i) as [node|] eqn:Hn; [|discriminate].
    apply (deploy_container_send_consistent env i id config _ node);
      [assumption| |assumption].
    by injection Hop.
Qed.

Lemma run_consistent events : consistent (coord (run events)).
Proof.
  induction events as [|e events IH] using rev_ind.
  - unfold consistent. simpl. repeat split_and; try constructor; done.
  - unfold run. rewrite foldl_snoc. fold (run events).
    apply (transition_consistent (run events) e);
      [apply step_transition| |assumption].
    by destruct (run_pending events) as (_ & _ & Hop).
Qed.

(** X9. In every state the coordinator reaches the registry and the ledger
    agree: worker ids are unique; the container list of each worker names,
    in order, exactly the ledger records placed on that worker; every
    ledger record names a registered worker; and neither table is longer
    than its array. *)
Theorem reachable_states_are_consistent events :
  let c := coord (run events) in
  NoDup (n_id <$> nodes c)
  /\ (forall node, node ∈ nodes c ->
        c_id <$> n_containers node
        = c_id <$> filter (fun k => c_node_id k = n_id node) (deployed_containers c))
  /\ (forall k, k ∈ deployed_containers c ->
        exists node, node ∈ nodes c /\ n_id node = c_node_id k)
  /\ node_count c <= MAX_NODES
  /\ deployed_container_count c <= MAX_CONTAINERS.
Proof.
  intros c. destruct (run_consistent events) as (Hnd & Hids & Hreg & Hn & Hk).
  fold c in Hnd, Hids, Hreg, Hn, Hk.
  repeat split_and; try assumption.
  - intros node Hin. rewrite Forall_forall in Hids. by apply Hids.
  - intros k Hin. rewrite Forall_forall in Hreg.
    apply Hreg, list_elem_of_fmap in Hin as (node & Heq & Hnode). by exists node.
Qed.

(** ** The registry only grows *)

(** X10. The running coordinator never removes or moves a registry record:
    whatever events follow, the ids registered so far stay in the registry,
    in the same slots, and new ids are only appended behind them
    ([unregister_node] has no caller).  So a worker found under an id stays
    found under it. *)
Theorem registry_only_grows events more :
  (exists later,
     n_id <$> nodes (coord (run (events ++ more)))
     = (n_id <$> nodes (coord (run events))) ++ later)
  /\ forall id, is_Some (lookup_node id (nodes (coord (run events)))) ->
       is_Some (lookup_node id (nodes (coord (run (events ++ more))))).
Proof.
  destruct (run_ids events more) as [later H]. split; [by exists later|].
  intros id [node Hnode].
  destruct (lookup_node id (nodes (coord (run (events ++ more))))) eqn:Hl;
    [by eexists|].
  apply lookup_node_None in Hl. rewrite H in Hl.
  apply not_elem_of_app in Hl as [Hl _].
  apply lookup_node_None in Hl. congruence.
Qed.

(** X11. A registry that has reached [MAX_NODES] records is final: from
    then on it holds the same ids in the same slots whatever happens, and
    a REGISTER_NODE frame with any other id is never accepted. *)
Theorem full_registry_is_final events more :
  node_count (coord (run events)) = MAX_NODES ->
  n_id <$> nodes (coord (run (events ++ more)))
  = n_id <$> nodes (coord (run events)).
Proof.
  intros Hfull. destruct (run_ids events more) as [later H].
  destruct (run_consistent (events ++ more)) as (_ & _ & _ & Hn & _).
  unfold node_count in *.
  rewrite <- (length_fmap n_id) in Hn, Hfull. rewrite H, length_app in Hn.
  destruct later; [by rewrite app_nil_r in H|]. simpl in Hn. lia.
Qed.

Lemma full_registry_is_final_witness :
  n_id <$> nodes (coord (run (workers_registering (Z.to_nat MAX_NODES)
                                ++ [Accept 9;
                                    Frame 9 (env_at 5)
                                      (register_frame "late" "host 10.0.0.9 9000")])))
  = n_id <$> nodes (coord (run (workers_registering (Z.to_nat MAX_NODES)))).
Proof.
  apply (full_registry_is_final (workers_registering (Z.to_nat MAX_NODES))).
  by vm_compute.
Defined.

(** ** What the coordinator writes on the sockets *)

Lemma sends_same c c' : wire c' = wire c -> sends c c'.
Proof. intros H. exists []. by rewrite app_nil_r. Qed.

Lemma sends_trans c1 c2 c3 : sends c1 c2 -> sends c2 c3 -> sends c1 c3.
Proof.
  intros (n1 & H1 & F1) (n2 & H2 & F2). exists (n1 ++ n2).
  split; [by rewrite H2, H1, app_assoc | by apply Forall_app].
Qed.

Lemma sends_put c c' bytes_sent fd type recipient data len :
  type ∈ [MSG_ACK; MSG_DEPLOY_CONTAINER; MSG_START_CONTAINER;
          MSG_STOP_CONTAINER; MSG_DELETE_CONTAINER] ->
  wire c' = wire (put_sent c fd
                    (send_message bytes_sent fd
                       (create_message type (Some "coordinator"%string)
                          (Some recipient) data len))) ->
  sends c c'.
Proof.
  intros Hty Hw. unfold sends. rewrite Hw. unfold put_sent.
  send_cases; cbn [fst snd Z.eqb].
  - eexists. split; [reflexivity|].
    apply Forall_singleton. split; [assumption|].
    by exists type, recipient, data, len.
  - exists []. by rewrite app_nil_r, wire_put_short.
Qed.

Lemma wire_set_nodes c l : wire (set_nodes c l) = wire c.
Proof. reflexivity. Qed.

Lemma dispatch_message_sends env msg conn c :
  sends c (snd (dispatch_message env msg conn c)).
Proof.
  unfold dispatch_message.
  destruct (message_type_of_code (msg_type msg)) as [[]|];
    try (by apply sends_same).
  - unfold on_register_node.
    destruct (sscanf_s_s_d _ _ _ _) as [[hostname ip_address] port].
    assert (wire (snd (register_node (now env) (Some (cstring (msg_sender_id msg)))
                         (Some hostname) (Some ip_address) port c)) = wire c)
      as Hreg.
    { unfold register_node. destruct (_ >=? _); [done|].
      by destruct (find_index _ _). }
    destruct (register_node _ _ _ _ _ _) as [r c1]. cbn [snd] in Hreg.
    destruct (r =? 0); [|by apply sends_same]. cbn [snd].
    apply (sends_trans c c1); [by apply sends_same|].
    eapply (sends_trans c1); [|eapply sends_put; [|reflexivity]].
    + apply sends_same. by destruct (find_node_by_id _ _).
    + set_solver.
  - apply sends_same. cbn [snd]. unfold on_node_heartbeat.
    by destruct (find_node_by_id _ _).
  - apply sends_same. cbn [snd]. unfold on_container_status.
    destruct (find_node_by_id _ _); [|done]. by destruct (to_size_t _ >=? _).
Qed.

Lemma deploy_container_send_sends env i id config c :
  sends c (snd (deploy_container_send env i id config c)).
Proof.
  unfold deploy_container_send.
  send_cases; cbn [negb Z.eqb];
    [|apply sends_same; cbn [snd]; apply wire_put_short].
  assert (coordinator_frame
            (n_socket_fd (default zero_node (nodes c !! i)),
             message_bytes
               (create_message MSG_DEPLOY_CONTAINER (Some "coordinator"%string)
                  (Some id) (Some (config_object config)) sizeof_lxc_config_t)))
    as Hframe.
  { split; [assumption|]. eexists _, _, _, _. split; [reflexivity | set_solver]. }
  destruct (_ <? MAX_CONTAINERS); cbn [snd]; eexists; (split; [reflexivity|]);
    by apply Forall_singleton.
Qed.

Lemma deploy_container_sends env node_id config c :
  sends c (snd (deploy_container env node_id config c)).
Proof.
  unfold deploy_container.
  destruct node_id as [id|], config as [config|]; try (by apply sends_same).
  destruct (find_node_by_id _ _) as [i|]; [|by apply sends_same].
  destruct (negb (node_state_eqb _ _)); [by apply sends_same|].
  apply deploy_container_send_sends.
Qed.

Lemma start_container_sends env container_id c :
  sends c (snd (start_container env container_id c)).
Proof.
  unfold start_container. destruct container_id; [|by apply sends_same].
  destruct (find_index _ _); [|by apply sends_same].
  destruct (find_node_by_id _ _); [|by apply sends_same].
  send_cases; cbn [negb Z.eqb snd];
    [|apply sends_same; apply wire_put_short].
  eexists. split; [reflexivity|]. apply Forall_singleton.
  split; [assumption|]. eexists _, _, _, _. split; [reflexivity | set_solver].
Qed.

Lemma stop_container_sends env container_id c :
  sends c (snd (stop_container env container_id c)).
Proof.
  unfold stop_container. destruct container_id; [|by apply sends_same].
  destruct (find_index _ _); [|by apply sends_same].
  destruct (find_node_by_id _ _); [|by apply sends_same].
  send_cases; cbn [negb Z.eqb snd];
    [|apply sends_same; apply wire_put_short].
  eexists. split; [reflexivity|]. apply Forall_singleton.
  split; [assumption|]. eexists _, _, _, _. split; [reflexivity | set_solver].
Qed.

Lemma delete_container_sends env container_id c :
  sends c (snd (delete_container env container_id c)).
Proof.
  unfold delete_container. destruct container_id; [|by apply sends_same].
  destruct (find_index _ _); [|by apply sends_same]. cbn [snd wire].
  destruct (find_node_by_id _ _); [|by apply sends_same].
  eapply sends_put; [|reflexivity]. set_solver.
Qed.

Lemma transition_sends s e c : transition s e c -> sends (coord s) c.
Proof.
  intros [|socket env msg conn _|conn|env config|env cid|env cid|env cid
         |now id hostname ip_address port|msg|now i|state i|fd i
         |socket id i msg _|bytes_sent socket id|env i id config _];
    try (by apply sends_same).
  - apply dispatch_message_sends.
  - apply sends_same, on_disconnect_wire.
  - unfold deploy_container_auto.
    destruct (find_best_node _ _ _); [|by apply sends_same].
    apply deploy_container_sends.
  - apply start_container_sends.
  - apply stop_container_sends.
  - apply delete_container_sends.
  - apply sends_same. unfold register_node.
    destruct (_ >=? _); [done|]. by destruct (find_index _ _).
  - apply sends_same. unfold on_container_status.
    destruct (find_node_by_id _ _); [|done]. by destruct (to_size_t _ >=? _).
  - eapply sends_put; [|reflexivity]. set_solver.
  - apply deploy_container_send_sends.
Qed.

Lemma step_sends s e : sends (coord s) (coord (step s e)).
Proof. apply (transition_sends s e), step_transition. Qed.

(** X12. What the coordinator writes on the sockets, in any run: bytes once
    written stay (later events only append), and every frame goes to an open
    socket (descriptor >= 0), names "coordinator" as its sender and has one
    of the types ACK, DEPLOY_CONTAINER, START_CONTAINER, STOP_CONTAINER and
    DELETE_CONTAINER.  The coordinator never answers a heartbeat or a status
    report and never sends an ERROR frame. *)
Theorem coordinator_frames_on_the_wire events more :
  Forall coordinator_frame (wire (coord (run events)))
  /\ sends (coord (run events)) (coord (run (events ++ more))).
Proof.
  assert (forall events more,
            sends (coord (run events)) (coord (run (events ++ more)))) as H.
  { clear. intros events more. unfold run.
    induction more as [|e more IH] using rev_ind.
    - rewrite app_nil_r. by apply sends_same.
    - rewrite app_assoc, foldl_snoc. eapply sends_trans; [exact IH|].
      apply step_sends. }
  split; [|apply H].
  destruct (H [] events) as (new & Hw & Hnew). simpl in Hw. by rewrite Hw.
Qed.

(** ** Placement, then deployment *)

Lemma find_node_by_id_NoDup l i node :
  NoDup (n_id <$> l) -> l !! i = Some node ->
  find_node_by_id (Some (n_id node)) l = Some i.
Proof.
  intros Hnd Hi. unfold find_node_by_id.
  apply (find_index_first _ _ _ node); [assumption|by apply streq_eq|].
  intros j m Hj Hlt. apply streq_ne. intros Heq.
  assert (j = i); [|lia].
  apply (NoDup_lookup (n_id <$> l) j i (n_id node)); [assumption| |].
  - by rewrite list_lookup_fmap, Hj, <- Heq.
  - by rewrite list_lookup_fmap, Hi.
Qed.

(** X13. "deploy" in a state the coordinator has reached.  Without a node
    that placement accepts, [deploy_container_auto] returns -1 and changes
    nothing.  Otherwise everything happens on the node [find_best_node]
    chose: if its socket is closed or the send fails the call returns -1
    and changes nothing but for what a short [send] wrote on that socket,
    and no other node is tried; else it returns 0, one
    DEPLOY_CONTAINER frame with the whole configuration goes to that node's
    socket, and, the ledger having room, one record is appended to the
    ledger and to that node's own list: id [<node id>_<name>], state
    STARTING, created now. *)
Theorem deploy_container_auto_places_on_best events env config :
  let c := coord (run events) in
  match find_best_node (now env) (Some config) c with
  | None => deploy_container_auto env (Some config) c = (-1, c)
  | Some i =>
      exists node,
        nodes c !! i = Some node
        /\ considered (now env) node = true
        /\ if (n_socket_fd node <? 0) || negb (net_ok env)
           then deploy_container_auto env (Some config) c
                = (-1, if n_socket_fd node <? 0 then c
                       else put_short c (n_socket_fd node)
                              (short_write (bytes_sent env)
                                 (create_message MSG_DEPLOY_CONTAINER
                                    (Some "coordinator"%string)
                                    (Some (n_id node))
                                    (Some (config_object config))
                                    sizeof_lxc_config_t)))
           else
             exists c',
               deploy_container_auto env (Some config) c = (0, c')
               /\ wire c'
                  = wire c
                    ++ [(n_socket_fd node,
                         message_bytes
                           (create_message MSG_DEPLOY_CONTAINER
                              (Some "coordinator"%string) (Some (n_id node))
                              (Some (config_object config))
                              sizeof_lxc_config_t))]
               /\ (deployed_container_count c < MAX_CONTAINERS ->
                   exists k,
                     deployed_containers c' = deployed_containers c ++ [k]
                     /\ c_id k = snprintf_id MAX_NAME_LEN (n_id node)
                                   (config_name config)
                     /\ c_name k = config_name config
                     /\ c_node_id k = n_id node
                     /\ c_state k = CONTAINER_STARTING
                     /\ c_created_at k = now env
                     /\ n_containers <$> lookup_node (n_id node) (nodes c')
                        = Some (n_containers node ++ [k]))
  end.
Proof.
  intros c. unfold deploy_container_auto.
  destruct (find_best_node (now env) (Some config) c) as [i|] eqn:Hbest;
    [|reflexivity].
  destruct (find_best_node_spec _ _ _ _ Hbest) as (node & Hn & Hcons & _).
  exists node. split; [assumption|]. split; [assumption|].
  pose proof (run_consistent events) as Hc. fold c in Hc.
  assert (find_node_by_id (Some (n_id node)) (nodes c) = Some i) as Hfind.
  { destruct Hc as (Hnd & _). by apply find_node_by_id_NoDup. }
  apply considered_true in Hcons as (Hstate & _ & _).
  rewrite Hn. cbn [default from_option Datatypes.id].
  unfold deploy_container, deploy_container_send. rewrite Hfind, Hn.
  cbn [default from_option Datatypes.id]. rewrite Hstate. cbn [node_state_eqb negb].
  unfold send_message, net_ok.
  destruct (Z.ltb_spec (n_socket_fd node) 0); [reflexivity|].
  destruct (bytes_sent env =? sizeof_message_t); [|reflexivity].
  cbn [negb orb Z.eqb].
  destruct (Z.ltb_spec (deployed_container_count
                          (put_on_wire c (n_socket_fd node)
                             (Some (message_bytes
                                (create_message MSG_DEPLOY_CONTAINER
                                   (Some "coordinator"%string) (Some (n_id node))
                                   (Some (config_object config))
                                   sizeof_lxc_config_t)))))
              MAX_CONTAINERS) as [Hroom|Hfull].
  - eexists. split; [reflexivity|]. split; [reflexivity|]. intros _.
    eexists. split; [reflexivity|]. do 5 (split; [reflexivity|]).
    cbn [nodes put_on_wire].
    rewrite lookup_node_alter_self by (try apply add_to_node_id; assumption).
    unfold lookup_node. rewrite Hfind. cbn [mbind option_bind]. rewrite Hn.
    cbn [fmap option_fmap option_map]. unfold add_to_node.
    destruct (Z.ltb_spec (n_container_count node) MAX_CONTAINERS) as [|Hmany];
      [reflexivity|].
    exfalso. destruct Hc as (_ & Hids & _).
    apply (Forall_lookup_1 _ _ i node) in Hids; [|assumption].
    unfold n_container_count in Hmany.
    rewrite <- (length_fmap c_id), Hids in Hmany. unfold ledger_ids_of in Hmany.
    rewrite length_fmap in Hmany.
    pose proof (length_filter (fun k => c_node_id k = n_id node)
                  (deployed_containers c)).
    unfold deployed_container_count in Hroom. cbn [deployed_containers put_on_wire] in Hroom.
    lia.
  - eexists. split; [reflexivity|]. split; [reflexivity|].
    unfold deployed_container_count in *. cbn [deployed_containers put_on_wire] in Hfull.
    lia.
Qed.

(** ** From the coordinator to the worker *)

Lemma create_message_fields type sender recipient d data_len :
  data_len < 2 ^ 31 ->
  let msg := create_message type sender recipient (Some d) data_len in
  msg_type msg = message_type_code type
  /\ length (msg_sender_id msg) = MAX_NAME_LEN
  /\ length (msg_recipient_id msg) = MAX_NAME_LEN
  /\ msg_data_length msg = Z.max 0 (Z.min data_len sizeof_data)
  /\ msg_data msg
     = memcpy (zeros (Z.to_nat sizeof_data)) d (Z.to_nat (msg_data_length msg)).
Proof.
  intros Hint msg.
  assert (forall s : option string,
            length (match s with
                    | Some s => strncpy (zeros MAX_NAME_LEN) s (MAX_NAME_LEN - 1)
                    | None => zeros MAX_NAME_LEN
                    end) = MAX_NAME_LEN) as Hid.
  { intros [s|]; [apply strncpy_id_truncates | apply length_replicate]. }
  assert (sizeof_data = 7672) as Hsize by reflexivity.
  subst msg. unfold create_message.
  destruct (Z.ltb_spec 0 data_len) as [Hpos|Hneg].
  - unfold to_size_t. rewrite (Z.mod_small data_len) by lia.
    destruct (Z.ltb_spec data_len sizeof_data);
      cbn [msg_type msg_sender_id msg_recipient_id msg_data_length msg_data];
      rewrite !Hid; repeat split; lia.
  - cbn [msg_type msg_sender_id msg_recipient_id msg_data_length msg_data].
    rewrite !Hid. do 3 (split; [reflexivity|]). split; [lia|].
    replace (Z.max 0 (Z.min data_len sizeof_data)) with 0 by lia.
    unfold memcpy. by rewrite take_0, drop_0.
Qed.

(** A frame built by [create_message] arrives as it was built. *)
Lemma create_message_wire type sender recipient d data_len fd :
  data_len <= Z.of_nat (length d) -> data_len < 2 ^ 31 -> 0 <= fd ->
  let msg := create_message type sender recipient (Some d) data_len in
  receive_message fd (message_bytes msg) = Some msg
  /\ frame_type (message_bytes msg) = Some type.
Proof.
  intros Hd Hint Hfd msg.
  destruct (create_message_fields type sender recipient d data_len Hint)
    as (Hty & Hs & Hr & Hl & Hdata). fold msg in Hty, Hs, Hr, Hl, Hdata.
  assert (sizeof_data = 7672) as Hsize by reflexivity.
  assert (0 <= message_type_code type < 10) as Hcode
    by (destruct type; simpl; lia).
  assert (message_of_bytes (message_bytes msg) = msg) as Hround.
  { apply message_of_bytes_message_bytes; [rewrite Hty|rewrite Hl| |];
      try assumption; lia. }
  split.
  - unfold receive_message. destruct (Z.ltb_spec fd 0); [lia|].
    assert (Z.of_nat (length (message_bytes msg)) = sizeof_message_t) as ->.
    { unfold message_bytes. rewrite !length_app, Hs, Hr, Hdata. unfold memcpy.
      rewrite length_app, length_take, length_drop. unfold zeros.
      rewrite length_replicate. simpl length.
      unfold sizeof_message_t, BUFFER_SIZE, MAX_NAME_LEN. lia. }
    by rewrite Z.eqb_refl, Hround.
  - unfold frame_type. rewrite Hround, Hty. by destruct type.
Qed.

Lemma cstring_take_app b rest :
  forallb (fun x => negb (Byte.eqb x NUL)) b = true ->
  cstring (take (length b) (b ++ rest)) = string_of_list_byte b.
Proof.
  intros Hb. rewrite take_app_length. by apply cstring_no_nul.
Qed.

(** The name in a command frame comes out as it went in. *)
Lemma container_name_of_create_message type sender recipient name :
  strlen name < Z.of_nat MAX_NAME_LEN ->
  container_name_of
    (create_message type sender recipient (Some (string_bytes name))
       (strlen name))
  = Some (string_of_list_byte (string_bytes name)).
Proof.
  intros Hlen. unfold strlen in *.
  set (b := string_bytes name) in *.
  assert (forallb (fun x => negb (Byte.eqb x NUL)) b = true) as Hb
    by apply string_bytes_no_NUL.
  destruct (create_message_fields type sender recipient b
              (Z.of_nat (length b))) as (_ & _ & _ & Hl & Hdata);
    [unfold MAX_NAME_LEN in Hlen; lia|].
  assert (sizeof_data = 7672) as Hsize by reflexivity.
  unfold container_name_of. rewrite Hdata, Hl.
  replace (Z.max 0 (Z.min (Z.of_nat (length b)) sizeof_data))
    with (Z.of_nat (length b)) by (unfold MAX_NAME_LEN in Hlen; lia).
  destruct (Z.ltb_spec (Z.of_nat (length b)) (Z.of_nat MAX_NAME_LEN)); [|lia].
  destruct (Z.ltb_spec (Z.of_nat (length b)) 0); [lia|].
  rewrite Nat2Z.id. unfold memcpy. rewrite (take_ge b) by lia.
  by rewrite cstring_take_app.
Qed.

Lemma command_frame_delivered type recipient name ws :
  no_nul name = true -> strlen name < Z.of_nat MAX_NAME_LEN -> 0 <= ws ->
  let msg :=
    create_message type (Some "coordinator"%string) (Some recipient)
      (Some (string_bytes name)) (strlen name) in
  receive_message ws (message_bytes msg) = Some msg
  /\ frame_type (message_bytes msg) = Some type
  /\ container_name_of msg = Some name.
Proof.
  intros Hnul Hlen Hws msg.
  destruct (create_message_wire type (Some "coordinator"%string)
              (Some recipient) (string_bytes name) (strlen name) ws)
    as [Hrx Hty]; try assumption.
  - unfold strlen. lia.
  - unfold MAX_NAME_LEN in Hlen. lia.
  - split; [assumption|]. split; [assumption|]. subst msg.
    rewrite container_name_of_create_message by assumption.
    by rewrite string_bytes_no_nul, string_of_list_byte_of_string.
Qed.

(** X14. The operator's commands reach the worker that holds the
    container.  For a ledger record whose worker is registered with an open
    socket, and whose name is a C string that fits [MAX_NAME_LEN], each of
    [start_container], [stop_container] and [delete_container] returns 0 and
    writes one frame to that worker's socket; read by the worker, the frame
    has the type of the command, and the name that
    [message_handler_thread] copies out of it is the container's name (not
    its id). *)
Theorem commands_name_the_container env cid c ci k i node ws :
  find_index (fun k => streq (c_id k) cid) (deployed_containers c) = Some ci ->
  deployed_containers c !! ci = Some k ->
  find_node_by_id (Some (c_node_id k)) (nodes c) = Some i ->
  nodes c !! i = Some node ->
  0 <= n_socket_fd node -> net_ok env = true ->
  no_nul (c_name k) = true -> strlen (c_name k) < Z.of_nat MAX_NAME_LEN ->
  0 <= ws ->
  command_reaches_worker (start_container env (Some cid) c) c
    (n_socket_fd node) ws MSG_START_CONTAINER (c_name k)
  /\ command_reaches_worker (stop_container env (Some cid) c) c
       (n_socket_fd node) ws MSG_STOP_CONTAINER (c_name k)
  /\ command_reaches_worker (delete_container env (Some cid) c) c
       (n_socket_fd node) ws MSG_DELETE_CONTAINER (c_name k).
Proof.
  intros Hci Hk Hi Hnode Hfd Hnet Hnul Hlen Hws.
  unfold command_reaches_worker, start_container, stop_container,
    delete_container.
  rewrite Hci, Hk. cbn [default from_option Datatypes.id].
  rewrite Hi, Hnode. cbn [default from_option Datatypes.id].
  unfold net_ok in Hnet. unfold put_sent, send_message. rewrite Hnet.
  destruct (Z.ltb_spec (n_socket_fd node) 0); [lia|].
  cbn [negb Z.eqb fst snd wire put_on_wire set_deployed_containers set_nodes].
  repeat split_and; try reflexivity;
    eexists _, _; (split; [reflexivity|]);
    by apply command_frame_delivered.
Qed.

Lemma commands_name_the_container_witness :
  let c := coord w1_with_web in
  command_reaches_worker (start_container (env_at 3) (Some "w1_web"%string) c) c
    5 3 MSG_START_CONTAINER "web"
  /\ command_reaches_worker (stop_container (env_at 3) (Some "w1_web"%string) c) c
       5 3 MSG_STOP_CONTAINER "web"
  /\ command_reaches_worker (delete_container (env_at 3) (Some "w1_web"%string) c) c
       5 3 MSG_DELETE_CONTAINER "web".
Proof.
  assert (exists k node,
            deployed_containers (coord w1_with_web) !! 0%nat = Some k
            /\ nodes (coord w1_with_web) !! 0%nat = Some node
            /\ c_name k = "web"%string /\ c_node_id k = "w1"%string
            /\ n_socket_fd node = 5) as (k & node & Hk & Hnode & Hname & Hid & Hfd).
  { vm_compute. eexists _, _. repeat split. }
  intros c.
  pose proof (commands_name_the_container (env_at 3) "w1_web" c 0%nat k 0%nat
                node 3) as H.
  rewrite Hname, Hid, Hfd in H.
  apply H; try assumption; try (vm_compute; reflexivity); lia.
Defined.

Lemma worker_send_sent bytes_sent msg w :
  sent (worker_send bytes_sent msg w)
  = sent w ++ (if (0 <=? coordinator_socket w)
                  && (bytes_sent =? sizeof_message_t)
               then [message_bytes msg]
               else if 0 <=? coordinator_socket w
               then option_list (short_write bytes_sent msg) else []).
Proof.
  unfold worker_send, send_message.
  destruct (Z.ltb_spec (coordinator_socket w) 0),
    (Z.leb_spec 0 (coordinator_socket w)); try lia;
    [by rewrite app_nil_r|].
  destruct (bytes_sent =? sizeof_message_t); [reflexivity|]. cbn [andb snd].
  destruct (short_write bytes_sent msg); [reflexivity|].
  by rewrite app_nil_r.
Qed.

Lemma worker_send_local bytes_sent msg w :
  local_containers (worker_send bytes_sent msg w) = local_containers w
  /\ w_node_id (worker_send bytes_sent msg w) = w_node_id w
  /\ coordinator_socket (worker_send bytes_sent msg w) = coordinator_socket w.
Proof. unfold worker_send. by destruct (snd _). Qed.

(** X15. A deployment, end to end.  The coordinator deploys a configuration
    on a CONNECTED worker with an open socket; the worker, registered under
    its own [node_id], reads the frame, finds the whole [lxc_config_t] in it
    and creates the container.  Then both sides hold a record with the same
    id [<node id>_<name>] and the same name, the worker's with the
    configuration as sent; the coordinator's ledger says STARTING while the
    worker's table says STOPPED (deploying starts nothing), and the worker
    answers with one ACK frame. *)
Theorem deployment_end_to_end env wenv id config c i node w :
  find_node_by_id (Some id) (nodes c) = Some i ->
  nodes c !! i = Some node ->
  n_state node = NODE_CONNECTED ->
  0 <= n_socket_fd node -> net_ok env = true ->
  deployed_container_count c < MAX_CONTAINERS ->
  length (config_object config) = Z.to_nat sizeof_lxc_config_t ->
  w_node_id w = id -> 0 <= coordinator_socket w ->
  lxc_result wenv = 0 -> 0 < strlen (config_name config) ->
  Z.of_nat (length (local_containers w)) < MAX_CONTAINERS ->
  exists c' frame msg w' kc kw,
    deploy_container env (Some id) (Some config) c = (0, c')
    /\ wire c' = wire c ++ [(n_socket_fd node, frame)]
    /\ receive_message (coordinator_socket w) frame = Some msg
    /\ worker_dispatch wenv msg w = Some w'
    /\ deployed_containers c' = deployed_containers c ++ [kc]
    /\ local_containers w' = local_containers w ++ [kw]
    /\ c_id kw = c_id kc /\ c_name kw = c_name kc /\ c_config kw = config
    /\ c_state kc = CONTAINER_STARTING
    /\ c_state kw = CONTAINER_STOPPED
    /\ (reply_net_ok wenv = true ->
        frame_type <$> sent w' = (frame_type <$> sent w) ++ [Some MSG_ACK]).
Proof.
  intros Hi Hnode Hstate Hfd Hnet Hroom Hlen Hid Hws Hlxc Hname Hlocal.
  set (msg := create_message MSG_DEPLOY_CONTAINER (Some "coordinator"%string)
                (Some id) (Some (config_object config)) sizeof_lxc_config_t).
  assert (sizeof_lxc_config_t = 1576) as Hsize by reflexivity.
  assert (sizeof_data = 7672) as Hdsize by reflexivity.
  destruct (create_message_wire MSG_DEPLOY_CONTAINER (Some "coordinator"%string)
              (Some id) (config_object config) sizeof_lxc_config_t
              (coordinator_socket w)) as [Hrx _]; [lia..|]. fold msg in Hrx.
  destruct (create_message_fields MSG_DEPLOY_CONTAINER
              (Some "coordinator"%string) (Some id) (config_object config)
              sizeof_lxc_config_t) as (Hty & _ & _ & Hl & Hdata); [lia|].
  fold msg in Hty, Hl, Hdata.
  replace (Z.max 0 (Z.min sizeof_lxc_config_t sizeof_data))
    with sizeof_lxc_config_t in Hl by lia.
  assert (config_of msg = config) as Hconfig.
  { unfold config_of. rewrite Hdata, Hl. unfold memcpy.
    rewrite (take_ge (config_object config)) by lia.
    rewrite <- Hlen, take_app_length. by destruct config. }
  assert (worker_dispatch wenv msg w
          = Some (reply wenv "deployed" "deployment failed"
                    (handle_deploy_container wenv (Some config) w))) as Hdispatch.
  { unfold worker_dispatch. rewrite Hty. cbn [message_type_of_code message_type_code].
    rewrite Hl, Hconfig. reflexivity. }
  assert (handle_deploy_container wenv (Some config) w
          = (0, mk_worker (w_node_id w) (coordinator_socket w)
                  (local_containers w
                   ++ [local_container
                         (default zero_container (head (local_behind w)))
                         (w_node_id w) config (w_now wenv)])
                  (tail (local_behind w)) (sent w))) as Hhandle.
  { unfold handle_deploy_container, lxc_create_container. rewrite Hlxc.
    destruct (Z.eqb_spec (strlen (config_name config)) 0); [lia|].
    cbn [negb Z.eqb].
    by destruct (Z.ltb_spec (Z.of_nat (length (local_containers w)))
                   MAX_CONTAINERS); [|lia]. }
  unfold deploy_container, deploy_container_send. rewrite Hi, Hnode.
  cbn [default from_option Datatypes.id]. rewrite Hstate.
  cbn [node_state_eqb negb]. unfold net_ok in Hnet.
  unfold send_message. rewrite Hnet.
  destruct (Z.ltb_spec (n_socket_fd node) 0); [lia|]. cbn [negb Z.eqb].
  unfold deployed_container_count in *.
  cbn [deployed_containers put_on_wire].
  destruct (Z.ltb_spec (Z.of_nat (length (deployed_containers c)))
              MAX_CONTAINERS); [|lia].
  eexists _, (message_bytes msg), msg, _, _, _.
  split; [reflexivity|]. split; [reflexivity|]. split; [exact Hrx|].
  split; [exact Hdispatch|]. split; [reflexivity|].
  rewrite Hhandle. unfold reply. cbn [fst snd Z.eqb].
  split; [by rewrite (proj1 (worker_send_local _ _ _))|].
  cbn [c_id c_name c_config c_state local_container fresh_container].
  rewrite Hid. do 5 (split; [reflexivity|]).
  intros Hreply. unfold reply_net_ok in Hreply.
  rewrite worker_send_sent, Hreply.
  cbn [coordinator_socket w_node_id sent].
  destruct (Z.leb_spec 0 (coordinator_socket w)); [|lia]. cbn [andb].
  rewrite fmap_app. f_equal.
Qed.

Lemma deployment_end_to_end_witness :
  let c := coord w1_ready in
  let w := worker_w1 in
  let wenv := all_goes_well 2 in
  let config := config_named "web" in
  exists c' frame msg w' kc kw,
    deploy_container (env_at 2) (Some "w1"%string) (Some config) c = (0, c')
    /\ wire c' = wire c ++ [(5, frame)]
    /\ receive_message (coordinator_socket w) frame = Some msg
    /\ worker_dispatch wenv msg w = Some w'
    /\ deployed_containers c' = deployed_containers c ++ [kc]
    /\ local_containers w' = local_containers w ++ [kw]
    /\ c_id kw = c_id kc /\ c_name kw = c_name kc /\ c_config kw = config
    /\ c_state kc = CONTAINER_STARTING
    /\ c_state kw = CONTAINER_STOPPED
    /\ (reply_net_ok wenv = true ->
        frame_type <$> sent w' = (frame_type <$> sent w) ++ [Some MSG_ACK]).
Proof.
  assert (exists node,
            nodes (coord w1_ready) !! 0%nat = Some node
            /\ n_state node = NODE_CONNECTED /\ n_socket_fd node = 5)
    as (node & Hnode & Hstate & Hfd) by (vm_compute; eexists; repeat split).
  intros c w wenv config.
  pose proof (deployment_end_to_end (env_at 2) wenv "w1" config c 0%nat node w)
    as H.
  rewrite Hfd in H.
  apply H; try assumption; vm_compute; first [reflexivity | discriminate].
Defined.

(** ** The worker's loop *)

Lemma frame_type_create_message type sender recipient d data_len :
  data_len < 2 ^ 31 ->
  frame_type (message_bytes (create_message type sender recipient (Some d) data_len))
  = Some type.
Proof.
  intros Hint.
  destruct (create_message_fields type sender recipient d data_len Hint)
    as (Hty & Hs & Hr & Hl & _).
  assert (sizeof_data = 7672) as Hsize by reflexivity.
  assert (0 <= message_type_code type < 10) as Hcode
    by (destruct type; simpl; lia).
  unfold frame_type. rewrite message_of_bytes_message_bytes; try assumption.
  - rewrite Hty. by destruct type.
  - rewrite Hty. lia.
  - rewrite Hl. lia.
Qed.

Lemma handle_start_container_sent env name w :
  0 <= coordinator_socket w -> status_net_ok env = true ->
  exists new,
    sent (snd (handle_start_container env name w)) = sent w ++ new
    /\ frame_type <$> new
       = (if fst (handle_start_container env name w) =? 0
          then [Some MSG_CONTAINER_STATUS] else [])
    /\ coordinator_socket (snd (handle_start_container env name w))
       = coordinator_socket w.
Proof.
  intros Hws Hok. unfold handle_start_container.
  destruct name as [name|]; [|exists []; by rewrite app_nil_r].
  destruct (find_index _ _) as [i|]; [|exists []; by rewrite app_nil_r].
  destruct (lxc_result env =? 0); cbn [fst snd Z.eqb];
    [|exists []; by rewrite app_nil_r].
  unfold status_net_ok in Hok. rewrite worker_send_sent, Hok.
  cbn [coordinator_socket set_local_containers sent].
  destruct (Z.leb_spec 0 (coordinator_socket w)); [|lia]. cbn [andb].
  eexists. split; [reflexivity|].
  split; [|by rewrite (proj2 (proj2 (worker_send_local _ _ _)))].
  cbn [fmap list_fmap]. f_equal; by apply frame_type_create_message.
Qed.

Lemma handle_stop_container_sent env name w :
  0 <= coordinator_socket w -> status_net_ok env = true ->
  exists new,
    sent (snd (handle_stop_container env name w)) = sent w ++ new
    /\ frame_type <$> new
       = (if fst (handle_stop_container env name w) =? 0
          then [Some MSG_CONTAINER_STATUS] else [])
    /\ coordinator_socket (snd (handle_stop_container env name w))
       = coordinator_socket w.
Proof.
  intros Hws Hok. unfold handle_stop_container.
  destruct name as [name|]; [|exists []; by rewrite app_nil_r].
  destruct (find_index _ _) as [i|]; [|exists []; by rewrite app_nil_r].
  destruct (lxc_result env =? 0); cbn [fst snd Z.eqb];
    [|exists []; by rewrite app_nil_r].
  unfold status_net_ok in Hok. rewrite worker_send_sent, Hok.
  cbn [coordinator_socket set_local_containers sent].
  destruct (Z.leb_spec 0 (coordinator_socket w)); [|lia]. cbn [andb].
  eexists. split; [reflexivity|].
  split; [|by rewrite (proj2 (proj2 (worker_send_local _ _ _)))].
  cbn [fmap list_fmap]. f_equal; by apply frame_type_create_message.
Qed.

Lemma handle_deploy_container_sent env config w :
  sent (snd (handle_deploy_container env config w)) = sent w
  /\ coordinator_socket (snd (handle_deploy_container env config w))
     = coordinator_socket w.
Proof.
  unfold handle_deploy_container. destruct config; [|done].
  destruct (negb _); [done|]. by destruct (_ <? _).
Qed.

Lemma handle_delete_container_sent env name w :
  sent (snd (handle_delete_container env name w)) = sent w
  /\ coordinator_socket (snd (handle_delete_container env name w))
     = coordinator_socket w.
Proof.
  unfold handle_delete_container. destruct name; [|done].
  destruct (find_index _ _); [|done]. by destruct (_ =? _).
Qed.

Lemma reply_sent env done failed r :
  strlen done < 2 ^ 31 -> strlen failed < 2 ^ 31 ->
  0 <= coordinator_socket (snd r) -> reply_net_ok env = true ->
  exists frame,
    sent (reply env done failed r) = sent (snd r) ++ [frame]
    /\ frame_type frame = Some (if fst r =? 0 then MSG_ACK else MSG_ERROR).
Proof.
  intros Hdone Hfailed Hws Hok. unfold reply, reply_net_ok in *.
  rewrite worker_send_sent, Hok.
  destruct (Z.leb_spec 0 (coordinator_socket (snd r))); [|lia]. cbn [andb].
  eexists. split; [reflexivity|].
  destruct (fst r =? 0); by apply frame_type_create_message.
Qed.

(** X16. How the worker answers, its socket open and its sends going
    through.  Every DEPLOY frame that carries a whole [lxc_config_t] and
    every START, STOP and DELETE frame is answered with exactly one ACK (the
    handler returned 0) or one ERROR frame; the ACK of a START or STOP is
    preceded by one CONTAINER_STATUS frame.  A DEPLOY frame with a shorter
    payload gets no answer at all, and a frame of any other type is ignored
    without an answer. *)
Theorem worker_answers env msg w w' :
  worker_dispatch env msg w = Some w' ->
  0 <= coordinator_socket w ->
  status_net_ok env = true -> reply_net_ok env = true ->
  exists new,
    sent w' = sent w ++ new
    /\ frame_type <$> new
       = match message_type_of_code (msg_type msg) with
         | Some MSG_DEPLOY_CONTAINER =>
             if to_size_t (msg_data_length msg) >=? sizeof_lxc_config_t
             then answer false
                    (fst (handle_deploy_container env (Some (config_of msg)) w))
             else []
         | Some MSG_START_CONTAINER =>
             answer true
               (fst (handle_start_container env (container_name_of msg) w))
         | Some MSG_STOP_CONTAINER =>
             answer true
               (fst (handle_stop_container env (container_name_of msg) w))
         | Some MSG_DELETE_CONTAINER =>
             answer false
               (fst (handle_delete_container env (container_name_of msg) w))
         | _ => []
         end.
Proof.
  intros Hdispatch Hws Hstatus Hreply. unfold worker_dispatch in Hdispatch.
  destruct (message_type_of_code (msg_type msg)) as [[]|];
    try (injection Hdispatch as <-; exists []; by rewrite app_nil_r).
  - destruct (to_size_t _ >=? _);
      [|injection Hdispatch as <-; exists []; by rewrite app_nil_r].
    apply (inj Some) in Hdispatch. subst w'.
    destruct (handle_deploy_container_sent env (Some (config_of msg)) w)
      as [Hsent Hsock].
    destruct (reply_sent env "deployed" "deployment failed"
                (handle_deploy_container env (Some (config_of msg)) w))
      as (frame & Hs & Hty); [reflexivity|reflexivity|by rewrite Hsock|done|].
    exists [frame]. rewrite Hs, Hsent. split; [done|].
    cbn [fmap list_fmap]. rewrite Hty. unfold answer. by destruct (_ =? 0).
  - destruct (container_name_of msg) as [name|]; [|discriminate].
    apply (inj Some) in Hdispatch. subst w'.
    destruct (handle_start_container_sent env (Some name) w Hws Hstatus)
      as (new & Hsent & Hnew & Hsock).
    destruct (reply_sent env "started" "start failed"
                (handle_start_container env (Some name) w))
      as (frame & Hs & Hty); [reflexivity|reflexivity|by rewrite Hsock|done|].
    exists (new ++ [frame]). rewrite Hs, Hsent, app_assoc. split; [done|].
    rewrite fmap_app, Hnew. cbn [fmap list_fmap]. rewrite Hty. unfold answer.
    by destruct (_ =? 0).
  - destruct (container_name_of msg) as [name|]; [|discriminate].
    apply (inj Some) in Hdispatch. subst w'.
    destruct (handle_stop_container_sent env (Some name) w Hws Hstatus)
      as (new & Hsent & Hnew & Hsock).
    destruct (reply_sent env "stopped" "stop failed"
                (handle_stop_container env (Some name) w))
      as (frame & Hs & Hty); [reflexivity|reflexivity|by rewrite Hsock|done|].
    exists (new ++ [frame]). rewrite Hs, Hsent, app_assoc. split; [done|].
    rewrite fmap_app, Hnew. cbn [fmap list_fmap]. rewrite Hty. unfold answer.
    by destruct (_ =? 0).
  - destruct (container_name_of msg) as [name|]; [|discriminate].
    apply (inj Some) in Hdispatch. subst w'.
    destruct (handle_delete_container_sent env (Some name) w) as [Hsent Hsock].
    destruct (reply_sent env "deleted" "delete failed"
                (handle_delete_container env (Some name) w))
      as (frame & Hs & Hty); [reflexivity|reflexivity|by rewrite Hsock|done|].
    exists [frame]. rewrite Hs, Hsent. split; [done|].
    cbn [fmap list_fmap]. rewrite Hty. unfold answer. by destruct (_ =? 0).
Qed.

Lemma worker_answers_witness :
  exists w' new,
    worker_dispatch (all_goes_well 3) start_web_frame worker_w1_with_web = Some w'
    /\ sent w' = sent worker_w1_with_web ++ new
    /\ frame_type <$> new = [Some MSG_CONTAINER_STATUS; Some MSG_ACK]
    /\ c_state <$> local_containers w' = [CONTAINER_RUNNING].
Proof.
  assert (exists w',
            worker_dispatch (all_goes_well 3) start_web_frame worker_w1_with_web
            = Some w'
            /\ c_state <$> local_containers w' = [CONTAINER_RUNNING])
    as (w' & H & Hstate) by (vm_compute; eexists; split; reflexivity).
  destruct (worker_answers (all_goes_well 3) start_web_frame worker_w1_with_web
              w' H) as (new & Hs & Hn);
    [vm_compute; discriminate | reflexivity | reflexivity |].
  exists w', new. split; [assumption|]. split; [assumption|].
  split; [|assumption]. rewrite Hn. by vm_compute.
Defined.

Lemma at_rest_state id s k :
  s = CONTAINER_STOPPED \/ s = CONTAINER_RUNNING \/ s = CONTAINER_ERROR ->
  at_rest id k -> at_rest id (set_c_state s k).
Proof. intros Hs (_ & H). by split. Qed.

Lemma handle_deploy_container_at_rest env config w :
  Forall (at_rest (w_node_id w)) (local_containers w) ->
  Z.of_nat (length (local_containers w)) <= MAX_CONTAINERS ->
  let w' := snd (handle_deploy_container env config w) in
  Forall (at_rest (w_node_id w)) (local_containers w')
  /\ Z.of_nat (length (local_containers w')) <= MAX_CONTAINERS
  /\ w_node_id w' = w_node_id w /\ coordinator_socket w' = coordinator_socket w.
Proof.
  intros Hall Hlen. unfold handle_deploy_container.
  destruct config as [config|]; [|done].
  unfold lxc_create_container.
  destruct (Z.eqb_spec (strlen (config_name config)) 0) as [|Hname]; [done|].
  destruct (negb _); [done|].
  destruct (Z.ltb_spec (Z.of_nat (length (local_containers w))) MAX_CONTAINERS);
    [|done].
  cbn [snd local_containers w_node_id coordinator_socket].
  split; [|split; [rewrite length_app; simpl; lia | done]].
  apply Forall_app. split; [assumption|]. apply Forall_singleton.
  unfold at_rest, local_container. cbn [c_state c_node_id c_name c_config c_id].
  split; [by left|]. do 3 (split; [reflexivity|]).
  unfold strlen in *. lia.
Qed.

Lemma alter_twice_at_rest id (f g : container_t -> container_t) i l :
  (forall k, at_rest id k -> at_rest id (f (g k))) ->
  Forall (at_rest id) l -> Forall (at_rest id) (alter f i (alter g i l)).
Proof.
  intros Hfg Hall. revert i.
  induction Hall as [|k l Hk Hl IH]; intros [|i]; [constructor..| |].
  - change (alter f 0%nat (alter g 0%nat (k :: l))) with (f (g k) :: l).
    constructor; [by apply Hfg | assumption].
  - change (alter f (S i) (alter g (S i) (k :: l)))
      with (k :: alter f i (alter g i l)).
    constructor; [assumption | apply IH].
Qed.

Lemma handle_start_container_at_rest env name w :
  Forall (at_rest (w_node_id w)) (local_containers w) ->
  let w' := snd (handle_start_container env name w) in
  Forall (at_rest (w_node_id w)) (local_containers w')
  /\ length (local_containers w') = length (local_containers w)
  /\ w_node_id w' = w_node_id w /\ coordinator_socket w' = coordinator_socket w.
Proof.
  intros Hall. unfold handle_start_container. destruct name as [name|]; [|done].
  destruct (find_index _ _) as [i|]; [|done].
  destruct (lxc_result env =? 0); cbn [snd].
  - rewrite !(proj1 (worker_send_local _ _ _)),
      !(proj1 (proj2 (worker_send_local _ _ _))),
      !(proj2 (proj2 (worker_send_local _ _ _))).
    cbn [local_containers set_local_containers w_node_id coordinator_socket].
    rewrite !length_alter. split; [|done].
    apply alter_twice_at_rest; [|assumption].
    intros k (_ & H). split; [right; by left | exact H].
  - cbn [local_containers set_local_containers w_node_id coordinator_socket].
    rewrite !length_alter. split; [|done].
    apply alter_twice_at_rest; [|assumption].
    intros k (_ & H). split; [right; by right | exact H].
Qed.

Lemma handle_stop_container_at_rest env name w :
  Forall (at_rest (w_node_id w)) (local_containers w) ->
  let w' := snd (handle_stop_container env name w) in
  Forall (at_rest (w_node_id w)) (local_containers w')
  /\ length (local_containers w') = length (local_containers w)
  /\ w_node_id w' = w_node_id w /\ coordinator_socket w' = coordinator_socket w.
Proof.
  intros Hall. unfold handle_stop_container. destruct name as [name|]; [|done].
  destruct (find_index _ _) as [i|]; [|done].
  destruct (lxc_result env =? 0); cbn [snd].
  - rewrite !(proj1 (worker_send_local _ _ _)),
      !(proj1 (proj2 (worker_send_local _ _ _))),
      !(proj2 (proj2 (worker_send_local _ _ _))).
    cbn [local_containers set_local_containers w_node_id coordinator_socket].
    rewrite !length_alter. split; [|done].
    apply alter_twice_at_rest; [|assumption].
    intros k (_ & H). split; [by left | exact H].
  - cbn [local_containers set_local_containers w_node_id coordinator_socket].
    rewrite !length_alter. split; [|done].
    apply alter_twice_at_rest; [|assumption].
    intros k (_ & H). split; [right; by right | exact H].
Qed.

Lemma handle_delete_container_at_rest env name w :
  Forall (at_rest (w_node_id w)) (local_containers w) ->
  let w' := snd (handle_delete_container env name w) in
  Forall (at_rest (w_node_id w)) (local_containers w')
  /\ (length (local_containers w') <= length (local_containers w))%nat
  /\ w_node_id w' = w_node_id w /\ coordinator_socket w' = coordinator_socket w.
Proof.
  intros Hall. unfold handle_delete_container. destruct name as [name|]; [|done].
  destruct (find_index _ _) as [i|] eqn:Hi; [|done].
  assert (Forall (at_rest (w_node_id w)) (delete i (local_containers w))
          /\ (length (delete i (local_containers w))
              <= length (local_containers w))%nat) as [Hdel Hlen].
  { split; [by apply Forall_delete|].
    destruct (find_index_Some _ _ _ Hi) as (k & Hk & _).
    rewrite length_delete by (by eexists). lia. }
  by destruct (lxc_result env =? 0).
Qed.

Lemma reply_local env done failed r :
  local_containers (reply env done failed r) = local_containers (snd r)
  /\ w_node_id (reply env done failed r) = w_node_id (snd r)
  /\ coordinator_socket (reply env done failed r) = coordinator_socket (snd r).
Proof. unfold reply. apply worker_send_local. Qed.

(** What an iteration of the worker's loop preserves. *)
Lemma worker_dispatch_at_rest env msg w w' :
  worker_dispatch env msg w = Some w' ->
  Forall (at_rest (w_node_id w)) (local_containers w) ->
  Z.of_nat (length (local_containers w)) <= MAX_CONTAINERS ->
  Forall (at_rest (w_node_id w)) (local_containers w')
  /\ Z.of_nat (length (local_containers w')) <= MAX_CONTAINERS
  /\ w_node_id w' = w_node_id w /\ coordinator_socket w' = coordinator_socket w.
Proof.
  intros Hdispatch Hall Hlen. unfold worker_dispatch in Hdispatch.
  destruct (message_type_of_code (msg_type msg)) as [[]|];
    try (by apply (inj Some) in Hdispatch; subst w').
  - destruct (to_size_t _ >=? _);
      apply (inj Some) in Hdispatch; subst w'; [|done].
    destruct (reply_local env "deployed" "deployment failed"
                (handle_deploy_container env (Some (config_of msg)) w))
      as (-> & -> & ->).
    by apply handle_deploy_container_at_rest.
  - destruct (container_name_of msg) as [name|]; [|discriminate].
    apply (inj Some) in Hdispatch. subst w'.
    destruct (reply_local env "started" "start failed"
                (handle_start_container env (Some name) w)) as (-> & -> & ->).
    destruct (handle_start_container_at_rest env (Some name) w Hall)
      as (H1 & H2 & H3 & H4).
    repeat split_and; try assumption. lia.
  - destruct (container_name_of msg) as [name|]; [|discriminate].
    apply (inj Some) in Hdispatch. subst w'.
    destruct (reply_local env "stopped" "stop failed"
                (handle_stop_container env (Some name) w)) as (-> & -> & ->).
    destruct (handle_stop_container_at_rest env (Some name) w Hall)
      as (H1 & H2 & H3 & H4).
    repeat split_and; try assumption. lia.
  - destruct (container_name_of msg) as [name|]; [|discriminate].
    apply (inj Some) in Hdispatch. subst w'.
    destruct (reply_local env "deleted" "delete failed"
                (handle_delete_container env (Some name) w)) as (-> & -> & ->).
    destruct (handle_delete_container_at_rest env (Some name) w Hall)
      as (H1 & H2 & H3 & H4).
    repeat split_and; try assumption. lia.
Qed.

Lemma message_handler_thread_at_rest rxs w w' :
  message_handler_thread rxs w = Some w' ->
  Forall (at_rest (w_node_id w)) (local_containers w) ->
  Z.of_nat (length (local_containers w)) <= MAX_CONTAINERS ->
  Forall (at_rest (w_node_id w)) (local_containers w')
  /\ Z.of_nat (length (local_containers w')) <= MAX_CONTAINERS
  /\ w_node_id w' = w_node_id w /\ coordinator_socket w' = coordinator_socket w.
Proof.
  revert w. induction rxs as [|[env rx] rxs IH]; intros w Hrun Hall Hlen;
    cbn [message_handler_thread] in Hrun.
  - by apply (inj Some) in Hrun; subst w'.
  - destruct (coordinator_socket w <? 0);
      [by apply (inj Some) in Hrun; subst w'|].
    destruct (receive_message _ rx) as [msg|];
      [|by apply (inj Some) in Hrun; subst w'].
    destruct (worker_dispatch env msg w) as [w1|] eqn:Hd; [|discriminate].
    cbn [mbind option_bind] in Hrun.
    destruct (worker_dispatch_at_rest env msg w w1 Hd Hall Hlen)
      as (H1 & H2 & H3 & H4).
    rewrite <- H3 in H1 |- *. rewrite <- H4.
    by apply IH.
Qed.

(** X17. The worker's table, whenever its loop is between two frames (the
    worker started with an empty table): every record is STOPPED, RUNNING or
    ERROR, never STARTING or STOPPING; it belongs to this worker, carries
    the non-empty name of its configuration and the id
    [<node id>_<name>]; and the table holds at most [MAX_CONTAINERS]
    records. *)
Theorem worker_table_at_rest rxs node_id socket w' :
  message_handler_thread rxs (mk_worker node_id socket [] [] []) = Some w' ->
  Forall (at_rest node_id) (local_containers w')
  /\ Z.of_nat (length (local_containers w')) <= MAX_CONTAINERS
  /\ w_node_id w' = node_id /\ coordinator_socket w' = socket.
Proof.
  intros Hrun.
  apply (message_handler_thread_at_rest rxs _ _ Hrun); [constructor|].
  simpl. unfold MAX_CONTAINERS. lia.
Qed.

Lemma worker_table_at_rest_witness :
  exists w',
    message_handler_thread deploy_then_start_web (mk_worker "w1" 3 [] [] [])
    = Some w'
    /\ c_state <$> local_containers w' = [CONTAINER_RUNNING]
    /\ Forall (at_rest "w1") (local_containers w')
    /\ Z.of_nat (length (local_containers w')) <= MAX_CONTAINERS
    /\ w_node_id w' = "w1"%string /\ coordinator_socket w' = 3.
Proof.
  assert (exists w',
            message_handler_thread deploy_then_start_web
              (mk_worker "w1" 3 [] [] []) = Some w'
            /\ c_state <$> local_containers w' = [CONTAINER_RUNNING])
    as (w' & H & Hstate) by (vm_compute; eexists; split; reflexivity).
  exists w'. split; [assumption|]. split; [assumption|].
  exact (worker_table_at_rest deploy_then_start_web "w1" 3 w' H).
Defined.

(** X18. The ledger never shows what the worker knows.  A record of the
    coordinator's ledger is STARTING or STOPPING, a record of a worker's
    table between two frames is STOPPED, RUNNING or ERROR: whatever has
    happened on either side, no ledger record has the state of any record
    of any worker. *)
Theorem ledger_never_agrees_with_worker events rxs node_id socket w' kc kw :
  message_handler_thread rxs (mk_worker node_id socket [] [] []) = Some w' ->
  kc ∈ deployed_containers (coord (run events)) ->
  kw ∈ local_containers w' ->
  c_state kc <> c_state kw.
Proof.
  intros Hrun Hkc Hkw.
  assert (c_state kc = CONTAINER_STARTING \/ c_state kc = CONTAINER_STOPPING)
    as Hc.
  { assert (Forall (fun k => c_state k = CONTAINER_STARTING
                             \/ c_state k = CONTAINER_STOPPING)
              (deployed_containers (coord (run events)))) as H
      by (apply run_ledger_Forall; simpl; auto).
    rewrite Forall_forall in H. by apply H. }
  destruct (message_handler_thread_at_rest rxs _ _ Hrun) as (Hw & _);
    [constructor|simpl; unfold MAX_CONTAINERS; lia|].
  rewrite Forall_forall in Hw. destruct (Hw kw Hkw) as (Hs & _).
  unfold CONTAINER_STARTING, CONTAINER_STOPPING, CONTAINER_STOPPED,
    CONTAINER_RUNNING, CONTAINER_ERROR in *.
  lia.
Qed.

Lemma ledger_never_agrees_with_worker_witness :
  let events :=
    [Accept 5; Frame 5 (env_at 0) (register_frame "w1" "host1 10.0.0.1 9000");
     Frame 5 (env_at 1) (heartbeat_frame "w1" resources_10_10_10_0_50);
     Deploy (env_at 2) (config_named "web");
     Start (env_at 3) "w1_web"] in
  exists w' kc kw,
    message_handler_thread deploy_then_start_web (mk_worker "w1" 3 [] [] [])
    = Some w'
    /\ kc ∈ deployed_containers (coord (run events))
    /\ kw ∈ local_containers w'
    /\ c_id kc = c_id kw
    /\ c_state kc <> c_state kw.
Proof.
  intros events.
  assert (exists w' kc kw,
            message_handler_thread deploy_then_start_web
              (mk_worker "w1" 3 [] [] []) = Some w'
            /\ deployed_containers (coord (run events)) = [kc]
            /\ local_containers w' = [kw]
            /\ c_id kc = c_id kw)
    as (w' & kc & kw & Hrun & Hc & Hw & Hid)
    by (vm_compute; eexists _, _, _; repeat split).
  assert (kc ∈ deployed_containers (coord (run events))) as Hkc
    by (rewrite Hc; by apply list_elem_of_singleton).
  assert (kw ∈ local_containers w') as Hkw
    by (rewrite Hw; by apply list_elem_of_singleton).
  exists w', kc, kw. do 4 (split; [assumption|]).
  exact (ledger_never_agrees_with_worker events deploy_then_start_web "w1" 3
           w' kc kw Hrun Hkc Hkw).
Defined.

(** ** Lines of a configuration file *)

Lemma is_blank_not_colon b : is_blank b = true -> Byte.eqb b ":"%byte = false.
Proof.
  unfold is_blank. intros H. apply orb_true_iff in H as [H|H];
    apply Byte.byte_dec_bl in H; by subst.
Qed.

Lemma count_indent_blank line :
  Forall (fun b => is_blank b = true) (take (count_indent line) line).
Proof.
  induction line as [|x line IH]; [constructor|]. simpl.
  destruct (is_blank x) eqn:Hx; [|constructor]. simpl. by constructor.
Qed.

Lemma find_index_colon_drop line :
  find_index (fun b => Byte.eqb b ":"%byte) (drop (count_indent line) line) = None
  <-> ":"%byte ∉ line.
Proof.
  induction line as [|x line IH]; [split; [intros _; apply not_elem_of_nil|done]|].
  cbn [count_indent]. destruct (is_blank x) eqn:Hx.
  - cbn [drop]. rewrite IH, not_elem_of_cons. split; [|tauto].
    intros H. split; [|assumption]. intros <-.
    apply is_blank_not_colon in Hx. discriminate.
  - cbn [drop find_index]. destruct (Byte.eqb x ":"%byte) eqn:Hc.
    + apply Byte.byte_dec_bl in Hc. subst x. split; [discriminate|].
      intros H. exfalso. apply H. apply elem_of_cons. by left.
    + rewrite not_elem_of_cons. split.
      * intros H. split.
        -- intros <-. by rewrite (Byte.byte_dec_lb eq_refl) in Hc.
        -- intros Hin. destruct (find_index _ line) eqn:Hf; [discriminate|].
           pose proof (find_index_None _ _ Hf _ Hin) as Hn. simpl in Hn.
           discriminate.
      * intros [_ Hnot]. destruct (find_index _ line) as [i|] eqn:Hf; [|done].
        exfalso. apply Hnot.
        destruct (find_index_Some _ _ _ Hf) as (y & Hy & Hp & _).
        apply Byte.byte_dec_bl in Hp. subst y.
        apply list_elem_of_lookup. by exists i.
Qed.

(** X19. The lines that [parse_yaml_line] skips (returns 0 for) are exactly
    the empty line, the lines whose first byte is '#', and the lines
    without a colon.  So a comment that is indented and holds a colon is not
    skipped but read as a key and a value. *)
Theorem parse_yaml_line_skips line :
  parse_yaml_line line = yaml_skip
  <-> line = [] \/ head line = Some "#"%byte \/ ":"%byte ∉ line.
Proof.
  unfold parse_yaml_line. destruct line as [|first rest].
  - split; [by left | done].
  - destruct (Byte.eqb first "#"%byte) eqn:Hhash.
    + apply Byte.byte_dec_bl in Hhash. subst first. split; [|done].
      intros _. right. by left.
    + pose proof (find_index_colon_drop (first :: rest)) as Hcolon.
      destruct (find_index _ (drop _ (first :: rest))) as [key_len|].
      * split.
        -- by destruct (_ <=? _)%nat.
        -- intros [H|[H|H]]; [discriminate| |].
           ++ injection H as ->. by rewrite (Byte.byte_dec_lb eq_refl) in Hhash.
           ++ by apply Hcolon in H.
      * split; [|done]. intros _. right. right. by apply Hcolon.
Qed.

Lemma count_indent_replicate n rest :
  (forall b, head rest = Some b -> is_blank b = false) ->
  count_indent (replicate n " "%byte ++ rest) = n.
Proof.
  intros Hrest. induction n as [|n IH]; simpl; [|by rewrite IH].
  destruct rest as [|x rest]; [reflexivity|]. simpl.
  by rewrite (Hrest x eq_refl).
Qed.

Lemma find_index_app_first {A} (p : A -> bool) (l : list A) (x : A) rest :
  Forall (fun y => p y = false) l -> p x = true ->
  find_index p (l ++ x :: rest) = Some (length l).
Proof.
  intros Hl Hx. induction Hl as [|y l Hy _ IH]; simpl; [by rewrite Hx|].
  by rewrite Hy, IH.
Qed.

Lemma remove_trailing_space_id key :
  (forall b, last key = Some b -> isspace b = false) ->
  remove_trailing_space key = key.
Proof.
  induction key as [|x key IH]; [reflexivity|]. intros Hlast.
  destruct key as [|y key].
  - simpl. by rewrite (Hlast x eq_refl).
  - change (remove_trailing_space (x :: y :: key))
      with (match remove_trailing_space (y :: key) with
            | [] => if isspace x then [] else [x]
            | rest' => x :: rest'
            end).
    rewrite IH; [reflexivity|]. intros b Hb. apply Hlast. exact Hb.
Qed.

Lemma skip_blank_app gap rest :
  Forall (fun b => is_blank b = true) gap ->
  (forall b, head rest = Some b -> is_blank b = false) ->
  skip_blank (gap ++ rest) = rest.
Proof.
  intros Hgap Hrest. induction Hgap as [|x gap Hx _ IH]; simpl.
  - destruct rest as [|y rest]; [reflexivity|]. simpl.
    by rewrite (Hrest y eq_refl).
  - by rewrite Hx.
Qed.

Lemma remove_newline_snoc value : remove_newline (value ++ [x0a]) = value.
Proof.
  induction value as [|x value IH]; [reflexivity|].
  change ((x :: value) ++ [x0a]) with (x :: (value ++ [x0a])).
  destruct (value ++ [x0a]) as [|y rest] eqn:E; [by destruct value|].
  change (remove_newline (x :: y :: rest)) with (x :: remove_newline (y :: rest)).
  by rewrite IH.
Qed.

Lemma remove_newline_id value :
  (forall b, last value = Some b -> b <> x0a) -> remove_newline value = value.
Proof.
  induction value as [|x value IH]; [reflexivity|]. intros Hlast.
  destruct value as [|y value].
  - simpl. destruct (Byte.eqb x x0a) eqn:Hx; [|reflexivity].
    apply Byte.byte_dec_bl in Hx. by destruct (Hlast x eq_refl).
  - change (remove_newline (x :: y :: value))
      with (x :: remove_newline (y :: value)).
    rewrite IH; [reflexivity|]. intros b Hb. apply Hlast. exact Hb.
Qed.

(** X20. Written and read back.  A line made of [indent] spaces, a key, a
    colon, any run of blanks, a value and (or not) the newline is read by
    [parse_yaml_line] as that indentation, that key and that value,
    provided the key holds no colon, does not begin with a blank or end
    with white space and fits [key[MAX_NAME_LEN]], the value does not begin
    with a blank or end with a newline, and the line does not begin with
    '#'. *)
Theorem parse_yaml_line_reads_back indent key gap value newline :
  plain_key key -> plain_value value ->
  Forall (fun b => is_blank b = true) gap ->
  head (yaml_text indent key gap value newline) <> Some "#"%byte ->
  parse_yaml_line (yaml_text indent key gap value newline)
  = yaml_pair indent (string_of_list_byte key) (string_of_list_byte value).
Proof.
  intros (Hcolon & Hkhead & Hklast & Hklen) (Hvhead & Hvlast) Hgap Hhash.
  set (tail := (if newline then [x0a] else []) : list byte).
  assert (forall b, head (key ++ [":"%byte] ++ gap ++ value ++ tail) = Some b ->
                    is_blank b = false) as Hstart.
  { intros b. destruct key as [|k key]; simpl; [by intros [= <-]|].
    intros [= <-]. by apply Hkhead. }
  assert (count_indent (yaml_text indent key gap value newline) = indent)
    as Hindent by (by apply count_indent_replicate).
  unfold parse_yaml_line. rewrite Hindent.
  destruct (yaml_text indent key gap value newline) as [|first rest] eqn:Htext.
  { unfold yaml_text in Htext. destruct indent, key; discriminate. }
  destruct (Byte.eqb first "#"%byte) eqn:Hfirst.
  { apply Byte.byte_dec_bl in Hfirst. subst first. by destruct Hhash. }
  rewrite <- Htext. unfold yaml_text. fold tail.
  rewrite drop_app_length' by (by rewrite length_replicate).
  change (key ++ [":"%byte] ++ gap ++ value ++ tail)
    with (key ++ ":"%byte :: gap ++ value ++ tail).
  rewrite find_index_app_first; [| |reflexivity].
  - destruct (Nat.leb_spec MAX_NAME_LEN (length key)); [lia|].
    rewrite take_app_length, remove_trailing_space_id by assumption.
    f_equal. f_equal.
    replace (drop (S (length key)) (key ++ ":"%byte :: gap ++ value ++ tail))
      with (gap ++ value ++ tail).
    + rewrite skip_blank_app; try assumption.
      * subst tail. destruct newline; [apply remove_newline_snoc|].
        rewrite app_nil_r. by apply remove_newline_id.
      * intros b. destruct value as [|v value]; simpl.
        -- subst tail. destruct newline; [|discriminate]. by intros [= <-].
        -- intros [= <-]. by apply Hvhead.
    + change (S (length key)) with (1 + length key)%nat.
      rewrite Nat.add_comm, <- drop_drop.
      by rewrite (drop_app_length' key) by reflexivity.
  - eapply Forall_impl; [exact Hcolon|]. simpl. intros b Hb.
    destruct (Byte.eqb b ":"%byte) eqn:E; [|reflexivity].
    apply Byte.byte_dec_bl in E. contradiction.
Qed.

Lemma parse_yaml_line_reads_back_witness :
  parse_yaml_line
    (yaml_text 2 (list_byte_of_string "name") [" "%byte]
       (list_byte_of_string "web") true)
  = yaml_pair 2 "name" "web".
Proof.
  apply (parse_yaml_line_reads_back 2 (list_byte_of_string "name") [" "%byte]
           (list_byte_of_string "web") true).
  - unfold plain_key. split; [repeat constructor; discriminate|].
    split; [by intros b [= <-]|]. split; [by intros b [= <-]|].
    simpl. unfold MAX_NAME_LEN. lia.
  - split; [by intros b [= <-] | by intros b [= <-]].
  - by repeat constructor.
  - discriminate.
Defined.

(** ** The tree of a configuration file *)

Lemma walk_None l visited : walk l None visited -> visited = [].
Proof. by inversion 1. Qed.

Lemma walk_nil l root : walk l root [] -> root = None.
Proof. by inversion 1. Qed.

Lemma walk_lt l root visited :
  walk l root visited -> Forall (fun p => (p < length l)%nat) visited.
Proof.
  induction 1 as [|p n below after Hp _ IHb _ IHa]; [constructor|].
  constructor; [by apply lookup_lt_Some in Hp | by apply Forall_app].
Qed.

Lemma walk_frame l l' root visited :
  walk l root visited -> (forall p, p ∈ visited -> l' !! p = l !! p) ->
  walk l' root visited.
Proof.
  induction 1 as [|p n below after Hp _ IHb _ IHa]; intros Hsame;
    [constructor|].
  apply walk_node with (n := n).
  - rewrite Hsame; [done|]. apply elem_of_cons. by left.
  - apply IHb. intros q Hq. apply Hsame. apply elem_of_cons. right.
    apply elem_of_app. by left.
  - apply IHa. intros q Hq. apply Hsame. apply elem_of_cons. right.
    apply elem_of_app. by right.
Qed.

Lemma snoc_case {A} (l : list A) : l = [] \/ exists l' x, l = l' ++ [x].
Proof.
  induction l as [|a l IH] using rev_ind; [by left|]. right. by exists l, a.
Qed.

Lemma lookup_linked_new (f : yaml_node_t -> yaml_node_t) e l x :
  (e < length l)%nat -> alter f e (l ++ [x]) !! length l = Some x.
Proof.
  intros He. rewrite list_lookup_alter_ne by lia.
  rewrite lookup_app_r by lia. by rewrite Nat.sub_diag.
Qed.

Lemma lookup_linked_other (f : yaml_node_t -> yaml_node_t) e l x q :
  q <> e -> (q < length l)%nat -> alter f e (l ++ [x]) !! q = l !! q.
Proof.
  intros Hne Hq. rewrite list_lookup_alter_ne by done. by apply lookup_app_l.
Qed.

Lemma lookup_linked_self (f : yaml_node_t -> yaml_node_t) e l x n :
  l !! e = Some n -> alter f e (l ++ [x]) !! e = Some (f n).
Proof.
  intros He. rewrite list_lookup_alter_eq, lookup_app_l, He; [done|].
  by apply lookup_lt_Some in He.
Qed.

Lemma walk_new_leaf l new x :
  l !! new = Some x -> y_child x = None -> y_next x = None ->
  walk l (Some new) [new].
Proof.
  intros Hx Hc Hn. change [new] with (new :: [] ++ []).
  apply walk_node with (n := x); [assumption|rewrite Hc|rewrite Hn]; constructor.
Qed.

(** Hanging a new leaf from the node visited last, as its child or as its
    next sibling, appends the leaf to the walk. *)
Lemma walk_link_last (f : yaml_node_t -> yaml_node_t) l root visited lastn leaf x :
  walk l root visited ->
  forall front, visited = front ++ [lastn] -> NoDup visited ->
  l !! lastn = Some leaf -> y_child leaf = None -> y_next leaf = None ->
  y_child x = None -> y_next x = None ->
  (y_child (f leaf) = Some (length l) /\ y_next (f leaf) = None)
  \/ (y_child (f leaf) = None /\ y_next (f leaf) = Some (length l)) ->
  walk (alter f lastn (l ++ [x])) root (visited ++ [length l]).
Proof.
  intros Hwalk.
  induction Hwalk as [|p n below after Hp Hb IHb Ha IHa];
    intros front Hfront Hnd Hleaf Hlc Hln Hxc Hxn Hf.
  { by destruct front. }
  assert (lastn < length l)%nat as Hlast by (by apply lookup_lt_Some in Hleaf).
  assert (p < length l)%nat as Hpl by (by apply lookup_lt_Some in Hp).
  apply NoDup_cons in Hnd as [Hpnot Hnd].
  apply NoDup_app in Hnd as (Hndb & Hdisj & Hnda).
  apply not_elem_of_app in Hpnot as [Hpb Hpa].
  pose proof (walk_lt _ _ _ Hb) as Hblt. rewrite Forall_forall in Hblt.
  set (l2 := alter f lastn (l ++ [x])).
  assert (walk l2 (Some (length l)) [length l]) as Hnew.
  { apply (walk_new_leaf _ _ x); [by apply lookup_linked_new|assumption..]. }
  destruct (snoc_case after) as [-> | (after' & z & ->)].
  - rewrite app_nil_r in Hfront |- *.
    destruct (snoc_case below) as [-> | (below' & z & ->)].
    + destruct front; [|by destruct front]. injection Hfront as ->.
      assert (n = leaf) as -> by congruence.
      destruct Hf as [[Hfc Hfn] | [Hfc Hfn]].
      * change ([lastn] ++ [length l]) with (lastn :: [length l] ++ []).
        apply walk_node with (n := f leaf);
          [by apply lookup_linked_self|rewrite Hfc|rewrite Hfn];
          [assumption|constructor].
      * change ([lastn] ++ [length l]) with (lastn :: [] ++ [length l]).
        apply walk_node with (n := f leaf);
          [by apply lookup_linked_self|rewrite Hfc|rewrite Hfn];
          [constructor|assumption].
    + assert (z = lastn /\ front = p :: below') as [-> ->].
      { change (p :: below' ++ [z]) with ((p :: below') ++ [z]) in Hfront.
        by apply app_inj_tail in Hfront as [-> ->]. }
      replace ((p :: below' ++ [lastn]) ++ [length l])
        with (p :: ((below' ++ [lastn]) ++ [length l]) ++ [])
        by (by rewrite app_nil_r).
      apply walk_node with (n := n).
      * subst l2. rewrite lookup_linked_other; [assumption| |assumption].
        intros ->. apply Hpb. apply elem_of_app. right.
        by apply list_elem_of_singleton.
      * by apply (IHb below').
      * rewrite (walk_nil _ _ Ha). constructor.
  - assert (z = lastn /\ front = p :: below ++ after') as [-> ->].
    { rewrite app_assoc in Hfront.
      change (p :: (below ++ after') ++ [z])
        with ((p :: below ++ after') ++ [z]) in Hfront.
      by apply app_inj_tail in Hfront as [-> ->]. }
    assert (lastn ∈ after' ++ [lastn]) as Hin
      by (apply elem_of_app; right; by apply list_elem_of_singleton).
    replace ((p :: below ++ after' ++ [lastn]) ++ [length l])
      with (p :: below ++ ((after' ++ [lastn]) ++ [length l])).
    2:{ simpl. by rewrite <- !app_assoc. }
    apply walk_node with (n := n).
    + subst l2. rewrite lookup_linked_other; [assumption| |assumption].
      by intros ->.
    + apply (walk_frame l); [assumption|]. intros q Hq. subst l2.
      apply lookup_linked_other; [|by apply Hblt].
      intros ->. by apply (Hdisj lastn).
    + by apply (IHa after').
Qed.

(** The walk along the [next] pointers from the root ends, and hanging a
    new leaf behind its last node appends the leaf to the walk. *)
Lemma walk_link_chain_end l root visited x :
  walk l root visited ->
  forall q fuel, root = Some q -> NoDup visited ->
  (length visited <= fuel)%nat ->
  y_child x = None -> y_next x = None ->
  exists e,
    last_sibling fuel (l ++ [x]) q = Some e
    /\ e ∈ visited
    /\ walk (alter (set_next (length l)) e (l ++ [x])) root
         (visited ++ [length l]).
Proof.
  intros Hwalk.
  induction Hwalk as [|p n below after Hp Hb IHb Ha IHa];
    intros q fuel Hroot Hnd Hfuel Hxc Hxn; [discriminate|].
  injection Hroot as <-.
  assert (p < length l)%nat as Hpl by (by apply lookup_lt_Some in Hp).
  apply NoDup_cons in Hnd as [Hpnot Hnd].
  apply NoDup_app in Hnd as (Hndb & Hdisj & Hnda).
  apply not_elem_of_app in Hpnot as [Hpb Hpa].
  pose proof (walk_lt _ _ _ Hb) as Hblt. rewrite Forall_forall in Hblt.
  destruct fuel as [|fuel]; [simpl in Hfuel; lia|].
  cbn [last_sibling]. rewrite lookup_app_l, Hp by assumption.
  destruct (y_next n) as [next|] eqn:Hnext.
  - destruct (IHa next fuel eq_refl Hnda) as (e & He & Hin & Hw);
      [simpl in Hfuel; rewrite length_app in Hfuel; lia|assumption..|].
    exists e. split; [assumption|]. split.
    { apply elem_of_cons. right. apply elem_of_app. by right. }
    replace ((p :: below ++ after) ++ [length l])
      with (p :: below ++ (after ++ [length l]))
      by (simpl; by rewrite <- app_assoc).
    pose proof (walk_lt _ _ _ Ha) as Halt. rewrite Forall_forall in Halt.
    apply walk_node with (n := n).
    + rewrite lookup_linked_other; [assumption| |assumption]. by intros ->.
    + apply (walk_frame l); [assumption|]. intros r Hr.
      apply lookup_linked_other; [|by apply Hblt].
      intros ->. by apply (Hdisj e).
    + by rewrite Hnext.
  - exists p. split; [reflexivity|]. split; [apply elem_of_cons; by left|].
    apply walk_None in Ha. subst after. rewrite app_nil_r.
    change ((p :: below) ++ [length l]) with (p :: below ++ [length l]).
    apply walk_node with (n := set_next (length l) n).
    + by apply lookup_linked_self.
    + cbn [y_child set_next]. apply (walk_frame l); [assumption|].
      intros r Hr. apply lookup_linked_other; [|by apply Hblt]. by intros ->.
    + cbn [y_next set_next].
      apply (walk_new_leaf _ _ x); [by apply lookup_linked_new|assumption..].
Qed.

Lemma first_value_app key a b :
  first_value key (a ++ b)
  = match first_value key a with
    | Some v => Some v
    | None => first_value key b
    end.
Proof.
  induction a as [|[k v] a IH]; [reflexivity|]. simpl.
  by destruct (streq k key).
Qed.

Lemma node_pairs_app l a b : node_pairs l (a ++ b) = node_pairs l a ++ node_pairs l b.
Proof. unfold node_pairs. apply omap_app. Qed.

(** [get_yaml_value] ends, with the value of the first node of the walk
    that has the key. *)
Lemma get_yaml_value_walk l root visited key :
  walk l root visited ->
  forall fuel, (length visited < fuel)%nat ->
  get_yaml_value fuel l root (Some key)
  = Some (first_value key (node_pairs l visited)).
Proof.
  induction 1 as [|p n below after Hp Hb IHb Ha IHa]; intros fuel Hfuel.
  - destruct fuel; [lia|reflexivity].
  - destruct fuel as [|fuel]; [lia|]. cbn [get_yaml_value]. rewrite Hp.
    simpl in Hfuel. rewrite length_app in Hfuel.
    change (p :: below ++ after) with ([p] ++ below ++ after).
    rewrite !node_pairs_app, !first_value_app.
    unfold node_pairs at 1. cbn [omap list_omap]. rewrite Hp.
    cbn [fmap option_fmap option_map node_pair first_value].
    destruct (streq (y_key n) key); [reflexivity|].
    rewrite IHb by lia.
    destruct (first_value key (node_pairs l below)); [reflexivity|].
    apply IHa. lia.
Qed.

Lemma node_pairs_seq front l :
  node_pairs (front ++ l) (seq (length front) (length l)) = node_pair <$> l.
Proof.
  revert front. induction l as [|n l IH]; intros front; [reflexivity|].
  cbn [length seq]. unfold node_pairs. cbn [omap list_omap].
  rewrite lookup_app_r, Nat.sub_diag by lia. cbn [lookup list_lookup fmap option_fmap option_map].
  rewrite fmap_cons. f_equal.
  specialize (IH (front ++ [n])). rewrite length_app in IH. simpl in IH.
  rewrite Nat.add_1_r, <- app_assoc in IH. exact IH.
Qed.

Lemma yaml_invariant_linked (f : yaml_node_t -> yaml_node_t) e root front leaf x
    pairs indent :
  node_pair <$> (front ++ [leaf]) = pairs ->
  (forall n, node_pair (f n) = node_pair n) ->
  (e < length (front ++ [leaf]))%nat ->
  y_next x = None -> y_child x = None ->
  walk (alter f e ((front ++ [leaf]) ++ [x])) (Some root)
    (seq 0 (length (front ++ [leaf])) ++ [length (front ++ [leaf])]) ->
  yaml_invariant
    (mk_yaml_parser (alter f e ((front ++ [leaf]) ++ [x])) (Some root)
       (Some (length (front ++ [leaf]))) indent)
    (pairs ++ [node_pair x]).
Proof.
  intros Hpairs Hf He Hxn Hxc Hwalk. unfold yaml_invariant.
  cbn [y_nodes y_root last_node]. split; [|split].
  - rewrite fmap_alter_keep by exact Hf. by rewrite fmap_app, Hpairs.
  - rewrite length_alter, length_app. cbn [length].
    rewrite Nat.add_1_r, seq_S. exact Hwalk.
  - exists (alter f e (front ++ [leaf])), x.
    rewrite alter_app_l by exact He. by rewrite length_alter.
Qed.

Lemma add_yaml_node_invariant indent key value st pairs :
  yaml_invariant st pairs ->
  exists st',
    add_yaml_node indent key value st = Some st'
    /\ yaml_invariant st' (pairs ++ [(key, value)]).
Proof.
  intros (Hpairs & Hwalk & Hroot). unfold add_yaml_node.
  set (x := mk_yaml_node key value None None).
  destruct (y_root st) as [root|] eqn:Hr.
  - destruct Hroot as (front & leaf & Hnodes & Hlast & Hln & Hlc).
    rewrite Hlast, Hnodes in *.
    assert (length (front ++ [leaf]) = S (length front)) as Hlen
      by (rewrite length_app; simpl; lia).
    assert (seq 0 (length (front ++ [leaf])) = seq 0 (length front) ++ [length front])
      as Hseq by (by rewrite Hlen, seq_S).
    assert ((front ++ [leaf]) !! length front = Some leaf) as Hleaf
      by apply list_lookup_middle, eq_refl.
    assert (forall f : yaml_node_t -> yaml_node_t,
              (forall n, node_pair (f n) = node_pair n) ->
              (y_child (f leaf) = Some (length (front ++ [leaf]))
               /\ y_next (f leaf) = None)
              \/ (y_child (f leaf) = None
                  /\ y_next (f leaf) = Some (length (front ++ [leaf]))) ->
              yaml_invariant
                (mk_yaml_parser
                   (alter f (length front) ((front ++ [leaf]) ++ [x]))
                   (Some root) (Some (length (front ++ [leaf])))
                   (Z.of_nat indent))
                (pairs ++ [(key, value)])) as Hlink.
    { intros f Hf Hshape.
      apply (yaml_invariant_linked f (length front) root front leaf x);
        try done; [lia|].
      apply (walk_link_last f _ _ _ (length front) leaf x Hwalk
               (seq 0 (length front))); try done.
      apply NoDup_seq. }
    destruct (last_indent st <? Z.of_nat indent);
      [|destruct (Z.of_nat indent =? last_indent st);
        [|destruct (Z.of_nat indent =? 0)]];
      cbn [mbind option_bind].
    + eexists. split; [reflexivity|]. apply Hlink; [done|]. left.
      split; [reflexivity | exact Hln].
    + eexists. split; [reflexivity|]. apply Hlink; [done|]. right.
      split; [exact Hlc | reflexivity].
    + destruct (walk_link_chain_end _ _ _ x Hwalk root
                  (length ((front ++ [leaf]) ++ [x])) eq_refl)
        as (e & He & Hin & Hw); [apply NoDup_seq| |done..|].
      { rewrite length_seq, !length_app. simpl. lia. }
      rewrite He. cbn [mbind option_bind]. eexists. split; [reflexivity|].
      apply (yaml_invariant_linked (set_next (length (front ++ [leaf]))) e
               root front leaf x); try done.
      apply elem_of_seq in Hin. lia.
    + eexists. split; [reflexivity|]. apply Hlink; [done|]. right.
      split; [exact Hlc | reflexivity].
  - rewrite Hroot in *. simpl in Hpairs. subst pairs.
    eexists. split; [reflexivity|]. unfold yaml_invariant.
    cbn [y_nodes y_root last_node app length seq].
    split; [reflexivity|]. split.
    + by apply (walk_new_leaf _ _ x).
    + by exists [], x.
Qed.

Lemma parse_yaml_lines_invariant lines st pairs :
  Forall (fun line => parse_yaml_line line <> yaml_overflow) lines ->
  yaml_invariant st pairs ->
  exists st',
    parse_yaml_lines lines st = Some st'
    /\ yaml_invariant st' (pairs ++ yaml_pairs lines).
Proof.
  intros Hlines. revert st pairs.
  induction Hlines as [|line lines Hline _ IH]; intros st pairs Hinv.
  - exists st. by rewrite app_nil_r.
  - cbn [parse_yaml_lines yaml_pairs].
    destruct (parse_yaml_line line) as [|indent key value|]; [by apply IH| |done].
    destruct (add_yaml_node_invariant indent key value st pairs Hinv)
      as (st1 & -> & Hinv1).
    cbn [mbind option_bind].
    destruct (IH st1 _ Hinv1) as (st' & Hrun & Hinv').
    exists st'. split; [assumption|].
    by rewrite <- app_assoc in Hinv'.
Qed.

(** X21. Nesting does not count.  When no key of the file overflows its
    array, [parse_yaml_file] returns a tree (its loops end), and on that
    tree [get_yaml_value] ends and returns the value of the first line of
    the file that has the key, whatever the indentation of the lines, or
    NULL when no line has it. *)
Theorem get_yaml_value_finds_first_line lines :
  Forall (fun line => parse_yaml_line line <> yaml_overflow) lines ->
  exists st,
    parse_yaml_file lines = Some st
    /\ forall key fuel,
         (length (y_nodes st) < fuel)%nat ->
         get_yaml_value fuel (y_nodes st) (y_root st) (Some key)
         = Some (first_value key (yaml_pairs lines)).
Proof.
  intros Hlines.
  destruct (parse_yaml_lines_invariant lines (mk_yaml_parser [] None None (-1))
              [] Hlines) as (st & Hrun & Hpairs & Hwalk & _).
  { unfold yaml_invariant. simpl. split; [reflexivity|]. split; [constructor|done]. }
  exists st. split; [exact Hrun|]. intros key fuel Hfuel.
  rewrite (get_yaml_value_walk _ _ _ key Hwalk) by (by rewrite length_seq).
  f_equal. f_equal. simpl in Hpairs. rewrite <- Hpairs.
  apply (node_pairs_seq []).
Qed.

Lemma get_yaml_value_parsed st pairs key :
  yaml_invariant st pairs ->
  get_yaml_value (S (length (y_nodes st))) (y_nodes st) (y_root st) (Some key)
  = Some (first_value key pairs).
Proof.
  intros (Hpairs & Hwalk & _).
  rewrite (get_yaml_value_walk _ _ _ key Hwalk) by (rewrite length_seq; lia).
  f_equal. f_equal. rewrite <- Hpairs. apply (node_pairs_seq []).
Qed.

Lemma length_string_member size value :
  (0 < size)%nat -> length (string_member size value) = size.
Proof.
  intros Hsize. destruct value as [s|]; [|apply length_replicate].
  unfold string_member, strncpy, zeros.
  rewrite !length_app, length_take, length_drop, !length_replicate. lia.
Qed.

Lemma length_int_bytes i : length (int_bytes i) = 4%nat.
Proof. reflexivity. Qed.

Lemma length_pointer_member value address :
  length (pointer_member value address) = 8%nat.
Proof. by destruct value. Qed.

Lemma length_int_member value : length (int_member value) = 4%nat.
Proof. by destruct value. Qed.

Lemma cstring_string_member value :
  cstring (string_member MAX_NAME_LEN value)
  = string_of_list_byte
      (take (MAX_NAME_LEN - 1) (string_bytes (default ""%string value))).
Proof.
  destruct value as [s|]; [apply strncpy_id_truncates | reflexivity].
Qed.

(** X22. From the file to the configuration.  When no key of the file
    overflows its array, [parse_lxc_yaml] ends.  For a file without any
    key-value line it returns -1.  Otherwise it returns 0 and the
    configuration is a whole [lxc_config_t] of [sizeof(lxc_config_t)] bytes
    whose name is the value of the first line of the file with the key
    "name", at any depth, cut to 255 bytes (the empty name when there is no
    such line). *)
Theorem parse_lxc_yaml_reads_the_file lines malloc :
  Forall (fun line => parse_yaml_line line <> yaml_overflow) lines ->
  match yaml_pairs lines with
  | [] => parse_lxc_yaml lines malloc = Some None
  | pairs =>
      exists config,
        parse_lxc_yaml lines malloc = Some (Some config)
        /\ length (config_object config) = Z.to_nat sizeof_lxc_config_t
        /\ config_name config
           = string_of_list_byte
               (take (MAX_NAME_LEN - 1)
                  (string_bytes (default ""%string (first_value "name" pairs))))
  end.
Proof.
  intros Hlines.
  destruct (parse_yaml_lines_invariant lines (mk_yaml_parser [] None None (-1))
              [] Hlines) as (st & Hrun & Hinv).
  { unfold yaml_invariant. simpl. split; [reflexivity|]. split; [constructor|done]. }
  simpl in Hinv. unfold parse_lxc_yaml, parse_yaml_file. rewrite Hrun.
  cbn [mbind option_bind]. unfold extract_lxc_config.
  pose proof Hinv as (Hpairs & _ & Hroot).
  destruct (y_root st) as [root|] eqn:Hr.
  - destruct Hroot as (front & leaf & Hnodes & _).
    rewrite <- Hr, !(get_yaml_value_parsed st _ _ Hinv). cbn [mbind option_bind].
    destruct (yaml_pairs lines) as [|pair pairs] eqn:Hp.
    { rewrite Hnodes, fmap_app in Hpairs. by destruct (node_pair <$> front). }
    eexists. split; [reflexivity|]. cbn [config_object]. split.
    + rewrite !length_app, !length_string_member, !length_pointer_member,
        !length_int_member by (unfold MAX_NAME_LEN, MAX_PATH_LEN; lia).
      reflexivity.
    + unfold config_name. cbn [config_object].
      rewrite take_app_length' by
        (symmetry; apply length_string_member; unfold MAX_NAME_LEN; lia).
      apply cstring_string_member.
  - rewrite Hroot in Hpairs. simpl in Hpairs. by rewrite <- Hpairs.
Qed.

Lemma parse_lxc_yaml_reads_the_file_witness :
  exists config,
    parse_lxc_yaml web_yaml (mk_allocations 0 0 0) = Some (Some config)
    /\ length (config_object config) = Z.to_nat sizeof_lxc_config_t
    /\ config_name config = "web"%string.
Proof.
  assert (Forall (fun line => parse_yaml_line line <> yaml_overflow) web_yaml)
    as Hlines by (repeat constructor; vm_compute; discriminate).
  pose proof (parse_lxc_yaml_reads_the_file web_yaml (mk_allocations 0 0 0)
                Hlines) as H.
  assert (yaml_pairs web_yaml
          = [("name", "web"); ("image", "ubuntu:22.04"); ("limits", "");
             ("cpu_limit", "2"); ("name", "inner"); ("privileged", "true")]%string)
    as Hp by (vm_compute; reflexivity).
  rewrite Hp in H. destruct H as (config & Hrun & Hlen & Hname).
  exists config. split; [assumption|]. split; [assumption|].
  rewrite Hname. vm_compute. reflexivity.
Defined.

Lemma get_yaml_value_finds_first_line_witness :
  exists st,
    parse_yaml_file web_yaml = Some st
    /\ forall key fuel,
         (length (y_nodes st) < fuel)%nat ->
         get_yaml_value fuel (y_nodes st) (y_root st) (Some key)
         = Some (first_value key (yaml_pairs web_yaml)).
Proof.
  apply (get_yaml_value_finds_first_line web_yaml).
  repeat constructor; vm_compute; discriminate.
Defined.

(** ** The operator's commands *)

Lemma isspace_newline : isspace x0a = true.
Proof. reflexivity. Qed.

Lemma cut_at_newline_app a rest :
  Forall (fun x => x <> x0a) a -> cut_at_newline (a ++ x0a :: rest) = a.
Proof.
  induction 1 as [|x a Hx _ IH]; [reflexivity|]. simpl.
  destruct (Byte.eqb x x0a) eqn:E; [|by rewrite IH].
  apply Byte.byte_dec_bl in E. contradiction.
Qed.

Lemma cut_at_newline_space ws :
  Forall (fun x => isspace x = true) ws ->
  Forall (fun x => isspace x = true) (cut_at_newline ws).
Proof.
  induction 1 as [|x ws Hx _ IH]; [constructor|]. simpl.
  destruct (Byte.eqb x x0a); by constructor.
Qed.

Lemma skip_space_all ws :
  Forall (fun x => isspace x = true) ws -> skip_space ws = [].
Proof. induction 1 as [|x ws Hx _ IH]; [reflexivity|]. simpl. by rewrite Hx. Qed.

Lemma skip_space_app ws rest :
  Forall (fun x => isspace x = true) ws ->
  skip_space (ws ++ rest) = skip_space rest.
Proof. induction 1 as [|x ws Hx _ IH]; [reflexivity|]. simpl. by rewrite Hx. Qed.

Lemma skip_space_word word :
  Forall (fun x => isspace x = false) word -> skip_space word = word.
Proof. destruct 1 as [|x word Hx _]; [reflexivity|]. simpl. by rewrite Hx. Qed.

Lemma scan_word_word word :
  Forall (fun x => isspace x = false) word -> scan_word word = (word, []).
Proof.
  induction 1 as [|x word Hx _ IH]; [reflexivity|]. simpl. by rewrite Hx, IH.
Qed.

Lemma is_blank_isspace x : is_blank x = true -> isspace x = true.
Proof.
  unfold is_blank. intros H. apply orb_true_iff in H as [H|H];
    apply Byte.byte_dec_bl in H; by subst.
Qed.

Lemma is_blank_not_newline x : is_blank x = true -> x <> x0a.
Proof. intros H ->. discriminate. Qed.

Lemma not_space_not_newline x : isspace x = false -> x <> x0a.
Proof. intros H ->. discriminate. Qed.

(** The argument of a command is stored and used. *)
Lemma sscanf_s_argument ws word buffer :
  Forall (fun x => is_blank x = true) ws -> argument word ->
  sscanf_s (ws ++ word) buffer MAX_NAME_LEN = Some (string_of_list_byte word).
Proof.
  intros Hws (Hne & Hword & Hlen). unfold sscanf_s.
  rewrite skip_space_app
    by (eapply Forall_impl; [exact Hws|]; apply is_blank_isspace).
  rewrite skip_space_word, scan_word_word by assumption. cbn [fst].
  destruct word as [|x word]; [done|].
  by destruct (Nat.leb_spec MAX_NAME_LEN (length (x :: word))); [lia|].
Qed.

(** Without an argument the buffer keeps what it held. *)
Lemma sscanf_s_bare ws buffer size :
  Forall (fun x => isspace x = true) ws -> sscanf_s ws buffer size = Some buffer.
Proof. intros Hws. unfold sscanf_s. by rewrite skip_space_all. Qed.

Lemma command_with_argument verb ws word :
  Forall (fun x => x <> x0a) (list_byte_of_string verb) ->
  Forall (fun x => is_blank x = true) ws -> argument word ->
  cut_at_newline (list_byte_of_string verb ++ ws ++ word ++ [x0a])
  = list_byte_of_string verb ++ ws ++ word.
Proof.
  intros Hverb Hws (_ & Hword & _).
  rewrite !app_assoc. apply cut_at_newline_app.
  repeat apply Forall_app_2; [assumption| |].
  - eapply Forall_impl; [exact Hws|]. apply is_blank_not_newline.
  - eapply Forall_impl; [exact Hword|]. apply not_space_not_newline.
Qed.

Lemma command_bare verb ws :
  Forall (fun x => x <> x0a) (list_byte_of_string verb) ->
  Forall (fun x => isspace x = true) ws ->
  exists ws',
    cut_at_newline (list_byte_of_string verb ++ ws ++ [x0a])
    = list_byte_of_string verb ++ ws'
    /\ Forall (fun x => isspace x = true) ws'.
Proof.
  intros Hverb Hws. exists (cut_at_newline (ws ++ [x0a])). split.
  - induction Hverb as [|x v Hx _ IH]; [reflexivity|]. simpl.
    destruct (Byte.eqb x x0a) eqn:E; [|by rewrite IH].
    apply Byte.byte_dec_bl in E. contradiction.
  - apply cut_at_newline_space, Forall_app_2; [assumption|].
    by apply Forall_singleton.
Qed.

Lemma verbs_told_apart rest :
  starts_with "deploy " (list_byte_of_string "start " ++ rest) = false
  /\ starts_with "start " (list_byte_of_string "start " ++ rest) = true
  /\ starts_with "deploy " (list_byte_of_string "stop " ++ rest) = false
  /\ starts_with "start " (list_byte_of_string "stop " ++ rest) = false
  /\ starts_with "stop " (list_byte_of_string "stop " ++ rest) = true
  /\ starts_with "deploy " (list_byte_of_string "delete " ++ rest) = false
  /\ starts_with "start " (list_byte_of_string "delete " ++ rest) = false
  /\ starts_with "stop " (list_byte_of_string "delete " ++ rest) = false
  /\ starts_with "delete " (list_byte_of_string "delete " ++ rest) = true.
Proof. repeat split; reflexivity. Qed.

(** X23. The arguments of the operator's commands.  A line "start", "stop"
    or "delete", blanks, an argument and the newline calls the function of
    that name with the argument, which stays in [container_id].  The same
    commands followed by white space only still make the call, with what
    [container_id] holds from the command before: after "start X", a bare
    "delete " deletes X. *)
Theorem commands_keep_the_last_argument b ws ws' word :
  Forall (fun x => is_blank x = true) ws ->
  Forall (fun x => isspace x = true) ws' ->
  argument word ->
  let id := string_of_list_byte word in
  let line verb rest := list_byte_of_string verb ++ rest ++ [x0a] in
  let stored := mk_command_buffers (yaml_file b) id in
  coordinator_command (line "start " (ws ++ word)) b = Some (stored, call_start id)
  /\ coordinator_command (line "stop " (ws ++ word)) b = Some (stored, call_stop id)
  /\ coordinator_command (line "delete " (ws ++ word)) b
     = Some (stored, call_delete id)
  /\ coordinator_command (line "start " ws') stored = Some (stored, call_start id)
  /\ coordinator_command (line "stop " ws') stored = Some (stored, call_stop id)
  /\ coordinator_command (line "delete " ws') stored
     = Some (stored, call_delete id).
Proof.
  intros Hws Hws' Hword id line stored. subst line. cbn beta.
  assert (forall verb, Forall (fun x => x <> x0a) (list_byte_of_string verb) ->
            cut_at_newline (list_byte_of_string verb ++ (ws ++ word) ++ [x0a])
            = list_byte_of_string verb ++ ws ++ word) as Hcut.
  { intros verb Hverb. rewrite <- (app_assoc ws).
    by apply command_with_argument. }
  assert (Forall (fun x => x <> x0a) (list_byte_of_string "start ")) as Hstart
    by (repeat constructor; discriminate).
  assert (Forall (fun x => x <> x0a) (list_byte_of_string "stop ")) as Hstop
    by (repeat constructor; discriminate).
  assert (Forall (fun x => x <> x0a) (list_byte_of_string "delete ")) as Hdelete
    by (repeat constructor; discriminate).
  destruct (command_bare "start " ws' Hstart Hws') as (s1 & Hs1 & Hs1').
  destruct (command_bare "stop " ws' Hstop Hws') as (s2 & Hs2 & Hs2').
  destruct (command_bare "delete " ws' Hdelete Hws') as (s3 & Hs3 & Hs3').
  unfold coordinator_command.
  rewrite !Hcut, Hs1, Hs2, Hs3 by assumption.
  destruct (verbs_told_apart (ws ++ word))
    as (A1 & A2 & A3 & A4 & A5 & A6 & A7 & A8 & A9).
  destruct (verbs_told_apart s1) as (B1 & B2 & _).
  destruct (verbs_told_apart s2) as (_ & _ & B3 & B4 & B5 & _).
  destruct (verbs_told_apart s3) as (_ & _ & _ & _ & _ & B6 & B7 & B8 & B9).
  rewrite A1, A2, A3, A4, A5, A6, A7, A8, A9, B1, B2, B3, B4, B5, B6, B7, B8, B9.
  change (drop 6 (list_byte_of_string "start " ++ ws ++ word)) with (ws ++ word).
  change (drop 5 (list_byte_of_string "stop " ++ ws ++ word)) with (ws ++ word).
  change (drop 7 (list_byte_of_string "delete " ++ ws ++ word)) with (ws ++ word).
  change (drop 6 (list_byte_of_string "start " ++ s1)) with s1.
  change (drop 5 (list_byte_of_string "stop " ++ s2)) with s2.
  change (drop 7 (list_byte_of_string "delete " ++ s3)) with s3.
  rewrite !sscanf_s_argument, !sscanf_s_bare by assumption.
  repeat split_and; reflexivity.
Qed.

Lemma commands_keep_the_last_argument_witness :
  let b := mk_command_buffers "" "" in
  let stored := mk_command_buffers "" "w1_web" in
  coordinator_command (text_line "start w1_web") b
  = Some (stored, call_start "w1_web")
  /\ coordinator_command (text_line "delete  ") stored
     = Some (stored, call_delete "w1_web").
Proof.
  intros b stored.
  assert (argument (list_byte_of_string "w1_web")) as Hword.
  { split; [discriminate|]. split; [by repeat constructor|].
    simpl. unfold MAX_NAME_LEN. lia. }
  destruct (commands_keep_the_last_argument b [] [" "%byte]
              (list_byte_of_string "w1_web"))
    as (H1 & _ & _ & _ & _ & H6); [constructor|by repeat constructor|exact Hword|].
  split; [exact H1 | exact H6].
Defined.

(** ** A worker registers *)

Lemma register_node_lookup now id hostname ip_address port c :
  node_count c < MAX_NODES ->
  exists c' i old,
    register_node now (Some id) (Some hostname) (Some ip_address) port c = (0, c')
    /\ find_node_by_id (Some id) (nodes c') = Some i
    /\ nodes c' !! i
       = Some (mk_node id hostname ip_address port NODE_CONNECTED
                 (n_resources old) now (n_socket_fd old) (n_containers old))
    /\ deployed_containers c' = deployed_containers c
    /\ wire c' = wire c.
Proof.
  intros Hcap. unfold register_node.
  destruct (Z.geb_spec (node_count c) MAX_NODES); [lia|].
  destruct (find_index _ (nodes c)) as [i|] eqn:Hi.
  - destruct (find_index_Some _ _ _ Hi) as (old & Hold & Hp & _).
    apply streq_eq in Hp.
    eexists _, i, old. split; [reflexivity|].
    cbn [nodes deployed_containers wire set_nodes].
    split; [|split; [|done]].
    + unfold find_node_by_id. by rewrite find_index_alter by reflexivity.
    + rewrite list_lookup_alter_eq, Hold. simpl. unfold reregister. by rewrite Hp.
  - eexists _, (length (nodes c)),
      (set_socket_fd (n_socket_fd (default zero_node (head (nodes_behind c))))
         zero_node).
    split; [reflexivity|].
    cbn [nodes deployed_containers wire]. split; [|split; [|done]].
    + unfold find_node_by_id.
      by rewrite (find_index_app_hit _ _ _ Hi) by apply String.eqb_refl.
    + rewrite lookup_app_r by lia. by rewrite Nat.sub_diag.
Qed.

Lemma substring_all s n :
  (String.length s <= n)%nat -> String.substring 0 n s = s.
Proof.
  revert n. induction s as [|a s IH]; intros [|n] Hn; simpl in *;
    try reflexivity; try lia.
  rewrite IH; [reflexivity|lia].
Qed.

Lemma string_of_list_byte_app a b :
  string_of_list_byte (a ++ b)
  = (string_of_list_byte a ++ string_of_list_byte b)%string.
Proof.
  induction a as [|x a IH]; [reflexivity|].
  change (string_of_list_byte ((x :: a) ++ b))
    with (String (ascii_of_byte x) (string_of_list_byte (a ++ b))).
  by rewrite IH.
Qed.

Lemma length_string_of_list_byte a :
  String.length (string_of_list_byte a) = length a.
Proof.
  induction a as [|x a IH]; [reflexivity|].
  change (string_of_list_byte (x :: a))
    with (String (ascii_of_byte x) (string_of_list_byte a)).
  simpl. by rewrite IH.
Qed.

Lemma string_bytes_of_list_byte b :
  forallb (fun x => negb (Byte.eqb x NUL)) b = true ->
  string_bytes (string_of_list_byte b) = b.
Proof.
  intros Hb. unfold string_bytes.
  rewrite list_byte_of_string_of_list_byte, cstring_no_nul by assumption.
  apply list_byte_of_string_of_list_byte.
Qed.

Lemma scan_word_app_space w rest :
  Forall (fun x => isspace x = false) w ->
  scan_word (w ++ " "%byte :: rest) = (w, " "%byte :: rest).
Proof.
  induction 1 as [|x w Hx _ IH]; [reflexivity|]. simpl. by rewrite Hx, IH.
Qed.

Lemma c_word_no_space w :
  c_word w -> Forall (fun x => isspace x = false) w
              /\ forallb (fun x => negb (Byte.eqb x NUL)) w = true.
Proof.
  intros (_ & Hw). split.
  - eapply Forall_impl; [exact Hw|]. by intros x [H _].
  - induction Hw as [|x w [_ Hx] _ IH]; [reflexivity|]. simpl. rewrite IH.
    destruct (Byte.eqb x NUL) eqn:E; [|reflexivity].
    apply Byte.byte_dec_bl in E. contradiction.
Qed.

Lemma skip_space_word_head w :
  (forall x, head w = Some x -> isspace x = false) -> skip_space w = w.
Proof. destruct w as [|x w]; [reflexivity|]. intros H. simpl. by rewrite (H x). Qed.

(** What the coordinator reads out of the registration text. *)
Lemma sscanf_registration h i a b p :
  c_word h -> c_word i ->
  sscanf_s_s_d
    (string_of_list_byte (h ++ " "%byte :: i ++ [" "%byte; "0"%byte])) a b p
  = (string_of_list_byte h, string_of_list_byte i, 0).
Proof.
  intros Hh Hi.
  destruct (c_word_no_space h Hh) as [Hhs Hhn].
  destruct (c_word_no_space i Hi) as [His Hin].
  unfold sscanf_s_s_d. rewrite string_bytes_of_list_byte.
  2:{ rewrite forallb_app, Hhn. simpl. rewrite forallb_app, Hin. reflexivity. }
  destruct Hh as [Hhne _], Hi as [Hine _].
  rewrite skip_space_word_head.
  2:{ destruct h as [|h0 h]; [done|]. intros x [= <-]. by inversion Hhs. }
  rewrite scan_word_app_space by assumption.
  destruct h as [|h0 h]; [done|].
  change (skip_space (" "%byte :: i ++ [" "%byte; "0"%byte]))
    with (skip_space (i ++ [" "%byte; "0"%byte])).
  rewrite skip_space_word_head.
  2:{ destruct i as [|i0 i]; [done|]. intros x [= <-]. by inversion His. }
  change (i ++ [" "%byte; "0"%byte]) with (i ++ " "%byte :: ["0"%byte]).
  rewrite scan_word_app_space by assumption.
  destruct i as [|i0 i]; [done|]. reflexivity.
Qed.

Lemma create_message_sender type s recipient d data_len :
  msg_sender_id (create_message type (Some s) recipient d data_len)
  = strncpy (zeros MAX_NAME_LEN) s (MAX_NAME_LEN - 1).
Proof.
  unfold create_message. destruct d; [|reflexivity].
  by destruct (0 <? data_len).
Qed.

Lemma cstring_payload d :
  forallb (fun x => negb (Byte.eqb x NUL)) d = true ->
  Z.of_nat (length d) < sizeof_data ->
  cstring (memcpy (zeros (Z.to_nat sizeof_data)) d (length d))
  = string_of_list_byte d.
Proof.
  intros Hd Hlen. unfold memcpy, zeros.
  rewrite take_ge, drop_replicate by lia.
  destruct (Z.to_nat sizeof_data - length d)%nat as [|k] eqn:Hk; [lia|].
  by apply cstring_app_NUL.
Qed.

(** X24. A registration, end to end.  The worker sends its id as the
    sender of a REGISTER_NODE frame whose text is
    ["<hostname> <ip> 0"]; when the hostname and the address are words
    without white space and the registry has room, the coordinator finds a
    record under that id afterwards with this hostname and address, port 0,
    state CONNECTED and the socket of the connection, names the connection
    after the id, and answers on the connection with one ACK frame, which
    is what [register_with_coordinator] waits for. *)
Theorem worker_registration_is_understood env conn c id h i :
  no_nul id = true -> strlen id < Z.of_nat MAX_NAME_LEN ->
  c_word h -> c_word i ->
  (length h + length i + 3 < MAX_COMMAND_LEN)%nat ->
  node_count c < MAX_NODES ->
  let hostname := string_of_list_byte h in
  let ip := string_of_list_byte i in
  let r := on_register_node env (registration_message id hostname ip) conn c in
  node_id (fst r) = id
  /\ (exists node,
        lookup_node id (nodes (snd r)) = Some node
        /\ n_hostname node = hostname /\ n_ip_address node = ip
        /\ n_port node = 0 /\ n_state node = NODE_CONNECTED
        /\ n_last_heartbeat node = now env
        /\ n_socket_fd node = client_socket conn)
  /\ (0 <= client_socket conn -> net_ok env = true ->
      exists frame,
        wire (snd r) = wire c ++ [(client_socket conn, frame)]
        /\ frame_type frame = Some MSG_ACK).
Proof.
  intros Hnul Hidlen Hh Hi Hlen Hroom hostname ip r.
  set (d := h ++ " "%byte :: i ++ [" "%byte; "0"%byte]).
  assert ((hostname ++ " " ++ ip ++ " 0")%string = string_of_list_byte d) as Htext.
  { subst d hostname ip.
    change (h ++ " "%byte :: i ++ [" "%byte; "0"%byte])
      with (h ++ [" "%byte] ++ i ++ [" "%byte; "0"%byte]).
    by rewrite !string_of_list_byte_app. }
  assert (length d = (length h + length i + 3)%nat) as Hdlen.
  { subst d. rewrite length_app. simpl. rewrite length_app. simpl. lia. }
  destruct (c_word_no_space h Hh) as [_ Hhn].
  destruct (c_word_no_space i Hi) as [_ Hin].
  assert (forallb (fun x => negb (Byte.eqb x NUL)) d = true) as Hdn.
  { subst d. rewrite forallb_app, Hhn. simpl. by rewrite forallb_app, Hin. }
  assert (registration_message id hostname ip
          = create_message MSG_REGISTER_NODE (Some id) (Some "coordinator"%string)
              (Some d) (Z.of_nat (length d))) as Hmsg.
  { unfold registration_message. rewrite Htext, substring_all.
    - unfold strlen. by rewrite string_bytes_of_list_byte.
    - rewrite length_string_of_list_byte. unfold MAX_COMMAND_LEN in *. lia. }
  assert (sizeof_data = 7672) as Hsize by reflexivity.
  destruct (create_message_fields MSG_REGISTER_NODE (Some id)
              (Some "coordinator"%string) d (Z.of_nat (length d)))
    as (_ & _ & _ & Hl & Hdata); [unfold MAX_COMMAND_LEN in *; lia|].
  rewrite <- Hmsg in Hl, Hdata.
  replace (Z.max 0 (Z.min (Z.of_nat (length d)) sizeof_data))
    with (Z.of_nat (length d)) in Hl by (unfold MAX_COMMAND_LEN in *; lia).
  rewrite Hl, Nat2Z.id in Hdata.
  assert (cstring (msg_data (registration_message id hostname ip))
          = string_of_list_byte d) as Hcdata.
  { rewrite Hdata. apply cstring_payload; [assumption|].
    unfold MAX_COMMAND_LEN in *. lia. }
  assert (cstring (msg_sender_id (registration_message id hostname ip)) = id)
    as Hsender.
  { rewrite Hmsg, create_message_sender. by apply strncpy_id. }
  subst r. unfold on_register_node.
  rewrite Hcdata, Hsender. subst d. rewrite sscanf_registration by assumption.
  fold hostname ip.
  destruct (register_node_lookup (now env) id hostname ip 0 c Hroom)
    as (c1 & k & old & Hreg & Hfind & Hnode & _ & Hwire).
  rewrite Hreg. cbn [Z.eqb fst snd node_id]. rewrite Hfind.
  split; [reflexivity|]. split.
  - eexists. rewrite nodes_put_sent. cbn [nodes set_nodes].
    rewrite lookup_node_alter_self by done.
    unfold lookup_node. rewrite Hfind. cbn [mbind option_bind]. rewrite Hnode.
    split; [reflexivity|]. by repeat split.
  - intros Hfd Hnet.
    rewrite (send_message_whole _ _ _ Hfd Hnet). unfold put_sent.
    eexists. cbn [fst snd Z.eqb put_on_wire wire set_nodes]. rewrite Hwire.
    split; [reflexivity|]. by apply frame_type_create_message.
Qed.

Lemma worker_registration_is_understood_witness :
  let r := on_register_node (env_at 4)
             (registration_message "w7" "host7" "10.0.0.7")
             (mk_connection 8 "") (coord w2_then_w1) in
  node_id (fst r) = "w7"%string
  /\ (exists node,
        lookup_node "w7" (nodes (snd r)) = Some node
        /\ n_hostname node = "host7"%string /\ n_ip_address node = "10.0.0.7"%string
        /\ n_port node = 0 /\ n_state node = NODE_CONNECTED
        /\ n_last_heartbeat node = 4
        /\ n_socket_fd node = 8)
  /\ (0 <= 8 -> true = true ->
      exists frame,
        wire (snd r) = wire (coord w2_then_w1) ++ [(8, frame)]
        /\ frame_type frame = Some MSG_ACK).
Proof.
  apply (worker_registration_is_understood (env_at 4) (mk_connection 8 "")
           (coord w2_then_w1) "w7" (list_byte_of_string "host7")
           (list_byte_of_string "10.0.0.7")).
  - reflexivity.
  - by vm_compute.
  - split; [discriminate|]. repeat constructor; discriminate.
  - split; [discriminate|]. repeat constructor; discriminate.
  - simpl. unfold MAX_COMMAND_LEN. lia.
  - by vm_compute.
Defined.

(** ** What placement reads *)

Lemma best_node_loop_ext now l l' i best score :
  Forall2 (fun a b => considered now a = considered now b
                      /\ node_score a = node_score b) l l' ->
  best_node_loop now l i best score = best_node_loop now l' i best score.
Proof.
  intros H. revert i best score.
  induction H as [|a b l l' [Hc Hs] _ IH]; intros i best score; [reflexivity|].
  cbn [best_node_loop]. rewrite Hc, Hs.
  destruct (considered now b); [|apply IH].
  destruct (score <? node_score b)%float; apply IH.
Qed.

(** X25. Placement reads neither the configuration to place nor the number
    of containers that a worker reports about itself: [find_best_node]
    returns the same slot for any two configurations and whatever
    [resources.container_count] the records hold.  The load it scores is the
    coordinator's own count of the containers it placed on the worker. *)
Theorem placement_ignores_config_and_reported_count
    now config config' c (reported : node_t -> Z) :
  find_best_node now (Some config')
    (set_nodes c ((fun node => with_reported_count (reported node) node)
                  <$> nodes c))
  = find_best_node now (Some config) c.
Proof.
  unfold find_best_node. cbn [nodes set_nodes]. f_equal.
  apply best_node_loop_ext. apply Forall2_fmap_l, Forall_Forall2_diag.
  apply Forall_forall. intros node _. by split.
Qed.

(** ** A heartbeat, end to end *)

Lemma drop_app_exact {A} (a b : list A) n : length a = n -> drop n (a ++ b) = b.
Proof. intros <-. apply drop_app_length. Qed.

Lemma double_of_bytes_app b rest :
  length b = 8%nat -> double_of_bytes (b ++ rest) = double_of_bytes b.
Proof.
  intros Hb. unfold double_of_bytes.
  by rewrite take_app_length', (take_ge b) by lia.
Qed.

Lemma resource_info_of_system_resources cpu memory disk count max rest :
  length cpu = 8%nat -> length memory = 8%nat -> length disk = 8%nat ->
  - 2 ^ 31 <= count < 2 ^ 31 -> - 2 ^ 31 <= max < 2 ^ 31 ->
  resource_info_of_bytes (resources_object cpu memory disk count max ++ rest)
  = mk_resource_info (double_of_bytes cpu) (double_of_bytes memory)
      (double_of_bytes disk) count max.
Proof.
  intros Hc Hm Hd Hcount Hmax. unfold resource_info_of_bytes, resources_object.
  rewrite <- !app_assoc.
  assert (drop 16 (cpu ++ memory ++ disk ++ int_bytes count ++ int_bytes max ++ rest)
          = disk ++ int_bytes count ++ int_bytes max ++ rest) as ->.
  { rewrite (app_assoc cpu memory). apply drop_app_exact.
    rewrite length_app. lia. }
  assert (drop 24 (cpu ++ memory ++ disk ++ int_bytes count ++ int_bytes max ++ rest)
          = int_bytes count ++ int_bytes max ++ rest) as ->.
  { rewrite (app_assoc cpu memory), (app_assoc (cpu ++ memory) disk).
    apply drop_app_exact. rewrite !length_app. lia. }
  assert (drop 28 (cpu ++ memory ++ disk ++ int_bytes count ++ int_bytes max ++ rest)
          = int_bytes max ++ rest) as ->.
  { rewrite (app_assoc cpu memory), (app_assoc (cpu ++ memory) disk),
      (app_assoc _ (int_bytes count)).
    apply drop_app_exact. rewrite !length_app. simpl. lia. }
  rewrite (drop_app_exact cpu) by assumption.
  rewrite !double_of_bytes_app, !int_of_bytes_int_bytes by assumption.
  reflexivity.
Qed.

(** X26. A heartbeat, end to end.  The worker's heartbeat carries the
    resources record of [get_system_resources], whose [max_containers] is
    always 50.  Received from a registered worker, it leaves the
    coordinator's record CONNECTED, heard of now, with the usages and the
    count as sent and [max_containers] 50; and from then on, for 30
    seconds, placement considers the worker exactly when the coordinator
    has placed fewer than 50 containers on it. *)
Theorem heartbeat_end_to_end env conn c id node cpu memory disk count now' :
  no_nul id = true -> strlen id < Z.of_nat MAX_NAME_LEN ->
  lookup_node id (nodes c) = Some node ->
  length cpu = 8%nat -> length memory = 8%nat -> length disk = 8%nat ->
  - 2 ^ 31 <= count < 2 ^ 31 ->
  now env <= now' <= now env + 30 ->
  let msg := heartbeat_frame id (system_resources cpu memory disk count) in
  let c' := snd (dispatch_message env msg conn c) in
  exists node',
    lookup_node id (nodes c') = Some node'
    /\ n_state node' = NODE_CONNECTED
    /\ n_last_heartbeat node' = now env
    /\ n_resources node'
       = mk_resource_info (double_of_bytes cpu) (double_of_bytes memory)
           (double_of_bytes disk) count 50
    /\ n_containers node' = n_containers node
    /\ n_socket_fd node' = n_socket_fd node
    /\ considered now' node' = (n_container_count node <? 50).
Proof.
  intros Hnul Hidlen Hnode Hc Hm Hd Hcount Hnow msg c'.
  set (r := system_resources cpu memory disk count) in *.
  assert (length r = 32%nat) as Hr.
  { subst r. unfold system_resources, resources_object.
    rewrite !length_app, !length_int_bytes. lia. }
  assert (sizeof_data = 7672) as Hsize by reflexivity.
  assert (sizeof_resource_info_t = 32) as Hrsize by reflexivity.
  destruct (create_message_fields MSG_NODE_HEARTBEAT (Some id)
              (Some "coordinator"%string) r sizeof_resource_info_t)
    as (Hty & _ & _ & Hl & Hdata); [lia|]. fold (heartbeat_frame id r) in *.
  fold msg in Hty, Hl, Hdata.
  replace (Z.max 0 (Z.min sizeof_resource_info_t sizeof_data))
    with 32 in Hl by lia.
  assert (cstring (msg_sender_id msg) = id) as Hsender.
  { subst msg. unfold heartbeat_frame. rewrite create_message_sender.
    by apply strncpy_id. }
  assert (resource_info_of_bytes (msg_data msg)
          = mk_resource_info (double_of_bytes cpu) (double_of_bytes memory)
              (double_of_bytes disk) count 50) as Hres.
  { rewrite Hdata, Hl. unfold memcpy. rewrite (take_ge r) by lia.
    subst r. unfold system_resources.
    apply resource_info_of_system_resources; try assumption. lia. }
  unfold lookup_node in Hnode.
  destruct (find_node_by_id (Some id) (nodes c)) as [k|] eqn:Hk; [|discriminate].
  cbn [mbind option_bind] in Hnode.
  subst c'. unfold dispatch_message. rewrite Hty.
  cbn [message_type_of_code message_type_code snd].
  unfold on_node_heartbeat. rewrite Hsender, Hk. cbn [nodes set_nodes].
  exists (heartbeat (now env) msg node). split.
  { rewrite lookup_node_alter_self by done.
    unfold lookup_node. rewrite Hk. cbn [mbind option_bind]. by rewrite Hnode. }
  unfold heartbeat. cbn [n_state n_last_heartbeat n_resources n_containers n_socket_fd].
  rewrite Hl, Hres.
  assert ((to_size_t 32 >=? sizeof_resource_info_t) = true) as -> by reflexivity.
  split; [reflexivity|]. split; [reflexivity|]. split; [reflexivity|].
  split; [reflexivity|]. split; [reflexivity|].
  unfold considered, n_container_count.
  cbn [n_state n_last_heartbeat n_resources n_containers max_containers
       node_state_eqb negb orb].
  destruct (Z.gtb_spec (now' - now env) 30); [lia|].
  destruct (Z.geb_spec (Z.of_nat (length (n_containers node))) 50),
    (Z.ltb_spec (Z.of_nat (length (n_containers node))) 50); try lia;
    reflexivity.
Qed.

Lemma heartbeat_end_to_end_witness :
  exists node node',
    lookup_node "w1" (nodes (coord w2_then_w1)) = Some node
    /\ lookup_node "w1"
         (nodes (snd (dispatch_message (env_at 7)
                        (heartbeat_frame "w1"
                           (system_resources double_90 double_10 double_10 3))
                        (mk_connection 6 "w1") (coord w2_then_w1))))
       = Some node'
    /\ n_last_heartbeat node' = 7
    /\ container_count (n_resources node') = 3
    /\ considered 30 node' = (n_container_count node <? 50).
Proof.
  assert (exists node, lookup_node "w1" (nodes (coord w2_then_w1)) = Some node)
    as [node Hnode] by (vm_compute; eexists; reflexivity).
  destruct (heartbeat_end_to_end (env_at 7) (mk_connection 6 "w1")
              (coord w2_then_w1) "w1" node double_90 double_10 double_10 3 30)
    as (node' & Hfound & _ & Hheard & Hres & _ & _ & Hconsidered);
    [reflexivity | reflexivity | exact Hnode | reflexivity | reflexivity
    | reflexivity | lia | simpl; lia |].
  exists node, node'. rewrite Hres in *.
  repeat split; assumption.
Defined.
